(** * Grasp-trial core: a shallow embedding of the Python sources

    The model follows the repository file by file:

    - [Py]          what the code computes with (binary64 floats,
                    unbounded integers, strings), exceptions, and the
                    state-and-exception monad every method runs in;
    - [Bullet]      the part of the PyBullet API the sources call, over an
                    explicit physics-server state, files, the monotonic
                    clock and [time.sleep];
    - [Os], [Csv]   files, and the [csv] writer and reader;
    - [Metrics]     [core/performance_metrics.py];
    - [Manipulator] [grippers/manipulator_base.py];
    - [Gripper]     [robots/gripper.py] and [robots/gripper_factory.py];
    - [Objects]     [objects/base_object.py], [cuboid.py], [cylinder.py]
                    and [object_factory.py];
    - [Contract]    the manipulator interface over both class hierarchies.

    - [BulletPose], [ManipulatorMore], [GripperMore], [ObjectsMore],
      [ContractMore] the remaining methods of these classes;
    - [Batch]       [batch_generate.py], over the generation function
                    of the main program as a parameter;
    - [Voice]       [speak] of [voice_assistant_gemini.py], over the
                    text-to-speech engine as a parameter.

    [Examples] and the vocabulary modules hold concrete worlds and the
    predicates of the statements.  The theorems follow, in
    [MetricsProofs] (the outcome classifier), [MotionProofs] (vertical
    motion), [GraspProofs] (opening and closing), [FactoryProofs] (the
    factories) and [StoreProofs] (the result store); then in
    [PoseProofs], [ObjectProofs], [ConstructionProofs], [CycleProofs]
    and [RecordProofs] (poses, objects, constructors, grasp cycles and
    sequences of records), [BatchProofs] (the batch driver) and
    [VoiceProofs] (speech).

    Numbers are the code's own: a Python [float] is a binary64 value
    ([PrimFloat.float]), a Python [int] is a [Z]. *)

From Stdlib Require Import Floats ZArith SpecFloat Ascii String DecimalString.
From stdpp Require Import gmap strings list.

Set Warnings "-inexact-float".
#[local] Open Scope Z_scope.

(* ================================================================== *)
(** * Python values, exceptions and the execution monad                *)
(* ================================================================== *)

Module Py.

(** ** Floats *)

(** [float(z)] for a Python [int]: the nearest binary64 value, ties to
    even; an integer beyond the binary64 range is an [OverflowError]
    (the rounding then yields an infinity). *)
Definition Z2float (z : Z) : float :=
  SF2Prim (binary_normalize prec emax z 0 false).

(** Three-component positions ([[x, y, z]]) and quaternions
    ([[x, y, z, w]]). *)
Record vec3 := Vec3 { vx : float; vy : float; vz : float }.
Record quat := Quat { qx : float; qy : float; qz : float; qw : float }.

(** ** Exceptions *)

Inductive exn_kind :=
| ValueError
| TypeError
| ZeroDivisionError
| OverflowError
| OSError
| CsvError          (* _csv.Error *)
| BulletError.      (* pybullet.error *)

Record exn := Exn { exn_type : exn_kind; exn_msg : string }.

Inductive result (A : Type) :=
| Ok (a : A)
| Raise (e : exn).
Arguments Ok {A} a.
Arguments Raise {A} e.

Definition raises {A} (r : result A) (k : exn_kind) : Prop :=
  match r with
  | Ok _ => False
  | Raise e => exn_type e = k
  end.

(** ** The state-and-exception monad

    [S] is the state of everything outside the interpreter that the
    code reads or changes.  An exception keeps the state reached when it
    was raised: effects before the [raise] are not undone. *)

Definition M (S A : Type) : Type := S -> result A * S.

Definition ret {S A} (a : A) : M S A := fun s => (Ok a, s).

Definition bind {S A B} (m : M S A) (k : A -> M S B) : M S B :=
  fun s =>
    match m s with
    | (Ok a, s') => k a s'
    | (Raise e, s') => (Raise e, s')
    end.

Definition raise {S A} (k : exn_kind) (msg : string) : M S A :=
  fun s => (Raise (Exn k msg), s).

Definition lift {S A} (r : result A) : M S A := fun s => (r, s).

Definition gets {S A} (f : S -> A) : M S A := fun s => (Ok (f s), s).

Definition modify {S} (f : S -> S) : M S unit := fun s => (Ok tt, f s).

(** [for x in l: body x] *)
Fixpoint for_each {S A} (l : list A) (body : A -> M S unit) : M S unit :=
  match l with
  | [] => ret tt
  | x :: l' => bind (body x) (fun _ => for_each l' body)
  end.

(** [for _ in range(n): body]; [range] of a non-positive integer is
    empty. *)
Fixpoint repeat_n {S} (n : nat) (body : M S unit) : M S unit :=
  match n with
  | O => ret tt
  | Datatypes.S n' => bind body (fun _ => repeat_n n' body)
  end.

Definition for_range {S} (n : Z) (body : M S unit) : M S unit :=
  repeat_n (Z.to_nat n) body.

(** ** Arithmetic that can raise *)

(** [a / b] on floats. *)
Definition float_truediv (a b : float) : result float :=
  if (b =? 0)%float then Raise (Exn ZeroDivisionError "float division by zero")
  else Ok (a / b)%float.

(** [float(n)] as the interpreter does it for a mixed operation. *)
Definition float_of_int (n : Z) : result float :=
  let f := Z2float n in
  if PrimFloat.is_infinity f
  then Raise (Exn OverflowError "int too large to convert to float")
  else Ok f.

(** [a / n] for a float [a] and an int [n]: [n] is converted, then the
    floats are divided.  The interpreter tests the converted divisor
    against zero; an integer converts to zero exactly when it is 0, so
    the test is written on the integer. *)
Definition float_truediv_int (a : float) (n : Z) : result float :=
  match float_of_int n with
  | Ok b =>
      if n =? 0 then Raise (Exn ZeroDivisionError "float division by zero")
      else Ok (a / b)%float
  | Raise e => Raise e
  end.

(** [[f(x) for x in l]] for an [f] that can raise: the first error
    ends the evaluation. *)
Fixpoint map_result {A B} (f : A -> result B) (l : list A) : result (list B) :=
  match l with
  | [] => Ok []
  | x :: l' =>
      match f x with
      | Raise e => Raise e
      | Ok y =>
          match map_result f l' with
          | Raise e => Raise e
          | Ok ys => Ok (y :: ys)
          end
      end
  end.

(** ** [str] of an int

    The decimal text of an int, as [str], [format] and an f-string
    give it.  The interpreter refuses a text of more than
    [sys.get_int_max_str_digits()] digits, 4300 unless configured
    otherwise, with a [ValueError]. *)
Definition int_max_str_digits : Z := 4300.

Definition printable (n : Z) : bool := Z.abs n <? 10 ^ int_max_str_digits.

Definition digits (n : Z) : string := NilEmpty.string_of_int (Z.to_int n).

Definition int_str (n : Z) : result string :=
  if printable n then Ok (digits n)
  else Raise (Exn ValueError
    "Exceeds the limit (4300 digits) for integer string conversion; use sys.set_int_max_str_digits() to increase the limit").

(** ** [str.lower()]

    Strings are ASCII text.  (The tags the factories compare with are
    ASCII, and lower-casing text with other characters never yields
    one of them.) *)

Definition lower_ascii (c : ascii) : ascii :=
  let n := nat_of_ascii c in
  if ((65 <=? n)%nat && (n <=? 90)%nat)%bool then ascii_of_nat (n + 32) else c.

Fixpoint lower (s : string) : string :=
  match s with
  | EmptyString => EmptyString
  | String c s' => String (lower_ascii c) (lower s')
  end.

End Py.

Declare Scope py_scope.
Delimit Scope py_scope with py.
Notation "x <- c1 ;; c2" := (Py.bind c1 (fun x => c2))
  (at level 100, c1 at next level, right associativity) : py_scope.
Notation "c1 ;; c2" := (Py.bind c1 (fun _ => c2))
  (at level 100, right associativity) : py_scope.

(* ================================================================== *)
(** * The physics server, as the sources use it                        *)
(* ================================================================== *)

Module Bullet.
Import Py.
#[local] Open Scope py_scope.

Inductive JointType :=
| JOINT_REVOLUTE | JOINT_PRISMATIC | JOINT_SPHERICAL | JOINT_PLANAR | JOINT_FIXED.

#[global] Instance JointType_eq_dec : EqDecision JointType.
Proof. solve_decision. Defined.

Inductive ControlMode := VELOCITY_CONTROL | TORQUE_CONTROL | POSITION_CONTROL.

Inductive Geom :=
| GEOM_BOX (halfExtents : vec3)
| GEOM_CYLINDER (radius length : float).

(** What the solver moves: the pose and velocity of a body's base and
    the angles of its joints. *)
Record Kin := mkKin {
  base_pos : vec3;
  base_orn : quat;
  lin_vel : vec3;
  ang_vel : vec3;
  joint_angles : list float
}.

(** A body: its kinematic state and, per joint index, the joint's type
    (field 2 of [getJointInfo]). *)
Record Body := mkBody {
  kin : Kin;
  joint_types : list JointType
}.

(** The target a joint motor was last given. *)
Record Motor := mkMotor {
  controlMode : ControlMode;
  targetPosition : float;
  force : float
}.

(** The keyword arguments of [changeDynamics] the sources pass. *)
Record DynUpdate := mkDyn {
  u_mass : option float;
  u_lateralFriction : option float;
  u_spinningFriction : option float
}.

(** The server.  Bodies are numbered from 0 in creation order, so a
    body's unique id is its index in [bodies]; links are numbered like
    joints, with -1 for the base.  [urdf_models] holds the model files
    the server can load, each reduced to its list of joint types. *)
Record Engine := mkEngine {
  connected : bool;
  bodies : list Body;
  motors : gmap (nat * nat) Motor;
  mass : gmap (nat * Z) float;
  lateral_friction : gmap (nat * Z) float;
  spinning_friction : gmap (nat * Z) float;
  visual_shapes : list (Geom * list float);
  collision_shapes : list Geom;
  urdf_models : gmap string (list JointType);
  ticks : nat
}.

(** What the program did to the outside world, oldest first: the
    commands sent to the server and the pauses between them. *)
Inductive Event :=
| EvSleep (secs : float)
| EvLoadURDF (file : string) (basePosition : vec3) (baseOrientation : quat)
| EvCreateVisualShape (g : Geom) (rgbaColor : list float)
| EvCreateCollisionShape (g : Geom)
| EvCreateMultiBody (baseMass : float) (collision visual : nat) (basePosition : vec3)
| EvChangeDynamics (body : nat) (link : Z) (u : DynUpdate)
| EvResetBaseVelocity (body : nat) (linearVelocity : vec3)
| EvStepSimulation
| EvSetJointMotorControl2 (body joint : nat) (m : Motor)
| EvResetJointState (body joint : nat) (targetValue : float).

(** The mode a file is opened in. *)
Inductive OpenMode := ModeR | ModeW | ModeA.

(** Everything outside the interpreter: the physics server, the files
    (regular files only, by path), what was printed, and the trace;
    the monotonic clock, of which [timer n] is the reading, in
    nanoseconds, when the program goes to sleep for the [n]-th time
    (counting from 0); and what the file system refuses:
    [barred mode path] is the message of the [OSError] that opening
    [path] in [mode] raises (no such directory, no permission, a
    directory in the way), if it raises one. *)
Record World := mkWorld {
  engine : Engine;
  files : gmap string string;
  stdout : list string;
  trace : list Event;
  timer : nat -> Z;
  barred : OpenMode -> string -> option string
}.

Definition set_engine (f : Engine -> Engine) (w : World) : World :=
  mkWorld (f (engine w)) (files w) (stdout w) (trace w) (timer w) (barred w).

Definition set_files (f : gmap string string -> gmap string string) (w : World) : World :=
  mkWorld (engine w) (f (files w)) (stdout w) (trace w) (timer w) (barred w).

Definition log (ev : Event) (w : World) : World :=
  mkWorld (engine w) (files w) (stdout w) (trace w ++ [ev]) (timer w) (barred w).

(** [print(line)] *)
Definition print (line : string) : M World unit :=
  modify (fun w =>
    mkWorld (engine w) (files w) (stdout w ++ [line]) (trace w) (timer w) (barred w)).

(** ** [time.sleep]

    The interpreter multiplies the duration by 1e9, rounds the product
    away from zero and converts it to a signed 64-bit count of
    nanoseconds; then it sleeps until the monotonic clock reaches its
    present reading plus that count.  A NaN is a [ValueError]; a product
    outside the range of the count is an [OverflowError]; a negative
    count is a [ValueError]; a deadline beyond the range of the count is
    refused by the system, an [OSError]. *)

(** A float rounded to an integer away from zero. *)
Definition round_up (x : float) : Z :=
  match Prim2SF x with
  | S754_finite s m e =>
      let a := if 0 <=? e then Z.pos m * 2 ^ e else - ((- Z.pos m) / 2 ^ (- e)) in
      if s then - a else a
  | _ => 0
  end.

(** The conversion to the count.  The range test of the interpreter
    lets the product 2^63 pass, which is no 64-bit integer: the
    conversion yields the least one (on x86-64). *)
Definition as_PyTime_t (d : float) : Z :=
  let t := round_up d in
  if t =? 2 ^ 63 then - 2 ^ 63 else t.

Definition PyTime_MAX : Z := 2 ^ 63 - 1.

(** How often the program has gone to sleep. *)
Fixpoint pauses (evs : list Event) : nat :=
  match evs with
  | [] => O
  | EvSleep _ :: evs' => Datatypes.S (pauses evs')
  | _ :: evs' => pauses evs'
  end.

(** The reading of the monotonic clock at the [n]-th sleep.  The clock
    counts the nanoseconds since the machine was started: a reading is
    not negative and, 2^62 nanoseconds being 146 years, not above
    2^62. *)
Definition clock_max : Z := 2 ^ 62.

Definition reading (w : World) (n : nat) : Z :=
  Z.max 0 (Z.min clock_max (timer w n)).

Definition monotonic (w : World) : Z := reading w (pauses (trace w)).

(** Whether a sleep of [secs] starts when the clock reads [now]. *)
Definition sleep_at (now : Z) (secs : float) : bool :=
  (negb (PrimFloat.is_nan secs)
   && ((-0x1p63 <=? secs * 1e9)%float && (secs * 1e9 <=? 0x1p63)%float)
   && negb (as_PyTime_t (secs * 1e9) <? 0)
   && (now + as_PyTime_t (secs * 1e9) <=? PyTime_MAX))%bool.

Definition sleep_accepts (w : World) (secs : float) : bool :=
  sleep_at (monotonic w) secs.

Definition sleep (secs : float) : M World unit :=
  if PrimFloat.is_nan secs then raise ValueError "Invalid value NaN (not a number)"
  else if negb ((-0x1p63 <=? secs * 1e9)%float && (secs * 1e9 <=? 0x1p63)%float)
  then raise OverflowError "timestamp too large to convert to C _PyTime_t"
  else
    let timeout := as_PyTime_t (secs * 1e9) in
    if timeout <? 0 then raise ValueError "sleep length must be non-negative"
    else
      now <- gets monotonic ;;
      if now + timeout <=? PyTime_MAX then modify (log (EvSleep secs))
      else raise OSError "[Errno 22] Invalid argument".

(** ** The API

    Every call but [isConnected] fails with [pybullet.error] when there
    is no server. *)

Definition isConnected : M World bool := gets (fun w => connected (engine w)).

Definition need_server : M World unit :=
  c <- isConnected ;;
  if c then ret tt else raise BulletError "Not connected to physics server.".

Definition zero3 : vec3 := Vec3 0 0 0.

Definition set_bodies (f : list Body -> list Body) (e : Engine) : Engine :=
  mkEngine (connected e) (f (bodies e)) (motors e) (mass e) (lateral_friction e)
    (spinning_friction e) (visual_shapes e) (collision_shapes e) (urdf_models e) (ticks e).

Definition set_kin (body : nat) (f : Kin -> Kin) (e : Engine) : Engine :=
  set_bodies (alter (fun b => mkBody (f (kin b)) (joint_types b)) body) e.

(** [p.loadURDF(file, basePosition=.., baseOrientation=.., useFixedBase=False)] *)
Definition loadURDF (file : string) (basePosition : vec3) (baseOrientation : quat)
  : M World nat :=
  need_server ;;
  models <- gets (fun w => urdf_models (engine w)) ;;
  match models !! file with
  | None => raise BulletError "Cannot load URDF file."
  | Some jts =>
      id <- gets (fun w => length (bodies (engine w))) ;;
      let b := mkBody (mkKin basePosition baseOrientation zero3 zero3
                         (List.repeat 0%float (length jts))) jts in
      modify (fun w => log (EvLoadURDF file basePosition baseOrientation)
                         (set_engine (set_bodies (fun bs => bs ++ [b])) w)) ;;
      ret id
  end.

Definition upd {K} `{Countable K} (k : K) (v : option float) (m : gmap K float)
  : gmap K float :=
  match v with Some x => <[k := x]> m | None => m end.

Definition apply_dynamics (body : nat) (link : Z) (u : DynUpdate) (e : Engine) : Engine :=
  match bodies e !! body with
  | None => e
  | Some _ =>
      mkEngine (connected e) (bodies e) (motors e)
        (upd (body, link) (u_mass u) (mass e))
        (upd (body, link) (u_lateralFriction u) (lateral_friction e))
        (upd (body, link) (u_spinningFriction u) (spinning_friction e))
        (visual_shapes e) (collision_shapes e) (urdf_models e) (ticks e)
  end.

(** [p.changeDynamics(body, link, ...)]: the server ignores a body it
    does not know. *)
Definition changeDynamics (body : nat) (link : Z) (u : DynUpdate) : M World unit :=
  need_server ;;
  modify (fun w => log (EvChangeDynamics body link u)
                     (set_engine (apply_dynamics body link u) w)).

(** [p.getNumJoints(body)]: 0 for a body the server does not know. *)
Definition getNumJoints (body : nat) : M World nat :=
  need_server ;;
  gets (fun w => match bodies (engine w) !! body with
                 | Some b => length (joint_types b)
                 | None => O
                 end).

(** [p.getJointInfo(body, joint)[2]], the only field the sources read. *)
Definition getJointInfo_type (body joint : nat) : M World JointType :=
  need_server ;;
  bs <- gets (fun w => bodies (engine w)) ;;
  match bs !! body with
  | None => raise BulletError "GetJointInfo failed."
  | Some b =>
      match joint_types b !! joint with
      | None => raise BulletError "GetJointInfo failed."
      | Some jt => ret jt
      end
  end.

(** [p.getBasePositionAndOrientation(body)] *)
Definition getBasePositionAndOrientation (body : nat) : M World (vec3 * quat) :=
  need_server ;;
  bs <- gets (fun w => bodies (engine w)) ;;
  match bs !! body with
  | None => raise BulletError "GetBasePositionAndOrientation failed."
  | Some b => ret (base_pos (kin b), base_orn (kin b))
  end.

Definition set_lin_vel (v : vec3) (k : Kin) : Kin :=
  mkKin (base_pos k) (base_orn k) v (ang_vel k) (joint_angles k).

(** [p.resetBaseVelocity(body, linearVelocity=v)] *)
Definition resetBaseVelocity (body : nat) (v : vec3) : M World unit :=
  need_server ;;
  modify (fun w =>
    log (EvResetBaseVelocity body v) (set_engine (set_kin body (set_lin_vel v)) w)).

(** One tick of the rigid-body solver.  What it does to poses and
    velocities is the server's business: [solver e i k] is the new
    kinematic state of body [i], whose state was [k], in the server
    state [e].  Motor targets, dynamics settings and the set of bodies
    are not the solver's to change. *)
Definition Solver : Type := Engine -> nat -> Kin -> Kin.

Definition tick (solver : Solver) (e : Engine) : Engine :=
  mkEngine (connected e)
    (imap (fun i b => mkBody (solver e i (kin b)) (joint_types b)) (bodies e))
    (motors e) (mass e) (lateral_friction e) (spinning_friction e)
    (visual_shapes e) (collision_shapes e) (urdf_models e) (Datatypes.S (ticks e)).

(** [p.stepSimulation()] *)
Definition stepSimulation (solver : Solver) : M World unit :=
  need_server ;;
  modify (fun w => log EvStepSimulation (set_engine (tick solver) w)).

Definition num_joints (e : Engine) (body : nat) : nat :=
  match bodies e !! body with
  | Some b => length (joint_types b)
  | None => O
  end.

Definition set_motor (body joint : nat) (m : Motor) (e : Engine) : Engine :=
  mkEngine (connected e) (bodies e) (<[(body, joint) := m]> (motors e))
    (mass e) (lateral_friction e) (spinning_friction e)
    (visual_shapes e) (collision_shapes e) (urdf_models e) (ticks e).

(** [p.setJointMotorControl2(bodyIndex=.., jointIndex=.., controlMode=..,
    targetPosition=.., force=..)] *)
Definition setJointMotorControl2 (body joint : nat) (mode : ControlMode)
  (target force : float) : M World unit :=
  need_server ;;
  n <- gets (fun w => num_joints (engine w) body) ;;
  if (n <=? joint)%nat then raise BulletError "Joint index out-of-range."
  else
    let m := mkMotor mode target force in
    modify (fun w =>
      log (EvSetJointMotorControl2 body joint m) (set_engine (set_motor body joint m) w)).

(** [p.resetJointState(body, joint, targetValue=v)] *)
Definition resetJointState (body joint : nat) (v : float) : M World unit :=
  need_server ;;
  n <- gets (fun w => num_joints (engine w) body) ;;
  if (n <=? joint)%nat then raise BulletError "Joint index out-of-range."
  else
    modify (fun w =>
      log (EvResetJointState body joint v)
        (set_engine (set_kin body (fun k =>
           mkKin (base_pos k) (base_orn k) (lin_vel k) (ang_vel k)
             (<[joint := v]> (joint_angles k)))) w)).

(** A shape the server makes: any box; a cylinder of a radius above
    zero and a length not below.  (The binding hands on a cylinder only
    then, and the server makes nothing of a command without a
    shape.) *)
Definition shape_accepted (g : Geom) : bool :=
  match g with
  | GEOM_BOX _ => true
  | GEOM_CYLINDER radius length => ((0 <? radius)%float && (0 <=? length)%float)%bool
  end.

(** The colour sent with a visual shape: the four components given; a
    list of another length is passed over, and the shape is white. *)
Definition rgba_sent (rgbaColor : list float) : list float :=
  if decide (length rgbaColor = 4%nat) then rgbaColor else [1; 1; 1; 1]%float.

(** [p.createVisualShape(shapeType=.., ..., rgbaColor=..)] *)
Definition createVisualShape (g : Geom) (rgba : list float) : M World nat :=
  need_server ;;
  if shape_accepted g then
    id <- gets (fun w => length (visual_shapes (engine w))) ;;
    modify (fun w =>
      log (EvCreateVisualShape g (rgba_sent rgba))
        (set_engine (fun e =>
           mkEngine (connected e) (bodies e) (motors e) (mass e) (lateral_friction e)
             (spinning_friction e) (visual_shapes e ++ [(g, rgba_sent rgba)])
             (collision_shapes e) (urdf_models e) (ticks e)) w)) ;;
    ret id
  else raise BulletError "createVisualShape failed.".

(** [p.createCollisionShape(shapeType=.., ...)] *)
Definition createCollisionShape (g : Geom) : M World nat :=
  need_server ;;
  if shape_accepted g then
    id <- gets (fun w => length (collision_shapes (engine w))) ;;
    modify (fun w =>
      log (EvCreateCollisionShape g)
        (set_engine (fun e =>
           mkEngine (connected e) (bodies e) (motors e) (mass e) (lateral_friction e)
             (spinning_friction e) (visual_shapes e) (collision_shapes e ++ [g])
             (urdf_models e) (ticks e)) w)) ;;
    ret id
  else raise BulletError "createCollisionShape failed.".

(** [p.createMultiBody(baseMass=.., baseCollisionShapeIndex=..,
    baseVisualShapeIndex=.., basePosition=..)]: a body with no joints,
    upright, at rest. *)
Definition createMultiBody (baseMass : float) (collision visual : nat)
  (basePosition : vec3) : M World nat :=
  need_server ;;
  id <- gets (fun w => length (bodies (engine w))) ;;
  let b := mkBody (mkKin basePosition (Quat 0 0 0 1) zero3 zero3 []) [] in
  modify (fun w =>
    log (EvCreateMultiBody baseMass collision visual basePosition)
      (set_engine (fun e =>
         mkEngine (connected e) (bodies e ++ [b]) (motors e)
           (<[(id, -1) := baseMass]> (mass e)) (lateral_friction e)
           (spinning_friction e) (visual_shapes e) (collision_shapes e)
           (urdf_models e) (ticks e)) w)) ;;
  ret id.

End Bullet.

(* ================================================================== *)
(** * Files and the [csv] module, as the sources use them              *)
(* ================================================================== *)

Module Os.
Import Py Bullet.
#[local] Open Scope py_scope.

Definition LF : ascii := ascii_of_nat 10.
Definition CR : ascii := ascii_of_nat 13.

(** [os.path.isfile(path)] *)
Definition isfile (path : string) : M World bool :=
  gets (fun w => bool_decide (is_Some (files w !! path))).

(** [open(path, mode)], as far as it can fail: no file can be opened
    at the empty path, and the file system may refuse any other.  The
    error is an [OSError], of the class the system's error number
    selects ([FileNotFoundError] for the empty path). *)
Definition refusal (w : World) (mode : OpenMode) (path : string) : option string :=
  if decide (path = EmptyString) then Some "[Errno 2] No such file or directory: ''"
  else barred w mode path.

Definition open_ (mode : OpenMode) (path : string) : M World unit :=
  r <- gets (fun w => refusal w mode path) ;;
  match r with
  | Some msg => raise OSError msg
  | None => ret tt
  end.

(** Writing [text] to a file opened in mode [w] without newline
    translation: the file is created or truncated, and [text] is
    written as it is. *)
Definition write_new (path text : string) : M World unit :=
  open_ ModeW path ;;
  modify (set_files (fun fs => <[path := text]> fs)).

(** Writing [text] to a file opened in mode [a] without newline
    translation: [text] goes after what the file holds; a missing file
    is created. *)
Definition append_to (path text : string) : M World unit :=
  open_ ModeA path ;;
  modify (set_files (fun fs => <[path := (default "" (fs !! path) ++ text)%string]> fs)).

(** Universal newlines, the translation a file opened in mode [r]
    applies to what is read: CR LF and a lone CR both become LF. *)
Fixpoint universal_newlines (s : string) : string :=
  match s with
  | EmptyString => EmptyString
  | String c s' =>
      if decide (c = CR) then
        String LF
          match s' with
          | String c' s'' =>
              if decide (c' = LF) then universal_newlines s'' else universal_newlines s'
          | EmptyString => EmptyString
          end
      else String c (universal_newlines s')
  end.

(** The lines a text file yields when iterated, each with its LF. *)
Fixpoint split_lines (s : string) : list string :=
  match s with
  | EmptyString => []
  | String c s' =>
      if decide (c = LF) then String LF EmptyString :: split_lines s'
      else match split_lines s' with
           | [] => [String c EmptyString]
           | l :: ls => String c l :: ls
           end
  end.

(** A file opened in mode [r], iterated to the end: its lines. *)
Definition read_lines (path : string) : M World (list string) :=
  open_ ModeR path ;;
  fs <- gets files ;;
  match fs !! path with
  | Some text => ret (split_lines (universal_newlines text))
  | None => raise OSError "No such file or directory"
  end.

End Os.

Module Csv.
Import Py Os.

(** The default dialect ([excel]): the comma as delimiter, the double
    quote as quote character, doubled inside a quoted field,
    [QUOTE_MINIMAL], line terminator CR LF, not strict. *)
Definition delimiter : ascii := ","%char.
Definition quotechar : ascii := ascii_of_nat 34.
Definition lineterminator : string := String CR (String LF EmptyString).

(** [csv.field_size_limit()] *)
Definition field_limit : N := 131072.

(** ** [csv.writer] *)

Definition special (c : ascii) : bool :=
  bool_decide (c = delimiter) || bool_decide (c = quotechar)
  || bool_decide (c = CR) || bool_decide (c = LF).

Fixpoint has_special (s : string) : bool :=
  match s with
  | EmptyString => false
  | String c s' => special c || has_special s'
  end.

Fixpoint double_quotes (s : string) : string :=
  match s with
  | EmptyString => EmptyString
  | String c s' =>
      if decide (c = quotechar) then String quotechar (String quotechar (double_quotes s'))
      else String c (double_quotes s')
  end.

Definition quoted (s : string) : string :=
  String quotechar (double_quotes s ++ String quotechar EmptyString).

(** One field, quoted when it must be. *)
Definition write_field (s : string) : string :=
  if has_special s then quoted s else s.

Fixpoint join_fields (fs : list string) : string :=
  match fs with
  | [] => EmptyString
  | [f] => write_field f
  | f :: fs' => write_field f ++ String delimiter (join_fields fs')
  end.

(** The text [writer.writerow(fields)] writes, for fields already
    turned into strings (the writer applies [str] to a number).  A
    record of one empty field is written as a quoted empty field, so
    that it is not read back as a blank line. *)
Definition writerow (fs : list string) : string :=
  (if decide (fs = [EmptyString]) then quoted EmptyString else join_fields fs)
  ++ lineterminator.

(** ** [csv.reader] *)

Inductive State :=
| START_RECORD | START_FIELD | IN_FIELD | IN_QUOTED_FIELD | QUOTE_IN_QUOTED_FIELD | EAT_CRNL.

#[global] Instance State_eq_dec : EqDecision State.
Proof. solve_decision. Defined.

Record Parser := mkParser {
  state : State;
  field : string;
  fields : list string
}.

Definition parse_reset : Parser := mkParser START_RECORD EmptyString [].

Definition parse_add_char (p : Parser) (c : ascii) (next : State) : result Parser :=
  if (field_limit <=? N.of_nat (String.length (field p)))%N
  then Raise (Exn CsvError "field larger than field limit (131072)")
  else Ok (mkParser next (field p ++ String c EmptyString) (fields p)).

Definition parse_save_field (p : Parser) (next : State) : Parser :=
  mkParser next EmptyString (fields p ++ [field p]).

Definition is_newline (c : ascii) : bool :=
  bool_decide (c = LF) || bool_decide (c = CR).

(** [START_FIELD], which [START_RECORD] falls into on an ordinary
    character; [None] is the end-of-line signal. *)
Definition process_start_field (p : Parser) (c : option ascii) : result Parser :=
  match c with
  | None => Ok (parse_save_field p START_RECORD)
  | Some c =>
      if is_newline c then Ok (parse_save_field p EAT_CRNL)
      else if decide (c = quotechar) then Ok (mkParser IN_QUOTED_FIELD (field p) (fields p))
      else if decide (c = delimiter) then Ok (parse_save_field p START_FIELD)
      else parse_add_char p c IN_FIELD
  end.

(** [parse_process_char]: one step of the reader's automaton. *)
Definition process (p : Parser) (c : option ascii) : result Parser :=
  match state p with
  | START_RECORD =>
      match c with
      | None => Ok p
      | Some c' =>
          if is_newline c' then Ok (mkParser EAT_CRNL (field p) (fields p))
          else process_start_field p c
      end
  | START_FIELD => process_start_field p c
  | IN_FIELD =>
      match c with
      | None => Ok (parse_save_field p START_RECORD)
      | Some c =>
          if is_newline c then Ok (parse_save_field p EAT_CRNL)
          else if decide (c = delimiter) then Ok (parse_save_field p START_FIELD)
          else parse_add_char p c IN_FIELD
      end
  | IN_QUOTED_FIELD =>
      match c with
      | None => Ok p
      | Some c =>
          if decide (c = quotechar)
          then Ok (mkParser QUOTE_IN_QUOTED_FIELD (field p) (fields p))
          else parse_add_char p c IN_QUOTED_FIELD
      end
  | QUOTE_IN_QUOTED_FIELD =>
      match c with
      | None => Ok (parse_save_field p START_RECORD)
      | Some c =>
          if decide (c = quotechar) then parse_add_char p c IN_QUOTED_FIELD
          else if decide (c = delimiter) then Ok (parse_save_field p START_FIELD)
          else if is_newline c then Ok (parse_save_field p EAT_CRNL)
          else parse_add_char p c IN_FIELD
      end
  | EAT_CRNL =>
      match c with
      | None => Ok (mkParser START_RECORD (field p) (fields p))
      | Some c =>
          if is_newline c then Ok p
          else Raise (Exn CsvError "new-line character seen in unquoted field")
      end
  end.

(** The characters of one line, in order. *)
Fixpoint feed (line : string) (p : Parser) : result Parser :=
  match line with
  | EmptyString => Ok p
  | String c line' =>
      match process p (Some c) with
      | Ok p' => feed line' p'
      | Raise e => Raise e
      end
  end.

(** [list(csv.reader(lines))]: a record ends with the line after which
    the automaton is back in [START_RECORD]; input that ends inside a
    record yields what was read of it. *)
Fixpoint read_records (lines : list string) (p : Parser) : result (list (list string)) :=
  match lines with
  | [] =>
      if negb (bool_decide (field p = EmptyString)) || bool_decide (state p = IN_QUOTED_FIELD)
      then Ok [fields (parse_save_field p START_RECORD)]
      else Ok []
  | line :: rest =>
      match feed line p with
      | Raise e => Raise e
      | Ok p1 =>
          match process p1 None with
          | Raise e => Raise e
          | Ok p2 =>
              if decide (state p2 = START_RECORD) then
                match read_records rest parse_reset with
                | Ok rows => Ok (fields p2 :: rows)
                | Raise e => Raise e
                end
              else read_records rest p2
          end
      end
  end.

Definition reader (lines : list string) : result (list (list string)) :=
  read_records lines parse_reset.

End Csv.

(* ================================================================== *)
(** * [core/performance_metrics.py]                                    *)
(* ================================================================== *)

Module Metrics.
Import Py Bullet Os.
#[local] Open Scope py_scope.

(** An instance of [PerformanceMetrics]. *)
Record PerformanceMetrics := mkMetrics {
  output_path : string;
  column_names : list string
}.

(** [PerformanceMetrics.assess_grasp_quality(self, target_id, start_position)]

    The result is the tuple [(status_code, vertical_delta, end_position)]. *)
Definition assess_grasp_quality (self : PerformanceMetrics) (target_id : nat)
  (start_position : vec3) : M World (Z * float * vec3) :=
  sleep 0.5 ;;
  c <- isConnected ;;
  if negb c then ret (0, 0.0%float, start_position)
  else
    pq <- getBasePositionAndOrientation target_id ;;
    let end_position := fst pq in
    let z_initial := vz start_position in
    let z_final := vz end_position in
    let vertical_delta := (z_final - z_initial)%float in
    let status_code :=
      if (0.1 <? vertical_delta)%float then 1
      else if ((0.05 <=? vertical_delta)%float && (vertical_delta <=? 0.1)%float)%bool then 2
      else 0 in
    ret (status_code, vertical_delta, end_position).

(** What a record holds: Python numbers. *)
Inductive pyval :=
| PyFloat (x : float)
| PyInt (n : Z).

Section Recording.
(** [repr] of a float, the shortest decimal text that reads back as the
    same value. *)
Context (float_repr : float -> string).

(** [str(v)] *)
Definition str (v : pyval) : result string :=
  match v with
  | PyFloat x => Ok (float_repr x)
  | PyInt n => int_str n
  end.

(** [PerformanceMetrics._initialize_csv(self)] *)
Definition _initialize_csv (self : PerformanceMetrics) : M World unit :=
  exists_ <- isfile (output_path self) ;;
  if negb exists_
  then write_new (output_path self) (Csv.writerow (column_names self))
  else ret tt.

(** [PerformanceMetrics.__init__(self, output_path)] *)
Definition __init__ (output_path : string) : M World PerformanceMetrics :=
  let self := mkMetrics output_path
    ["Position X"; "Position Y"; "Position Z";
     "Orientation Roll"; "Orientation Pitch"; "Orientation Yaw";
     "Initial Z"; "Final Z"; "Delta Z";
     "Success"] in
  _initialize_csv self ;;
  ret self.

(** [PerformanceMetrics.record_attempt(self, metrics_data)] *)
Definition record_attempt (self : PerformanceMetrics) (metrics_data : list pyval)
  : M World unit :=
  exists_ <- isfile (output_path self) ;;
  existing_records <-
    (if exists_ then
       lines <- read_lines (output_path self) ;;
       rows <- lift (Csv.reader lines) ;;
       (* Skip header row *)
       ret (list_to_set (tail rows) : gset (list string))
     else ret ∅) ;;
  record_tuple <- lift (map_result str metrics_data) ;;
  if decide (record_tuple ∉ existing_records)
  then
    (* the writer turns each value into its string once more *)
    append_to (output_path self) (Csv.writerow record_tuple)
  else print "[WARNING] Duplicate entry detected - skipping".

End Recording.

End Metrics.

(* ================================================================== *)
(** * [grippers/manipulator_base.py]                                   *)
(* ================================================================== *)

Module Manipulator.
Import Py Bullet.
#[local] Open Scope py_scope.

(** An instance of (a subclass of) [ManipulatorInterface]. *)
Record ManipulatorInterface := mkManipulator {
  spawn_position : vec3;
  spawn_orientation : quat;
  model_path : string;
  body_id : nat;
  movable_joints : list nat;
  static_joints : list nat
}.

(** The loop of [_extract_joint_indices] over the joint indices still
    to visit, with the two lists built so far. *)
Fixpoint extract_loop (body : nat) (idxs : list nat) (movable static : list nat)
  : M World (list nat * list nat) :=
  match idxs with
  | [] => ret (movable, static)
  | joint_idx :: rest =>
      jt <- getJointInfo_type body joint_idx ;;
      if decide (jt <> JOINT_FIXED)
      then extract_loop body rest (movable ++ [joint_idx]) static
      else extract_loop body rest movable (static ++ [joint_idx])
  end.

(** [ManipulatorInterface._extract_joint_indices(self)] *)
Definition _extract_joint_indices (body : nat) : M World (list nat * list nat) :=
  total_joints <- getNumJoints body ;;
  extract_loop body (seq 0 total_joints) [] [].

(** [ManipulatorInterface.__init__(self, spawn_position, spawn_orientation, model_path)] *)
Definition __init__ (spawn_position : vec3) (spawn_orientation : quat) (model_path : string)
  : M World ManipulatorInterface :=
  body <- loadURDF model_path spawn_position spawn_orientation ;;
  changeDynamics body (-1) (mkDyn (Some 0%float) None None) ;;
  js <- _extract_joint_indices body ;;
  ret (mkManipulator spawn_position spawn_orientation model_path body (fst js) (snd js)).

(** [TwoFingerManipulator.__init__(self, spawn_position, spawn_orientation)] *)
Definition TwoFingerManipulator (spawn_position : vec3) (spawn_orientation : quat)
  : M World ManipulatorInterface :=
  __init__ spawn_position spawn_orientation "pr2_gripper.urdf".

(** [TwoFingerManipulator.activate(self)] *)
Definition activate (self : ManipulatorInterface) : M World unit :=
  let jaw_open_angles := [0.548; 0.548]%float in
  for_each (zip (movable_joints self) jaw_open_angles) (fun ja =>
    setJointMotorControl2 (body_id self) (fst ja) POSITION_CONTROL (snd ja) 500).

(** [TwoFingerManipulator.deactivate(self)] *)
Definition deactivate (self : ManipulatorInterface) : M World unit :=
  let jaw_close_angles := [0.0; 0.0]%float in
  for_each (zip (movable_joints self) jaw_close_angles) (fun ja =>
    setJointMotorControl2 (body_id self) (fst ja) POSITION_CONTROL (snd ja) 500).

Section Stepping.
Context (solver : Solver).

(** [ManipulatorInterface.run_simulation(self, num_steps=500, step_delay=0.001)] *)
Definition run_simulation (self : ManipulatorInterface) (num_steps : Z) (step_delay : float)
  : M World unit :=
  for_range num_steps (stepSimulation solver ;; sleep step_delay).

(** The two guarded quotients of [execute_vertical_motion]. *)
Definition height_increment (target_height initial_height : float) (motion_steps : Z)
  : result float :=
  if 0 <? motion_steps
  then float_truediv_int (target_height - initial_height)%float motion_steps
  else Ok 0.0%float.

Definition vertical_velocity (height_increment step_time : float) : result float :=
  if (0 <? step_time)%float then float_truediv height_increment step_time
  else Ok 0.0%float.

(** [ManipulatorInterface.execute_vertical_motion(self, target_height,
    motion_steps=200, step_time=0.01)] *)
Definition execute_vertical_motion (self : ManipulatorInterface) (target_height : float)
  (motion_steps : Z) (step_time : float) : M World unit :=
  pq <- getBasePositionAndOrientation (body_id self) ;;
  let current_pose := fst pq in
  let initial_height := vz current_pose in
  inc <- lift (height_increment target_height initial_height motion_steps) ;;
  vel <- lift (vertical_velocity inc step_time) ;;
  for_range motion_steps
    (resetBaseVelocity (body_id self) (Vec3 0 0 vel) ;;
     stepSimulation solver ;;
     sleep step_time) ;;
  (* Halt motion *)
  resetBaseVelocity (body_id self) (Vec3 0 0 0).

End Stepping.

End Manipulator.

(* ================================================================== *)
(** * [robots/gripper.py] and [robots/gripper_factory.py]              *)
(* ================================================================== *)

Module Gripper.
Import Py Bullet.
#[local] Open Scope py_scope.

(** The concrete subclasses of [BaseGripper]. *)
Inductive GripperClass := PR2Gripper | SDHGripper | CustomGripper.

#[global] Instance GripperClass_eq_dec : EqDecision GripperClass.
Proof. solve_decision. Defined.

(** An instance: its class and the attributes [BaseGripper.__init__]
    sets. *)
Record BaseGripper := mkGripper {
  cls : GripperClass;
  position : vec3;
  orientation : quat;
  urdf_file : string;
  gripper : nat;
  active_joints : list nat;
  fixed_joints : list nat
}.

(** The loop of [get_joint_info]. *)
Fixpoint joint_info_loop (body : nat) (idxs : list nat) (active fixed : list nat)
  : M World (list nat * list nat) :=
  match idxs with
  | [] => ret (active, fixed)
  | i :: rest =>
      jt <- getJointInfo_type body i ;;
      if decide (jt <> JOINT_FIXED)
      then joint_info_loop body rest (active ++ [i]) fixed
      else joint_info_loop body rest active (fixed ++ [i])
  end.

(** [BaseGripper.get_joint_info(self)] *)
Definition get_joint_info (body : nat) : M World (list nat * list nat) :=
  num_joints <- getNumJoints body ;;
  joint_info_loop body (seq 0 num_joints) [] [].

(** [BaseGripper.__init__(self, position, orientation, urdf_file)], for
    an instance of class [c]. *)
Definition __init__ (c : GripperClass) (position : vec3) (orientation : quat)
  (urdf_file : string) : M World BaseGripper :=
  g <- loadURDF urdf_file position orientation ;;
  changeDynamics g (-1) (mkDyn (Some 0%float) None None) ;;
  js <- get_joint_info g ;;
  ret (mkGripper c position orientation urdf_file g (fst js) (snd js)).

(** [a.endswith('/')] *)
Fixpoint ends_with_sep (a : string) : bool :=
  match a with
  | EmptyString => false
  | String c EmptyString => bool_decide (c = "/"%char)
  | String _ a' => ends_with_sep a'
  end.

(** [os.path.join(a, b)] for a relative [b]. *)
Definition path_join (a b : string) : string :=
  if decide (a = "") then b
  else if ends_with_sep a then a ++ b
  else a ++ "/" ++ b.

Section Constructors.
(** [os.path.dirname(os.path.dirname(os.path.abspath(__file__)))] where
    the package is installed. *)
Context (current_dir : string).

(** [PR2Gripper.__init__(self, position, orientation)] *)
Definition new_PR2Gripper (position : vec3) (orientation : quat) : M World BaseGripper :=
  __init__ PR2Gripper position orientation "pr2_gripper.urdf".

(** [SDHGripper.__init__(self, position, orientation)] *)
Definition new_SDHGripper (position : vec3) (orientation : quat) : M World BaseGripper :=
  let sdh_path := path_join (path_join current_dir "models") "sdh.urdf" in
  self <- __init__ SDHGripper position orientation sdh_path ;;
  for_each (active_joints self) (fun joint_index =>
    resetJointState (gripper self) joint_index (-0.5) ;;
    setJointMotorControl2 (gripper self) joint_index POSITION_CONTROL (-0.5) 100) ;;
  ret self.

(** [CustomGripper.__init__(self, position, orientation)] *)
Definition new_CustomGripper (position : vec3) (orientation : quat) : M World BaseGripper :=
  __init__ CustomGripper position orientation "custom_gripper.urdf".

(** [select_gripper(gripper_type, position, orientation)] *)
Definition select_gripper (gripper_type : string) (position : vec3) (orientation : quat)
  : M World BaseGripper :=
  if decide (gripper_type = "pr2") then new_PR2Gripper position orientation
  else if decide (gripper_type = "sdh") then new_SDHGripper position orientation
  else if decide (gripper_type = "custom") then new_CustomGripper position orientation
  else raise ValueError
         "Unsupported gripper type. Supported types: 'pr2', 'sdh', 'custom'.".

(** [GripperFactory.create_gripper(gripper_type, position, orientation)] *)
Definition create_gripper (gripper_type : string) (position : vec3) (orientation : quat)
  : M World BaseGripper :=
  let gripper_type := lower gripper_type in
  if decide (gripper_type = "pr2") then new_PR2Gripper position orientation
  else if decide (gripper_type = "sdh") then new_SDHGripper position orientation
  else if decide (gripper_type = "custom") then new_CustomGripper position orientation
  else raise ValueError
         ("Unsupported gripper type: '" ++ gripper_type ++
          "'. Supported types: 'pr2', 'sdh', 'custom'").

End Constructors.

(** [GripperFactory.get_supported_types()] *)
Definition get_supported_types : list string := ["pr2"; "sdh"; "custom"].

Section Stepping.
Context (solver : Solver).

(** [BaseGripper.sim_step(self, steps=500, delay=0.001)] *)
Definition sim_step (self : BaseGripper) (steps : Z) (delay : float) : M World unit :=
  for_range steps (stepSimulation solver ;; sleep delay).

(** The two guarded quotients of [move_up_smoothly]. *)
Definition delta_z (target_z start_z : float) (steps : Z) : result float :=
  if 0 <? steps then float_truediv_int (target_z - start_z)%float steps
  else Ok 0.0%float.

Definition velocity (delta_z delay : float) : result float :=
  if (0 <? delay)%float then float_truediv delta_z delay else Ok 0.0%float.

(** [BaseGripper.move_up_smoothly(self, target_z, steps=200, delay=0.01)] *)
Definition move_up_smoothly (self : BaseGripper) (target_z : float) (steps : Z)
  (delay : float) : M World unit :=
  pq <- getBasePositionAndOrientation (gripper self) ;;
  let current_position := fst pq in
  let start_z := vz current_position in
  dz <- lift (delta_z target_z start_z steps) ;;
  v <- lift (velocity dz delay) ;;
  for_range steps
    (resetBaseVelocity (gripper self) (Vec3 0 0 v) ;;
     stepSimulation solver ;;
     sleep delay) ;;
  (* Stop any velocity *)
  resetBaseVelocity (gripper self) (Vec3 0 0 0).

(** [PR2Gripper.open_gripper(self)] *)
Definition PR2_open_gripper (self : BaseGripper) : M World unit :=
  let open_positions := [0.548; 0.548]%float in
  for_each (zip open_positions (active_joints self)) (fun tj =>
    setJointMotorControl2 (gripper self) (snd tj) POSITION_CONTROL (fst tj) 100) ;;
  sim_step self 200 0.005.

(** [PR2Gripper.close_gripper(self)] *)
Definition PR2_close_gripper (self : BaseGripper) : M World unit :=
  let close_positions := [0.0; 0.0]%float in
  for_each (zip close_positions (active_joints self)) (fun tj =>
    setJointMotorControl2 (gripper self) (snd tj) POSITION_CONTROL (fst tj) 500) ;;
  (* Increase friction for better grip *)
  for_each (active_joints self) (fun joint_index =>
    changeDynamics (gripper self) (Z.of_nat joint_index)
      (mkDyn None (Some 1.0%float) None)) ;;
  sim_step self 200 0.005.

(** [SDHGripper.open_gripper(self)] *)
Definition SDH_open_gripper (self : BaseGripper) : M World unit :=
  for_each (active_joints self) (fun joint_index =>
    setJointMotorControl2 (gripper self) joint_index POSITION_CONTROL (-0.5) 100) ;;
  sim_step self 200 0.005.

(** [SDHGripper.close_gripper(self)] *)
Definition SDH_close_gripper (self : BaseGripper) : M World unit :=
  for_each (active_joints self) (fun joint_index =>
    setJointMotorControl2 (gripper self) joint_index POSITION_CONTROL 1.0 500 ;;
    (* Increase friction for better grip *)
    changeDynamics (gripper self) (Z.of_nat joint_index)
      (mkDyn None (Some 1.0%float) None)) ;;
  sim_step self 200 0.005.

(** [CustomGripper.open_gripper(self)] *)
Definition Custom_open_gripper (self : BaseGripper) : M World unit :=
  print "[INFO] CustomGripper: open_gripper not implemented, doing nothing.".

(** [CustomGripper.close_gripper(self)] *)
Definition Custom_close_gripper (self : BaseGripper) : M World unit :=
  print "[INFO] CustomGripper: close_gripper not implemented, doing nothing.".

(** [self.open_gripper()]: the method of the instance's class. *)
Definition open_gripper (self : BaseGripper) : M World unit :=
  match cls self with
  | PR2Gripper => PR2_open_gripper self
  | SDHGripper => SDH_open_gripper self
  | CustomGripper => Custom_open_gripper self
  end.

(** [self.close_gripper()]: the method of the instance's class. *)
Definition close_gripper (self : BaseGripper) : M World unit :=
  match cls self with
  | PR2Gripper => PR2_close_gripper self
  | SDHGripper => SDH_close_gripper self
  | CustomGripper => Custom_close_gripper self
  end.

End Stepping.

End Gripper.

(* ================================================================== *)
(** * [objects/base_object.py], [cuboid.py], [cylinder.py] and
      [object_factory.py]                                              *)
(* ================================================================== *)

Module Objects.
Import Py Bullet.
#[local] Open Scope py_scope.

(** The attributes a subclass of [BaseObject] adds. *)
Inductive ObjectClass :=
| CuboidObject (width depth : float) (size : list float)
| CylinderObject (radius : float).

(** An instance; [object_id] is the body [_create_object] made. *)
Record BaseObject := mkObject {
  ocls : ObjectClass;
  height : float;
  obj_mass : float;
  color : list float;
  object_id : nat
}.

(** The keyword arguments of a call: the numeric ones by name, and
    [color]. *)
Record Kwargs := mkKwargs {
  kw_num : gmap string float;
  kw_color : option (list float)
}.

(** Binding the keyword arguments to a signature whose numeric parameters are
    [params] ([color] is a parameter of every constructor). *)
Definition bind_kwargs (params : list string) (kw : Kwargs) : M World unit :=
  if decide (dom (kw_num kw) ⊆ (list_to_set params : gset string)) then ret tt
  else raise TypeError "__init__() got an unexpected keyword argument".

Definition kw_get (name : string) (dflt : float) (kw : Kwargs) : float :=
  default dflt (kw_num kw !! name).

(** [BaseObject.get_spawn_position(self)] *)
Definition get_spawn_position (height : float) : vec3 :=
  Vec3 0 0 (height / 2).

(** [CuboidObject.create_shape(self)] *)
Definition Cuboid_create_shape (width depth height : float) (color : list float)
  : M World (nat * nat) :=
  let half_extents := Vec3 (width / 2) (depth / 2) (height / 2) in
  visual_shape_id <- createVisualShape (GEOM_BOX half_extents) color ;;
  collision_shape_id <- createCollisionShape (GEOM_BOX half_extents) ;;
  ret (visual_shape_id, collision_shape_id).

(** [CylinderObject.create_shape(self)] *)
Definition Cylinder_create_shape (radius height : float) (color : list float)
  : M World (nat * nat) :=
  visual_shape_id <- createVisualShape (GEOM_CYLINDER radius height) color ;;
  collision_shape_id <- createCollisionShape (GEOM_CYLINDER radius height) ;;
  ret (visual_shape_id, collision_shape_id).

(** [self.create_shape()]: the method of the instance's class. *)
Definition create_shape (c : ObjectClass) (height : float) (color : list float)
  : M World (nat * nat) :=
  match c with
  | CuboidObject width depth _ => Cuboid_create_shape width depth height color
  | CylinderObject radius => Cylinder_create_shape radius height color
  end.

(** [BaseObject._create_object(self)]; the result is [self.object_id]. *)
Definition _create_object (c : ObjectClass) (height mass : float) (color : list float)
  : M World nat :=
  ids <- create_shape c height color ;;
  object_id <- createMultiBody mass (snd ids) (fst ids) (get_spawn_position height) ;;
  (* Set object dynamics *)
  changeDynamics object_id (-1) (mkDyn None (Some 1.2%float) (Some 0.1%float)) ;;
  ret object_id.

(** [BaseObject.__init__(self, height=0.8, mass=0.1, color=None)] *)
Definition __init__ (c : ObjectClass) (height mass : float) (color : option (list float))
  : M World BaseObject :=
  let color := match color with
               | Some (x :: l) => x :: l
               | _ => [1; 1; 1; 1]%float
               end in
  object_id <- _create_object c height mass color ;;
  ret (mkObject c height mass color object_id).

(** [CuboidObject] called with keyword arguments [kw]; its signature is
    [__init__(self, width=0.05, depth=0.05, height=0.8, mass=0.1, color=None)] *)
Definition new_CuboidObject (kw : Kwargs) : M World BaseObject :=
  bind_kwargs ["width"; "depth"; "height"; "mass"] kw ;;
  let width := kw_get "width" 0.05 kw in
  let depth := kw_get "depth" 0.05 kw in
  let height := kw_get "height" 0.8 kw in
  let mass := kw_get "mass" 0.1 kw in
  __init__ (CuboidObject width depth [width; depth; height]) height mass (kw_color kw).

(** [CylinderObject] called with keyword arguments [kw]; its signature is
    [__init__(self, radius=0.04, height=0.8, mass=0.1, color=None)] *)
Definition new_CylinderObject (kw : Kwargs) : M World BaseObject :=
  bind_kwargs ["radius"; "height"; "mass"] kw ;;
  let radius := kw_get "radius" 0.04 kw in
  let height := kw_get "height" 0.8 kw in
  let mass := kw_get "mass" 0.1 kw in
  __init__ (CylinderObject radius) height mass (kw_color kw).

(** [ObjectFactory.create_object(object_type, ...)] with keyword
    arguments [kw] *)
Definition create_object (object_type : string) (kw : Kwargs) : M World BaseObject :=
  let object_type := lower object_type in
  if decide (object_type = "cuboid") then new_CuboidObject kw
  else if decide (object_type = "cylinder") then new_CylinderObject kw
  else raise ValueError
         ("Unsupported object type: '" ++ object_type ++
          "'. Supported types: 'cuboid', 'cylinder'").

(** [ObjectFactory.get_supported_types()] *)
Definition get_supported_types : list string := ["cuboid"; "cylinder"].

End Objects.

(* ================================================================== *)
(** * The manipulator contract over both class hierarchies             *)
(* ================================================================== *)

(** The sources hold two hierarchies with the same interface:
    [ManipulatorInterface] with [TwoFingerManipulator], and
    [BaseGripper] with [PR2Gripper], [SDHGripper] and [CustomGripper].
    A manipulator is an instance of either; its methods are the
    instance's own. *)
Module Contract.
Import Py Bullet.

Inductive Instance :=
| OfManipulator (m : Manipulator.ManipulatorInterface)
| OfGripper (g : Gripper.BaseGripper).

(** The body the instance drives. *)
Definition body (i : Instance) : nat :=
  match i with
  | OfManipulator m => Manipulator.body_id m
  | OfGripper g => Gripper.gripper g
  end.

(** The joints the instance holds as actuated. *)
Definition actuated (i : Instance) : list nat :=
  match i with
  | OfManipulator m => Manipulator.movable_joints m
  | OfGripper g => Gripper.active_joints g
  end.

(** The joints [deactivate] gives a target: the instance's actuated
    joints, as far as the list of closed positions of its class goes. *)
Definition closing_joints (i : Instance) : list nat :=
  match i with
  | OfManipulator m => take 2 (Manipulator.movable_joints m)
  | OfGripper g =>
      match Gripper.cls g with
      | Gripper.PR2Gripper => take 2 (Gripper.active_joints g)
      | Gripper.SDHGripper => Gripper.active_joints g
      | Gripper.CustomGripper => []
      end
  end.

(** The target it gives them. *)
Definition closing_target (i : Instance) : Motor :=
  match i with
  | OfManipulator _ => mkMotor POSITION_CONTROL 0.0 500
  | OfGripper g =>
      match Gripper.cls g with
      | Gripper.SDHGripper => mkMotor POSITION_CONTROL 1.0 500
      | _ => mkMotor POSITION_CONTROL 0.0 500
      end
  end.

(** The joints whose lateral friction the gripper classes raise on
    closing. *)
Definition gripping_joints (i : Instance) : list nat :=
  match i with
  | OfManipulator _ => []
  | OfGripper g =>
      match Gripper.cls g with
      | Gripper.CustomGripper => []
      | _ => Gripper.active_joints g
      end
  end.

(** The joints [activate] gives a target, and the target. *)
Definition opening_joints (i : Instance) : list nat := closing_joints i.

Definition opening_target (i : Instance) : Motor :=
  match i with
  | OfManipulator _ => mkMotor POSITION_CONTROL 0.548 500
  | OfGripper g =>
      match Gripper.cls g with
      | Gripper.SDHGripper => mkMotor POSITION_CONTROL (-0.5) 100
      | _ => mkMotor POSITION_CONTROL 0.548 100
      end
  end.

Section Methods.
Context (solver : Solver).

(** [activate()] / [open_gripper()] *)
Definition activate (i : Instance) : M World unit :=
  match i with
  | OfManipulator m => Manipulator.activate m
  | OfGripper g => Gripper.open_gripper solver g
  end.

(** [deactivate()] / [close_gripper()] *)
Definition deactivate (i : Instance) : M World unit :=
  match i with
  | OfManipulator m => Manipulator.deactivate m
  | OfGripper g => Gripper.close_gripper solver g
  end.

(** [execute_vertical_motion(target, steps, step_time)] /
    [move_up_smoothly(target, steps, delay)] *)
Definition vertical_motion (i : Instance) (target : float) (steps : Z) (step_time : float)
  : M World unit :=
  match i with
  | OfManipulator m => Manipulator.execute_vertical_motion solver m target steps step_time
  | OfGripper g => Gripper.move_up_smoothly solver g target steps step_time
  end.

End Methods.

End Contract.
(* ================================================================== *)
(** * The other methods of the three base classes                      *)
(* ================================================================== *)

(** The pose reset of the server, and with it [relocate],
    [set_position] and [reset_position]; the getters. *)

Module BulletPose.
Import Py Bullet.
#[local] Open Scope py_scope.

(** A base put at a pose is at rest there; the joints stay as they
    are. *)
Definition set_pose (posObj : vec3) (ornObj : quat) (k : Kin) : Kin :=
  mkKin posObj ornObj zero3 zero3 (joint_angles k).

(** What the server keeps of a quaternion it is given: its rotation,
    read back as a unit quaternion.  The arithmetic is the server's. *)
Definition Normalizer : Type := quat -> quat.

(** [p.resetBasePositionAndOrientation(body, posObj, ornObj)]: the
    server puts the base at the position, with the orientation as it
    keeps it, and sets its linear and angular velocity to zero.  (The
    trace holds the commands of a grasp cycle; a pose reset shows in the
    server state.) *)
Definition resetBasePositionAndOrientation (normalized : Normalizer) (body : nat)
  (posObj : vec3) (ornObj : quat) : M World unit :=
  need_server ;;
  modify (set_engine (set_kin body (set_pose posObj (normalized ornObj)))).

End BulletPose.

Module ManipulatorMore.
Import Py Bullet BulletPose Manipulator.
#[local] Open Scope py_scope.

(** [ManipulatorInterface.get_body_id(self)] *)
Definition get_body_id (self : ManipulatorInterface) : nat := body_id self.

(** [ManipulatorInterface.relocate(self, new_position, new_orientation)] *)
Definition relocate (normalized : Normalizer) (self : ManipulatorInterface)
  (new_position : vec3) (new_orientation : quat) : M World unit :=
  resetBasePositionAndOrientation normalized (body_id self) new_position new_orientation.

End ManipulatorMore.

Module GripperMore.
Import Py Bullet BulletPose Gripper.
#[local] Open Scope py_scope.

(** [BaseGripper.get_id(self)] *)
Definition get_id (self : BaseGripper) : nat := gripper self.

(** [BaseGripper.set_position(self, position, orientation)] *)
Definition set_position (normalized : Normalizer) (self : BaseGripper) (position : vec3)
  (orientation : quat) : M World unit :=
  resetBasePositionAndOrientation normalized (gripper self) position orientation.

End GripperMore.

Module ObjectsMore.
Import Py Bullet BulletPose Objects.
#[local] Open Scope py_scope.

(** [BaseObject.get_id(self)] *)
Definition get_id (self : BaseObject) : nat := object_id self.

(** [BaseObject.get_height(self)] *)
Definition get_height (self : BaseObject) : float := height self.

(** [CuboidObject.get_grasp_center(self)] *)
Definition Cuboid_get_grasp_center (self : BaseObject) : vec3 :=
  Vec3 0 0 (height self / 2).

(** [CylinderObject.get_grasp_center(self)] *)
Definition Cylinder_get_grasp_center (self : BaseObject) : vec3 :=
  Vec3 0 0 (height self / 2).

(** [self.get_grasp_center()]: the method of the instance's class. *)
Definition get_grasp_center (self : BaseObject) : vec3 :=
  match ocls self with
  | CuboidObject _ _ _ => Cuboid_get_grasp_center self
  | CylinderObject _ => Cylinder_get_grasp_center self
  end.

(** [self.get_dimensions()]: the dictionary, as its items in order. *)
Definition get_dimensions (self : BaseObject) : list (string * float) :=
  match ocls self with
  | CuboidObject width depth _ =>
      [("width", width); ("depth", depth); ("height", height self)]
  | CylinderObject radius =>
      [("radius", radius); ("height", height self)]
  end.

(** [BaseObject.reset_position(self, position=None, orientation=None)] *)
Definition reset_position (normalized : Normalizer) (self : BaseObject)
  (position : option vec3) (orientation : option quat) : M World unit :=
  let position :=
    match position with
    | None => get_spawn_position (height self)
    | Some position => position
    end in
  let orientation :=
    match orientation with
    | None => Quat 0 0 0 1
    | Some orientation => orientation
    end in
  resetBasePositionAndOrientation normalized (object_id self) position orientation.

End ObjectsMore.

(** The pose reset over both manipulator hierarchies. *)
Module ContractMore.
Import Py Bullet.

(** [relocate(position, orientation)] / [set_position(position, orientation)] *)
Definition relocate (normalized : BulletPose.Normalizer) (i : Contract.Instance)
  (position : vec3) (orientation : quat) : M World unit :=
  match i with
  | Contract.OfManipulator m => ManipulatorMore.relocate normalized m position orientation
  | Contract.OfGripper g => GripperMore.set_position normalized g position orientation
  end.

Section Methods.
Context (solver : Solver).

(** [run_simulation(num_steps, step_delay)] / [sim_step(steps, delay)] *)
Definition run_simulation (i : Contract.Instance) (steps : Z) (delay : float)
  : M World unit :=
  match i with
  | Contract.OfManipulator m => Manipulator.run_simulation solver m steps delay
  | Contract.OfGripper g => Gripper.sim_step solver g steps delay
  end.

End Methods.

End ContractMore.
(* ================================================================== *)
(** * [batch_generate.py]                                              *)
(* ================================================================== *)

(** The batch driver calls [generate_data_for_shape] of the main
    program once per combination of gripper and object.  That function
    is a parameter here, and so is everything it works on; the driver
    itself prints, reads the clock and keeps the list of results. *)
Module Batch.
Import Py.
#[local] Open Scope string_scope.

(** ** What can end a call *)

(** The exceptions the driver tells apart: [KeyboardInterrupt]; an
    instance of [Exception], with its [str]; and [SystemExit] with its
    code, for the exceptions that are neither. *)
Inductive signal :=
| KeyboardInterrupt
| Exception (text : string)
| SystemExit (code : Z).

Inductive outcome (A : Type) :=
| Done (a : A)
| Raised (s : signal).
Arguments Done {A} a.
Arguments Raised {A} s.

(** ** Text *)

Definition nl : string := String (ascii_of_nat 10) EmptyString.

(** [s * n] *)
Fixpoint rep (s : string) (n : nat) : string :=
  match n with
  | O => EmptyString
  | S n' => s ++ rep s n'
  end.

(** [str.upper()], on ASCII letters. *)
Definition upper_ascii (c : ascii) : ascii :=
  let n := nat_of_ascii c in
  if ((97 <=? n)%nat && (n <=? 122)%nat)%bool then ascii_of_nat (n - 32) else c.

Fixpoint upper (s : string) : string :=
  match s with
  | EmptyString => EmptyString
  | String c s' => String (upper_ascii c) (upper s')
  end.

(** [len(s)] for text held as UTF-8: the bytes that start a character. *)
Definition continues (c : ascii) : bool :=
  let n := nat_of_ascii c in ((128 <=? n)%nat && (n <? 192)%nat)%bool.

Fixpoint py_len (s : string) : nat :=
  match s with
  | EmptyString => O
  | String c s' => ((if continues c then 0 else 1) + py_len s')%nat
  end.

(** A string in a field of a given width, as [format] aligns a string
    (to the left) and a number (to the right). *)
Definition ljust (s : string) (width : nat) : string := s ++ rep " " (width - py_len s).
Definition rjust (s : string) (width : nat) : string := rep " " (width - py_len s) ++ s.

(** [str(n)], also as an f-string writes an int: a [ValueError]
    beyond 4300 digits. *)
Definition int_str (n : Z) : result string := Py.int_str n.

(** [len(l)]: no list has more than [sys.maxsize] elements. *)
Definition maxsize : Z := 2 ^ 63 - 1.
Definition len {A} (l : list A) : Z := Z.min (Z.of_nat (length l)) maxsize.

(** [str] of a count (a length, an index into a list): at most
    [sys.maxsize], so always within the limit. *)
Definition nat_str (n : nat) : string := digits (Z.of_nat n).

(** ** Results *)

(** One entry of [results]; a combination is a pair of a gripper type
    and an object type. *)
Record Result := mkResult {
  combination : string;
  grasps : Z;
  duration : float;
  status : string
}.

Definition all_combinations : list (string * string) :=
  [("pr2", "cuboid"); ("pr2", "cylinder"); ("sdh", "cuboid"); ("sdh", "cylinder")].

(** [{f"{g}-{o}": (g, o) for g, o in all_combinations}] *)
Definition combo_dict : gmap string (string * string) :=
  foldl (fun d c => <[(c.1 ++ "-" ++ c.2)%string := c]> d) ∅ all_combinations.

(** [[combo_dict[c] for c in combinations if c in combo_dict]] *)
Definition select (combinations : list string) : list (string * string) :=
  omap (fun c => combo_dict !! c) combinations.

Section Generation.
(** What [generate_data_for_shape] works on, and the function: the
    state it finds, to how it ends and the state it leaves.  Its
    arguments are [object_type], [num_grasps] and [gripper_type]. *)
Context {E : Type}.
Context (generate_data_for_shape : string -> Z -> string -> E -> outcome unit * E).
(** The clock: the value of the [n]-th call of [time.time()], and the
    text of [datetime.now()] in the format of the banner. *)
Context (time_at : nat -> float) (timestamp : string).
(** [format(x, ".nf")]: a float with [n] digits after the point. *)
Context (fixed : nat -> float -> string).

(** The state of a run: the state of the generation, what the driver
    printed, how often it read the clock, and its list [results]. *)
Record Run := mkRun {
  env : E;
  printed : list string;
  readings : nat;
  results : list Result
}.

Definition B (A : Type) : Type := Run -> outcome A * Run.

Definition ret {A} (a : A) : B A := fun s => (Done a, s).

Definition bind {A C} (m : B A) (k : A -> B C) : B C :=
  fun s =>
    match m s with
    | (Done a, s') => k a s'
    | (Raised x, s') => (Raised x, s')
    end.

Definition raise {A} (x : signal) : B A := fun s => (Raised x, s).

#[local] Notation "x <- c1 ;; c2" := (bind c1 (fun x => c2))
  (at level 100, c1 at next level, right associativity).
#[local] Notation "c1 ;; c2" := (bind c1 (fun _ => c2))
  (at level 100, right associativity).

(** [print(line)] *)
Definition print (line : string) : B unit :=
  fun s => (Done tt, mkRun (env s) (printed s ++ [line])%list (readings s) (results s)).

(** [time.time()] *)
Definition time_time : B float :=
  fun s => (Done (time_at (readings s)),
            mkRun (env s) (printed s) (S (readings s)) (results s)).

(** [results.append(r)] *)
Definition append (r : Result) : B unit :=
  fun s => (Done tt, mkRun (env s) (printed s) (readings s) (results s ++ [r])%list).

(** [results = []], and reading the list. *)
Definition new_results : B unit :=
  fun s => (Done tt, mkRun (env s) (printed s) (readings s) []).

Definition get_results : B (list Result) := fun s => (Done (results s), s).

(** A call of the generation. *)
Definition call (f : E -> outcome unit * E) : B unit :=
  fun s =>
    let (o, e) := f (env s) in
    (o, mkRun e (printed s) (readings s) (results s)).

(** An arithmetic error is an [Exception]. *)
Definition lift {A} (r : result A) : B A :=
  match r with
  | Ok a => ret a
  | Raise e => raise (Exception (exn_msg e))
  end.

(** [try: body / except KeyboardInterrupt: .. / except Exception as e: ..] *)
Definition try_except {A} (body : B A) (on_interrupt : B A) (on_exception : string -> B A)
  : B A :=
  fun s =>
    match body s with
    | (Done a, s') => (Done a, s')
    | (Raised KeyboardInterrupt, s') => on_interrupt s'
    | (Raised (Exception e), s') => on_exception e s'
    | (Raised (SystemExit c), s') => (Raised (SystemExit c), s')
    end.

Fixpoint for_each {A} (l : list A) (body : A -> B unit) : B unit :=
  match l with
  | [] => ret tt
  | x :: l' => body x ;; for_each l' body
  end.

Definition rule : string := rep "=" 70.

(** [print_banner(text)] *)
Definition print_banner (text : string) : B unit :=
  print (nl ++ rule) ;;
  print ("  " ++ text) ;;
  print (rule ++ nl).

Definition combo_name (c : string * string) : string := upper c.1 ++ " × " ++ c.2.

(** One turn of the loop over the selected combinations; the result
    tells whether the loop goes on ([break] makes it [false]). *)
Definition attempt (grasps_per_case : Z) (total idx : nat) (c : string * string) : B bool :=
  let gripper_type := c.1 in
  let object_type := c.2 in
  let combo_name := upper gripper_type ++ " × " ++ object_type in
  print_banner ("Combination " ++ nat_str idx ++ "/" ++ nat_str total ++ ": " ++ combo_name) ;;
  combo_start <- time_time ;;
  try_except
    (grasps_text <- lift (int_str grasps_per_case) ;;
     print ("[INFO] Starting generation of " ++ grasps_text ++ " grasps...") ;;
     call (generate_data_for_shape object_type grasps_per_case gripper_type) ;;
     t <- time_time ;;
     let combo_duration := (t - combo_start)%float in
     append (mkResult combo_name grasps_per_case combo_duration "SUCCESS") ;;
     print (nl ++ "[SUCCESS] Completed " ++ combo_name ++ " in "
            ++ fixed 1 combo_duration ++ " seconds") ;;
     per_grasp <- lift (float_truediv_int combo_duration grasps_per_case) ;;
     print ("           (" ++ fixed 2 per_grasp ++ " seconds per grasp)") ;;
     ret true)
    (print (nl ++ "[WARNING] User interrupted batch generation.") ;;
     t <- time_time ;;
     append (mkResult combo_name 0 (t - combo_start)%float "INTERRUPTED") ;;
     ret false)
    (fun e =>
     t <- time_time ;;
     let combo_duration := (t - combo_start)%float in
     print (nl ++ "[ERROR] Failed to generate data for " ++ combo_name ++ ": " ++ e) ;;
     append (mkResult combo_name 0 combo_duration ("FAILED: " ++ e)) ;;
     ret true).

(** [for idx, (gripper_type, object_type) in enumerate(selected, 1): ..] *)
Fixpoint attempts (grasps_per_case : Z) (total idx : nat) (todo : list (string * string))
  : B unit :=
  match todo with
  | [] => ret tt
  | c :: rest =>
      go_on <- attempt grasps_per_case total idx c ;;
      if go_on then attempts grasps_per_case total (S idx) rest else ret tt
  end.

Definition total_of (rs : list Result) : Z := foldr (fun r acc => grasps r + acc) 0 rs.

(** One line of the detailed results. *)
Definition result_line (result : Result) : Py.result string :=
  let status_icon := if decide (status result = "SUCCESS") then "✓" else "✗" in
  match int_str (grasps result) with
  | Raise e => Raise e
  | Ok grasps_text =>
      Ok ("  " ++ status_icon ++ " " ++ ljust (combination result) 20 ++ " | "
          ++ "Grasps: " ++ rjust grasps_text 4 ++ " | "
          ++ "Duration: " ++ rjust (fixed 1 (duration result)) 6 ++ "s | "
          ++ "Status: " ++ status result)
  end.

(** The combinations to run: all of them when [combinations] is
    [None] or empty; else those of its names that are known, unless
    there is none. *)
Definition selection (combinations : option (list string))
  : option (list (string * string)) :=
  match combinations with
  | Some (c :: cs) =>
      let selected := select (c :: cs) in
      if decide (selected = []) then None else Some selected
  | _ => Some all_combinations
  end.

(** [run_batch_generation(grasps_per_case, combinations=None, use_gui=False)];
    the result is [None] or the list [results]. *)
Definition run_batch_generation (grasps_per_case : Z) (combinations : option (list string))
  (use_gui : bool) : B (option (list Result)) :=
  match selection combinations with
  | None =>
      print "[ERROR] No valid combinations specified. Available: pr2-cuboid, pr2-cylinder, sdh-cuboid, sdh-cylinder" ;;
      ret None
  | Some selected =>
      print_banner "BATCH DATA GENERATION" ;;
      print ("Timestamp: " ++ timestamp) ;;
      grasps_text <- lift (int_str grasps_per_case) ;;
      print ("Grasps per combination: " ++ grasps_text) ;;
      print ("Total combinations: " ++ nat_str (length selected)) ;;
      run_text <- lift (int_str (grasps_per_case * len selected)) ;;
      print ("Total grasps this run: " ++ run_text) ;;
      print ("GUI mode: "
             ++ (if use_gui then "Enabled" else "Disabled (DIRECT mode - faster)")) ;;
      print (nl ++ "Combinations to process:") ;;
      for_each selected (fun c => print ("  - " ++ upper c.1 ++ " gripper × " ++ c.2)) ;;
      print "" ;;
      start_time <- time_time ;;
      new_results ;;
      attempts grasps_per_case (length selected) 1 selected ;;
      t <- time_time ;;
      let total_duration := (t - start_time)%float in
      rs <- get_results ;;
      let successful := length (filter (fun r => status r = "SUCCESS") rs) in
      let total_grasps := total_of rs in
      print_banner "BATCH GENERATION SUMMARY" ;;
      print ("Total time: " ++ fixed 1 total_duration ++ " seconds ("
             ++ fixed 1 (total_duration / 60) ++ " minutes)") ;;
      print ("Successful combinations: " ++ nat_str successful ++ "/"
             ++ nat_str (length selected)) ;;
      total_text <- lift (int_str total_grasps) ;;
      print ("Total grasps generated: " ++ total_text) ;;
      (if (0 <? total_grasps)%Z then
         per_grasp <- lift (float_truediv_int total_duration total_grasps) ;;
         print ("Average time per grasp: " ++ fixed 2 per_grasp ++ " seconds")
       else ret tt) ;;
      print (nl ++ "Detailed Results:") ;;
      for_each rs (fun result => line <- lift (result_line result) ;; print line) ;;
      print (nl ++ "[INFO] Data files location: ./data/") ;;
      print "[INFO] Files: grasp_data_{gripper}_{shape}.csv" ;;
      print (rule ++ nl) ;;
      ret (Some rs)
  end.

(** The arguments as [argparse] hands them over: [--grasps], [--gui]
    and [--combinations] (one or more names, or [None]). *)
Record Args := mkArgs {
  arg_grasps : Z;
  arg_gui : bool;
  arg_combinations : option (list string)
}.

(** [main()], from the parsed arguments on. *)
Definition main (args : Args) : B unit :=
  if (arg_grasps args <? 1)%Z then
    print "[ERROR] Number of grasps must be at least 1" ;;
    raise (SystemExit 1)
  else
    try_except
      (run_batch_generation (arg_grasps args) (arg_combinations args) (arg_gui args) ;;
       ret tt)
      (print (nl ++ "[INFO] Batch generation interrupted by user.") ;;
       raise (SystemExit 0))
      (fun e => raise (Exception e)).

End Generation.

End Batch.
(* ================================================================== *)
(** * [voice_assistant_gemini.py]: [speak]                             *)
(* ================================================================== *)

(** [GeminiVoiceAssistant.speak] hands a text to the text-to-speech
    engine, a long one in pieces.  The engine is a parameter; the text
    is a list of characters, so that [len] is the length of the list. *)
Module Voice.
Import Batch.

(** ** Text *)

(** A character, by its code point. *)
Definition char := N.
Definition str := list char.

Definition newline : char := 10%N.
Definition period : char := 46%N.
Definition space : char := 32%N.

(** [t.startswith(prefix)] *)
Fixpoint startswith (prefix t : str) : bool :=
  match prefix, t with
  | [], _ => true
  | _ :: _, [] => false
  | p :: prefix', x :: t' => bool_decide (p = x) && startswith prefix' t'
  end.

(** [t.replace(old, new)], for an [old] that is not empty: the
    occurrences of [old] are taken from the left and do not overlap.
    [skip] counts the characters of the occurrence found that are still
    to be passed over. *)
Fixpoint replace_from (old new : str) (skip : nat) (t : str) : str :=
  match t with
  | [] => []
  | x :: t' =>
      match skip with
      | S k => replace_from old new k t'
      | O =>
          if startswith old t then (new ++ replace_from old new (length old - 1) t')%list
          else x :: replace_from old new 0 t'
      end
  end.

Definition replace (old new t : str) : str := replace_from old new 0 t.

(** [t.split(sep)], for a [sep] that is not empty: the pieces between
    the occurrences of [sep], taken from the left and not overlapping;
    there is always at least one piece.  [current] holds the piece
    being read, last character first. *)
Fixpoint split_from (sep : str) (skip : nat) (current : str) (t : str) : list str :=
  match t with
  | [] => [rev current]
  | x :: t' =>
      match skip with
      | S k => split_from sep k current t'
      | O =>
          if startswith sep t then rev current :: split_from sep (length sep - 1) [] t'
          else split_from sep 0 (x :: current) t'
      end
  end.

Definition split (sep t : str) : list str := split_from sep 0 [] t.

(** ** The engine and the session *)

(** What the assistant prints in [speak]: the text after [AI:], the
    line [Speech completed], and the warning with the text of an
    error. *)
Inductive Line :=
| AI (text : str)
| Speech_completed
| TTS_warning (e : string).

Section Engine.
(** The text-to-speech engine ([self.tts_engine]): its state and its
    two methods, each of which may raise. *)
Context {T : Type}.
Context (say : str -> T -> outcome unit * T) (runAndWait : T -> outcome unit * T).

(** The state of a session: the engine, the texts handed to [say] so
    far, and the lines printed. *)
Record Session := mkSession {
  tts_engine : T;
  said : list str;
  out : list Line
}.

Definition V (A : Type) : Type := Session -> outcome A * Session.

Definition ret {A} (a : A) : V A := fun s => (Done a, s).

Definition bind {A C} (m : V A) (k : A -> V C) : V C :=
  fun s =>
    match m s with
    | (Done a, s') => k a s'
    | (Raised x, s') => (Raised x, s')
    end.

#[local] Notation "x <- c1 ;; c2" := (bind c1 (fun x => c2))
  (at level 100, c1 at next level, right associativity).
#[local] Notation "c1 ;; c2" := (bind c1 (fun _ => c2))
  (at level 100, right associativity).

Definition print (l : Line) : V unit :=
  fun s => (Done tt, mkSession (tts_engine s) (said s) (out s ++ [l])).

(** [self.tts_engine.say(chunk)] *)
Definition tts_say (chunk : str) : V unit :=
  fun s =>
    let (o, t') := say chunk (tts_engine s) in
    (o, mkSession t' (said s ++ [chunk]) (out s)).

(** [self.tts_engine.runAndWait()] *)
Definition tts_runAndWait : V unit :=
  fun s =>
    let (o, t') := runAndWait (tts_engine s) in
    (o, mkSession t' (said s) (out s)).

(** [try: body / except Exception as e: handler] *)
Definition try_except {A} (body : V A) (on_exception : string -> V A) : V A :=
  fun s =>
    match body s with
    | (Raised (Exception e), s') => on_exception e s'
    | r => r
    end.

(** ** [speak] *)

Definition max_chunk_size : nat := 500.

(** [if current_chunk: say; runAndWait] *)
Definition say_if_any (current_chunk : str) : V unit :=
  match current_chunk with
  | [] => ret tt
  | _ :: _ => tts_say current_chunk ;; tts_runAndWait
  end.

(** The loop over the sentences; it returns [current_chunk] as the
    loop leaves it. *)
Fixpoint for_sentences (sentences : list str) (current_chunk : str) : V str :=
  match sentences with
  | [] => ret current_chunk
  | sentence :: rest =>
      if (length current_chunk + length sentence <? max_chunk_size)%nat then
        for_sentences rest (current_chunk ++ sentence ++ [period; space])%list
      else
        say_if_any current_chunk ;;
        for_sentences rest (sentence ++ [period; space])%list
  end.

Definition speak (text : str) : V unit :=
  print (AI text) ;;
  try_except
    ((if (max_chunk_size <? length text)%nat then
        let sentences :=
          split [period; space]
            (replace [newline] [space]
               (replace [newline; newline] [period; space] text)) in
        current_chunk <- for_sentences sentences [] ;;
        say_if_any current_chunk
      else
        tts_say text ;; tts_runAndWait) ;;
     print Speech_completed)
    (fun e => print (TTS_warning e)).

End Engine.

End Voice.

(* ================================================================== *)
(** * Concrete worlds and instances for the examples                   *)
(* ================================================================== *)

Module Examples.
Import Py Bullet.

(** A solver that leaves every body where it is. *)
Definition solver0 : Solver := fun _ _ k => k.

(** A server that keeps of a quaternion its quotient by its length. *)
Definition normalized0 : BulletPose.Normalizer :=
  fun q =>
    match q with
    | Quat x y z w =>
        let n := PrimFloat.sqrt (x * x + y * y + z * z + w * w)%float in
        Quat (x / n) (y / n) (z / n) (w / n)
    end.

(** A graspable body resting at height 0.45. *)
Definition body0 : Body :=
  mkBody (mkKin (Vec3 0 0 0.45) (Quat 0 0 0 1) zero3 zero3 []) [].

Definition engine0 (up : bool) : Engine :=
  mkEngine up [body0] ∅ ∅ ∅ ∅ [] [] ∅ 0.

(** A clock that reads one second at every sleep, and a file system
    that refuses nothing but the empty path. *)
Definition timer0 : nat -> Z := fun _ => 1000000000.
Definition barred0 : OpenMode -> string -> option string := fun _ _ => None.

Definition world0 (up : bool) : World := mkWorld (engine0 up) ∅ [] [] timer0 barred0.

Definition metrics0 : Metrics.PerformanceMetrics :=
  Metrics.mkMetrics "grasp_metrics.csv" [].

(** A gripper body at the origin with two finger joints and a fixed
    one, on a live server. *)
Definition gripper_body : Body :=
  mkBody (mkKin zero3 (Quat 0 0 0 1) zero3 zero3 [0; 0; 0]%float)
    [JOINT_REVOLUTE; JOINT_REVOLUTE; JOINT_FIXED].

Definition world1 : World :=
  mkWorld (mkEngine true [gripper_body] ∅ ∅ ∅ ∅ [] [] ∅ 0) ∅ [] [] timer0 barred0.

Definition manip0 : Manipulator.ManipulatorInterface :=
  Manipulator.mkManipulator zero3 (Quat 0 0 0 1) "pr2_gripper.urdf" 0 [0; 1]%nat [2]%nat.

Definition gripper0 (c : Gripper.GripperClass) : Gripper.BaseGripper :=
  Gripper.mkGripper c zero3 (Quat 0 0 0 1) "gripper.urdf" 0 [0; 1]%nat [2]%nat.

(** A live server that can load the PR2 gripper model (four joints,
    the two finger-tip joints fixed here) and, installed under [/opt/grasp],
    the SDH hand (three joints). *)
Definition models2 : gmap string (list JointType) :=
  <["pr2_gripper.urdf" := [JOINT_REVOLUTE; JOINT_FIXED; JOINT_REVOLUTE; JOINT_FIXED]]>
    (<["/opt/grasp/models/sdh.urdf" := [JOINT_REVOLUTE; JOINT_REVOLUTE; JOINT_REVOLUTE]]> ∅).

Definition world2 : World :=
  mkWorld (mkEngine true [] ∅ ∅ ∅ ∅ [] [] models2 0) ∅ [] [] timer0 barred0.

Definition no_kwargs : Objects.Kwargs := Objects.mkKwargs ∅ None.

(** The text of a few floats, enough for the examples ([repr] of any
    other float is not needed there). *)
Definition repr0 (x : float) : string :=
  if (x =? 0.4)%float then "0.4"
  else if (x =? 0.7)%float then "0.7"
  else if (x =? 0.25)%float then "0.25"
  else if (x =? 0.7 - 0.4)%float then "0.29999999999999993"
  else if (x =? 0.3)%float then "0.3"
  else "0.0".

(** A trial record, and one that differs from it in the last digit of
    one field. *)
Definition record0 : list Metrics.pyval :=
  [Metrics.PyFloat 0.25; Metrics.PyFloat 0; Metrics.PyFloat 0.4;
   Metrics.PyFloat 0; Metrics.PyFloat 0; Metrics.PyFloat 0;
   Metrics.PyFloat 0.4; Metrics.PyFloat 0.7; Metrics.PyFloat (0.7 - 0.4);
   Metrics.PyInt 1].

Definition record1 : list Metrics.pyval :=
  [Metrics.PyFloat 0.25; Metrics.PyFloat 0; Metrics.PyFloat 0.4;
   Metrics.PyFloat 0; Metrics.PyFloat 0; Metrics.PyFloat 0;
   Metrics.PyFloat 0.4; Metrics.PyFloat 0.7; Metrics.PyFloat 0.3;
   Metrics.PyInt 1].

(** Their string forms. *)
Definition row0 : list string :=
  ["0.25"; "0.0"; "0.4"; "0.0"; "0.0"; "0.0"; "0.4"; "0.7"; "0.29999999999999993"; "1"].

Definition row1 : list string :=
  ["0.25"; "0.0"; "0.4"; "0.0"; "0.0"; "0.0"; "0.4"; "0.7"; "0.3"; "1"].

Definition store_path : string := "grasp_metrics.csv".

Definition store0 : Metrics.PerformanceMetrics :=
  Metrics.mkMetrics store_path
    ["Position X"; "Position Y"; "Position Z";
     "Orientation Roll"; "Orientation Pitch"; "Orientation Yaw";
     "Initial Z"; "Final Z"; "Delta Z";
     "Success"].

(** The world right after the store was constructed on a fresh path. *)
Definition world_store : World :=
  snd (Metrics.__init__ store_path (world0 true)).

(** A world in which the path of the store holds an empty file. *)
Definition world_empty_file : World :=
  mkWorld (engine0 true) {[ store_path := EmptyString ]} [] [] timer0 barred0.

End Examples.

(* ================================================================== *)
(** * Vocabulary of the statements                                     *)
(* ================================================================== *)

(** Nothing here is code of the repository: these are the worlds,
    predicates and auxiliary loops the theorems below are stated and
    proved with. *)
Module Vocabulary.
Import Py Bullet.
#[local] Open Scope py_scope.

(** ** What a successful command leaves behind *)

Definition after_reset (body : nat) (v : vec3) (w : World) : World :=
  log (EvResetBaseVelocity body v) (set_engine (set_kin body (set_lin_vel v)) w).

Definition after_step (solver : Solver) (w : World) : World :=
  log EvStepSimulation (set_engine (tick solver) w).

(** One turn of the loop of a vertical motion, and [n] of them. *)
Definition cycle (solver : Solver) (body : nat) (v : vec3) (dt : float) (w : World)
  : World :=
  log (EvSleep dt) (after_step solver (after_reset body v w)).

Fixpoint cycles (solver : Solver) (body : nat) (v : vec3) (dt : float) (n : nat)
  (w : World) : World :=
  match n with
  | O => w
  | Datatypes.S n' => cycles solver body v dt n' (cycle solver body v dt w)
  end.

(** ** Pauses *)

(** A pause that starts whatever the clock reads. *)
Definition short (secs : float) : bool := sleep_at clock_max secs.

(** The next [n] pauses of [secs] in [w] all start: at each of the
    readings of the clock that come next, the deadline is one the
    system takes (and [secs] is a duration to begin with). *)
Definition pauses_start (w : World) (n : nat) (secs : float) : Prop :=
  forall k, (k < n)%nat -> sleep_at (reading w (pauses (trace w) + k)) secs = true.

(** ** Properties of commands *)

(** [m] never raises [ZeroDivisionError]. *)
Definition no_zero_division {A} (m : M World A) : Prop :=
  forall w, ~ raises (fst (m w)) ZeroDivisionError.

(** [act] leaves every motor target as it is, however it ends. *)
Definition keeps_motors {A} (act : M World A) : Prop :=
  forall w, motors (engine (snd (act w))) = motors (engine w).

(** Writing one value under several keys. *)
Fixpoint puts {K V} `{Countable K} (ks : list K) (v : V) (m : gmap K V) : gmap K V :=
  match ks with
  | [] => m
  | k :: ks' => puts ks' v (<[k := v]> m)
  end.

(** The links of [body] that move with [joints]. *)
Definition links (body : nat) (joints : list nat) : list (nat * Z) :=
  map (fun j => (body, Z.of_nat j)) joints.

(** [act] gives the target [m] to the joints [joints] of [body], in
    order, and to no other; it may stop early, and then it raises. *)
Definition drives (body : nat) (m : Motor) (joints : list nat) (act : M World unit)
  : Prop :=
  forall w, exists done rest,
    joints = done ++ rest
    /\ motors (engine (snd (act w)))
       = puts (map (pair body) done) m (motors (engine w))
    /\ (fst (act w) = Ok tt -> rest = []).

(** The part of the world a grasp command reads or sets: the server is
    up, the motor targets are [mo], the lateral frictions are [fr], and
    [body] is known and has [n] joints. *)
Definition settled (body : nat) (mo : gmap (nat * nat) Motor) (fr : gmap (nat * Z) float)
  (n : nat) (w : World) : Prop :=
  connected (engine w) = true
  /\ motors (engine w) = mo
  /\ lateral_friction (engine w) = fr
  /\ num_joints (engine w) body = n
  /\ is_Some (bodies (engine w) !! body).

(** The server is up and knows [body], which has [n] joints. *)
Definition knows (body n : nat) (w : World) : Prop :=
  connected (engine w) = true
  /\ exists b, bodies (engine w) !! body = Some b /\ length (joint_types b) = n.

(** ** The loops of the grasp commands, in one shape

    [zip] stops with the shorter list, and both lists of target
    positions have two equal entries: each loop over a [zip] is a loop
    over the first two joints with one target. *)

Definition drive (body : nat) (m : Motor) (joints : list nat) : M World unit :=
  for_each joints (fun j =>
    setJointMotorControl2 body j (controlMode m) (targetPosition m) (force m)).

Definition raise_friction (body : nat) (joints : list nat) : M World unit :=
  for_each joints (fun j =>
    changeDynamics body (Z.of_nat j) (mkDyn None (Some 1.0%float) None)).

(** ** The factories *)

(** Two runs end alike: in the same world, with the same result or
    with a [ValueError] each (whatever the two messages). *)
Definition same_outcome {A} (x y : result A * World) : Prop :=
  snd x = snd y
  /\ (fst x = fst y \/ (raises (fst x) ValueError /\ raises (fst y) ValueError)).

(** The tag of each gripper class, and the model file its constructor
    loads for a package installed in [current_dir]. *)
Definition gripper_tag (c : Gripper.GripperClass) : string :=
  match c with
  | Gripper.PR2Gripper => "pr2"
  | Gripper.SDHGripper => "sdh"
  | Gripper.CustomGripper => "custom"
  end.

Definition gripper_model (current_dir : string) (c : Gripper.GripperClass) : string :=
  match c with
  | Gripper.PR2Gripper => "pr2_gripper.urdf"
  | Gripper.SDHGripper =>
      Gripper.path_join (Gripper.path_join current_dir "models") "sdh.urdf"
  | Gripper.CustomGripper => "custom_gripper.urdf"
  end.

(** The constructor of each gripper class. *)
Definition new_gripper (current_dir : string) (c : Gripper.GripperClass)
  : vec3 -> quat -> M World Gripper.BaseGripper :=
  match c with
  | Gripper.PR2Gripper => Gripper.new_PR2Gripper
  | Gripper.SDHGripper => Gripper.new_SDHGripper current_dir
  | Gripper.CustomGripper => Gripper.new_CustomGripper
  end.

(** The tag of an object's class, the constructor for a tag, and the
    numeric keywords it takes. *)
Definition object_tag (c : Objects.ObjectClass) : string :=
  match c with
  | Objects.CuboidObject _ _ _ => "cuboid"
  | Objects.CylinderObject _ => "cylinder"
  end.

Definition new_object (tag : string) : Objects.Kwargs -> M World Objects.BaseObject :=
  if decide (tag = "cuboid") then Objects.new_CuboidObject
  else Objects.new_CylinderObject.

Definition object_params (tag : string) : list string :=
  if decide (tag = "cuboid") then ["width"; "depth"; "height"; "mass"]
  else ["radius"; "height"; "mass"].

(** The geometry of an object of class [c] and height [h], and the
    class the constructor for a tag makes of its keywords. *)
Definition shape_of (c : Objects.ObjectClass) (h : float) : Geom :=
  match c with
  | Objects.CuboidObject width depth _ => GEOM_BOX (Vec3 (width / 2) (depth / 2) (h / 2))
  | Objects.CylinderObject radius => GEOM_CYLINDER radius h
  end.

Definition object_class (tag : string) (kw : Objects.Kwargs) : Objects.ObjectClass :=
  if decide (tag = "cuboid")
  then Objects.CuboidObject (Objects.kw_get "width" 0.05 kw) (Objects.kw_get "depth" 0.05 kw)
         [Objects.kw_get "width" 0.05 kw; Objects.kw_get "depth" 0.05 kw;
          Objects.kw_get "height" 0.8 kw]
  else Objects.CylinderObject (Objects.kw_get "radius" 0.04 kw).

(** The geometry asked of the server for an object of the tag and the
    keywords. *)
Definition object_shape (tag : string) (kw : Objects.Kwargs) : Geom :=
  shape_of (object_class tag kw) (Objects.kw_get "height" 0.8 kw).

(** ** The result store *)

(** A field the writer leaves as it is and the reader takes back whole:
    no delimiter, quote or line break in it, and no longer than the
    reader's field limit. *)
Definition plain (s : string) : Prop :=
  Csv.has_special s = false /\ (N.of_nat (String.length s) <= Csv.field_limit)%N.

(** Whether a text holds a line break. *)
Fixpoint has_break (s : string) : bool :=
  match s with
  | EmptyString => false
  | String c s' => Csv.is_newline c || has_break s'
  end.

(** The text of a file written row by row. *)
Fixpoint csv_text (rows : list (list string)) : string :=
  match rows with
  | [] => EmptyString
  | r :: rows' => Csv.writerow r +:+ csv_text rows'
  end.

(** The file at [path] holds the header [header] and the data rows
    [rows], as the writer wrote them. *)
Definition holds (path : string) (header : list string) (rows : list (list string))
  (w : World) : Prop :=
  files w !! path = Some (csv_text (header :: rows))
  /\ Forall (Forall plain) (header :: rows).

(** The file system lets the file at [path] be opened for reading and
    for appending. *)
Definition opens (path : string) (w : World) : Prop :=
  Os.refusal w ModeR path = None /\ Os.refusal w ModeA path = None.

(** The world after [text] was written at the end of the file at
    [path], or to a new file there. *)
Definition appended (path text : string) (w : World) : World :=
  set_files (fun fs => <[path := (default EmptyString (fs !! path) ++ text)%string]> fs) w.

(** What one row is on a line of the file as read: the written fields,
    then the line feed the newline translation leaves. *)
Definition row_line (r : list string) : string :=
  (if decide (r = [EmptyString]) then Csv.quoted EmptyString else Csv.join_fields r)
  +:+ String Os.LF EmptyString.

(** The reader after the characters of the field [f], with the
    fields [acc] before it. *)
Definition at_field (f : string) (acc : list string) : Csv.Parser :=
  if decide (f = EmptyString) then Csv.mkParser Csv.START_FIELD EmptyString acc
  else Csv.mkParser Csv.IN_FIELD f acc.

(** The ten column names, in the order of the file format. *)
Definition store_columns : list string :=
  ["Position X"; "Position Y"; "Position Z";
   "Orientation Roll"; "Orientation Pitch"; "Orientation Yaw";
   "Initial Z"; "Final Z"; "Delta Z";
   "Success"].

(** The header row of the store. *)
Definition header_text : string :=
  "Position X,Position Y,Position Z,Orientation Roll,Orientation Pitch,Orientation Yaw,Initial Z,Final Z,Delta Z,Success"
  +:+ Csv.lineterminator.

(** The warning a skipped duplicate prints. *)
Definition duplicate_warning : string := "[WARNING] Duplicate entry detected - skipping".

End Vocabulary.
(** Predicates of the statements about the other methods, the
    constructors and the simulation loops. *)
Module MoreVocabulary.
Import Py Bullet.
#[local] Open Scope py_scope.

(** [w'] differs from [w] at most in the kinematic state of [body]:
    every other body, every motor target and dynamics setting, the
    files, the output and the trace are the same. *)
Definition moved_only (body : nat) (w w' : World) : Prop :=
  connected (engine w') = connected (engine w)
  /\ length (bodies (engine w')) = length (bodies (engine w))
  /\ (forall j, j <> body -> bodies (engine w') !! j = bodies (engine w) !! j)
  /\ motors (engine w') = motors (engine w)
  /\ mass (engine w') = mass (engine w)
  /\ lateral_friction (engine w') = lateral_friction (engine w)
  /\ spinning_friction (engine w') = spinning_friction (engine w)
  /\ ticks (engine w') = ticks (engine w)
  /\ files w' = files w
  /\ stdout w' = stdout w
  /\ trace w' = trace w.

(** The body [body] of [w] is at the pose [(p, o)], at rest. *)
Definition rests_at (body : nat) (p : vec3) (o : quat) (w : World) : Prop :=
  exists b, bodies (engine w) !! body = Some b
            /\ base_pos (kin b) = p /\ base_orn (kin b) = o
            /\ lin_vel (kin b) = zero3 /\ ang_vel (kin b) = zero3.

(** ** Objects *)

(** The colour an object gets: the one given unless it is missing or
    empty. *)
Definition colour_of (color : option (list float)) : list float :=
  match color with
  | Some (x :: l) => x :: l
  | _ => [1; 1; 1; 1]%float
  end.

(** [w'] is [w] with one more body, [b], and whatever else a
    constructor sets for it: the bodies [w] had are as they were, and so
    are their motor targets. *)
Definition adds_body (b : Body) (w w' : World) : Prop :=
  connected (engine w') = connected (engine w)
  /\ bodies (engine w') = bodies (engine w) ++ [b]
  /\ ticks (engine w') = ticks (engine w)
  /\ urdf_models (engine w') = urdf_models (engine w)
  /\ files w' = files w
  /\ stdout w' = stdout w.

(** ** Manipulators *)

(** The joints of a model that move and those that are fixed, each in
    the order of the joint indices. *)
Definition movable_of (jts : list JointType) : list nat :=
  filter (fun j => jts !! j <> Some JOINT_FIXED) (seq 0 (length jts)).

Definition fixed_of (jts : list JointType) : list nat :=
  filter (fun j => jts !! j = Some JOINT_FIXED) (seq 0 (length jts)).

(** The body a model is loaded as: at the pose given, at rest, every
    joint at angle 0. *)
Definition loaded_body (p : vec3) (o : quat) (jts : list JointType) : Body :=
  mkBody (mkKin p o zero3 zero3 (List.repeat 0%float (length jts))) jts.

(** The world after a model was loaded and its base made massless. *)
Definition loaded (file : string) (p : vec3) (o : quat) (jts : list JointType) (w : World)
  : World :=
  let e := engine w in
  let id := length (bodies e) in
  mkWorld
    (mkEngine (connected e) (bodies e ++ [loaded_body p o jts]) (motors e)
       (<[(id, -1) := 0%float]> (mass e)) (lateral_friction e) (spinning_friction e)
       (visual_shapes e) (collision_shapes e) (urdf_models e) (ticks e))
    (files w) (stdout w)
    (trace w ++ [EvLoadURDF file p o;
                 EvChangeDynamics id (-1) (mkDyn (Some 0%float) None None)])
    (timer w) (barred w).

(** The target [SDHGripper] gives its joints when it is constructed,
    and what one turn of the constructor's loop leaves behind: the
    joint [j] of [body] put at -0.5 and its motor given that target. *)
Definition spread_target : Motor := mkMotor POSITION_CONTROL (-0.5) 100.

Definition set_angle (j : nat) (v : float) (k : Kin) : Kin :=
  mkKin (base_pos k) (base_orn k) (lin_vel k) (ang_vel k) (<[j := v]> (joint_angles k)).

Definition spread_joint (body : nat) (w : World) (j : nat) : World :=
  log (EvSetJointMotorControl2 body j spread_target)
    (set_engine (set_motor body j spread_target)
       (log (EvResetJointState body j (-0.5))
          (set_engine (set_kin body (set_angle j (-0.5))) w))).

Definition spread (body : nat) (joints : list nat) (w : World) : World :=
  foldl (spread_joint body) w joints.

(** The world a gripper constructor of class [c] leaves: the model
    loaded, and for [SDHGripper] its movable joints spread. *)
Definition constructed (c : Gripper.GripperClass) (file : string) (p : vec3) (o : quat)
  (jts : list JointType) (w : World) : World :=
  match c with
  | Gripper.SDHGripper =>
      spread (length (bodies (engine w))) (movable_of jts) (loaded file p o jts w)
  | _ => loaded file p o jts w
  end.

(** ** What motion leaves alone *)

(** What a grasp rests on, and what a run leaves behind besides the
    poses: the motor targets, the dynamics settings, the number of
    bodies, the files and the output. *)
Definition hold (w : World)
  : gmap (nat * nat) Motor * gmap (nat * Z) float * gmap (nat * Z) float
    * gmap (nat * Z) float * nat * gmap string string * list string :=
  (motors (engine w), lateral_friction (engine w), spinning_friction (engine w),
   mass (engine w), length (bodies (engine w)), files w, stdout w).

(** [act] leaves all of that as it is, however it ends. *)
Definition keeps_hold {A} (act : M World A) : Prop :=
  forall w, hold (snd (act w)) = hold w.

(** ** Stepping *)

(** [n] turns of a stepping loop: a tick, then a pause of [dt]. *)
Fixpoint stepped (solver : Solver) (dt : float) (n : nat) (w : World) : World :=
  match n with
  | O => w
  | Datatypes.S n' =>
      stepped solver dt n' (log (EvSleep dt) (Vocabulary.after_step solver w))
  end.

End MoreVocabulary.
(** Predicates of the statements about the batch driver. *)
Module BatchVocabulary.
Import Py Batch.
#[local] Open Scope string_scope.

(** The name of a combination on the command line, and the names the
    driver knows. *)
Definition combo_key (c : string * string) : string := c.1 ++ "-" ++ c.2.

Definition combination_names : list string := map combo_key all_combinations.

(** The line printed when no name given is known. *)
Definition no_valid_combination : string :=
  "[ERROR] No valid combinations specified. Available: pr2-cuboid, pr2-cylinder, sdh-cuboid, sdh-cylinder".

(** What a result says, the duration apart. *)
Definition entry (r : Result) : string * Z * string :=
  (combination r, grasps r, status r).

(** The error of dividing a duration by the number of grasps [n], if
    there is one: a division by zero for 0, an overflow for a number no
    float holds. *)
Definition per_grasp_error (n : Z) : option string :=
  match float_truediv_int 0 n with
  | Ok _ => None
  | Raise e => Some (exn_msg e)
  end.

(** What the driver records for a combination whose generation ended
    with [o]. *)
Definition verdicts (n : Z) (c : string * string) (o : outcome unit)
  : list (string * Z * string) :=
  match o with
  | Done _ =>
      (combo_name c, n, "SUCCESS")
      :: match per_grasp_error n with
         | Some e => [(combo_name c, 0, "FAILED: " ++ e)]
         | None => []
         end
  | Raised KeyboardInterrupt => [(combo_name c, 0, "INTERRUPTED")]
  | Raised (Exception e) => [(combo_name c, 0, "FAILED: " ++ e)]
  | Raised (SystemExit _) => []
  end.

(** The one entry recorded for a generation when nothing goes wrong
    in the driver itself.  (A generation that leaves the program
    records nothing; the statements exclude it.) *)
Definition verdict (n : Z) (c : string * string) (o : outcome unit) : string * Z * string :=
  match o with
  | Done _ => (combo_name c, n, "SUCCESS")
  | Raised KeyboardInterrupt => (combo_name c, 0%Z, "INTERRUPTED")
  | Raised (Exception e) => (combo_name c, 0%Z, "FAILED: " ++ e)
  | Raised (SystemExit _) => (combo_name c, 0%Z, "")
  end.

(** The two entries a generation that succeeded leaves when the number
    of grasps is 0. *)
Definition counted_twice (c : string * string) : list (string * Z * string) :=
  [(combo_name c, 0%Z, "SUCCESS");
   (combo_name c, 0%Z, "FAILED: float division by zero")].

(** The names [argparse] lets through for [--combinations]: [None], or
    one or more of the four choices. *)
Definition parsed (combinations : option (list string)) : Prop :=
  match combinations with
  | None => True
  | Some cs => cs <> [] /\ Forall (fun c => c ∈ combination_names) cs
  end.

(** The combinations named. *)
Definition named (combinations : option (list string)) : list (string * string) :=
  match combinations with
  | None => all_combinations
  | Some cs => select cs
  end.

(** Whether the batch goes on after a generation that ended with [o]. *)
Definition goes_on (o : outcome unit) : bool :=
  match o with
  | Raised KeyboardInterrupt | Raised (SystemExit _) => false
  | _ => true
  end.

Definition exits (o : outcome unit) : Prop :=
  exists code, o = Raised (SystemExit code).

Section Calls.
Context {E : Type}.
Context (generate_data_for_shape : string -> Z -> string -> E -> outcome unit * E).

(** The generations of a batch, one combination after the other, each
    from the state the one before left, up to the first that does not
    let the batch go on: how each ended, and the state left. *)
Fixpoint calls (n : Z) (todo : list (string * string)) (e : E)
  : list (outcome unit) * E :=
  match todo with
  | [] => ([], e)
  | c :: rest =>
      let (o, e1) := generate_data_for_shape c.2 n c.1 e in
      if goes_on o then
        let (os, e2) := calls n rest e1 in (o :: os, e2)
      else ([o], e1)
  end.

End Calls.

(** The grasps a list of entries adds up to. *)
Definition entries_total (vs : list (string * Z * string)) : Z :=
  foldr (fun v acc => v.1.2 + acc)%Z 0%Z vs.

(** The average of the summary can be computed: the total number of
    grasps, when positive, converts to a float. *)
Definition averages (total : Z) : Prop :=
  (0 < total)%Z -> PrimFloat.is_infinity (Z2float total) = false.

(** The state [s] after the lines [p] were printed. *)
Definition add_printed {E} (p : list string) (s : @Run E) : @Run E :=
  mkRun (env s) (printed s ++ p)%list (readings s) (results s).

(** A command that prints and does nothing else. *)
Definition only_prints {E} (act : @B E unit) : Prop :=
  forall s, exists p, act s = (Done tt, add_printed p s).

(** Two states of a run that differ in what was printed at most. *)
Definition same_run {E} (s1 s2 : @Run E) : Prop :=
  env s1 = env s2 /\ readings s1 = readings s2 /\ results s1 = results s2.

(** Two commands that, from such states, end alike and in such states. *)
Definition alike {E A} (act1 act2 : @B E A) : Prop :=
  forall s1 s2, same_run s1 s2 ->
    fst (act1 s1) = fst (act2 s2) /\ same_run (snd (act1 s1)) (snd (act2 s2)).

(** A generation for the examples: its state is the list of the calls
    made; the SDH hand fails on cylinders. *)
Definition generate0 (object_type : string) (num_grasps : Z) (gripper_type : string)
  (e : list (string * Z * string)) : outcome unit * list (string * Z * string) :=
  (if decide (gripper_type = "sdh" /\ object_type = "cylinder")
   then Raised (Exception "no grasp found") else Done tt,
   (e ++ [(object_type, num_grasps, gripper_type)])%list).

Definition clock0 (n : nat) : float := Z2float (Z.of_nat n).

Definition fixed0 (digits : nat) (x : float) : string := "0.0".

Definition run0 : @Run (list (string * Z * string)) := mkRun [] [] 0 [].

End BatchVocabulary.
(* ================================================================== *)
(** * Vocabulary of the statements on [speak]                          *)
(* ================================================================== *)

Module VoiceVocabulary.
Import Batch Voice.

(** A text given by its ASCII characters. *)
Definition of_string (s : string) : str := map N_of_ascii (list_ascii_of_string s).

(** [sep.join(pieces)] *)
Fixpoint join (sep : str) (pieces : list str) : str :=
  match pieces with
  | [] => []
  | p :: rest =>
      match rest with
      | [] => p
      | _ :: _ => (p ++ sep ++ join sep rest)%list
      end
  end.

(** The text as [speak] cuts it: paragraph breaks turned into sentence
    breaks, the other line breaks into spaces. *)
Definition spoken_form (text : str) : str :=
  replace [newline] [space] (replace [newline; newline] [period; space] text).

Definition sentences (text : str) : list str := split [period; space] (spoken_form text).

(** A chunk, if it is not empty. *)
Definition if_any (chunk : str) : list str :=
  match chunk with
  | [] => []
  | _ :: _ => [chunk]
  end.

(** The chunks that the loop over the sentences hands on, from the
    chunk [current] on, and the chunk it is left with. *)
Fixpoint flushed (ss : list str) (current : str) : list str :=
  match ss with
  | [] => []
  | s :: rest =>
      if (length current + length s <? max_chunk_size)%nat then
        flushed rest (current ++ s ++ [period; space])%list
      else (if_any current ++ flushed rest (s ++ [period; space]))%list
  end.

Fixpoint last_chunk (ss : list str) (current : str) : str :=
  match ss with
  | [] => current
  | s :: rest =>
      if (length current + length s <? max_chunk_size)%nat then
        last_chunk rest (current ++ s ++ [period; space])%list
      else last_chunk rest (s ++ [period; space])%list
  end.

Definition chunks (ss : list str) (current : str) : list str :=
  (flushed ss current ++ if_any (last_chunk ss current))%list.

(** What [speak] has to say for a text: the text itself if it is short,
    its chunks otherwise. *)
Definition utterances (text : str) : list str :=
  if (max_chunk_size <? length text)%nat then chunks (sentences text) [] else [text].

(** A chunk within the limit, give or take a character, or else one
    sentence that is itself not below the limit. *)
Definition whole (all : list str) (chunk : str) : Prop :=
  (length chunk <= max_chunk_size + 1)%nat
  \/ exists s, s ∈ all /\ (max_chunk_size <= length s)%nat
               /\ chunk = (s ++ [period; space])%list.

(** A text without a sentence break. *)
Definition unbroken (text : str) : Prop :=
  (newline ∉ text) /\ forall i, startswith [period; space] (drop i text) = false.

Section Engine.
Context {T : Type}.
Context (say : str -> T -> outcome unit * T) (runAndWait : T -> outcome unit * T).

(** An engine that works. *)
Definition works : Prop :=
  (forall c t, (say c t).1 = Done tt) /\ (forall t, (runAndWait t).1 = Done tt).

(** An engine whose errors are instances of [Exception]. *)
Definition mild (o : outcome unit) : Prop :=
  o = Done tt \/ exists e, o = Raised (Exception e).

Definition tame : Prop :=
  (forall c t, mild (say c t).1) /\ (forall t, mild (runAndWait t).1).

(** The part of [speak] inside [try]. *)
Definition speaking (text : str) : @V T unit :=
  bind
    (if (max_chunk_size <? length text)%nat then
       bind (for_sentences say runAndWait (sentences text) [])
         (fun current_chunk => say_if_any say runAndWait current_chunk)
     else bind (tts_say say text) (fun _ => tts_runAndWait runAndWait))
    (fun _ => print Speech_completed).

End Engine.

(** ** Examples *)

(** An engine that works, and one whose [say] fails from its [k]-th
    call on; the state counts the calls of [say]. *)
Definition say_ok (c : str) (t : nat) : outcome unit * nat := (Done tt, S t).
Definition run_ok (t : nat) : outcome unit * nat := (Done tt, t).
Definition say_until (k : nat) (c : str) (t : nat) : outcome unit * nat :=
  if (t <? k)%nat then (Done tt, S t)
  else (Raised (Exception "run loop already started"), S t).

Definition session0 : @Session nat := mkSession 0%nat [] [].

(** A text of 60 sentences and 720 characters, and one of 600
    characters without a break. *)
Definition long_text : str :=
  concat (replicate 60 (of_string "A sentence. ")).
Definition long_word : str := replicate 600 97%N.

End VoiceVocabulary.

(* ================================================================== *)
(** * Facts about the base layers                                      *)
(* ================================================================== *)

Module FloatFacts.

(** Comparison of two specified floats, read the other way round. *)
Lemma SFcompare_antisym (x y : spec_float) :
  SFcompare y x = option_map CompOpp (SFcompare x y).
Proof.
  destruct x as [sx|sx| |sx mx ex], y as [sy|sy| |sy my ey]; simpl;
    try reflexivity;
    try (destruct sx; reflexivity);
    try (destruct sy; reflexivity);
    try (destruct sx, sy; reflexivity).
  pose proof (Pos.compare_cont_antisym mx my Eq) as H. simpl in H.
  change (Pos.compare_cont Eq my mx) with (PosDef.Pos.compare_cont Eq my mx) in H.
  change (Pos.compare_cont Eq mx my) with (PosDef.Pos.compare_cont Eq mx my) in H.
  destruct sx, sy; simpl; try reflexivity;
    rewrite (Z.compare_antisym ex ey);
    destruct (ex ?= ey)%Z; simpl; try reflexivity;
    rewrite <- H; destruct (PosDef.Pos.compare_cont Eq mx my); reflexivity.
Qed.

(** [x <= y] excludes [y < x]. *)
Lemma leb_not_ltb (x y : float) :
  (x <=? y)%float = true -> (y <? x)%float = false.
Proof.
  rewrite FloatAxioms.leb_spec, FloatAxioms.ltb_spec. unfold SFleb, SFltb.
  rewrite (SFcompare_antisym (Prim2SF x) (Prim2SF y)).
  destruct (SFcompare (Prim2SF x) (Prim2SF y)) as [[]|]; simpl; congruence.
Qed.

Lemma ltb_not_leb (x y : float) :
  (x <? y)%float = true -> (y <=? x)%float = false.
Proof.
  intros H. destruct (y <=? x)%float eqn:E; [|reflexivity].
  apply leb_not_ltb in E. congruence.
Qed.

(** A float above zero is not zero: the guard of a quotient. *)
Lemma ltb_zero_not_eqb (x : float) :
  (0 <? x)%float = true -> (x =? 0)%float = false.
Proof.
  rewrite FloatAxioms.ltb_spec, FloatAxioms.eqb_spec. unfold SFltb, SFeqb.
  rewrite (SFcompare_antisym (Prim2SF 0) (Prim2SF x)).
  destruct (SFcompare (Prim2SF 0) (Prim2SF x)) as [[]|]; simpl; congruence.
Qed.

(** ** Integers beyond the floats *)

(** The digits of a positive number. *)
Lemma digits2_pos_bounds (q : positive) :
  2 ^ (Z.pos (digits2_pos q) - 1) <= Z.pos q < 2 ^ Z.pos (digits2_pos q).
Proof.
  induction q as [q IH|q IH|]; cbn [digits2_pos].
  - rewrite Pos2Z.inj_succ. replace (Z.succ (Z.pos (digits2_pos q)) - 1)
      with (Z.succ (Z.pos (digits2_pos q) - 1)) by lia.
    rewrite !Z.pow_succ_r by lia. lia.
  - rewrite Pos2Z.inj_succ. replace (Z.succ (Z.pos (digits2_pos q)) - 1)
      with (Z.succ (Z.pos (digits2_pos q) - 1)) by lia.
    rewrite !Z.pow_succ_r by lia. lia.
  - cbn. lia.
Qed.

(** One shift to the right halves a mantissa that is not negative. *)
Lemma shr_1_m mrs : 0 <= shr_m mrs -> shr_m (shr_1 mrs) = shr_m mrs / 2.
Proof.
  destruct mrs as [m r s]. cbn [shr_m]. intros Hm.
  destruct m as [|[p|p|]|p]; cbn [shr_1 shr_m]; try lia; try reflexivity.
  all: first [apply (Z.div_unique _ 2 _ 1); lia | apply (Z.div_unique _ 2 _ 0); lia].
Qed.

Lemma iter_shr_1_m (p : positive) : forall mrs,
  0 <= shr_m mrs -> shr_m (SpecFloat.iter_pos shr_1 p mrs) = shr_m mrs / 2 ^ Z.pos p.
Proof.
  induction p as [p IH|p IH|]; intros mrs Hm; cbn [SpecFloat.iter_pos].
  - assert (H1 : 0 <= shr_m (shr_1 mrs))
      by (rewrite shr_1_m by exact Hm; apply Z.div_pos; lia).
    assert (H2 : 0 <= shr_m (SpecFloat.iter_pos shr_1 p (shr_1 mrs)))
      by (rewrite IH by exact H1; apply Z.div_pos; [exact H1|lia]).
    rewrite IH by exact H2. rewrite IH by exact H1. rewrite shr_1_m by exact Hm.
    rewrite !Z.div_div by lia. f_equal.
    assert (E : Z.pos p~1 = Z.succ (Z.pos p + Z.pos p)) by lia.
    rewrite E, Z.pow_succ_r, Z.pow_add_r by lia. ring.
  - assert (H2 : 0 <= shr_m (SpecFloat.iter_pos shr_1 p mrs))
      by (rewrite IH by exact Hm; apply Z.div_pos; [exact Hm|lia]).
    rewrite IH by exact H2. rewrite IH by exact Hm.
    rewrite !Z.div_div by lia. f_equal.
    assert (E : Z.pos p~0 = Z.pos p + Z.pos p) by lia.
    rewrite E, Z.pow_add_r by lia. reflexivity.
  - rewrite shr_1_m by exact Hm. reflexivity.
Qed.

(** A shift by fewer places than the mantissa has digits leaves a
    positive mantissa, and never lowers the exponent. *)
Lemma shr_positive (q : positive) r s e n :
  n < Z.pos (digits2_pos q) ->
  exists q', shr_m (fst (shr (Build_shr_record (Z.pos q) r s) e n)) = Z.pos q'
             /\ snd (shr (Build_shr_record (Z.pos q) r s) e n) = e + Z.max 0 n.
Proof.
  intros Hn. destruct n as [|p|p]; cbn [shr fst snd shr_m].
  - exists q. split; [reflexivity|lia].
  - rewrite iter_shr_1_m by (cbn; lia). cbn [shr_m].
    pose proof (digits2_pos_bounds q) as [Hlo _].
    assert (Hle : 2 ^ Z.pos p <= Z.pos q).
    { etransitivity; [|exact Hlo]. apply Z.pow_le_mono_r; lia. }
    assert (Hq : 1 <= Z.pos q / 2 ^ Z.pos p).
    { apply Z.div_le_lower_bound; lia. }
    destruct (Z.pos q / 2 ^ Z.pos p) as [|q'|q'] eqn:E; try lia.
    exists q'. split; [reflexivity|lia].
  - exists q. split; [reflexivity|lia].
Qed.

Lemma round_nearest_even_ge mx lx : mx <= round_nearest_even mx lx.
Proof.
  destruct lx as [|[| |]]; cbn [round_nearest_even]; try lia.
  destruct (Z.even mx); lia.
Qed.

(** An integer from [2 ^ 1024] on rounds to infinity. *)
Lemma binary_normalize_overflow (z : Z) :
  2 ^ 1024 <= z -> binary_normalize prec emax z 0 false = S754_infinity false.
Proof.
  intros Hz. destruct z as [|q|q]; [lia| |lia]. cbn [binary_normalize].
  pose proof (digits2_pos_bounds q) as [_ Hhi].
  assert (Hd : 1025 <= Z.pos (digits2_pos q)).
  { assert (H : 2 ^ 1024 < 2 ^ Z.pos (digits2_pos q)) by lia.
    apply Z.pow_lt_mono_r_iff in H; lia. }
  assert (Hfexp : fexp prec emax (Z.pos (digits2_pos q) + 0) = Z.pos (digits2_pos q) - 53).
  { unfold fexp, SpecFloat.emin, prec, emax. lia. }
  unfold binary_round. rewrite Hfexp. unfold shl_align.
  destruct (Z.pos (digits2_pos q) - 53 - 0) as [|p|p] eqn:Ed; try lia. clear p Ed.
  unfold binary_round_aux, shr_fexp. cbn [Zdigits2 shr_record_of_loc].
  rewrite Hfexp.
  destruct (shr_positive q false false 0 (Z.pos (digits2_pos q) - 53 - 0))
    as (q1 & Hq1 & He1); [lia|].
  destruct (shr (Build_shr_record (Z.pos q) false false) 0
              (Z.pos (digits2_pos q) - 53 - 0)) as [mrs1 e1].
  cbn [fst snd] in Hq1, He1.
  assert (He1' : 972 <= e1) by lia.
  pose proof (round_nearest_even_ge (shr_m mrs1) (loc_of_shr_record mrs1)) as Hr.
  destruct (round_nearest_even (shr_m mrs1) (loc_of_shr_record mrs1)) as [|q2|q2];
    try lia.
  cbn [Zdigits2].
  destruct (shr_positive q2 false false e1
              (fexp prec emax (Z.pos (digits2_pos q2) + e1) - e1)) as (q3 & Hq3 & He3).
  { unfold fexp, SpecFloat.emin, prec, emax. lia. }
  destruct (shr (Build_shr_record (Z.pos q2) false false) e1
              (fexp prec emax (Z.pos (digits2_pos q2) + e1) - e1)) as [mrs2 e2].
  cbn [fst snd] in Hq3, He3. rewrite Hq3.
  destruct (Z.leb_spec e2 (emax - prec)) as [H|_]; [|reflexivity].
  unfold emax, prec in H. lia.
Qed.

Lemma Z2float_finite_bound (z : Z) :
  PrimFloat.is_infinity (Py.Z2float z) = false -> z < 2 ^ 1024.
Proof.
  intros H. destruct (Z.lt_ge_cases z (2 ^ 1024)) as [Hlt|Hge]; [exact Hlt|].
  unfold Py.Z2float in H. rewrite (binary_normalize_overflow z Hge) in H.
  vm_compute in H. discriminate.
Qed.

(** An int that converts to a float has a decimal text within the
    limit, and so has its product with a length. *)
Lemma finite_printable (z : Z) :
  PrimFloat.is_infinity (Py.Z2float z) = false -> 0 <= z -> Py.printable z = true.
Proof.
  intros H Hz. apply Z2float_finite_bound in H. unfold Py.printable.
  apply Z.ltb_lt. rewrite Z.abs_eq by exact Hz.
  eapply Z.lt_trans; [exact H|]. vm_compute. reflexivity.
Qed.

Lemma finite_times_printable (z k : Z) :
  PrimFloat.is_infinity (Py.Z2float z) = false -> 0 <= z -> 0 <= k <= 2 ^ 63 ->
  Py.printable (z * k) = true.
Proof.
  intros H Hz Hk. apply Z2float_finite_bound in H. unfold Py.printable.
  apply Z.ltb_lt. rewrite Z.abs_eq by (apply Z.mul_nonneg_nonneg; lia).
  apply (Z.le_lt_trans _ (2 ^ 1024 * 2 ^ 63)).
  - apply Z.mul_le_mono_nonneg; lia.
  - vm_compute. reflexivity.
Qed.

End FloatFacts.

Module BulletFacts.
Import Py Bullet Vocabulary.
#[local] Open Scope py_scope.

(** Running the monad's operations. *)
Lemma bind_ok {S A B} (m : M S A) (k : A -> M S B) s a s' :
  m s = (Ok a, s') -> bind m k s = k a s'.
Proof. intros H. unfold bind. rewrite H. reflexivity. Qed.

Lemma bind_raise {S A B} (m : M S A) (k : A -> M S B) s e s' :
  m s = (Raise e, s') -> bind m k s = (Raise e, s').
Proof. intros H. unfold bind. rewrite H. reflexivity. Qed.

Lemma need_server_ok w :
  connected (engine w) = true -> need_server w = (Ok tt, w).
Proof. intros H. unfold need_server, isConnected, bind, gets. rewrite H. reflexivity. Qed.

Lemma need_server_off w :
  connected (engine w) = false ->
  need_server w = (Raise (Exn BulletError "Not connected to physics server."), w).
Proof. intros H. unfold need_server, isConnected, bind, gets. rewrite H. reflexivity. Qed.

Lemma sleep_ok secs w :
  sleep_accepts w secs = true -> sleep secs w = (Ok tt, log (EvSleep secs) w).
Proof.
  unfold sleep_accepts, sleep_at, sleep. intros H.
  destruct (PrimFloat.is_nan secs); [discriminate|].
  destruct ((-0x1p63 <=? secs * 1e9)%float && (secs * 1e9 <=? 0x1p63)%float)%bool;
    [|discriminate].
  cbn [negb andb] in H |- *.
  destruct (as_PyTime_t (secs * 1e9) <? 0); [discriminate|].
  cbn [negb andb] in H. unfold bind, gets. rewrite H. reflexivity.
Qed.

(** A sleep that does not start raises, and changes nothing. *)
Lemma sleep_refused secs w :
  sleep_accepts w secs = false ->
  exists k msg, sleep secs w = (Raise (Exn k msg), w)
                /\ (k = ValueError \/ k = OverflowError \/ k = OSError).
Proof.
  unfold sleep_accepts, sleep_at, sleep. intros H.
  destruct (PrimFloat.is_nan secs); [eexists _, _; split; [reflexivity|tauto]|].
  destruct ((-0x1p63 <=? secs * 1e9)%float && (secs * 1e9 <=? 0x1p63)%float)%bool;
    [|eexists _, _; split; [reflexivity|tauto]].
  cbn [negb andb] in H |- *.
  destruct (as_PyTime_t (secs * 1e9) <? 0); [eexists _, _; split; [reflexivity|tauto]|].
  cbn [negb andb] in H. unfold bind, gets. rewrite H.
  eexists _, _; split; [reflexivity|tauto].
Qed.

(** The later the clock, the fewer sleeps start. *)
Lemma sleep_at_earlier now now' secs :
  now <= now' -> sleep_at now' secs = true -> sleep_at now secs = true.
Proof.
  unfold sleep_at. intros Hle H.
  apply andb_prop in H as [H H4]. rewrite H. cbn [andb].
  apply Z.leb_le in H4. apply Z.leb_le. lia.
Qed.

Lemma reading_range w n : 0 <= reading w n <= clock_max.
Proof. unfold reading, clock_max. lia. Qed.

Lemma short_at secs w n : short secs = true -> sleep_at (reading w n) secs = true.
Proof. apply sleep_at_earlier, reading_range. Qed.

Lemma short_accepts secs w : short secs = true -> sleep_accepts w secs = true.
Proof. apply short_at. Qed.

Lemma short_pauses_start secs w n : short secs = true -> pauses_start w n secs.
Proof. intros H k _. apply short_at, H. Qed.

Lemma pauses_snoc evs ev :
  pauses (evs ++ [ev])
  = (pauses evs + match ev with EvSleep _ => 1 | _ => 0 end)%nat.
Proof.
  induction evs as [|e evs IH]; [destruct ev; reflexivity|].
  destruct e; cbn [app pauses]; rewrite IH; reflexivity.
Qed.

(** The pauses that start after one has. *)
Lemma pauses_start_next w' w n secs :
  timer w' = timer w ->
  pauses (trace w') = Datatypes.S (pauses (trace w)) ->
  pauses_start w (Datatypes.S n) secs ->
  pauses_start w' n secs.
Proof.
  intros Ht Hp H k Hk. unfold reading. rewrite Ht, Hp.
  replace (Datatypes.S (pauses (trace w)) + k)%nat
    with (pauses (trace w) + Datatypes.S k)%nat by lia.
  apply (H (Datatypes.S k)). lia.
Qed.

Lemma pauses_start_now w n secs :
  pauses_start w (Datatypes.S n) secs -> sleep_at (reading w (pauses (trace w))) secs = true.
Proof. intros H. specialize (H O). rewrite Nat.add_0_r in H. apply H. lia. Qed.

(** A tick of the simulation is no pause. *)
Lemma after_step_pauses solver w :
  pauses (trace (after_step solver w)) = pauses (trace w).
Proof. unfold after_step, log. cbn [trace]. rewrite pauses_snoc. apply Nat.add_0_r. Qed.

Lemma pauses_start_tick solver w n secs :
  pauses_start w n secs -> pauses_start (after_step solver w) n secs.
Proof.
  intros H k Hk. rewrite after_step_pauses. exact (H k Hk).
Qed.

Lemma sleep_accepts_tick solver w secs :
  sleep_accepts (after_step solver w) secs = sleep_accepts w secs.
Proof. unfold sleep_accepts, monotonic. rewrite after_step_pauses. reflexivity. Qed.

Lemma getBasePositionAndOrientation_ok body w b :
  connected (engine w) = true ->
  bodies (engine w) !! body = Some b ->
  getBasePositionAndOrientation body w = (Ok (base_pos (kin b), base_orn (kin b)), w).
Proof.
  intros Hc Hb. unfold getBasePositionAndOrientation.
  rewrite (bind_ok _ _ _ _ _ (need_server_ok w Hc)).
  unfold bind, gets. rewrite Hb. reflexivity.
Qed.

(** ** What a successful command leaves behind *)

Lemma resetBaseVelocity_ok body v w :
  connected (engine w) = true ->
  resetBaseVelocity body v w = (Ok tt, after_reset body v w).
Proof.
  intros Hc. unfold resetBaseVelocity.
  rewrite (bind_ok _ _ _ _ _ (need_server_ok w Hc)). reflexivity.
Qed.

Lemma stepSimulation_ok solver w :
  connected (engine w) = true ->
  stepSimulation solver w = (Ok tt, after_step solver w).
Proof.
  intros Hc. unfold stepSimulation.
  rewrite (bind_ok _ _ _ _ _ (need_server_ok w Hc)). reflexivity.
Qed.

Section Cycles.
Context (solver : Solver) (body : nat) (v : vec3) (dt : float).

Lemma cycle_connected w :
  connected (engine (cycle solver body v dt w)) = connected (engine w).
Proof. reflexivity. Qed.

Lemma cycles_connected n w :
  connected (engine (cycles solver body v dt n w)) = connected (engine w).
Proof. revert w. induction n as [|n IH]; intros w; simpl; [reflexivity|]. rewrite IH. reflexivity. Qed.

Lemma cycle_trace w :
  trace (cycle solver body v dt w)
  = trace w ++ [EvResetBaseVelocity body v; EvStepSimulation; EvSleep dt].
Proof. unfold cycle, after_step, after_reset. simpl. rewrite <- !app_assoc. reflexivity. Qed.

Lemma cycles_trace n w :
  trace (cycles solver body v dt n w)
  = trace w
    ++ concat (repeat [EvResetBaseVelocity body v; EvStepSimulation; EvSleep dt] n).
Proof.
  revert w. induction n as [|n IH]; intros w; simpl.
  - rewrite app_nil_r. reflexivity.
  - rewrite IH, cycle_trace, <- app_assoc. reflexivity.
Qed.

Lemma cycles_ticks n w :
  ticks (engine (cycles solver body v dt n w)) = (ticks (engine w) + n)%nat.
Proof.
  revert w. induction n as [|n IH]; intros w; simpl; [lia|].
  rewrite IH. simpl. lia.
Qed.

Lemma cycle_bodies_length w :
  length (bodies (engine (cycle solver body v dt w))) = length (bodies (engine w)).
Proof. simpl. rewrite length_imap. unfold alter. apply length_alter. Qed.

Lemma cycles_bodies_length n w :
  length (bodies (engine (cycles solver body v dt n w))) = length (bodies (engine w)).
Proof.
  revert w. induction n as [|n IH]; intros w; simpl; [reflexivity|].
  rewrite IH. apply cycle_bodies_length.
Qed.

(** The loop of a vertical motion on a live server, with a pause the
    interpreter accepts. *)
Lemma motion_loop_ok n w :
  connected (engine w) = true ->
  pauses_start w n dt ->
  repeat_n n (resetBaseVelocity body v ;; stepSimulation solver ;; sleep dt) w
  = (Ok tt, cycles solver body v dt n w).
Proof.
  revert w. induction n as [|n IH]; intros w Hc Hs; simpl; [reflexivity|].
  unfold bind at 1.
  rewrite (bind_ok _ _ _ _ _ (resetBaseVelocity_ok body v w Hc)).
  rewrite (bind_ok _ _ _ _ _ (stepSimulation_ok solver (after_reset body v w) Hc)).
  assert (Hp : pauses (trace (after_step solver (after_reset body v w)))
               = pauses (trace w)).
  { unfold after_step, after_reset, log. cbn [trace set_engine].
    rewrite !pauses_snoc. lia. }
  rewrite (sleep_ok dt _).
  - apply IH; [exact Hc|].
    apply (pauses_start_next _ w n dt); [reflexivity| |exact Hs].
    unfold cycle, log. cbn [trace]. rewrite pauses_snoc, Hp. lia.
  - unfold sleep_accepts, monotonic. rewrite Hp.
    exact (pauses_start_now w n dt Hs).
Qed.

End Cycles.

(** After [resetBaseVelocity], the body moves as told. *)
Lemma after_reset_lookup body v w b :
  bodies (engine w) !! body = Some b ->
  bodies (engine (after_reset body v w)) !! body
  = Some (mkBody (set_lin_vel v (kin b)) (joint_types b)).
Proof.
  intros Hb. unfold after_reset, log, set_engine, set_kin, set_bodies.
  cbn [engine bodies]. rewrite list_lookup_alter, Hb.
  rewrite decide_True by reflexivity. reflexivity.
Qed.

End BulletFacts.

(* ================================================================== *)
(** * The outcome classifier                                           *)
(* ================================================================== *)

Module MetricsProofs.
Import Py Bullet Metrics Vocabulary FloatFacts BulletFacts Examples.
#[local] Open Scope py_scope.

(** C1. With the server connected and the target body known to it,
    [assess_grasp_quality] pauses, reads the body's position, and
    returns the difference of the two heights together with the code 1
    exactly when the difference is above 0.1, the code 2 exactly when
    it lies between 0.05 and 0.1 (both included), and the code 0 in
    every other case; the two boundary values give the code 2. *)
Theorem assess_grasp_quality_tiers (self : PerformanceMetrics) (target_id : nat)
  (start_position : vec3) (w : World) (b : Body) :
  connected (engine w) = true ->
  bodies (engine w) !! target_id = Some b ->
  let end_position := base_pos (kin b) in
  let delta := (vz end_position - vz start_position)%float in
  exists code : Z,
    assess_grasp_quality self target_id start_position w
      = (Ok (code, delta, end_position), log (EvSleep 0.5) w)
    /\ (code = 1 <-> (0.1 <? delta)%float = true)
    /\ (code = 2 <-> (0.05 <=? delta)%float = true /\ (delta <=? 0.1)%float = true)
    /\ (code = 0 <-> ~ (0.1 <? delta)%float = true
                     /\ ~ ((0.05 <=? delta)%float = true /\ (delta <=? 0.1)%float = true))
    /\ (delta = 0.05%float -> code = 2)
    /\ (delta = 0.1%float -> code = 2).
Proof.
  intros Hc Hb end_position delta.
  assert (Hrun : forall code,
    code = (if (0.1 <? delta)%float then 1
            else if ((0.05 <=? delta)%float && (delta <=? 0.1)%float)%bool then 2 else 0) ->
    assess_grasp_quality self target_id start_position w
      = (Ok (code, delta, end_position), log (EvSleep 0.5) w)).
  { intros code ->. unfold assess_grasp_quality.
    rewrite (bind_ok _ _ w tt (log (EvSleep 0.5) w)) by (apply sleep_ok, short_accepts; vm_compute; reflexivity).
    unfold bind at 1. unfold isConnected, gets. simpl. rewrite Hc. simpl.
    rewrite (bind_ok _ _ _ _ _
      (getBasePositionAndOrientation_ok target_id (log (EvSleep 0.5) w) b Hc Hb)).
    reflexivity. }
  destruct (0.1 <? delta)%float eqn:Hgt.
  - exists 1. split; [apply Hrun; reflexivity|].
    assert (Hle : (delta <=? 0.1)%float = false) by (apply ltb_not_leb; exact Hgt).
    split; [tauto|]. split; [split; [discriminate|intros [_ H]; congruence]|].
    split; [split; [discriminate|intros [H _]; congruence]|].
    split; intros E; rewrite E in Hgt; vm_compute in Hgt; discriminate.
  - destruct ((0.05 <=? delta)%float && (delta <=? 0.1)%float)%bool eqn:Hmid.
    + exists 2. split; [apply Hrun; reflexivity|].
      apply andb_prop in Hmid.
      split; [split; discriminate|]. split; [tauto|].
      split; [split; [discriminate|tauto]|]. tauto.
    + exists 0. split; [apply Hrun; reflexivity|].
      apply andb_false_iff in Hmid.
      split; [split; discriminate|].
      split; [split; [discriminate|intros [H1 H2]; destruct Hmid; congruence]|].
      split; [split; [intros _; split; [discriminate|]|reflexivity]|].
      * intros [H1 H2]. destruct Hmid; congruence.
      * split; intros E; rewrite E in Hmid; vm_compute in Hmid;
          destruct Hmid; discriminate.
Qed.

Lemma assess_grasp_quality_tiers_witness :
  connected (engine (world0 true)) = true
  /\ bodies (engine (world0 true)) !! 0%nat = Some body0
  /\ exists code : Z,
       assess_grasp_quality metrics0 0 (Vec3 0 0 0.4) (world0 true)
         = (Ok (code, (0.45 - 0.4)%float, Vec3 0 0 0.45), log (EvSleep 0.5) (world0 true))
       /\ (code = 1 <-> (0.1 <? 0.45 - 0.4)%float = true)
       /\ (code = 2 <-> (0.05 <=? 0.45 - 0.4)%float = true
                        /\ (0.45 - 0.4 <=? 0.1)%float = true)
       /\ (code = 0 <-> ~ (0.1 <? 0.45 - 0.4)%float = true
                        /\ ~ ((0.05 <=? 0.45 - 0.4)%float = true
                              /\ (0.45 - 0.4 <=? 0.1)%float = true))
       /\ ((0.45 - 0.4)%float = 0.05%float -> code = 2)
       /\ ((0.45 - 0.4)%float = 0.1%float -> code = 2).
Proof.
  split; [reflexivity|]. split; [reflexivity|].
  exact (assess_grasp_quality_tiers metrics0 0 (Vec3 0 0 0.4) (world0 true) body0
           eq_refl eq_refl).
Defined.

(** The classifier on a concrete lift.  The difference is the binary64
    one: 0.45 - 0.4 falls just below the binary64 value of 0.05, so a
    body read at 0.45 after a start at 0.4 is a failure. *)
Example assess_lift_below_threshold :
  fst (assess_grasp_quality metrics0 0 (Vec3 0 0 0.4) (world0 true))
  = Ok (0, (0.45 - 0.4)%float, Vec3 0 0 0.45)
  /\ (0.45 - 0.4 <? 0.05)%float = true.
Proof. split; vm_compute; reflexivity. Qed.

(** C2. With the server disconnected, [assess_grasp_quality] pauses
    and returns normally the code 0, the difference 0.0 and the start
    position it was given; nothing is asked of the server. *)
Theorem assess_grasp_quality_disconnected (self : PerformanceMetrics) (target_id : nat)
  (start_position : vec3) (w : World) :
  connected (engine w) = false ->
  assess_grasp_quality self target_id start_position w
    = (Ok (0, 0.0%float, start_position), log (EvSleep 0.5) w).
Proof.
  intros Hc. unfold assess_grasp_quality.
  rewrite (bind_ok _ _ w tt (log (EvSleep 0.5) w)) by (apply sleep_ok, short_accepts; vm_compute; reflexivity).
  unfold bind, isConnected, gets. simpl. rewrite Hc. reflexivity.
Qed.

Lemma assess_grasp_quality_disconnected_witness :
  connected (engine (world0 false)) = false
  /\ assess_grasp_quality metrics0 0 (Vec3 0 0 0.4) (world0 false)
     = (Ok (0, 0.0%float, Vec3 0 0 0.4), log (EvSleep 0.5) (world0 false)).
Proof.
  split; [reflexivity|].
  exact (assess_grasp_quality_disconnected metrics0 0 (Vec3 0 0 0.4) (world0 false) eq_refl).
Defined.

(** Reading the position is what the guard avoids: without a server
    the call would raise. *)
Lemma getBasePositionAndOrientation_disconnected (body : nat) (w : World) :
  connected (engine w) = false ->
  raises (fst (getBasePositionAndOrientation body w)) BulletError.
Proof.
  intros Hc. unfold getBasePositionAndOrientation.
  rewrite (bind_raise _ _ _ _ _ (need_server_off w Hc)). reflexivity.
Qed.

End MetricsProofs.

(* ================================================================== *)
(** * The vertical-motion primitive                                    *)
(* ================================================================== *)

Module MotionProofs.
Import Py Bullet Vocabulary FloatFacts BulletFacts Examples.
#[local] Open Scope py_scope.

(** Both hierarchies run the same code on the instance's body. *)
Lemma vertical_motion_unfold solver i target steps dt :
  Contract.vertical_motion solver i target steps dt
  = (pq <- getBasePositionAndOrientation (Contract.body i) ;;
     inc <- lift (Manipulator.height_increment target (vz (fst pq)) steps) ;;
     vel <- lift (Manipulator.vertical_velocity inc dt) ;;
     for_range steps
       (resetBaseVelocity (Contract.body i) (Vec3 0 0 vel) ;;
        stepSimulation solver ;;
        sleep dt) ;;
     resetBaseVelocity (Contract.body i) (Vec3 0 0 0)).
Proof. destruct i; reflexivity. Qed.

(** ** The guarded quotients *)

Lemma height_increment_pos target z steps :
  0 < steps ->
  PrimFloat.is_infinity (Z2float steps) = false ->
  Manipulator.height_increment target z steps = Ok ((target - z) / Z2float steps)%float.
Proof.
  intros Hpos Hfin. unfold Manipulator.height_increment, float_truediv_int, float_of_int.
  destruct (Z.ltb_spec 0 steps) as [_|]; [|lia].
  rewrite Hfin. destruct (Z.eqb_spec steps 0) as [|_]; [lia|]. reflexivity.
Qed.

Lemma height_increment_nonpos target z steps :
  steps <= 0 -> Manipulator.height_increment target z steps = Ok 0.0%float.
Proof.
  intros H. unfold Manipulator.height_increment.
  destruct (Z.ltb_spec 0 steps); [lia|reflexivity].
Qed.

Lemma vertical_velocity_pos inc dt :
  (0 <? dt)%float = true ->
  Manipulator.vertical_velocity inc dt = Ok (inc / dt)%float.
Proof.
  intros H. unfold Manipulator.vertical_velocity, float_truediv.
  rewrite H, (ltb_zero_not_eqb dt H). reflexivity.
Qed.

Lemma vertical_velocity_nonpos inc dt :
  (0 <? dt)%float = false -> Manipulator.vertical_velocity inc dt = Ok 0.0%float.
Proof. intros H. unfold Manipulator.vertical_velocity. rewrite H. reflexivity. Qed.

Lemma vertical_velocity_defined inc dt :
  exists vel, Manipulator.vertical_velocity inc dt = Ok vel.
Proof.
  destruct (0 <? dt)%float eqn:H.
  - eexists. apply vertical_velocity_pos. exact H.
  - eexists. apply vertical_velocity_nonpos. exact H.
Qed.

(** Neither quotient divides by zero. *)
Lemma height_increment_no_zero_division target z steps :
  ~ raises (Manipulator.height_increment target z steps) ZeroDivisionError.
Proof.
  unfold Manipulator.height_increment, float_truediv_int, float_of_int.
  destruct (Z.ltb_spec 0 steps) as [Hpos|]; [|intros []].
  destruct (PrimFloat.is_infinity (Z2float steps)); [simpl; discriminate|].
  destruct (Z.eqb_spec steps 0); [lia|intros []].
Qed.

Lemma vertical_velocity_no_zero_division inc dt :
  ~ raises (Manipulator.vertical_velocity inc dt) ZeroDivisionError.
Proof.
  unfold Manipulator.vertical_velocity, float_truediv.
  destruct (0 <? dt)%float eqn:H; [|intros []].
  rewrite (ltb_zero_not_eqb dt H). intros [].
Qed.

(** ** Commands never divide *)

Lemma nzd_bind {A B} (m : M World A) (k : A -> M World B) :
  no_zero_division m -> (forall a, no_zero_division (k a)) -> no_zero_division (bind m k).
Proof.
  intros Hm Hk w. unfold bind. specialize (Hm w).
  destruct (m w) as [[a|e] w']; simpl in *; [apply Hk|exact Hm].
Qed.

Lemma nzd_need_server : no_zero_division need_server.
Proof.
  intros w. unfold need_server, isConnected, bind, gets.
  destruct (connected (engine w)); simpl; [tauto|discriminate].
Qed.

Lemma nzd_modify f : no_zero_division (modify f).
Proof. intros w. simpl. tauto. Qed.

Lemma nzd_resetBaseVelocity body v : no_zero_division (resetBaseVelocity body v).
Proof. apply nzd_bind; [apply nzd_need_server|intros _; apply nzd_modify]. Qed.

Lemma nzd_stepSimulation solver : no_zero_division (stepSimulation solver).
Proof. apply nzd_bind; [apply nzd_need_server|intros _; apply nzd_modify]. Qed.

Lemma nzd_sleep secs : no_zero_division (sleep secs).
Proof.
  intros w. unfold sleep.
  destruct (PrimFloat.is_nan secs); [simpl; discriminate|].
  destruct (negb _); [simpl; discriminate|].
  cbv zeta. destruct (as_PyTime_t (secs * 1e9) <? 0); [simpl; discriminate|].
  unfold bind, gets. destruct (monotonic w + _ <=? PyTime_MAX); simpl; [tauto|discriminate].
Qed.

Lemma nzd_getBasePositionAndOrientation body :
  no_zero_division (getBasePositionAndOrientation body).
Proof.
  apply nzd_bind; [apply nzd_need_server|intros _].
  intros w. unfold bind, gets.
  destruct (bodies (engine w) !! body); simpl; [tauto|discriminate].
Qed.

Lemma nzd_repeat_n n (body : M World unit) :
  no_zero_division body -> no_zero_division (repeat_n n body).
Proof.
  intros Hb. induction n as [|n IH]; simpl.
  - intros w. simpl. tauto.
  - apply nzd_bind; [exact Hb|intros _; exact IH].
Qed.

Lemma nzd_lift {A} (r : result A) :
  ~ raises r ZeroDivisionError -> no_zero_division (lift r).
Proof. intros H w. exact H. Qed.

(** C4 (as amended). On a live server that knows the instance's body,
    for a positive step count that converts to a float and a positive
    step time for which each of the pauses starts (a duration within the
    range of the timer, with a deadline the clock can reach), the
    vertical motion reads the body's height once, commands the constant
    vertical velocity ((target - current_z) / steps) / step_time before
    each of exactly [steps] simulation ticks, each followed by a pause
    of [step_time], then commands the zero velocity and returns; the
    body is left with zero linear velocity. *)
Theorem vertical_motion_commands (solver : Solver) (i : Contract.Instance)
  (target : float) (steps : Z) (step_time : float) (w : World) (b : Body) :
  connected (engine w) = true ->
  bodies (engine w) !! Contract.body i = Some b ->
  0 < steps ->
  PrimFloat.is_infinity (Z2float steps) = false ->
  (0 <? step_time)%float = true ->
  pauses_start w (Z.to_nat steps) step_time ->
  let current_z := vz (base_pos (kin b)) in
  let v := ((target - current_z) / Z2float steps / step_time)%float in
  exists w',
    Contract.vertical_motion solver i target steps step_time w = (Ok tt, w')
    /\ trace w'
       = trace w
         ++ concat (repeat [EvResetBaseVelocity (Contract.body i) (Vec3 0 0 v);
                            EvStepSimulation;
                            EvSleep step_time] (Z.to_nat steps))
         ++ [EvResetBaseVelocity (Contract.body i) (Vec3 0 0 0)]
    /\ ticks (engine w') = (ticks (engine w) + Z.to_nat steps)%nat
    /\ exists b', bodies (engine w') !! Contract.body i = Some b'
                  /\ lin_vel (kin b') = Vec3 0 0 0.
Proof.
  intros Hc Hb Hpos Hfin Hdt Hs current_z v.
  set (n := Z.to_nat steps).
  set (w1 := cycles solver (Contract.body i) (Vec3 0 0 v) step_time n w).
  assert (Hc1 : connected (engine w1) = true)
    by (unfold w1; rewrite cycles_connected; exact Hc).
  destruct (lookup_lt_is_Some_2 (bodies (engine w1)) (Contract.body i)) as [b1 Hb1].
  { unfold w1. rewrite cycles_bodies_length. eapply lookup_lt_Some, Hb. }
  exists (after_reset (Contract.body i) (Vec3 0 0 0) w1).
  split; [|split; [|split]].
  - rewrite vertical_motion_unfold.
    rewrite (bind_ok _ _ _ _ _ (getBasePositionAndOrientation_ok _ w b Hc Hb)).
    cbn [fst].
    unfold lift at 1, bind at 1.
    rewrite (height_increment_pos target _ steps Hpos Hfin).
    unfold lift at 1, bind at 1.
    rewrite (vertical_velocity_pos _ step_time Hdt).
    unfold for_range.
    rewrite (bind_ok _ _ _ _ _
      (motion_loop_ok solver (Contract.body i) (Vec3 0 0 v) step_time n w Hc Hs)).
    apply resetBaseVelocity_ok. exact Hc1.
  - unfold after_reset, log. cbn [trace set_engine]. unfold w1.
    rewrite cycles_trace, <- app_assoc. reflexivity.
  - unfold after_reset, log. cbn. unfold w1. apply cycles_ticks.
  - eexists. split; [apply after_reset_lookup; exact Hb1|reflexivity].
Qed.

Lemma vertical_motion_commands_witness :
  connected (engine world1) = true
  /\ bodies (engine world1) !! Contract.body (Contract.OfManipulator manip0)
     = Some gripper_body
  /\ 0 < 2
  /\ PrimFloat.is_infinity (Z2float 2) = false
  /\ (0 <? 0.5)%float = true
  /\ pauses_start world1 (Z.to_nat 2) 0.5
  /\ exists w',
       Contract.vertical_motion solver0 (Contract.OfManipulator manip0) 1 2 0.5 world1
       = (Ok tt, w')
       /\ trace w'
          = trace world1
            ++ concat (repeat [EvResetBaseVelocity 0
                                 (Vec3 0 0 ((1 - 0) / Z2float 2 / 0.5)%float);
                               EvStepSimulation;
                               EvSleep 0.5] (Z.to_nat 2))
            ++ [EvResetBaseVelocity 0 (Vec3 0 0 0)]
       /\ ticks (engine w') = (ticks (engine world1) + Z.to_nat 2)%nat
       /\ exists b', bodies (engine w') !! 0%nat = Some b'
                     /\ lin_vel (kin b') = Vec3 0 0 0.
Proof.
  assert (Hs : pauses_start world1 (Z.to_nat 2) 0.5)
    by (apply short_pauses_start; vm_compute; reflexivity).
  split; [reflexivity|]. split; [reflexivity|]. split; [reflexivity|].
  split; [reflexivity|]. split; [reflexivity|]. split; [exact Hs|].
  exact (vertical_motion_commands solver0 (Contract.OfManipulator manip0) 1 2 0.5
           world1 gripper_body eq_refl eq_refl eq_refl eq_refl eq_refl Hs).
Defined.

(** C4 as stated fails: from height 0 to the target height 1 in 2
    steps of 0.5, (target - current_z) / steps is 0.5, and the velocity
    commanded before each tick is 1, by either primitive.  Nor does
    every positive step count or step time do: a step count beyond the
    range of a float raises [OverflowError] before anything is
    commanded, and a step time beyond the range of the timer raises it
    at the first pause, after one command and one tick; so does, with
    an [OSError], a step time within that range whose deadline the
    clock cannot reach. *)
Lemma vertical_motion_velocity_counterexample :
  trace (snd (Manipulator.execute_vertical_motion solver0 manip0 1 2 0.5 world1))
  = [EvResetBaseVelocity 0 (Vec3 0 0 1); EvStepSimulation; EvSleep 0.5;
     EvResetBaseVelocity 0 (Vec3 0 0 1); EvStepSimulation; EvSleep 0.5;
     EvResetBaseVelocity 0 (Vec3 0 0 0)]
  /\ trace (snd (Gripper.move_up_smoothly solver0 (gripper0 Gripper.PR2Gripper) 1 2 0.5 world1))
     = [EvResetBaseVelocity 0 (Vec3 0 0 1); EvStepSimulation; EvSleep 0.5;
        EvResetBaseVelocity 0 (Vec3 0 0 1); EvStepSimulation; EvSleep 0.5;
        EvResetBaseVelocity 0 (Vec3 0 0 0)]
  /\ ((1 - vz (base_pos (kin gripper_body))) / Z2float 2)%float = 0.5%float
  /\ (0.5 =? 1)%float = false
  /\ Manipulator.execute_vertical_motion solver0 manip0 1 (2 ^ 1024) 0.5 world1
     = (Raise (Exn OverflowError "int too large to convert to float"), world1)
  /\ fst (Manipulator.execute_vertical_motion solver0 manip0 1 2 1e10 world1)
     = Raise (Exn OverflowError "timestamp too large to convert to C _PyTime_t")
  /\ trace (snd (Manipulator.execute_vertical_motion solver0 manip0 1 2 1e10 world1))
     = [EvResetBaseVelocity 0 (Vec3 0 0 (1 / 2 / 1e10)); EvStepSimulation]
  /\ fst (Manipulator.execute_vertical_motion solver0 manip0 1 2 9223372036 world1)
     = Raise (Exn OSError "[Errno 22] Invalid argument")
  /\ trace (snd (Manipulator.execute_vertical_motion solver0 manip0 1 2 9223372036 world1))
     = [EvResetBaseVelocity 0 (Vec3 0 0 (1 / 2 / 9223372036)); EvStepSimulation].
Proof. repeat split; vm_compute; reflexivity. Qed.

(** C10 (as amended). Whatever the target, the step count, the step
    time and the world, a vertical motion raises no
    [ZeroDivisionError]: a step count that is not positive makes the
    height increment 0.0 and a step time that is not above zero makes
    the velocity 0.0, without dividing.  On a live server that knows
    the body, the motion returns normally, its last command being the
    reset of the velocity to zero, whenever the loop is empty (the
    step count is not positive) or the step count converts to a float
    and each of the pauses starts (the step time is a duration within
    the range of the timer, not negative and not a NaN, and each
    deadline is one the clock can reach). *)
Theorem vertical_motion_total (solver : Solver) (i : Contract.Instance)
  (target : float) (steps : Z) (step_time : float) (w : World) :
  ~ raises (fst (Contract.vertical_motion solver i target steps step_time w))
      ZeroDivisionError
  /\ (steps <= 0 ->
      forall z, Manipulator.height_increment target z steps = Ok 0.0%float
                /\ Gripper.delta_z target z steps = Ok 0.0%float)
  /\ ((0 <? step_time)%float = false ->
      forall inc, Manipulator.vertical_velocity inc step_time = Ok 0.0%float
                  /\ Gripper.velocity inc step_time = Ok 0.0%float)
  /\ (forall b : Body,
        connected (engine w) = true ->
        bodies (engine w) !! Contract.body i = Some b ->
        steps <= 0
        \/ (PrimFloat.is_infinity (Z2float steps) = false
            /\ pauses_start w (Z.to_nat steps) step_time) ->
        exists w',
          Contract.vertical_motion solver i target steps step_time w = (Ok tt, w')
          /\ last (trace w') = Some (EvResetBaseVelocity (Contract.body i) (Vec3 0 0 0))
          /\ exists b', bodies (engine w') !! Contract.body i = Some b'
                        /\ lin_vel (kin b') = Vec3 0 0 0).
Proof.
  split; [|split; [|split]].
  - rewrite vertical_motion_unfold.
    apply nzd_bind; [apply nzd_getBasePositionAndOrientation|intros pq].
    apply nzd_bind; [apply nzd_lift, height_increment_no_zero_division|intros inc].
    apply nzd_bind; [apply nzd_lift, vertical_velocity_no_zero_division|intros vel].
    apply nzd_bind; [|intros _; apply nzd_resetBaseVelocity].
    apply nzd_repeat_n.
    apply nzd_bind; [apply nzd_resetBaseVelocity|intros _].
    apply nzd_bind; [apply nzd_stepSimulation|intros _; apply nzd_sleep].
  - intros H z. split; apply height_increment_nonpos; exact H.
  - intros H inc. split; apply vertical_velocity_nonpos; exact H.
  - intros b Hc Hb Hcase.
    assert (Hloop : exists inc vel n w1,
      Manipulator.height_increment target (vz (base_pos (kin b))) steps = Ok inc
      /\ Manipulator.vertical_velocity inc step_time = Ok vel
      /\ repeat_n (Z.to_nat steps)
           (resetBaseVelocity (Contract.body i) (Vec3 0 0 vel) ;;
            stepSimulation solver ;; sleep step_time) w = (Ok tt, w1)
      /\ w1 = cycles solver (Contract.body i) (Vec3 0 0 vel) step_time n w).
    { assert (Hempty : steps <= 0 -> exists inc vel n w1,
        Manipulator.height_increment target (vz (base_pos (kin b))) steps = Ok inc
        /\ Manipulator.vertical_velocity inc step_time = Ok vel
        /\ repeat_n (Z.to_nat steps)
             (resetBaseVelocity (Contract.body i) (Vec3 0 0 vel) ;;
              stepSimulation solver ;; sleep step_time) w = (Ok tt, w1)
        /\ w1 = cycles solver (Contract.body i) (Vec3 0 0 vel) step_time n w).
      { intros Hle. destruct (vertical_velocity_defined 0.0 step_time) as [vel Hv].
        exists 0.0%float, vel, O, w.
        split; [apply height_increment_nonpos; exact Hle|].
        split; [exact Hv|]. rewrite (Z2Nat.nonpos steps Hle). split; reflexivity. }
      destruct Hcase as [Hle|[Hfin Hs]]; [exact (Hempty Hle)|].
      destruct (Z.le_gt_cases steps 0) as [Hle|Hpos]; [exact (Hempty Hle)|].
      destruct (vertical_velocity_defined
                  ((target - vz (base_pos (kin b))) / Z2float steps) step_time)
        as [vel Hv].
      eexists _, vel, (Z.to_nat steps), _.
      split; [apply height_increment_pos; assumption|].
      split; [exact Hv|]. split; [|reflexivity].
      apply motion_loop_ok; assumption. }
    destruct Hloop as (inc & vel & n & w1 & Hinc & Hvel & Hrun & ->).
    set (w1 := cycles solver (Contract.body i) (Vec3 0 0 vel) step_time n w) in *.
    assert (Hc1 : connected (engine w1) = true)
      by (unfold w1; rewrite cycles_connected; exact Hc).
    destruct (lookup_lt_is_Some_2 (bodies (engine w1)) (Contract.body i)) as [b1 Hb1].
    { unfold w1. rewrite cycles_bodies_length. eapply lookup_lt_Some, Hb. }
    exists (after_reset (Contract.body i) (Vec3 0 0 0) w1).
    split; [|split].
    + rewrite vertical_motion_unfold.
      rewrite (bind_ok _ _ _ _ _ (getBasePositionAndOrientation_ok _ w b Hc Hb)).
      cbn [fst]. unfold lift at 1, bind at 1. rewrite Hinc.
      unfold lift at 1, bind at 1. rewrite Hvel.
      unfold for_range. rewrite (bind_ok _ _ _ _ _ Hrun).
      apply resetBaseVelocity_ok. exact Hc1.
    + unfold after_reset, log. cbn [trace]. apply last_snoc.
    + eexists. split; [apply after_reset_lookup; exact Hb1|reflexivity].
Qed.

(** C10 as stated fails: a negative step time makes the first pause
    raise [ValueError], after one velocity command and one tick and
    before the final reset.  A step time beyond the range of the timer
    does the same with an [OverflowError], and leaves the body with the
    velocity just commanded; so do the step time at the end of that
    range, with a [ValueError], and one just below whose deadline the
    clock cannot reach, with an [OSError].  A step count beyond the
    range of a float raises before anything is commanded. *)
Lemma vertical_motion_negative_delay_counterexample :
  fst (Manipulator.execute_vertical_motion solver0 manip0 1 1 (-1) world1)
  = Raise (Exn ValueError "sleep length must be non-negative")
  /\ trace (snd (Manipulator.execute_vertical_motion solver0 manip0 1 1 (-1) world1))
     = [EvResetBaseVelocity 0 (Vec3 0 0 0); EvStepSimulation]
  /\ fst (Gripper.move_up_smoothly solver0 (gripper0 Gripper.PR2Gripper) 1 1 (-1) world1)
     = Raise (Exn ValueError "sleep length must be non-negative")
  /\ trace (snd (Gripper.move_up_smoothly solver0 (gripper0 Gripper.PR2Gripper) 1 1 (-1)
                   world1))
     = [EvResetBaseVelocity 0 (Vec3 0 0 0); EvStepSimulation]
  /\ fst (Gripper.move_up_smoothly solver0 (gripper0 Gripper.PR2Gripper) 1 1 1e10 world1)
     = Raise (Exn OverflowError "timestamp too large to convert to C _PyTime_t")
  /\ trace (snd (Gripper.move_up_smoothly solver0 (gripper0 Gripper.PR2Gripper) 1 1 1e10
                   world1))
     = [EvResetBaseVelocity 0 (Vec3 0 0 1e-10); EvStepSimulation]
  /\ Gripper.move_up_smoothly solver0 (gripper0 Gripper.PR2Gripper) 1 (2 ^ 1024) 0.01 world1
     = (Raise (Exn OverflowError "int too large to convert to float"), world1)
  /\ fst (Manipulator.execute_vertical_motion solver0 manip0 1 1 9223372036.854776 world1)
     = Raise (Exn ValueError "sleep length must be non-negative")
  /\ fst (Manipulator.execute_vertical_motion solver0 manip0 1 1 9223372036 world1)
     = Raise (Exn OSError "[Errno 22] Invalid argument")
  /\ trace (snd (Manipulator.execute_vertical_motion solver0 manip0 1 1 9223372036 world1))
     = [EvResetBaseVelocity 0 (Vec3 0 0 (1 / 9223372036)); EvStepSimulation].
Proof. repeat split; vm_compute; reflexivity. Qed.

(** The special cases the guards are there for: no steps, and no
    pause. *)
Example vertical_motion_zero_steps :
  Manipulator.execute_vertical_motion solver0 manip0 1 0 0.01 world1
  = (Ok tt, after_reset 0 (Vec3 0 0 0) world1).
Proof. vm_compute. reflexivity. Qed.

Example vertical_motion_zero_step_time :
  trace (snd (Manipulator.execute_vertical_motion solver0 manip0 1 2 0 world1))
  = [EvResetBaseVelocity 0 (Vec3 0 0 0); EvStepSimulation; EvSleep 0;
     EvResetBaseVelocity 0 (Vec3 0 0 0); EvStepSimulation; EvSleep 0;
     EvResetBaseVelocity 0 (Vec3 0 0 0)].
Proof. vm_compute. reflexivity. Qed.

End MotionProofs.

(* ================================================================== *)
(** * Opening and closing                                              *)
(* ================================================================== *)

Module GraspProofs.
Import Py Bullet Vocabulary FloatFacts BulletFacts Examples.
#[local] Open Scope py_scope.

(** ** Writing one value under several keys *)

Section Puts.
Context {K V : Type} `{Countable K}.
Implicit Types (ks : list K) (v : V) (m : gmap K V).

Lemma puts_lookup_notin ks v m k : k ∉ ks -> puts ks v m !! k = m !! k.
Proof.
  revert m. induction ks as [|k' ks IH]; intros m Hk; simpl; [reflexivity|].
  apply not_elem_of_cons in Hk as [Hne Hk].
  rewrite IH by exact Hk. apply lookup_insert_ne. congruence.
Qed.

Lemma puts_lookup_in ks v m k : k ∈ ks -> puts ks v m !! k = Some v.
Proof.
  revert m. induction ks as [|k' ks IH]; intros m Hk; simpl.
  - inversion Hk.
  - destruct (decide (k ∈ ks)) as [Hin|Hnin]; [apply IH; exact Hin|].
    apply elem_of_cons in Hk as [->|Hin]; [|contradiction].
    rewrite puts_lookup_notin by exact Hnin. apply lookup_insert_eq.
Qed.

(** Writing what is there already changes nothing. *)
Lemma puts_absorb ks v m : (forall k, k ∈ ks -> m !! k = Some v) -> puts ks v m = m.
Proof.
  revert m. induction ks as [|k ks IH]; intros m Hm; simpl; [reflexivity|].
  rewrite insert_id by (apply Hm; left).
  apply IH. intros k' Hk'. apply Hm. right. exact Hk'.
Qed.

Lemma puts_idem ks1 ks v m : ks1 ⊆ ks -> puts ks1 v (puts ks v m) = puts ks v m.
Proof.
  intros Hsub. apply puts_absorb. intros k Hk. apply puts_lookup_in, Hsub, Hk.
Qed.

End Puts.

(** ** The loops, unfolded

    [zip] stops with the shorter list, and both lists of target
    positions have two equal entries: each loop over a [zip] is a loop
    over the first two joints with one target. *)

Lemma activate_unfold (self : Manipulator.ManipulatorInterface) :
  Manipulator.activate self
  = drive (Manipulator.body_id self) (mkMotor POSITION_CONTROL 0.548 500)
      (take 2 (Manipulator.movable_joints self)).
Proof.
  unfold Manipulator.activate, drive.
  destruct (Manipulator.movable_joints self) as [|j1 [|j2 [|j3 js]]]; reflexivity.
Qed.

Lemma deactivate_unfold (self : Manipulator.ManipulatorInterface) :
  Manipulator.deactivate self
  = drive (Manipulator.body_id self) (mkMotor POSITION_CONTROL 0.0 500)
      (take 2 (Manipulator.movable_joints self)).
Proof.
  unfold Manipulator.deactivate, drive.
  destruct (Manipulator.movable_joints self) as [|j1 [|j2 [|j3 js]]]; reflexivity.
Qed.

Lemma PR2_open_unfold solver (self : Gripper.BaseGripper) :
  Gripper.PR2_open_gripper solver self
  = (drive (Gripper.gripper self) (mkMotor POSITION_CONTROL 0.548 100)
       (take 2 (Gripper.active_joints self)) ;;
     Gripper.sim_step solver self 200 0.005).
Proof.
  unfold Gripper.PR2_open_gripper, drive.
  destruct (Gripper.active_joints self) as [|j1 [|j2 js]]; reflexivity.
Qed.

Lemma PR2_close_unfold solver (self : Gripper.BaseGripper) :
  Gripper.PR2_close_gripper solver self
  = (drive (Gripper.gripper self) (mkMotor POSITION_CONTROL 0.0 500)
       (take 2 (Gripper.active_joints self)) ;;
     raise_friction (Gripper.gripper self) (Gripper.active_joints self) ;;
     Gripper.sim_step solver self 200 0.005).
Proof.
  unfold Gripper.PR2_close_gripper, drive.
  destruct (Gripper.active_joints self) as [|j1 [|j2 js]]; reflexivity.
Qed.

Lemma SDH_open_unfold solver (self : Gripper.BaseGripper) :
  Gripper.SDH_open_gripper solver self
  = (drive (Gripper.gripper self) (mkMotor POSITION_CONTROL (-0.5) 100)
       (Gripper.active_joints self) ;;
     Gripper.sim_step solver self 200 0.005).
Proof. reflexivity. Qed.

(** ** Commands that leave the motor targets alone *)

Lemma keeps_bind {A B} (m : M World A) (k : A -> M World B) :
  keeps_motors m -> (forall a, keeps_motors (k a)) -> keeps_motors (bind m k).
Proof.
  intros Hm Hk w. unfold bind. specialize (Hm w).
  destruct (m w) as [[a|e] w']; simpl in *; [rewrite Hk|]; exact Hm.
Qed.

Lemma keeps_need_server : keeps_motors need_server.
Proof.
  intros w. unfold need_server, isConnected, bind, gets.
  destruct (connected (engine w)); reflexivity.
Qed.

Lemma keeps_stepSimulation solver : keeps_motors (stepSimulation solver).
Proof. apply keeps_bind; [apply keeps_need_server|intros _ w; reflexivity]. Qed.

Lemma keeps_sleep secs : keeps_motors (sleep secs).
Proof.
  intros w. unfold sleep.
  destruct (PrimFloat.is_nan secs); [reflexivity|].
  destruct (negb _); [reflexivity|].
  cbv zeta. destruct (as_PyTime_t (secs * 1e9) <? 0); [reflexivity|].
  unfold bind, gets. destruct (monotonic w + _ <=? PyTime_MAX); reflexivity.
Qed.

Lemma keeps_repeat_n n (body : M World unit) :
  keeps_motors body -> keeps_motors (repeat_n n body).
Proof.
  intros Hb. induction n as [|n IH]; simpl.
  - intros w. reflexivity.
  - apply keeps_bind; [exact Hb|intros _; exact IH].
Qed.

Lemma keeps_sim_step solver self steps delay :
  keeps_motors (Gripper.sim_step solver self steps delay).
Proof.
  apply keeps_repeat_n, keeps_bind; [apply keeps_stepSimulation|intros _; apply keeps_sleep].
Qed.

Lemma keeps_print line : keeps_motors (print line).
Proof. intros w. reflexivity. Qed.

(** ** Driving joints to one target *)

(** One motor command either takes effect or raises and changes
    nothing. *)
Lemma setJointMotorControl2_cases body joint mode target force w :
  let m := mkMotor mode target force in
  setJointMotorControl2 body joint mode target force w
    = (Ok tt, log (EvSetJointMotorControl2 body joint m)
                (set_engine (set_motor body joint m) w))
  \/ exists e, setJointMotorControl2 body joint mode target force w = (Raise e, w).
Proof.
  intros m. unfold setJointMotorControl2.
  destruct (connected (engine w)) eqn:Hc.
  - rewrite (bind_ok _ _ _ _ _ (need_server_ok w Hc)). unfold bind, gets.
    destruct (num_joints (engine w) body <=? joint)%nat;
      [right; eexists; reflexivity|left; reflexivity].
  - right. eexists. apply (bind_raise _ _ _ _ _ (need_server_off w Hc)).
Qed.

Lemma drive_drives body m joints : drives body m joints (drive body m joints).
Proof.
  induction joints as [|j js IH]; intros w.
  - exists [], []. repeat split.
  - destruct m as [mode target force].
    destruct (setJointMotorControl2_cases body j mode target force w) as [E|[e E]].
    + set (w1 := log (EvSetJointMotorControl2 body j (mkMotor mode target force))
                   (set_engine (set_motor body j (mkMotor mode target force)) w)) in *.
      assert (Hrun : drive body (mkMotor mode target force) (j :: js) w
                     = drive body (mkMotor mode target force) js w1)
        by (exact (bind_ok _ (fun _ => drive body (mkMotor mode target force) js) _ _ _ E)).
      rewrite Hrun.
      destruct (IH w1) as (done & rest & -> & Hm & Hok).
      exists (j :: done), rest. split; [reflexivity|]. split; [exact Hm|exact Hok].
    + assert (Hrun : drive body (mkMotor mode target force) (j :: js) w = (Raise e, w))
        by (exact (bind_raise _ (fun _ => drive body (mkMotor mode target force) js)
                     _ _ _ E)).
      rewrite Hrun.
      exists [], (j :: js). split; [reflexivity|]. split; [reflexivity|]. discriminate.
Qed.

Lemma drives_then body m joints (act rest_ : M World unit) :
  drives body m joints act -> keeps_motors rest_ ->
  drives body m joints (act ;; rest_).
Proof.
  intros Hd Hk w. destruct (Hd w) as (done & rest & Hj & Hm & Hok).
  exists done, rest. unfold bind.
  destruct (act w) as [[[]|e] w1]; simpl in *.
  - split; [exact Hj|]. split; [rewrite Hk; exact Hm|]. intros _. apply Hok. reflexivity.
  - split; [exact Hj|]. split; [exact Hm|]. discriminate.
Qed.

Lemma keeps_drives body m (act : M World unit) :
  keeps_motors act -> drives body m [] act.
Proof. intros Hk w. exists [], []. split; [reflexivity|]. split; [apply Hk|reflexivity]. Qed.

(** Doing it again changes no target. *)
Lemma drives_twice body m joints (act : M World unit) :
  drives body m joints act ->
  forall w, motors (engine (snd ((act ;; act) w))) = motors (engine (snd (act w))).
Proof.
  intros Hd w. destruct (Hd w) as (done & rest & Hj & Hm & Hok).
  unfold bind. destruct (act w) as [[[]|e] w1] eqn:E; simpl in *; [|reflexivity].
  rewrite (Hok eq_refl), app_nil_r in Hj. subst done.
  destruct (Hd w1) as (done2 & rest2 & Hj2 & Hm2 & _).
  rewrite Hm2, Hm. apply puts_idem.
  intros k Hk. apply list_elem_of_fmap in Hk as (j & -> & Hin).
  apply list_elem_of_fmap. exists j. split; [reflexivity|].
  rewrite Hj2. apply elem_of_app. left. exact Hin.
Qed.

(** Every [activate] drives its opening joints to its opening target. *)
Lemma activate_drives solver (i : Contract.Instance) :
  drives (Contract.body i) (Contract.opening_target i) (Contract.opening_joints i)
    (Contract.activate solver i).
Proof.
  destruct i as [m|g]; simpl.
  - rewrite activate_unfold. apply drive_drives.
  - unfold Gripper.open_gripper, Contract.opening_joints, Contract.opening_target,
      Contract.closing_joints. simpl.
    destruct (Gripper.cls g).
    + rewrite PR2_open_unfold. apply drives_then; [apply drive_drives|apply keeps_sim_step].
    + rewrite SDH_open_unfold. apply drives_then; [apply drive_drives|apply keeps_sim_step].
    + apply keeps_drives, keeps_print.
Qed.

(** C7. For every manipulator instance, of either hierarchy and any
    class, and from every state of the world, the motor targets after
    [activate(); activate()] are the motor targets after one
    [activate()]. *)
Theorem activate_idempotent (solver : Solver) (i : Contract.Instance) (w : World) :
  motors (engine (snd ((Contract.activate solver i ;; Contract.activate solver i) w)))
  = motors (engine (snd (Contract.activate solver i w))).
Proof. exact (drives_twice _ _ _ _ (activate_drives solver i) w). Qed.

(** ** Closing on a live server *)

Lemma SDH_close_unfold solver (self : Gripper.BaseGripper) :
  Gripper.SDH_close_gripper solver self
  = (for_each (Gripper.active_joints self) (fun j =>
       setJointMotorControl2 (Gripper.gripper self) j POSITION_CONTROL 1.0 500 ;;
       changeDynamics (Gripper.gripper self) (Z.of_nat j)
         (mkDyn None (Some 1.0%float) None)) ;;
     Gripper.sim_step solver self 200 0.005).
Proof. reflexivity. Qed.

Lemma motor_settled body mo fr n w joint mode target force :
  settled body mo fr n w -> (joint < n)%nat ->
  exists w', setJointMotorControl2 body joint mode target force w = (Ok tt, w')
             /\ settled body (<[(body, joint) := mkMotor mode target force]> mo) fr n w'.
Proof.
  intros (Hc & Hm & Hf & Hn & Hb) Hj. eexists. split.
  - unfold setJointMotorControl2.
    rewrite (bind_ok _ _ _ _ _ (need_server_ok w Hc)). unfold bind, gets.
    rewrite Hn. destruct (Nat.leb_spec n joint) as [|_]; [lia|]. reflexivity.
  - repeat split; simpl; try assumption. rewrite Hm. reflexivity.
Qed.

Lemma friction_settled body mo fr n w joint x :
  settled body mo fr n w ->
  exists w', changeDynamics body (Z.of_nat joint) (mkDyn None (Some x) None) w = (Ok tt, w')
             /\ settled body mo (<[(body, Z.of_nat joint) := x]> fr) n w'.
Proof.
  intros (Hc & Hm & Hf & Hn & [b Hb]). eexists. split.
  - unfold changeDynamics.
    rewrite (bind_ok _ _ _ _ _ (need_server_ok w Hc)). reflexivity.
  - unfold settled, log, set_engine, apply_dynamics, num_joints. cbn [engine].
    rewrite Hb. cbn. rewrite Hb.
    repeat split; try assumption.
    + rewrite Hf. reflexivity.
    + unfold num_joints in Hn. rewrite Hb in Hn. exact Hn.
    + eexists; reflexivity.
Qed.

Lemma tick_num_joints solver e body : num_joints (tick solver e) body = num_joints e body.
Proof.
  unfold num_joints, tick. cbn [bodies]. rewrite list_lookup_imap.
  destruct (bodies e !! body); reflexivity.
Qed.

Lemma step_settled solver body mo fr n w :
  settled body mo fr n w ->
  exists w', stepSimulation solver w = (Ok tt, w') /\ settled body mo fr n w'.
Proof.
  intros (Hc & Hm & Hf & Hn & [b Hb]). eexists. split.
  - apply stepSimulation_ok. exact Hc.
  - unfold after_step, log, set_engine, settled. cbn [engine].
    rewrite tick_num_joints. repeat split; try assumption.
    unfold tick. cbn [bodies]. rewrite list_lookup_imap, Hb. eexists; reflexivity.
Qed.

(** The pause of the grasp commands starts whatever the clock reads. *)
Lemma short_grasp_pause : short 0.005 = true.
Proof. vm_compute. reflexivity. Qed.

Lemma sim_step_settled solver self steps delay body mo fr n w :
  short delay = true ->
  settled body mo fr n w ->
  exists w', Gripper.sim_step solver self steps delay w = (Ok tt, w')
             /\ settled body mo fr n w'.
Proof.
  intros Hs. unfold Gripper.sim_step, for_range.
  generalize (Z.to_nat steps) as k. intros k. revert w.
  induction k as [|k IH]; intros w Hw; simpl.
  - exists w. split; [reflexivity|exact Hw].
  - destruct (step_settled solver body mo fr n w Hw) as (w1 & E1 & Hw1).
    destruct (IH (log (EvSleep delay) w1)) as (w2 & E2 & Hw2); [exact Hw1|].
    exists w2. split; [|exact Hw2].
    unfold bind at 1. unfold bind at 1.
    rewrite E1, (sleep_ok delay w1 (short_accepts delay w1 Hs)). exact E2.
Qed.

Lemma drive_settled body m joints mo fr n w :
  settled body mo fr n w ->
  Forall (fun j => (j < n)%nat) joints ->
  exists w', drive body m joints w = (Ok tt, w')
             /\ settled body (puts (map (pair body) joints) m mo) fr n w'.
Proof.
  revert mo w. induction joints as [|j js IH]; intros mo w Hw Hall.
  - exists w. split; [reflexivity|exact Hw].
  - apply Forall_cons in Hall as [Hj Hall]. destruct m as [mode target force].
    destruct (motor_settled body mo fr n w j mode target force Hw Hj) as (w1 & E1 & Hw1).
    destruct (IH _ w1 Hw1 Hall) as (w2 & E2 & Hw2).
    exists w2. split; [|exact Hw2].
    rewrite <- E2.
    exact (bind_ok _ (fun _ => drive body (mkMotor mode target force) js) _ _ _ E1).
Qed.

Lemma raise_friction_settled body joints mo fr n w :
  settled body mo fr n w ->
  exists w', raise_friction body joints w = (Ok tt, w')
             /\ settled body mo (puts (links body joints) 1.0%float fr) n w'.
Proof.
  revert fr w. induction joints as [|j js IH]; intros fr w Hw.
  - exists w. split; [reflexivity|exact Hw].
  - destruct (friction_settled body mo fr n w j 1.0%float Hw) as (w1 & E1 & Hw1).
    destruct (IH _ w1 Hw1) as (w2 & E2 & Hw2).
    exists w2. split; [|exact Hw2].
    rewrite <- E2.
    exact (bind_ok _ (fun _ => raise_friction body js) _ _ _ E1).
Qed.

(** The loop of [SDHGripper.close_gripper]: target, then friction,
    joint by joint. *)
Lemma SDH_loop_settled body joints mo fr n w :
  settled body mo fr n w ->
  Forall (fun j => (j < n)%nat) joints ->
  exists w',
    for_each joints (fun j =>
      setJointMotorControl2 body j POSITION_CONTROL 1.0 500 ;;
      changeDynamics body (Z.of_nat j) (mkDyn None (Some 1.0%float) None)) w = (Ok tt, w')
    /\ settled body (puts (map (pair body) joints) (mkMotor POSITION_CONTROL 1.0 500) mo)
         (puts (links body joints) 1.0%float fr) n w'.
Proof.
  revert mo fr w. induction joints as [|j js IH]; intros mo fr w Hw Hall.
  - exists w. split; [reflexivity|exact Hw].
  - apply Forall_cons in Hall as [Hj Hall].
    destruct (motor_settled body mo fr n w j POSITION_CONTROL 1.0 500 Hw Hj)
      as (w1 & E1 & Hw1).
    destruct (friction_settled body _ fr n w1 j 1.0%float Hw1) as (w2 & E2 & Hw2).
    destruct (IH _ _ w2 Hw2 Hall) as (w3 & E3 & Hw3).
    exists w3. split; [|exact Hw3].
    rewrite <- E3. simpl. unfold bind at 1. unfold bind at 1. rewrite E1, E2. reflexivity.
Qed.

(** Every [deactivate] on a settled world. *)
Lemma deactivate_settled solver (i : Contract.Instance) mo fr n w :
  settled (Contract.body i) mo fr n w ->
  Forall (fun j => (j < n)%nat) (Contract.closing_joints i) ->
  exists w',
    Contract.deactivate solver i w = (Ok tt, w')
    /\ settled (Contract.body i)
         (puts (map (pair (Contract.body i)) (Contract.closing_joints i))
            (Contract.closing_target i) mo)
         (puts (links (Contract.body i) (Contract.gripping_joints i)) 1.0%float fr) n w'.
Proof.
  intros Hw Hall. destruct i as [m|g].
  - simpl in *. rewrite deactivate_unfold. apply drive_settled; assumption.
  - unfold Contract.deactivate, Gripper.close_gripper, Contract.closing_joints,
      Contract.closing_target, Contract.gripping_joints, Contract.body in *.
    destruct (Gripper.cls g).
    + rewrite PR2_close_unfold.
      destruct (drive_settled _ (mkMotor POSITION_CONTROL 0.0 500) _ _ _ _ _ Hw Hall)
        as (w1 & E1 & Hw1).
      destruct (raise_friction_settled _ (Gripper.active_joints g) _ _ _ _ Hw1)
        as (w2 & E2 & Hw2).
      destruct (sim_step_settled solver g 200 0.005 _ _ _ _ w2 short_grasp_pause Hw2)
        as (w3 & E3 & Hw3).
      exists w3. split; [|exact Hw3].
      rewrite (bind_ok _ _ _ _ _ E1), (bind_ok _ _ _ _ _ E2). exact E3.
    + rewrite SDH_close_unfold.
      destruct (SDH_loop_settled _ _ _ _ _ _ Hw Hall) as (w1 & E1 & Hw1).
      destruct (sim_step_settled solver g 200 0.005 _ _ _ _ w1 short_grasp_pause Hw1)
        as (w2 & E2 & Hw2).
      exists w2. split; [|exact Hw2].
      rewrite (bind_ok _ _ _ _ _ E1). exact E2.
    + eexists. split; [reflexivity|]. exact Hw.
Qed.

(** C5 (as amended). On a live server that knows the instance's body
    and the joints to be driven, [deactivate] returns normally, having
    given the closed target of the instance's class to the actuated
    joints its list of closed positions reaches (all of them for
    [SDHGripper], the first two for [PR2Gripper] and
    [TwoFingerManipulator], none for the placeholder [CustomGripper])
    and, for the [PR2Gripper] and [SDHGripper] classes, the lateral
    friction 1.0 to every actuated joint.  Called again on the closed
    manipulator it returns normally too and leaves every motor target
    and friction as it was. *)
Theorem deactivate_closes (solver : Solver) (i : Contract.Instance) (w : World) (b : Body) :
  connected (engine w) = true ->
  bodies (engine w) !! Contract.body i = Some b ->
  Forall (fun j => (j < length (joint_types b))%nat) (Contract.closing_joints i) ->
  exists w',
    Contract.deactivate solver i w = (Ok tt, w')
    /\ (forall j, j ∈ Contract.closing_joints i ->
          motors (engine w') !! (Contract.body i, j) = Some (Contract.closing_target i))
    /\ (forall j, j ∈ Contract.gripping_joints i ->
          lateral_friction (engine w') !! (Contract.body i, Z.of_nat j) = Some 1.0%float)
    /\ exists w'',
         Contract.deactivate solver i w' = (Ok tt, w'')
         /\ motors (engine w'') = motors (engine w')
         /\ lateral_friction (engine w'') = lateral_friction (engine w').
Proof.
  intros Hc Hb Hall.
  assert (Hw : settled (Contract.body i) (motors (engine w)) (lateral_friction (engine w))
                 (length (joint_types b)) w).
  { repeat split; try assumption; try reflexivity.
    - unfold num_joints. rewrite Hb. reflexivity.
    - eexists; exact Hb. }
  destruct (deactivate_settled solver i _ _ _ w Hw Hall) as (w1 & E1 & Hw1).
  destruct (deactivate_settled solver i _ _ _ w1 Hw1 Hall) as (w2 & E2 & Hw2).
  destruct Hw1 as (Hc1 & Hm1 & Hf1 & Hn1 & Hb1).
  destruct Hw2 as (Hc2 & Hm2 & Hf2 & Hn2 & Hb2).
  exists w1. split; [exact E1|]. split; [|split].
  - intros j Hj. rewrite Hm1. apply puts_lookup_in.
    apply list_elem_of_fmap. exists j. split; [reflexivity|exact Hj].
  - intros j Hj. rewrite Hf1. apply puts_lookup_in.
    apply list_elem_of_fmap. exists j. split; [reflexivity|exact Hj].
  - exists w2. split; [exact E2|]. split.
    + rewrite Hm2, Hm1. apply puts_idem. reflexivity.
    + rewrite Hf2, Hf1. apply puts_idem. reflexivity.
Qed.

Lemma deactivate_closes_witness :
  connected (engine world1) = true
  /\ bodies (engine world1) !! Contract.body (Contract.OfGripper (gripper0 Gripper.SDHGripper))
     = Some gripper_body
  /\ Forall (fun j => (j < length (joint_types gripper_body))%nat)
       (Contract.closing_joints (Contract.OfGripper (gripper0 Gripper.SDHGripper)))
  /\ exists w',
       Contract.deactivate solver0 (Contract.OfGripper (gripper0 Gripper.SDHGripper)) world1
       = (Ok tt, w')
       /\ (forall j, j ∈ Contract.closing_joints
                           (Contract.OfGripper (gripper0 Gripper.SDHGripper)) ->
             motors (engine w') !! (0%nat, j)
             = Some (mkMotor POSITION_CONTROL 1.0 500))
       /\ (forall j, j ∈ Contract.gripping_joints
                           (Contract.OfGripper (gripper0 Gripper.SDHGripper)) ->
             lateral_friction (engine w') !! (0%nat, Z.of_nat j) = Some 1.0%float)
       /\ exists w'',
            Contract.deactivate solver0 (Contract.OfGripper (gripper0 Gripper.SDHGripper)) w'
            = (Ok tt, w'')
            /\ motors (engine w'') = motors (engine w')
            /\ lateral_friction (engine w'') = lateral_friction (engine w').
Proof.
  split; [reflexivity|]. split; [reflexivity|].
  assert (H : Forall (fun j => (j < length (joint_types gripper_body))%nat)
                (Contract.closing_joints (Contract.OfGripper (gripper0 Gripper.SDHGripper)))).
  { repeat constructor. }
  split; [exact H|].
  exact (deactivate_closes solver0 (Contract.OfGripper (gripper0 Gripper.SDHGripper))
           world1 gripper_body eq_refl eq_refl H).
Defined.

(** C5 as stated fails for the placeholder class: closing a
    [CustomGripper] with two actuated joints only prints; no joint is
    given a target and no friction is set.  (And
    [TwoFingerManipulator.deactivate] gives its two joints the closed
    target but sets no friction.) *)
Lemma deactivate_custom_counterexample :
  (exists w',
     Contract.deactivate solver0 (Contract.OfGripper (gripper0 Gripper.CustomGripper)) world1
     = (Ok tt, w')
     /\ Contract.actuated (Contract.OfGripper (gripper0 Gripper.CustomGripper)) = [0; 1]%nat
     /\ motors (engine w') = ∅
     /\ lateral_friction (engine w') = ∅
     /\ trace w' = []
     /\ stdout w' = ["[INFO] CustomGripper: close_gripper not implemented, doing nothing."])
  /\ (exists w',
        Contract.deactivate solver0 (Contract.OfManipulator manip0) world1 = (Ok tt, w')
        /\ Contract.actuated (Contract.OfManipulator manip0) = [0; 1]%nat
        /\ trace w'
           = [EvSetJointMotorControl2 0 0 (mkMotor POSITION_CONTROL 0 500);
              EvSetJointMotorControl2 0 1 (mkMotor POSITION_CONTROL 0 500)]
        /\ lateral_friction (engine w') = ∅).
Proof. split; eexists; repeat split. Qed.

End GraspProofs.

(* ================================================================== *)
(** * The factories                                                    *)
(* ================================================================== *)

Module FactoryProofs.
Import Py Bullet Vocabulary FloatFacts BulletFacts Examples.
#[local] Open Scope py_scope.

(** ** Constructing a gripper on a live server *)

Lemma knows_num_joints body n w : knows body n w -> num_joints (engine w) body = n.
Proof. intros (_ & b & Hb & Hn). unfold num_joints. rewrite Hb. exact Hn. Qed.

Lemma joint_info_loop_ok body n w idxs active fixed (P : nat -> Prop) :
  knows body n w ->
  Forall (fun i => (i < n)%nat) idxs ->
  Forall P active -> Forall P idxs ->
  exists a f, Gripper.joint_info_loop body idxs active fixed w = (Ok (a, f), w)
              /\ Forall P a.
Proof.
  intros Hk. revert active fixed.
  induction idxs as [|i idxs IH]; intros active fixed Hlt Ha Hi; simpl.
  - exists active, fixed. split; [reflexivity|exact Ha].
  - apply Forall_cons in Hlt as [Hlt1 Hlt]. apply Forall_cons in Hi as [Hi1 Hi].
    destruct Hk as (Hc & b & Hb & Hn).
    destruct (lookup_lt_is_Some_2 (joint_types b) i) as [jt Hjt]; [lia|].
    assert (E : getJointInfo_type body i w = (Ok jt, w)).
    { unfold getJointInfo_type. rewrite (bind_ok _ _ _ _ _ (need_server_ok w Hc)).
      unfold bind, gets. rewrite Hb, Hjt. reflexivity. }
    unfold bind. rewrite E.
    destruct (decide (jt <> JOINT_FIXED)).
    + apply IH; try assumption. apply Forall_app. split; [exact Ha|]. constructor; [exact Hi1|constructor].
    + apply IH; assumption.
Qed.

Lemma init_ok c p o file w jts :
  connected (engine w) = true ->
  urdf_models (engine w) !! file = Some jts ->
  exists g w',
    Gripper.__init__ c p o file w = (Ok g, w')
    /\ Gripper.cls g = c
    /\ Gripper.gripper g = length (bodies (engine w))
    /\ knows (Gripper.gripper g) (length jts) w'
    /\ Forall (fun j => (j < length jts)%nat) (Gripper.active_joints g)
    /\ length (bodies (engine w')) = Datatypes.S (length (bodies (engine w))).
Proof.
  intros Hc Hf.
  set (id := length (bodies (engine w))).
  set (b := mkBody (mkKin p o zero3 zero3 (List.repeat 0%float (length jts))) jts).
  set (w1 := log (EvLoadURDF file p o) (set_engine (set_bodies (fun bs => bs ++ [b])) w)).
  set (w2 := log (EvChangeDynamics id (-1) (mkDyn (Some 0%float) None None))
               (set_engine (apply_dynamics id (-1) (mkDyn (Some 0%float) None None)) w1)).
  assert (E1 : loadURDF file p o w = (Ok id, w1)).
  { unfold loadURDF. rewrite (bind_ok _ _ _ _ _ (need_server_ok w Hc)).
    unfold bind at 1. unfold gets at 1. rewrite Hf. reflexivity. }
  assert (Hc1 : connected (engine w1) = true) by exact Hc.
  assert (E2 : changeDynamics id (-1) (mkDyn (Some 0%float) None None) w1 = (Ok tt, w2)).
  { unfold changeDynamics. rewrite (bind_ok _ _ _ _ _ (need_server_ok w1 Hc1)). reflexivity. }
  assert (Hb1 : bodies (engine w1) !! id = Some b).
  { unfold w1, log, set_engine, set_bodies. cbn [engine bodies].
    rewrite lookup_app_r by (unfold id; lia).
    unfold id. rewrite Nat.sub_diag. reflexivity. }
  assert (Hk : knows id (length jts) w2).
  { split.
    - unfold w2, log, set_engine, apply_dynamics. cbn [engine].
      rewrite Hb1. exact Hc.
    - exists b. split; [|reflexivity].
      unfold w2, log, set_engine, apply_dynamics. cbn [engine].
      rewrite Hb1. exact Hb1. }
  assert (E3 : getNumJoints id w2 = (Ok (length jts), w2)).
  { unfold getNumJoints. destruct Hk as (Hc2 & b' & Hb' & Hn').
    rewrite (bind_ok _ _ _ _ _ (need_server_ok w2 Hc2)). unfold gets.
    rewrite Hb', Hn'. reflexivity. }
  destruct (joint_info_loop_ok id (length jts) w2 (seq 0 (length jts)) [] []
              (fun j => (j < length jts)%nat) Hk) as (a & f & E4 & Ha).
  { apply Forall_forall. intros i Hi. apply elem_of_seq in Hi. lia. }
  { constructor. }
  { apply Forall_forall. intros i Hi. apply elem_of_seq in Hi. lia. }
  exists (Gripper.mkGripper c p o file id a f), w2.
  split; [|split; [reflexivity|split; [reflexivity|split; [exact Hk|split; [exact Ha|]]]]].
  - unfold Gripper.__init__. rewrite (bind_ok _ _ _ _ _ E1), (bind_ok _ _ _ _ _ E2).
    unfold Gripper.get_joint_info.
    unfold bind at 1. unfold bind at 1. rewrite E3, E4. reflexivity.
  - unfold w2, log, set_engine, apply_dynamics. cbn [engine]. rewrite Hb1.
    cbn [bodies]. unfold w1, log, set_engine, set_bodies. cbn [engine bodies].
    rewrite length_app. cbn [length]. lia.
Qed.

(** The loop of [SDHGripper.__init__] over joints the body has. *)
Lemma SDH_init_loop_ok body n joints w :
  knows body n w ->
  Forall (fun j => (j < n)%nat) joints ->
  exists w',
    for_each joints (fun joint_index =>
      resetJointState body joint_index (-0.5) ;;
      setJointMotorControl2 body joint_index POSITION_CONTROL (-0.5) 100) w = (Ok tt, w')
    /\ knows body n w'
    /\ length (bodies (engine w')) = length (bodies (engine w)).
Proof.
  revert w. induction joints as [|j js IH]; intros w Hk Hall.
  - exists w. split; [reflexivity|]. split; [exact Hk|reflexivity].
  - apply Forall_cons in Hall as [Hj Hall].
    pose proof (knows_num_joints _ _ _ Hk) as Hn.
    destruct Hk as (Hc & b & Hb & Hlen).
    set (w1 := log (EvResetJointState body j (-0.5))
                 (set_engine (set_kin body (fun k =>
                    mkKin (base_pos k) (base_orn k) (lin_vel k) (ang_vel k)
                      (<[j := (-0.5)%float]> (joint_angles k)))) w)).
    assert (E1 : resetJointState body j (-0.5) w = (Ok tt, w1)).
    { unfold resetJointState. rewrite (bind_ok _ _ _ _ _ (need_server_ok w Hc)).
      unfold bind, gets. rewrite Hn.
      destruct (Nat.leb_spec n j) as [|_]; [lia|]. reflexivity. }
    assert (Hk1 : knows body n w1).
    { split; [exact Hc|]. eexists. split.
      - unfold w1, log, set_engine, set_kin, set_bodies. cbn [engine bodies].
        rewrite list_lookup_alter, Hb. rewrite decide_True by reflexivity. reflexivity.
      - exact Hlen. }
    set (m := mkMotor POSITION_CONTROL (-0.5) 100).
    set (w2 := log (EvSetJointMotorControl2 body j m) (set_engine (set_motor body j m) w1)).
    assert (E2 : setJointMotorControl2 body j POSITION_CONTROL (-0.5) 100 w1 = (Ok tt, w2)).
    { unfold setJointMotorControl2.
      rewrite (bind_ok _ _ _ _ _ (need_server_ok w1 (proj1 Hk1))).
      unfold bind, gets. rewrite (knows_num_joints body n w1 Hk1).
      destruct (Nat.leb_spec n j) as [|_]; [lia|]. reflexivity. }
    assert (Hk2 : knows body n w2) by exact Hk1.
    destruct (IH w2 Hk2 Hall) as (w3 & E3 & Hk3 & Hlen3).
    exists w3. split; [|split; [exact Hk3|]].
    + simpl. unfold bind at 1. unfold bind at 1. rewrite E1, E2. exact E3.
    + rewrite Hlen3. unfold w2, w1, log, set_engine, set_motor, set_kin, set_bodies.
      cbn [engine bodies]. apply length_alter.
Qed.

(** Each constructor yields an instance of its own class, when it
    yields one. *)
Lemma init_class c p o file w g w' :
  Gripper.__init__ c p o file w = (Ok g, w') -> Gripper.cls g = c.
Proof.
  unfold Gripper.__init__, bind. intros H.
  destruct (loadURDF file p o w) as [[id|e] w1]; [|discriminate].
  destruct (changeDynamics id (-1) _ w1) as [[[]|e] w2]; [|discriminate].
  destruct (Gripper.get_joint_info id w2) as [[js|e] w3]; [|discriminate].
  unfold ret in H. injection H as <- _. reflexivity.
Qed.

Lemma new_SDHGripper_class cd p o w g w' :
  Gripper.new_SDHGripper cd p o w = (Ok g, w') -> Gripper.cls g = Gripper.SDHGripper.
Proof.
  unfold Gripper.new_SDHGripper, bind. intros H.
  destruct (Gripper.__init__ Gripper.SDHGripper p o _ w) as [[g0|e] w1] eqn:E; [|discriminate].
  destruct (for_each _ _ w1) as [[[]|e] w2]; [|discriminate].
  unfold ret in H. injection H as <- _. exact (init_class _ _ _ _ _ _ _ E).
Qed.

(** [str.lower] and the supported tags. *)
Lemma unsupported_gripper tag :
  tag ∉ Gripper.get_supported_types ->
  tag <> "pr2" /\ tag <> "sdh" /\ tag <> "custom".
Proof.
  unfold Gripper.get_supported_types. intros H.
  repeat split; intros ->; apply H; repeat constructor.
Qed.

Lemma unsupported_object tag :
  tag ∉ Objects.get_supported_types -> tag <> "cuboid" /\ tag <> "cylinder".
Proof.
  unfold Objects.get_supported_types. intros H.
  repeat split; intros ->; apply H; repeat constructor.
Qed.

Lemma new_gripper_class cd c p o w g w' :
  new_gripper cd c p o w = (Ok g, w') -> Gripper.cls g = c.
Proof.
  destruct c; simpl.
  - apply init_class.
  - apply new_SDHGripper_class.
  - apply init_class.
Qed.

Lemma new_gripper_ok cd c p o w jts :
  connected (engine w) = true ->
  urdf_models (engine w) !! gripper_model cd c = Some jts ->
  exists g w', new_gripper cd c p o w = (Ok g, w')
               /\ Gripper.gripper g = length (bodies (engine w))
               /\ length (bodies (engine w')) = Datatypes.S (length (bodies (engine w)))
               /\ knows (Gripper.gripper g) (length jts) w'.
Proof.
  intros Hc Hf. destruct c; simpl in *.
  - destruct (init_ok Gripper.PR2Gripper p o _ w jts Hc Hf)
      as (g & w' & E & _ & Hid & Hk & _ & Hlen).
    exists g, w'. repeat split; try assumption; apply Hk.
  - destruct (init_ok Gripper.SDHGripper p o _ w jts Hc Hf)
      as (g & w1 & E & _ & Hid & Hk & Hall & Hlen).
    destruct (SDH_init_loop_ok _ _ _ w1 Hk Hall) as (w2 & E2 & Hk2 & Hlen2).
    exists g, w2. split; [|split; [exact Hid|split; [congruence|exact Hk2]]].
    unfold Gripper.new_SDHGripper. rewrite (bind_ok _ _ _ _ _ E).
    rewrite (bind_ok _ _ _ _ _ E2). reflexivity.
  - destruct (init_ok Gripper.CustomGripper p o _ w jts Hc Hf)
      as (g & w' & E & _ & Hid & Hk & _ & Hlen).
    exists g, w'. repeat split; try assumption; apply Hk.
Qed.

(** ** Constructing an object on a live server *)

Lemma bind_need_server {A} (k : unit -> M World A) w :
  connected (engine w) = true -> bind need_server k w = k tt w.
Proof. intros Hc. apply bind_ok, need_server_ok, Hc. Qed.

Lemma createVisualShape_ok g rgba w :
  connected (engine w) = true ->
  shape_accepted g = true ->
  exists id w', createVisualShape g rgba w = (Ok id, w')
                /\ connected (engine w') = true /\ bodies (engine w') = bodies (engine w).
Proof.
  intros Hc Hg. unfold createVisualShape. rewrite bind_need_server by exact Hc.
  rewrite Hg. eexists _, _. split; [reflexivity|]. split; [exact Hc|reflexivity].
Qed.

(** The server makes no shape of a geometry it does not accept. *)
Lemma createVisualShape_refused g rgba w :
  connected (engine w) = true ->
  shape_accepted g = false ->
  createVisualShape g rgba w = (Raise (Exn BulletError "createVisualShape failed."), w).
Proof.
  intros Hc Hg. unfold createVisualShape. rewrite bind_need_server by exact Hc.
  rewrite Hg. reflexivity.
Qed.

Lemma createCollisionShape_ok g w :
  connected (engine w) = true ->
  shape_accepted g = true ->
  exists id w', createCollisionShape g w = (Ok id, w')
                /\ connected (engine w') = true /\ bodies (engine w') = bodies (engine w).
Proof.
  intros Hc Hg. unfold createCollisionShape. rewrite bind_need_server by exact Hc.
  rewrite Hg. eexists _, _. split; [reflexivity|]. split; [exact Hc|reflexivity].
Qed.

Lemma createMultiBody_ok m col vis pos w :
  connected (engine w) = true ->
  exists w', createMultiBody m col vis pos w = (Ok (length (bodies (engine w))), w')
             /\ connected (engine w') = true
             /\ bodies (engine w')
                = bodies (engine w) ++ [mkBody (mkKin pos (Quat 0 0 0 1) zero3 zero3 []) []].
Proof.
  intros Hc. unfold createMultiBody. rewrite bind_need_server by exact Hc.
  eexists. split; [reflexivity|]. split; [exact Hc|reflexivity].
Qed.

Lemma changeDynamics_ok body link u w :
  connected (engine w) = true ->
  exists w', changeDynamics body link u w = (Ok tt, w')
             /\ connected (engine w') = true
             /\ bodies (engine w') = bodies (engine w).
Proof.
  intros Hc. unfold changeDynamics. rewrite bind_need_server by exact Hc.
  eexists. split; [reflexivity|].
  unfold log, set_engine, apply_dynamics. cbn [engine].
  destruct (bodies (engine w) !! body); split; first [exact Hc|reflexivity].
Qed.

Lemma create_shape_unfold c h col :
  Objects.create_shape c h col
  = (visual_shape_id <- createVisualShape (shape_of c h) col ;;
     collision_shape_id <- createCollisionShape (shape_of c h) ;;
     ret (visual_shape_id, collision_shape_id)).
Proof. destruct c; reflexivity. Qed.

Lemma create_shape_ok c h col w :
  connected (engine w) = true ->
  shape_accepted (shape_of c h) = true ->
  exists ids w', Objects.create_shape c h col w = (Ok ids, w')
                 /\ connected (engine w') = true /\ bodies (engine w') = bodies (engine w).
Proof.
  intros Hc Hg. rewrite create_shape_unfold.
  destruct (createVisualShape_ok (shape_of c h) col w Hc Hg) as (v & w1 & E1 & Hc1 & Hb1).
  destruct (createCollisionShape_ok (shape_of c h) w1 Hc1 Hg) as (k & w2 & E2 & Hc2 & Hb2).
  exists (v, k), w2. split; [|split; [exact Hc2|congruence]].
  rewrite (bind_ok _ _ _ _ _ E1), (bind_ok _ _ _ _ _ E2). reflexivity.
Qed.

Lemma object_init_ok c h m col w :
  connected (engine w) = true ->
  shape_accepted (shape_of c h) = true ->
  exists ob w', Objects.__init__ c h m col w = (Ok ob, w')
                /\ Objects.ocls ob = c
                /\ Objects.object_id ob = length (bodies (engine w))
                /\ length (bodies (engine w')) = Datatypes.S (length (bodies (engine w)))
                /\ knows (Objects.object_id ob) 0 w'.
Proof.
  intros Hc Hg. unfold Objects.__init__, Objects._create_object. cbv zeta.
  destruct (create_shape_ok c h
              match col with Some (x :: l) => x :: l | _ => [1; 1; 1; 1]%float end w Hc Hg)
    as (ids & w1 & E1 & Hc1 & Hb1).
  destruct (createMultiBody_ok m (snd ids) (fst ids) (Objects.get_spawn_position h) w1 Hc1)
    as (w2 & E2 & Hc2 & Hb2).
  destruct (changeDynamics_ok (length (bodies (engine w1))) (-1)
              (mkDyn None (Some 1.2%float) (Some 0.1%float)) w2 Hc2)
    as (w3 & E3 & Hc3 & Hb3).
  eexists _, w3. split.
  - unfold bind. rewrite E1. cbv beta iota. rewrite E2. cbv beta iota.
    rewrite E3. reflexivity.
  - split; [reflexivity|]. split; [simpl; rewrite Hb1; reflexivity|].
    split.
    + rewrite Hb3, Hb2, Hb1, length_app. cbn [length]. lia.
    + split; [exact Hc3|]. eexists. split.
      * cbn [Objects.object_id]. rewrite Hb3, Hb2.
        apply list_lookup_middle. reflexivity.
      * reflexivity.
Qed.

(** A geometry the server does not accept ends the construction
    before anything is made. *)
Lemma object_init_refused c h m col w :
  connected (engine w) = true ->
  shape_accepted (shape_of c h) = false ->
  Objects.__init__ c h m col w
  = (Raise (Exn BulletError "createVisualShape failed."), w).
Proof.
  intros Hc Hg. unfold Objects.__init__, Objects._create_object. cbv zeta.
  rewrite create_shape_unfold.
  apply bind_raise, bind_raise, bind_raise, createVisualShape_refused; assumption.
Qed.

Lemma object_init_class c h m col w ob w' :
  Objects.__init__ c h m col w = (Ok ob, w') -> Objects.ocls ob = c.
Proof.
  unfold Objects.__init__, bind. intros H.
  destruct (Objects._create_object c h m _ w) as [[id|e] w1]; [|discriminate].
  unfold ret in H. injection H as <- _. reflexivity.
Qed.

Lemma bind_kwargs_ok params kw w :
  dom (Objects.kw_num kw) ⊆ (list_to_set params : gset string) ->
  Objects.bind_kwargs params kw w = (Ok tt, w).
Proof.
  intros H. unfold Objects.bind_kwargs. rewrite decide_True by exact H. reflexivity.
Qed.

Lemma new_object_class tag kw w ob w' :
  tag ∈ Objects.get_supported_types ->
  new_object tag kw w = (Ok ob, w') -> object_tag (Objects.ocls ob) = tag.
Proof.
  unfold Objects.get_supported_types, new_object. intros Htag.
  destruct (decide (tag = "cuboid")) as [->|Hne].
  - unfold Objects.new_CuboidObject, bind. intros H.
    destruct (Objects.bind_kwargs _ kw w) as [[[]|e] w1]; [|discriminate].
    apply object_init_class in H. rewrite H. reflexivity.
  - assert (tag = "cylinder") as ->.
    { apply elem_of_cons in Htag as [->|Htag]; [contradiction|].
      apply list_elem_of_singleton in Htag. exact Htag. }
    unfold Objects.new_CylinderObject, bind. intros H.
    destruct (Objects.bind_kwargs _ kw w) as [[[]|e] w1]; [|discriminate].
    apply object_init_class in H. rewrite H. reflexivity.
Qed.

Lemma new_object_init tag kw w :
  dom (Objects.kw_num kw) ⊆ (list_to_set (object_params tag) : gset string) ->
  new_object tag kw w
  = Objects.__init__ (object_class tag kw) (Objects.kw_get "height" 0.8 kw)
      (Objects.kw_get "mass" 0.1 kw) (Objects.kw_color kw) w.
Proof.
  intros Hkw. unfold new_object, object_params, object_class in *.
  destruct (decide (tag = "cuboid")).
  - unfold Objects.new_CuboidObject.
    rewrite (bind_ok _ _ _ _ _ (bind_kwargs_ok _ kw w Hkw)). reflexivity.
  - unfold Objects.new_CylinderObject.
    rewrite (bind_ok _ _ _ _ _ (bind_kwargs_ok _ kw w Hkw)). reflexivity.
Qed.

Lemma new_object_ok tag kw w :
  connected (engine w) = true ->
  dom (Objects.kw_num kw) ⊆ (list_to_set (object_params tag) : gset string) ->
  shape_accepted (object_shape tag kw) = true ->
  exists ob w', new_object tag kw w = (Ok ob, w')
                /\ Objects.object_id ob = length (bodies (engine w))
                /\ length (bodies (engine w')) = Datatypes.S (length (bodies (engine w)))
                /\ knows (Objects.object_id ob) 0 w'.
Proof.
  intros Hc Hkw Hg. rewrite (new_object_init tag kw w Hkw).
  destruct (object_init_ok (object_class tag kw) (Objects.kw_get "height" 0.8 kw)
              (Objects.kw_get "mass" 0.1 kw) (Objects.kw_color kw) w Hc Hg)
    as (ob & w' & E & _ & Hid & Hlen & Hk).
  exists ob, w'. split; [exact E|]. split; [exact Hid|]. split; [exact Hlen|exact Hk].
Qed.

Lemma new_object_refused tag kw w :
  connected (engine w) = true ->
  dom (Objects.kw_num kw) ⊆ (list_to_set (object_params tag) : gset string) ->
  shape_accepted (object_shape tag kw) = false ->
  new_object tag kw w = (Raise (Exn BulletError "createVisualShape failed."), w).
Proof.
  intros Hc Hkw Hg. rewrite (new_object_init tag kw w Hkw).
  apply object_init_refused; assumption.
Qed.

(** ** The dispatch *)

Lemma create_gripper_dispatch cd tag p o c :
  lower tag = gripper_tag c ->
  Gripper.create_gripper cd tag p o = new_gripper cd c p o.
Proof.
  intros H. unfold Gripper.create_gripper. rewrite H. destruct c; reflexivity.
Qed.

(** C6. A type string whose lower-case form is not a supported tag
    makes [GripperFactory.create_gripper] and
    [ObjectFactory.create_object] raise [ValueError] with the world
    untouched: nothing was loaded, created or sent to the server.  A
    type string whose lower-case form is the tag of a class is handed
    to the constructor of that class, so that no error comes from the
    dispatch; what the constructor returns is an instance of that
    class.  On a live server it does return one, and the server then
    has one body more, which it knows under the instance's id (with the
    joints of the model for a gripper, without a joint for an object),
    when the server holds the
    class's model file (for a gripper), or when the keywords are of the
    class's signature and give a geometry the server makes a shape of
    (for an object: any cuboid, a cylinder of a radius above zero and a
    height not below); with keywords of the signature that give
    another geometry, the constructor raises the server's error, and
    nothing is created. *)
Theorem factories_dispatch (current_dir tag : string) (p : vec3) (o : quat)
  (kw : Objects.Kwargs) (w : World) :
  (lower tag ∉ Gripper.get_supported_types ->
   exists msg, Gripper.create_gripper current_dir tag p o w
               = (Raise (Exn ValueError msg), w))
  /\ (lower tag ∉ Objects.get_supported_types ->
      exists msg, Objects.create_object tag kw w = (Raise (Exn ValueError msg), w))
  /\ (forall c : Gripper.GripperClass,
        lower tag = gripper_tag c ->
        Gripper.create_gripper current_dir tag p o w = new_gripper current_dir c p o w
        /\ (forall g w', new_gripper current_dir c p o w = (Ok g, w') -> Gripper.cls g = c)
        /\ (forall jts,
              connected (engine w) = true ->
              urdf_models (engine w) !! gripper_model current_dir c = Some jts ->
              exists g w', new_gripper current_dir c p o w = (Ok g, w')
                           /\ Gripper.gripper g = length (bodies (engine w))
                           /\ length (bodies (engine w'))
                              = Datatypes.S (length (bodies (engine w)))
                           /\ knows (Gripper.gripper g) (length jts) w'))
  /\ (lower tag ∈ Objects.get_supported_types ->
      Objects.create_object tag kw w = new_object (lower tag) kw w
      /\ (forall ob w', new_object (lower tag) kw w = (Ok ob, w') ->
                        object_tag (Objects.ocls ob) = lower tag)
      /\ (connected (engine w) = true ->
          dom (Objects.kw_num kw) ⊆ (list_to_set (object_params (lower tag)) : gset string) ->
          (shape_accepted (object_shape (lower tag) kw) = true ->
           exists ob w', new_object (lower tag) kw w = (Ok ob, w')
                         /\ Objects.object_id ob = length (bodies (engine w))
                         /\ length (bodies (engine w'))
                            = Datatypes.S (length (bodies (engine w)))
                         /\ knows (Objects.object_id ob) 0 w')
          /\ (shape_accepted (object_shape (lower tag) kw) = false ->
              exists msg, new_object (lower tag) kw w
                          = (Raise (Exn BulletError msg), w)))).
Proof.
  split; [|split; [|split]].
  - intros H. apply unsupported_gripper in H as (H1 & H2 & H3).
    unfold Gripper.create_gripper.
    rewrite !decide_False by assumption. eexists. reflexivity.
  - intros H. apply unsupported_object in H as (H1 & H2).
    unfold Objects.create_object.
    rewrite !decide_False by assumption. eexists. reflexivity.
  - intros c Hc. split; [|split].
    + rewrite (create_gripper_dispatch current_dir tag p o c Hc). reflexivity.
    + intros g w'. apply new_gripper_class.
    + intros jts Hcon Hf. apply new_gripper_ok; assumption.
  - intros Htag. split; [|split].
    + unfold Objects.create_object, new_object.
      destruct (decide (lower tag = "cuboid")); [reflexivity|].
      rewrite decide_True; [reflexivity|].
      unfold Objects.get_supported_types in Htag.
      apply elem_of_cons in Htag as [?|Htag]; [contradiction|].
      apply list_elem_of_singleton in Htag. exact Htag.
    + intros ob w'. apply new_object_class. exact Htag.
    + intros Hcon Hkw. split; intros Hg.
      * apply new_object_ok; assumption.
      * eexists. apply new_object_refused; assumption.
Qed.

(** A cylinder without a radius is refused by the server: the factory
    raises its error. *)
Example create_cylinder_without_radius :
  Objects.create_object "cylinder" (Objects.mkKwargs {[ "radius" := 0%float ]} None) world2
  = (Raise (Exn BulletError "createVisualShape failed."), world2).
Proof. vm_compute. reflexivity. Qed.

(** C9 (as amended). [GripperFactory.create_gripper] on a type string
    behaves as [select_gripper] on its lower-case form: both end in the
    same world, with the same gripper or the same error of a
    constructor, or with a [ValueError] each (the two messages
    differ).  So the two agree on every type string that is its own
    lower-case form. *)
Theorem create_gripper_select_gripper (current_dir gripper_type : string)
  (position : vec3) (orientation : quat) (w : World) :
  same_outcome (Gripper.create_gripper current_dir gripper_type position orientation w)
    (Gripper.select_gripper current_dir (lower gripper_type) position orientation w)
  /\ (lower gripper_type = gripper_type ->
      same_outcome (Gripper.create_gripper current_dir gripper_type position orientation w)
        (Gripper.select_gripper current_dir gripper_type position orientation w)).
Proof.
  assert (H : same_outcome
    (Gripper.create_gripper current_dir gripper_type position orientation w)
    (Gripper.select_gripper current_dir (lower gripper_type) position orientation w)).
  { unfold Gripper.create_gripper, Gripper.select_gripper, same_outcome.
    destruct (decide (lower gripper_type = "pr2")); [split; [|left]; reflexivity|].
    destruct (decide (lower gripper_type = "sdh")); [split; [|left]; reflexivity|].
    destruct (decide (lower gripper_type = "custom")); [split; [|left]; reflexivity|].
    split; [reflexivity|]. right. split; reflexivity. }
  split; [exact H|]. intros E. rewrite E in H. exact H.
Qed.

(** C9 as stated fails on an upper-case type string: on a server that
    holds the PR2 model, the factory builds a [PR2Gripper] from the
    string PR2, and [select_gripper] raises [ValueError]. *)
Lemma select_gripper_case_counterexample :
  (exists g w',
     Gripper.create_gripper "/opt/grasp" "PR2" zero3 (Quat 0 0 0 1) world2 = (Ok g, w')
     /\ Gripper.cls g = Gripper.PR2Gripper
     /\ length (bodies (engine w')) = 1%nat)
  /\ Gripper.select_gripper "/opt/grasp" "PR2" zero3 (Quat 0 0 0 1) world2
     = (Raise (Exn ValueError
                 "Unsupported gripper type. Supported types: 'pr2', 'sdh', 'custom'."),
        world2).
Proof.
  split; [|vm_compute; reflexivity].
  eexists _, _. split; [vm_compute; reflexivity|]. split; reflexivity.
Qed.

Example create_pr2_any_case :
  exists g w', Gripper.create_gripper "/opt/grasp" "PR2" zero3 (Quat 0 0 0 1) world2 = (Ok g, w')
    /\ Gripper.cls g = Gripper.PR2Gripper /\ Gripper.active_joints g = [0; 2]%nat.
Proof. eexists _, _. split; [vm_compute; reflexivity|]. split; reflexivity. Qed.

Example create_sdh_any_case :
  exists g w', Gripper.create_gripper "/opt/grasp" "SDH" zero3 (Quat 0 0 0 1) world2 = (Ok g, w')
    /\ Gripper.cls g = Gripper.SDHGripper /\ Gripper.active_joints g = [0; 1; 2]%nat.
Proof. eexists _, _. split; [vm_compute; reflexivity|]. split; reflexivity. Qed.

Example create_cuboid_any_case :
  exists o w', Objects.create_object "Cuboid" no_kwargs world2 = (Ok o, w')
    /\ Objects.object_id o = 0%nat
    /\ trace w' = [EvCreateVisualShape (GEOM_BOX (Vec3 0.025 0.025 0.4)) [1; 1; 1; 1]%float;
                   EvCreateCollisionShape (GEOM_BOX (Vec3 0.025 0.025 0.4));
                   EvCreateMultiBody 0.1 0 0 (Vec3 0 0 0.4);
                   EvChangeDynamics 0 (-1) (mkDyn None (Some 1.2%float) (Some 0.1%float))].
Proof. eexists _, _. split; [vm_compute; reflexivity|]. split; reflexivity. Qed.


End FactoryProofs.

(* ================================================================== *)
(** * The result store                                                 *)
(* ================================================================== *)

Module StoreProofs.
Import Py Bullet Os Vocabulary BulletFacts Examples.
#[local] Open Scope py_scope.

(** ** Strings *)

Lemma string_app_cons c (s t : string) : String c s +:+ t = String c (s +:+ t).
Proof. reflexivity. Qed.

Lemma string_app_assoc (s t u : string) : (s +:+ t) +:+ u = s +:+ (t +:+ u).
Proof. induction s as [|c s IH]; [reflexivity|]. rewrite !string_app_cons, IH. reflexivity. Qed.

Lemma string_app_nil_r (s : string) : s +:+ EmptyString = s.
Proof. induction s as [|c s IH]; [reflexivity|]. rewrite string_app_cons, IH. reflexivity. Qed.

Lemma string_length_app (s t : string) :
  String.length (s +:+ t) = (String.length s + String.length t)%nat.
Proof. induction s as [|c s IH]; [reflexivity|]. rewrite string_app_cons. simpl. rewrite IH. reflexivity. Qed.

(** ** Characters of a plain field *)

Lemma special_false c :
  Csv.special c = false ->
  c <> Csv.delimiter /\ c <> Csv.quotechar /\ c <> CR /\ c <> LF.
Proof.
  unfold Csv.special. intros H.
  apply orb_false_elim in H as [H H4]. apply orb_false_elim in H as [H H3].
  apply orb_false_elim in H as [H1 H2].
  apply bool_decide_eq_false in H1, H2, H3, H4. tauto.
Qed.

Lemma has_special_cons c s :
  Csv.has_special (String c s) = false ->
  Csv.special c = false /\ Csv.has_special s = false.
Proof. simpl. apply orb_false_elim. Qed.

Lemma write_field_plain s : Csv.has_special s = false -> Csv.write_field s = s.
Proof. intros H. unfold Csv.write_field. rewrite H. reflexivity. Qed.

(** ** Newline translation and line splitting *)

Lemma is_newline_false c : Csv.is_newline c = false -> c <> LF /\ c <> CR.
Proof.
  unfold Csv.is_newline. intros H. apply orb_false_elim in H as [H1 H2].
  apply bool_decide_eq_false in H1, H2. tauto.
Qed.

Lemma special_is_newline c : Csv.special c = false -> Csv.is_newline c = false.
Proof.
  intros H. apply special_false in H as (_ & _ & Hcr & Hlf).
  unfold Csv.is_newline. rewrite !bool_decide_eq_false_2 by assumption. reflexivity.
Qed.

Lemma has_break_cons c s :
  has_break (String c s) = false -> Csv.is_newline c = false /\ has_break s = false.
Proof. simpl. apply orb_false_elim. Qed.

Lemma has_break_app s t :
  has_break s = false -> has_break t = false -> has_break (s +:+ t) = false.
Proof.
  induction s as [|c s IH]; intros Hs Ht; [exact Ht|].
  apply has_break_cons in Hs as [Hc Hs]. rewrite string_app_cons. simpl.
  rewrite Hc, (IH Hs Ht). reflexivity.
Qed.

Lemma plain_no_break s : Csv.has_special s = false -> has_break s = false.
Proof.
  induction s as [|c s IH]; intros Hs; [reflexivity|].
  apply has_special_cons in Hs as [Hc Hs]. simpl.
  rewrite (special_is_newline c Hc), (IH Hs). reflexivity.
Qed.

(** Text without a line break passes through the translation, and
    stays on one line. *)
Lemma universal_newlines_app s t :
  has_break s = false ->
  universal_newlines (s +:+ t) = s +:+ universal_newlines t.
Proof.
  induction s as [|c s IH]; intros Hs; [reflexivity|].
  apply has_break_cons in Hs as [Hc Hs]. apply is_newline_false in Hc as [_ Hcr].
  rewrite !string_app_cons. simpl. rewrite decide_False by exact Hcr. rewrite (IH Hs). reflexivity.
Qed.

Lemma universal_newlines_crlf t :
  universal_newlines (Csv.lineterminator +:+ t) = String LF (universal_newlines t).
Proof. reflexivity. Qed.

Lemma split_lines_app s t :
  has_break s = false ->
  split_lines (s +:+ String LF t) = (s +:+ String LF EmptyString) :: split_lines t.
Proof.
  induction s as [|c s IH]; intros Hs.
  - reflexivity.
  - apply has_break_cons in Hs as [Hc Hs]. apply is_newline_false in Hc as [Hlf _].
    rewrite !string_app_cons. simpl. rewrite decide_False by exact Hlf.
    rewrite (IH Hs). reflexivity.
Qed.

(** ** What the writer writes for plain fields *)

Lemma join_fields_plain_cons f fs :
  Csv.has_special f = false -> fs <> [] ->
  Csv.join_fields (f :: fs) = f +:+ String Csv.delimiter (Csv.join_fields fs).
Proof.
  intros Hf Hne. destruct fs as [|f2 fs]; [contradiction|].
  simpl. rewrite (write_field_plain f Hf). reflexivity.
Qed.

Lemma join_fields_no_break r :
  Forall plain r -> has_break (Csv.join_fields r) = false.
Proof.
  induction r as [|f fs IH]; intros Hr; [reflexivity|].
  apply Forall_cons in Hr as [[Hf _] Hfs].
  destruct fs as [|f2 fs].
  - simpl. rewrite (write_field_plain f Hf). apply plain_no_break, Hf.
  - rewrite join_fields_plain_cons by (assumption || discriminate).
    apply has_break_app; [apply plain_no_break, Hf|].
    simpl. apply (IH Hfs).
Qed.

(** The file as read: one line per row. *)
Lemma lines_of_csv_text rows :
  Forall (Forall plain) rows ->
  split_lines (universal_newlines (csv_text rows)) = map row_line rows.
Proof.
  induction rows as [|r rows IH]; intros Hrows; [reflexivity|].
  apply Forall_cons in Hrows as [Hr Hrows].
  assert (Hb : has_break (if decide (r = [EmptyString]) then Csv.quoted EmptyString
                          else Csv.join_fields r) = false).
  { destruct (decide (r = [EmptyString])); [reflexivity|apply join_fields_no_break, Hr]. }
  simpl. unfold Csv.writerow, row_line.
  rewrite string_app_assoc, (universal_newlines_app _ _ Hb), universal_newlines_crlf.
  rewrite (split_lines_app _ _ Hb), (IH Hrows). reflexivity.
Qed.

(** ** What the reader reads back *)

Lemma feed_app s t p :
  Csv.feed (s +:+ t) p
  = match Csv.feed s p with
    | Ok p' => Csv.feed t p'
    | Raise e => Raise e
    end.
Proof.
  revert p. induction s as [|c s IH]; intros p; [reflexivity|].
  rewrite string_app_cons. simpl. destruct (Csv.process p (Some c)); [apply IH|reflexivity].
Qed.

Lemma parse_add_char_ok p c next :
  (N.of_nat (String.length (Csv.field p)) < Csv.field_limit)%N ->
  Csv.parse_add_char p c next
  = Ok (Csv.mkParser next (Csv.field p +:+ String c EmptyString) (Csv.fields p)).
Proof.
  intros H. unfold Csv.parse_add_char.
  destruct (N.leb_spec Csv.field_limit (N.of_nat (String.length (Csv.field p))));
    [lia|reflexivity].
Qed.

(** An ordinary character inside an unquoted field is added to it. *)
Lemma process_in_field cur acc c :
  Csv.special c = false ->
  (N.of_nat (String.length cur) < Csv.field_limit)%N ->
  Csv.process (Csv.mkParser Csv.IN_FIELD cur acc) (Some c)
  = Ok (Csv.mkParser Csv.IN_FIELD (cur +:+ String c EmptyString) acc).
Proof.
  intros Hc Hlen. pose proof (special_is_newline c Hc) as Hnl.
  apply special_false in Hc as (Hd & _ & _ & _).
  unfold Csv.process. cbn [Csv.state]. rewrite Hnl, decide_False by exact Hd.
  apply parse_add_char_ok. exact Hlen.
Qed.

(** At the start of a field it opens the field. *)
Lemma process_start_field_char st acc c :
  st = Csv.START_FIELD \/ st = Csv.START_RECORD ->
  Csv.special c = false ->
  Csv.process (Csv.mkParser st EmptyString acc) (Some c)
  = Ok (Csv.mkParser Csv.IN_FIELD (String c EmptyString) acc).
Proof.
  intros Hst Hc. pose proof (special_is_newline c Hc) as Hnl.
  apply special_false in Hc as (Hd & Hq & _ & _).
  assert (H : Csv.process_start_field (Csv.mkParser st EmptyString acc) (Some c)
              = Ok (Csv.mkParser Csv.IN_FIELD (String c EmptyString) acc)).
  { unfold Csv.process_start_field. rewrite Hnl.
    rewrite decide_False by exact Hq. rewrite decide_False by exact Hd.
    apply parse_add_char_ok. simpl. unfold Csv.field_limit. lia. }
  unfold Csv.process. cbn [Csv.state].
  destruct Hst as [-> | ->]; [exact H|]. rewrite Hnl. exact H.
Qed.

Lemma feed_in_field s cur acc :
  Csv.has_special s = false ->
  (N.of_nat (String.length cur + String.length s) <= Csv.field_limit)%N ->
  Csv.feed s (Csv.mkParser Csv.IN_FIELD cur acc)
  = Ok (Csv.mkParser Csv.IN_FIELD (cur +:+ s) acc).
Proof.
  revert cur. induction s as [|c s IH]; intros cur Hs Hlen.
  - rewrite string_app_nil_r. reflexivity.
  - apply has_special_cons in Hs as [Hc Hs]. simpl in Hlen. simpl.
    rewrite (process_in_field cur acc c Hc) by lia.
    rewrite (IH _ Hs).
    + rewrite string_app_assoc. reflexivity.
    + rewrite string_length_app. simpl. lia.
Qed.

(** The characters of a plain field, from the start of a field. *)
Lemma feed_field st f acc :
  plain f ->
  st = Csv.START_FIELD \/ (st = Csv.START_RECORD /\ f <> EmptyString) ->
  Csv.feed f (Csv.mkParser st EmptyString acc) = Ok (at_field f acc).
Proof.
  intros [Hs Hlen] Hst. unfold at_field. destruct f as [|c f].
  - destruct Hst as [-> | [_ Hne]]; [reflexivity|contradiction].
  - rewrite decide_False by discriminate.
    apply has_special_cons in Hs as [Hc Hs]. simpl in Hlen.
    cbn [Csv.feed].
    rewrite (process_start_field_char st acc c) by (assumption || tauto).
    rewrite (feed_in_field f _ acc Hs) by (simpl; lia).
    reflexivity.
Qed.

(** The delimiter and the line feed after a field end it. *)
Lemma process_end_field f acc :
  Csv.process (at_field f acc) (Some Csv.delimiter)
  = Ok (Csv.mkParser Csv.START_FIELD EmptyString (acc ++ [f]))
  /\ Csv.process (at_field f acc) (Some LF)
     = Ok (Csv.mkParser Csv.EAT_CRNL EmptyString (acc ++ [f])).
Proof.
  unfold at_field. destruct (decide (f = EmptyString)) as [->|Hne]; split; reflexivity.
Qed.

Lemma feed_join fs acc :
  fs <> [] -> Forall plain fs ->
  Csv.feed (Csv.join_fields fs +:+ String LF EmptyString)
    (Csv.mkParser Csv.START_FIELD EmptyString acc)
  = Ok (Csv.mkParser Csv.EAT_CRNL EmptyString (acc ++ fs)).
Proof.
  revert acc. induction fs as [|f fs IH]; intros acc Hne Hall; [contradiction|].
  apply Forall_cons in Hall as [Hf Hall].
  destruct (process_end_field f acc) as [Hd Hl].
  destruct fs as [|f2 fs].
  - simpl. rewrite (write_field_plain f (proj1 Hf)).
    rewrite feed_app, (feed_field _ f acc Hf) by tauto.
    simpl. rewrite Hl. reflexivity.
  - rewrite join_fields_plain_cons by (apply Hf || discriminate).
    rewrite string_app_assoc, feed_app, (feed_field _ f acc Hf) by tauto.
    rewrite string_app_cons. cbn [Csv.feed]. rewrite Hd.
    rewrite IH by (discriminate || assumption).
    rewrite <- List.app_assoc. reflexivity.
Qed.

(** A record starts like a field, unless a line break comes first. *)
Lemma feed_start_record c s fld acc :
  Csv.is_newline c = false ->
  Csv.feed (String c s) (Csv.mkParser Csv.START_RECORD fld acc)
  = Csv.feed (String c s) (Csv.mkParser Csv.START_FIELD fld acc).
Proof.
  intros Hc. simpl. unfold Csv.process. cbn [Csv.state]. rewrite Hc. reflexivity.
Qed.

Lemma join_fields_head fs :
  Forall plain fs -> fs <> [] -> fs <> [EmptyString] ->
  exists c s, Csv.join_fields fs +:+ String LF EmptyString = String c s
              /\ Csv.is_newline c = false.
Proof.
  intros Hall Hne Hne1. destruct fs as [|f fs]; [contradiction|].
  apply Forall_cons in Hall as [[Hf _] _].
  destruct f as [|c f].
  - destruct fs as [|f2 fs]; [contradiction|].
    rewrite join_fields_plain_cons by (reflexivity || discriminate).
    eexists _, _. split; reflexivity.
  - apply has_special_cons in Hf as [Hc Hf'].
    assert (Hf : Csv.has_special (String c f) = false)
      by (simpl; rewrite Hc, Hf'; reflexivity).
    destruct fs as [|f2 fs].
    + simpl. rewrite (write_field_plain _ Hf).
      eexists _, _. split; [reflexivity|apply special_is_newline, Hc].
    + rewrite join_fields_plain_cons by (assumption || discriminate).
      eexists _, _. split; [reflexivity|apply special_is_newline, Hc].
Qed.

(** One line of the file gives back the row it was written from. *)
Lemma feed_row_line r :
  Forall plain r ->
  Csv.feed (row_line r) Csv.parse_reset = Ok (Csv.mkParser Csv.EAT_CRNL EmptyString r).
Proof.
  intros Hr. unfold row_line.
  destruct (decide (r = [EmptyString])) as [->|Hne1]; [reflexivity|].
  destruct (decide (r = [])) as [->|Hne]; [reflexivity|].
  destruct (join_fields_head r Hr Hne Hne1) as (c & s & E & Hc).
  unfold Csv.parse_reset. rewrite E, (feed_start_record c s _ _ Hc), <- E.
  apply (feed_join r [] Hne Hr).
Qed.

Lemma read_records_rows rows :
  Forall (Forall plain) rows ->
  Csv.read_records (map row_line rows) Csv.parse_reset = Ok rows.
Proof.
  induction rows as [|r rows IH]; intros Hrows; [reflexivity|].
  apply Forall_cons in Hrows as [Hr Hrows].
  cbn [map Csv.read_records]. rewrite (feed_row_line r Hr).
  cbn. rewrite (IH Hrows). reflexivity.
Qed.

(** Round trip: reading a file the writer wrote, of plain fields,
    yields the rows written. *)
Lemma reader_csv_text rows :
  Forall (Forall plain) rows ->
  Csv.reader (split_lines (universal_newlines (csv_text rows))) = Ok rows.
Proof.
  intros Hrows. unfold Csv.reader.
  rewrite (lines_of_csv_text rows Hrows). apply read_records_rows, Hrows.
Qed.

Lemma csv_text_app rows1 rows2 :
  csv_text (rows1 ++ rows2) = csv_text rows1 +:+ csv_text rows2.
Proof.
  induction rows1 as [|r rows1 IH]; [reflexivity|].
  simpl. rewrite IH, string_app_assoc. reflexivity.
Qed.

(** ** Creating the store *)

Lemma writerow_store_columns : Csv.writerow store_columns = header_text.
Proof. vm_compute. reflexivity. Qed.

Lemma store_columns_plain : Forall plain store_columns.
Proof.
  unfold store_columns.
  repeat (constructor; [split; [reflexivity|vm_compute; discriminate]|]).
  constructor.
Qed.

Lemma isfile_spec path w :
  isfile path w = (Ok (bool_decide (is_Some (files w !! path))), w).
Proof. reflexivity. Qed.

Lemma init_existing output_path w text :
  files w !! output_path = Some text ->
  Metrics.__init__ output_path w = (Ok (Metrics.mkMetrics output_path store_columns), w).
Proof.
  intros H. unfold Metrics.__init__, Metrics._initialize_csv.
  cbn [Metrics.output_path]. unfold bind at 1. unfold bind at 1.
  rewrite isfile_spec, H.
  rewrite bool_decide_eq_true_2 by (eexists; reflexivity). reflexivity.
Qed.

Lemma open_ok mode path w :
  refusal w mode path = None -> open_ mode path w = (Ok tt, w).
Proof. intros H. unfold open_, bind, gets. rewrite H. reflexivity. Qed.

Lemma open_refused mode path w msg :
  refusal w mode path = Some msg -> open_ mode path w = (Raise (Exn OSError msg), w).
Proof. intros H. unfold open_, bind, gets. rewrite H. reflexivity. Qed.

Lemma init_fresh output_path w :
  files w !! output_path = None ->
  refusal w ModeW output_path = None ->
  Metrics.__init__ output_path w
  = (Ok (Metrics.mkMetrics output_path store_columns),
     set_files (fun fs => <[output_path := header_text]> fs) w).
Proof.
  intros H Hopen. unfold Metrics.__init__, Metrics._initialize_csv.
  cbn [Metrics.output_path Metrics.column_names]. unfold bind at 1. unfold bind at 1.
  rewrite isfile_spec, H.
  rewrite bool_decide_eq_false_2 by (intros [? ?]; discriminate).
  change (Csv.writerow _) with (Csv.writerow store_columns).
  rewrite writerow_store_columns. cbn [negb]. unfold write_new.
  rewrite (bind_ok _ _ _ _ _ (open_ok ModeW output_path w Hopen)). reflexivity.
Qed.

Lemma init_refused output_path w msg :
  files w !! output_path = None ->
  refusal w ModeW output_path = Some msg ->
  Metrics.__init__ output_path w = (Raise (Exn OSError msg), w).
Proof.
  intros H Hopen. unfold Metrics.__init__, Metrics._initialize_csv.
  cbn [Metrics.output_path Metrics.column_names]. unfold bind at 1. unfold bind at 1.
  rewrite isfile_spec, H.
  rewrite bool_decide_eq_false_2 by (intros [? ?]; discriminate).
  cbn [negb]. unfold write_new.
  rewrite (bind_raise _ _ _ _ _ (open_refused ModeW output_path w msg Hopen)). reflexivity.
Qed.

(** C8. Constructing a [PerformanceMetrics] on a path that holds no
    file, and at which the file system lets a file be opened for
    writing, creates the file with one row, the ten column names in the
    stated order, comma-separated and ended by CR LF; read back, the
    file is that one row.  Where the file system refuses (the empty
    path, a directory that does not exist), the constructor raises its
    [OSError] and creates nothing.  Constructing it on a path that
    holds a file changes nothing, whatever the file holds; so
    constructing it again after it was constructed leaves the header as
    it was written. *)
Theorem init_writes_header_once (output_path : string) (w : World) :
  (files w !! output_path = None ->
   (refusal w ModeW output_path = None ->
    Metrics.__init__ output_path w
    = (Ok (Metrics.mkMetrics output_path store_columns),
       set_files (fun fs => <[output_path := header_text]> fs) w)
    /\ Csv.reader (split_lines (universal_newlines header_text)) = Ok [store_columns])
   /\ (forall msg, refusal w ModeW output_path = Some msg ->
       Metrics.__init__ output_path w = (Raise (Exn OSError msg), w)))
  /\ (forall text, files w !! output_path = Some text ->
      Metrics.__init__ output_path w = (Ok (Metrics.mkMetrics output_path store_columns), w))
  /\ (forall self w', Metrics.__init__ output_path w = (Ok self, w') ->
      Metrics.__init__ output_path w' = (Ok self, w')
      /\ (files w !! output_path = None -> files w' !! output_path = Some header_text)).
Proof.
  split; [|split].
  - intros H. split.
    + intros Hopen. split; [exact (init_fresh output_path w H Hopen)|].
      rewrite <- writerow_store_columns.
      change (Csv.writerow store_columns) with (csv_text [store_columns]).
      apply reader_csv_text. constructor; [apply store_columns_plain|constructor].
    + intros msg. apply init_refused, H.
  - intros text. apply init_existing.
  - intros self w' E. destruct (files w !! output_path) as [text|] eqn:Hf.
    + rewrite (init_existing output_path w text Hf) in E. injection E as <- <-.
      split; [exact (init_existing output_path w text Hf)|discriminate].
    + destruct (refusal w ModeW output_path) as [msg|] eqn:Hopen.
      * rewrite (init_refused output_path w msg Hf Hopen) in E. discriminate.
      * rewrite (init_fresh output_path w Hf Hopen) in E. injection E as <- <-.
        assert (Hnew : files (set_files (fun fs => <[output_path := header_text]> fs) w)
                       !! output_path = Some header_text)
          by (unfold set_files; cbn [files]; apply lookup_insert_eq).
        split; [exact (init_existing _ _ header_text Hnew)|intros _; exact Hnew].
Qed.

(** No store can be made at the empty path. *)
Example init_at_empty_path :
  Metrics.__init__ EmptyString (world0 true)
  = (Raise (Exn OSError "[Errno 2] No such file or directory: ''"), world0 true).
Proof. vm_compute. reflexivity. Qed.

(** ** Recording *)

Section Recording.
Context (float_repr : float -> string).
#[local] Abbreviation str := (Metrics.str float_repr).
#[local] Abbreviation record_attempt := (Metrics.record_attempt float_repr).

Lemma read_lines_ok path text w :
  files w !! path = Some text -> refusal w ModeR path = None ->
  read_lines path w = (Ok (split_lines (universal_newlines text)), w).
Proof.
  intros Hfile Hr. unfold read_lines.
  rewrite (bind_ok _ _ _ _ _ (open_ok ModeR path w Hr)).
  unfold bind, gets. rewrite Hfile. reflexivity.
Qed.

Lemma append_to_ok path text w :
  refusal w ModeA path = None -> append_to path text w = (Ok tt, appended path text w).
Proof.
  intros H. unfold append_to. rewrite (bind_ok _ _ _ _ _ (open_ok ModeA path w H)).
  reflexivity.
Qed.

(** What [record_attempt] reads of a store of plain rows: its data
    rows. *)
Lemma existing_records_read (self : Metrics.PerformanceMetrics) (header : list string)
  (rows : list (list string)) (w : World)
  (k : gset (list string) -> M World unit) :
  holds (Metrics.output_path self) header rows w ->
  refusal w ModeR (Metrics.output_path self) = None ->
  bind (exists_ <- isfile (Metrics.output_path self) ;;
        if exists_ then
          lines <- read_lines (Metrics.output_path self) ;;
          rows <- lift (Csv.reader lines) ;;
          ret (list_to_set (tail rows) : gset (list string))
        else ret ∅) k w
  = k (list_to_set rows) w.
Proof.
  intros [Hfile Hplain] Hr. unfold bind at 1. unfold bind at 1.
  rewrite isfile_spec, Hfile.
  rewrite bool_decide_eq_true_2 by (eexists; reflexivity).
  rewrite (bind_ok _ _ _ _ _ (read_lines_ok _ _ w Hfile Hr)).
  unfold bind at 1. unfold lift at 1.
  rewrite (reader_csv_text _ Hplain). reflexivity.
Qed.

(** On a store of plain rows whose file opens, [record_attempt] is a
    warning for a record whose string form is among the rows and an
    append for any other with a string form. *)
Lemma record_attempt_spec self r t header rows w :
  holds (Metrics.output_path self) header rows w ->
  opens (Metrics.output_path self) w ->
  map_result str r = Ok t ->
  (t ∈ rows -> record_attempt self r w = print duplicate_warning w)
  /\ (t ∉ rows ->
      record_attempt self r w
      = (Ok tt, appended (Metrics.output_path self) (Csv.writerow t) w)).
Proof.
  intros Hw [Hr Ha] Ht.
  split; intros H; unfold Metrics.record_attempt;
    (etransitivity; [apply (existing_records_read _ _ _ _ _ Hw Hr)|]); cbv beta zeta;
    unfold bind at 1; unfold lift at 1; rewrite Ht.
  - rewrite decide_False; [reflexivity|].
    intros Hn. apply Hn. apply elem_of_list_to_set. exact H.
  - rewrite decide_True; [apply append_to_ok, Ha|].
    intros Hn. apply H. apply elem_of_list_to_set in Hn. exact Hn.
Qed.

(** A record with an int too long for [str] is refused before the
    file is written. *)
Lemma record_attempt_unprintable self r e header rows w :
  holds (Metrics.output_path self) header rows w ->
  opens (Metrics.output_path self) w ->
  map_result str r = Raise e ->
  record_attempt self r w = (Raise e, w).
Proof.
  intros Hw [Hr Ha] Ht. unfold Metrics.record_attempt.
  etransitivity; [apply (existing_records_read _ _ _ _ _ Hw Hr)|]. cbv beta zeta.
  unfold bind at 1. unfold lift at 1. rewrite Ht. reflexivity.
Qed.

Lemma opens_appended path text w : opens path w -> opens path (appended path text w).
Proof. intros H. exact H. Qed.

(** An append keeps the store a store, one row longer. *)
Lemma append_holds path header rows t w :
  holds path header rows w -> Forall plain t ->
  holds path header (rows ++ [t]) (appended path (Csv.writerow t) w).
Proof.
  intros [Hfile Hplain] Ht. split.
  - unfold appended, set_files. cbn [files].
    rewrite lookup_insert_eq, Hfile. cbn [default].
    change (header :: rows ++ [t]) with ((header :: rows) ++ [t]).
    rewrite csv_text_app. cbn [csv_text]. rewrite string_app_nil_r. reflexivity.
  - change (header :: rows ++ [t]) with ((header :: rows) ++ [t]).
    apply Forall_app. split; [exact Hplain|]. constructor; [exact Ht|constructor].
Qed.

(** Counting a row among rows. *)
Lemma filter_absent (t : list string) rows :
  t ∉ rows -> filter (fun x => x = t) rows = [].
Proof.
  induction rows as [|x rows IH]; intros Hnin; [reflexivity|].
  apply not_elem_of_cons in Hnin as [Hne Hnin].
  rewrite filter_cons, decide_False by congruence. apply IH, Hnin.
Qed.

Lemma count_once (t : list string) rows :
  NoDup rows -> t ∈ rows -> length (filter (fun x => x = t) rows) = 1%nat.
Proof.
  induction rows as [|x rows IH]; intros Hnd Hin; [inversion Hin|].
  apply NoDup_cons in Hnd as [Hx Hnd]. rewrite filter_cons.
  destruct (decide (x = t)) as [->|Hne].
  - rewrite (filter_absent t rows Hx). reflexivity.
  - apply elem_of_cons in Hin as [->|Hin]; [contradiction|]. apply IH; assumption.
Qed.

(** C3 (as amended). Let the store file hold a header and data rows of
    plain fields and open for reading and appending, and let the record
    [r] have a string form [t], of plain fields (as the string forms of
    a float and of an int of at most 4300 digits are).  Two calls of
    [record_attempt] with [r] both return normally.  After the first
    the file holds the same rows, followed by [t] if no row was equal
    to it.  The second writes nothing: the files are as the first call
    left them, and the warning is printed.  If the rows held no
    repetition they hold none afterwards, and exactly one of them is
    [t].  A record whose string form is not among the rows afterwards,
    in whatever field it differs, is then appended, without a
    warning. *)
Theorem record_attempt_deduplicates (self : Metrics.PerformanceMetrics)
  (r : list Metrics.pyval) (t : list string) (header : list string)
  (rows : list (list string)) (w : World) :
  holds (Metrics.output_path self) header rows w ->
  opens (Metrics.output_path self) w ->
  map_result (Metrics.str float_repr) r = Ok t ->
  Forall plain t ->
  let stored := if decide (t ∈ rows) then rows else rows ++ [t] in
  exists w1 w2,
    Metrics.record_attempt float_repr self r w = (Ok tt, w1)
    /\ Metrics.record_attempt float_repr self r w1 = (Ok tt, w2)
    /\ holds (Metrics.output_path self) header stored w1
    /\ files w2 = files w1
    /\ stdout w2 = stdout w1 ++ [duplicate_warning]
    /\ (NoDup rows ->
        NoDup stored /\ length (filter (fun x => x = t) stored) = 1%nat)
    /\ (forall (r2 : list Metrics.pyval) (t2 : list string),
          map_result (Metrics.str float_repr) r2 = Ok t2 ->
          Forall plain t2 ->
          t2 ∉ stored ->
          exists w3,
            Metrics.record_attempt float_repr self r2 w2 = (Ok tt, w3)
            /\ holds (Metrics.output_path self) header (stored ++ [t2]) w3
            /\ stdout w3 = stdout w2).
Proof.
  intros Hw Ho Ht Hr stored.
  assert (H1 : exists w1, record_attempt self r w = (Ok tt, w1)
                          /\ holds (Metrics.output_path self) header stored w1
                          /\ opens (Metrics.output_path self) w1).
  { destruct (record_attempt_spec self r t header rows w Hw Ho Ht) as [Hdup Hnew].
    unfold stored. destruct (decide (t ∈ rows)) as [Hin|Hnin].
    - rewrite (Hdup Hin). eexists. split; [reflexivity|]. split; [exact Hw|exact Ho].
    - rewrite (Hnew Hnin). eexists. split; [reflexivity|].
      split; [apply (append_holds _ _ _ _ w Hw Hr)|exact Ho]. }
  destruct H1 as (w1 & E1 & Hw1 & Ho1).
  assert (Hin : t ∈ stored).
  { unfold stored. destruct (decide (t ∈ rows)) as [Hin|_]; [exact Hin|].
    apply elem_of_app. right. constructor. }
  destruct (record_attempt_spec self r t header stored w1 Hw1 Ho1 Ht) as [Hdup _].
  exists w1, (snd (print duplicate_warning w1)).
  split; [exact E1|]. split; [rewrite (Hdup Hin); reflexivity|].
  split; [exact Hw1|]. split; [reflexivity|]. split; [reflexivity|]. split.
  - intros Hnd.
    assert (Hnd' : NoDup stored).
    { unfold stored. destruct (decide (t ∈ rows)) as [_|Hnin]; [exact Hnd|].
      apply NoDup_app. split; [exact Hnd|]. split.
      - intros x Hx Hx'. apply list_elem_of_singleton in Hx'. subst x. contradiction.
      - apply NoDup_singleton. }
    split; [exact Hnd'|]. apply count_once; assumption.
  - intros r2 t2 Ht2 Hr2 Hnin2.
    destruct (record_attempt_spec self r2 t2 header stored (snd (print duplicate_warning w1)))
      as [_ Hnew]; [exact Hw1|exact Ho1|exact Ht2|].
    rewrite (Hnew Hnin2). eexists. split; [reflexivity|]. split; [|reflexivity].
    apply (append_holds _ _ _ _ _ Hw1 Hr2).
Qed.

(** The store stays a store of distinct rows, whatever is recorded. *)
Lemma record_attempt_keeps_store self r t header rows w :
  holds (Metrics.output_path self) header rows w ->
  opens (Metrics.output_path self) w ->
  map_result str r = Ok t ->
  Forall plain t ->
  NoDup rows ->
  exists rows' w',
    record_attempt self r w = (Ok tt, w')
    /\ holds (Metrics.output_path self) header rows' w'
    /\ opens (Metrics.output_path self) w'
    /\ NoDup rows'.
Proof.
  intros Hw Ho Ht Hr Hnd.
  destruct (record_attempt_spec self r t header rows w Hw Ho Ht) as [Hdup Hnew].
  destruct (decide (t ∈ rows)) as [Hin|Hnin].
  - exists rows. eexists. rewrite (Hdup Hin). split; [reflexivity|].
    split; [exact Hw|]. split; [exact Ho|exact Hnd].
  - exists (rows ++ [t]). eexists. rewrite (Hnew Hnin).
    split; [reflexivity|]. split; [apply (append_holds _ _ _ _ w Hw Hr)|].
    split; [exact Ho|].
    apply NoDup_app. split; [exact Hnd|]. split; [|apply NoDup_singleton].
    intros x Hx Hx'. apply list_elem_of_singleton in Hx'. subst x. contradiction.
Qed.

Lemma store_invariant self rs ts header rows w :
  holds (Metrics.output_path self) header rows w ->
  opens (Metrics.output_path self) w ->
  Forall2 (fun r t => map_result str r = Ok t /\ Forall plain t) rs ts ->
  NoDup rows ->
  exists rows' w',
    for_each rs (record_attempt self) w = (Ok tt, w')
    /\ holds (Metrics.output_path self) header rows' w'
    /\ NoDup rows'.
Proof.
  intros Hw Ho Hrs. revert rows w Hw Ho.
  induction Hrs as [|r t rs ts [Ht Hr] _ IH]; intros rows w Hw Ho Hnd.
  - exists rows, w. split; [reflexivity|]. split; assumption.
  - destruct (record_attempt_keeps_store self r t header rows w Hw Ho Ht Hr Hnd)
      as (rows1 & w1 & E1 & Hw1 & Ho1 & Hnd1).
    destruct (IH rows1 w1 Hw1 Ho1 Hnd1) as (rows2 & w2 & E2 & Hw2 & Hnd2).
    exists rows2, w2. split; [|split; assumption].
    cbn [for_each]. rewrite (bind_ok _ _ _ _ _ E1). exact E2.
Qed.

End Recording.

(** A store constructed on a fresh path holds its header and no row. *)
Lemma fresh_store_holds output_path w :
  files w !! output_path = None ->
  refusal w ModeW output_path = None ->
  holds output_path store_columns [] (snd (Metrics.__init__ output_path w)).
Proof.
  intros H Hopen. rewrite (init_fresh output_path w H Hopen). split.
  - unfold set_files. cbn [snd files]. rewrite lookup_insert_eq.
    rewrite <- writerow_store_columns. cbn [csv_text].
    rewrite string_app_nil_r. reflexivity.
  - constructor; [apply store_columns_plain|constructor].
Qed.

(** The string form of an int holds none of the characters the writer
    quotes. *)
Lemma int_str_no_special n t : int_str n = Ok t -> Csv.has_special t = false.
Proof.
  assert (H : forall d, Csv.has_special (NilEmpty.string_of_uint d) = false).
  { induction d; simpl; try reflexivity; exact IHd. }
  unfold int_str. destruct (printable n); [|discriminate]. intros [= <-].
  unfold digits. destruct (Z.to_int n); simpl; apply H.
Qed.

Lemma record0_text : map_result (Metrics.str repr0) record0 = Ok row0.
Proof. vm_compute. reflexivity. Qed.

Lemma row0_plain : Forall plain row0.
Proof.
  repeat (constructor; [split; [vm_compute; reflexivity|vm_compute; discriminate]|]).
  constructor.
Qed.

Lemma world_store_holds : holds store_path store_columns [] world_store.
Proof.
  split; [vm_compute; reflexivity|].
  constructor; [apply store_columns_plain|constructor].
Qed.

Lemma world_store_opens : opens store_path world_store.
Proof. split; reflexivity. Qed.

Lemma record_attempt_deduplicates_witness :
  holds (Metrics.output_path store0) store_columns [] world_store
  /\ opens (Metrics.output_path store0) world_store
  /\ map_result (Metrics.str repr0) record0 = Ok row0
  /\ Forall plain row0
  /\ exists w1 w2,
       Metrics.record_attempt repr0 store0 record0 world_store = (Ok tt, w1)
       /\ Metrics.record_attempt repr0 store0 record0 w1 = (Ok tt, w2)
       /\ holds (Metrics.output_path store0) store_columns
            (if decide (row0 ∈ []) then [] else [] ++ [row0]) w1
       /\ files w2 = files w1
       /\ stdout w2 = stdout w1 ++ [duplicate_warning]
       /\ (NoDup ([] : list (list string)) ->
           NoDup (if decide (row0 ∈ []) then [] else [] ++ [row0])
           /\ length (filter (fun x => x = row0)
                        (if decide (row0 ∈ []) then [] else [] ++ [row0])) = 1%nat)
       /\ (forall (r2 : list Metrics.pyval) (t2 : list string),
             map_result (Metrics.str repr0) r2 = Ok t2 ->
             Forall plain t2 ->
             t2 ∉ (if decide (row0 ∈ []) then [] else [] ++ [row0]) ->
             exists w3,
               Metrics.record_attempt repr0 store0 r2 w2 = (Ok tt, w3)
               /\ holds (Metrics.output_path store0) store_columns
                    ((if decide (row0 ∈ []) then [] else [] ++ [row0]) ++ [t2]) w3
               /\ stdout w3 = stdout w2).
Proof.
  split; [exact world_store_holds|]. split; [exact world_store_opens|].
  split; [exact record0_text|]. split; [exact row0_plain|].
  exact (record_attempt_deduplicates repr0 store0 record0 row0 store_columns [] world_store
           world_store_holds world_store_opens record0_text row0_plain).
Defined.

(** C3 as stated fails.  A store constructed on a path that holds an
    empty file has no header row (the constructor writes one only to a
    new file), and the reader passes over the first row as if it were
    one: the same record given twice is written twice, without a
    warning.  And not every record can be written at all: an int of
    more than 4300 digits has no string form, so that the call raises
    [ValueError] and nothing is stored. *)
Lemma record_attempt_empty_file_counterexample :
  Metrics.__init__ store_path world_empty_file = (Ok store0, world_empty_file)
  /\ (let run := (Metrics.record_attempt repr0 store0 record0 ;;
                  Metrics.record_attempt repr0 store0 record0)%py in
      fst (run world_empty_file) = Ok tt
      /\ files (snd (run world_empty_file)) !! store_path = Some (csv_text [row0; row0])
      /\ stdout (snd (run world_empty_file)) = [])
  /\ exists msg,
       Metrics.record_attempt repr0 store0 [Metrics.PyInt (10 ^ 4300)] world_store
       = (Raise (Exn ValueError msg), world_store).
Proof.
  split; [vm_compute; reflexivity|]. split.
  - repeat split; vm_compute; reflexivity.
  - eexists. vm_compute. reflexivity.
Qed.

(** The same trial recorded twice, then a trial whose vertical delta
    differs in the last digits: the file holds the header, the first
    record once, and the near-duplicate. *)
Example record_twice_then_near_duplicate :
  let run := (Metrics.record_attempt repr0 store0 record0 ;;
              Metrics.record_attempt repr0 store0 record0 ;;
              Metrics.record_attempt repr0 store0 record1)%py in
  fst (run world_store) = Ok tt
  /\ files (snd (run world_store)) !! store_path
     = Some (csv_text [store_columns; row0; row1])
  /\ stdout (snd (run world_store)) = [duplicate_warning].
Proof. repeat split; vm_compute; reflexivity. Qed.

End StoreProofs.
(* ================================================================== *)
(** * Poses                                                            *)
(* ================================================================== *)

Module PoseProofs.
Import Py Bullet BulletPose Vocabulary MoreVocabulary FloatFacts BulletFacts Examples.
#[local] Open Scope py_scope.

Lemma set_kin_lookup body f e b :
  bodies e !! body = Some b ->
  bodies (set_kin body f e) !! body = Some (mkBody (f (kin b)) (joint_types b)).
Proof.
  intros Hb. unfold set_kin, set_bodies. cbn [bodies].
  rewrite list_lookup_alter, Hb. rewrite decide_True by reflexivity. reflexivity.
Qed.

Lemma set_kin_lookup_ne body f e j :
  j <> body -> bodies (set_kin body f e) !! j = bodies e !! j.
Proof.
  intros Hne. unfold set_kin, set_bodies. cbn [bodies].
  apply list_lookup_alter_ne. congruence.
Qed.

Lemma set_kin_length body f e : length (bodies (set_kin body f e)) = length (bodies e).
Proof. unfold set_kin, set_bodies. cbn [bodies]. apply length_alter. Qed.

Lemma resetBasePositionAndOrientation_ok normalized body p o w :
  connected (engine w) = true ->
  resetBasePositionAndOrientation normalized body p o w
  = (Ok tt, set_engine (set_kin body (set_pose p (normalized o))) w).
Proof.
  intros Hc. unfold resetBasePositionAndOrientation.
  rewrite (bind_ok _ _ _ _ _ (need_server_ok w Hc)). reflexivity.
Qed.

(** What a pose reset of a known body leaves behind. *)
Lemma pose_reset_spec body p o w b :
  connected (engine w) = true ->
  bodies (engine w) !! body = Some b ->
  let w' := set_engine (set_kin body (set_pose p o)) w in
  getBasePositionAndOrientation body w' = (Ok (p, o), w')
  /\ rests_at body p o w'
  /\ moved_only body w w'.
Proof.
  intros Hc Hb w'.
  assert (Hb' : bodies (engine w') !! body
                = Some (mkBody (set_pose p o (kin b)) (joint_types b))).
  { unfold w', set_engine. cbn [engine]. apply set_kin_lookup, Hb. }
  split; [|split].
  - rewrite (getBasePositionAndOrientation_ok body w' _ Hc Hb'). reflexivity.
  - eexists. split; [exact Hb'|]. repeat split.
  - unfold moved_only, w', set_engine. cbn [engine files stdout trace].
    split; [reflexivity|]. split; [apply set_kin_length|].
    split; [intros j Hj; apply set_kin_lookup_ne, Hj|].
    repeat split.
Qed.

(** X7. On a live server that knows the instance's body, [relocate]
    (of a manipulator) and [set_position] (of a gripper) return
    normally and put the body at the given pose: the pose read back is
    the position given, with the orientation as the server keeps it (the
    quaternion given, normalised by the server, not the numbers given);
    the body is at rest, and nothing else in the world has changed (in
    particular no other body and no motor target). *)
Theorem relocate_sets_pose (normalized : Normalizer) (i : Contract.Instance) (p : vec3)
  (o : quat) (w : World) (b : Body) :
  connected (engine w) = true ->
  bodies (engine w) !! Contract.body i = Some b ->
  exists w',
    ContractMore.relocate normalized i p o w = (Ok tt, w')
    /\ getBasePositionAndOrientation (Contract.body i) w' = (Ok (p, normalized o), w')
    /\ rests_at (Contract.body i) p (normalized o) w'
    /\ moved_only (Contract.body i) w w'.
Proof.
  intros Hc Hb.
  exists (set_engine (set_kin (Contract.body i) (set_pose p (normalized o))) w).
  split; [|exact (pose_reset_spec (Contract.body i) p (normalized o) w b Hc Hb)].
  destruct i; apply resetBasePositionAndOrientation_ok, Hc.
Qed.

Lemma relocate_sets_pose_witness :
  connected (engine world1) = true
  /\ bodies (engine world1) !! Contract.body (Contract.OfGripper (gripper0 Gripper.PR2Gripper))
     = Some gripper_body
  /\ exists w',
       ContractMore.relocate normalized0 (Contract.OfGripper (gripper0 Gripper.PR2Gripper))
         (Vec3 0.1 0.2 0.3) (Quat 0 0 0 2) world1 = (Ok tt, w')
       /\ getBasePositionAndOrientation
            (Contract.body (Contract.OfGripper (gripper0 Gripper.PR2Gripper))) w'
          = (Ok (Vec3 0.1 0.2 0.3, normalized0 (Quat 0 0 0 2)), w')
       /\ rests_at (Contract.body (Contract.OfGripper (gripper0 Gripper.PR2Gripper)))
            (Vec3 0.1 0.2 0.3) (normalized0 (Quat 0 0 0 2)) w'
       /\ moved_only (Contract.body (Contract.OfGripper (gripper0 Gripper.PR2Gripper)))
            world1 w'.
Proof.
  split; [reflexivity|]. split; [reflexivity|].
  exact (relocate_sets_pose normalized0 (Contract.OfGripper (gripper0 Gripper.PR2Gripper))
           (Vec3 0.1 0.2 0.3) (Quat 0 0 0 2) world1 gripper_body eq_refl eq_refl).
Defined.

(** A quaternion of length 2 is read back with length 1. *)
Example relocate_normalises :
  fst (getBasePositionAndOrientation 0
         (snd (ContractMore.relocate normalized0 (Contract.OfManipulator manip0)
                 zero3 (Quat 0 0 0 2) world1)))
  = Ok (zero3, Quat 0 0 0 1).
Proof. vm_compute. reflexivity. Qed.

(** Without a server the pose reset raises and changes nothing. *)
Example relocate_disconnected :
  ContractMore.relocate normalized0 (Contract.OfManipulator manip0) zero3 (Quat 0 0 0 1)
    (world0 false)
  = (Raise (Exn BulletError "Not connected to physics server."), world0 false).
Proof. reflexivity. Qed.

End PoseProofs.
(* ================================================================== *)
(** * Graspable objects                                                *)
(* ================================================================== *)

Module ObjectProofs.
Import Py Bullet BulletPose Vocabulary MoreVocabulary FloatFacts BulletFacts Examples.
Import PoseProofs.
#[local] Open Scope py_scope.

Lemma lookup_new {A} (l : list A) (x : A) : (l ++ [x]) !! length l = Some x.
Proof. apply list_lookup_middle. reflexivity. Qed.

(** The four commands of a construction, run on a live server. *)
Lemma object_init_run c h m col w :
  connected (engine w) = true ->
  shape_accepted (shape_of c h) = true ->
  let id := length (bodies (engine w)) in
  let g := shape_of c h in
  let e := engine w in
  Objects.__init__ c h m col w
  = (Ok (Objects.mkObject c h m (colour_of col) id),
     mkWorld
       (mkEngine (connected e)
          (bodies e ++ [mkBody (mkKin (Objects.get_spawn_position h) (Quat 0 0 0 1)
                                  zero3 zero3 []) []])
          (motors e)
          (<[(id, -1) := m]> (mass e))
          (<[(id, -1) := 1.2%float]> (lateral_friction e))
          (<[(id, -1) := 0.1%float]> (spinning_friction e))
          (visual_shapes e ++ [(g, rgba_sent (colour_of col))])
          (collision_shapes e ++ [g])
          (urdf_models e) (ticks e))
       (files w) (stdout w)
       (trace w ++ [EvCreateVisualShape g (rgba_sent (colour_of col));
                    EvCreateCollisionShape g;
                    EvCreateMultiBody m (length (collision_shapes e))
                      (length (visual_shapes e)) (Objects.get_spawn_position h);
                    EvChangeDynamics id (-1)
                      (mkDyn None (Some 1.2%float) (Some 0.1%float))])
       (timer w) (barred w)).
Proof.
  intros Hc Hg id g e.
  unfold Objects.__init__, Objects._create_object.
  change (match col with Some (x :: l) => x :: l | _ => [1; 1; 1; 1]%float end)
    with (colour_of col).
  assert (Hshape : Objects.create_shape c h (colour_of col)
                   = (v <- createVisualShape g (colour_of col) ;;
                      k <- createCollisionShape g ;;
                      ret (v, k))).
  { unfold g. destruct c; reflexivity. }
  rewrite Hshape.
  unfold createVisualShape, createCollisionShape, createMultiBody, changeDynamics,
    need_server, isConnected, bind, gets, modify, ret, raise, log, set_engine,
    apply_dynamics.
  subst e id. fold g in Hg.
  cbn -[lookup shape_accepted rgba_sent].
  repeat (rewrite ?Hc, ?Hg; cbn -[lookup shape_accepted rgba_sent]).
  rewrite lookup_new. cbn -[shape_accepted rgba_sent].
  rewrite <- !app_assoc. reflexivity.
Qed.

(** X4. On a live server the constructor of an object, for a
    geometry the server accepts (any cuboid; a cylinder of a radius
    above zero and a height not below), returns an instance whose id is
    the index of a new body; the body lies at [[0, 0, height / 2]],
    upright and at rest, and has no joint; its base has the mass given,
    the lateral friction 1.2 and the spinning friction 0.1.  The colour
    of the instance is the colour given unless that is missing or empty,
    and white then; the visual shape made for it has the geometry of the
    class and that colour if it has four components, and is white if it
    has not.  The bodies the server had, their dynamics settings and
    every motor target are as before.  For a geometry the server does
    not accept the constructor raises [pybullet.error], and nothing is
    created. *)
Theorem object_construction (c : Objects.ObjectClass) (h m : float)
  (col : option (list float)) (w : World) :
  connected (engine w) = true ->
  (shape_accepted (shape_of c h) = true ->
   exists ob w',
     Objects.__init__ c h m col w = (Ok ob, w')
     /\ ObjectsMore.get_id ob = length (bodies (engine w))
     /\ ObjectsMore.get_height ob = h
     /\ Objects.color ob = colour_of col
     /\ bodies (engine w')
        = bodies (engine w)
          ++ [mkBody (mkKin (Vec3 0 0 (h / 2)) (Quat 0 0 0 1) zero3 zero3 []) []]
     /\ mass (engine w') !! (ObjectsMore.get_id ob, -1) = Some m
     /\ lateral_friction (engine w') !! (ObjectsMore.get_id ob, -1) = Some 1.2%float
     /\ spinning_friction (engine w') !! (ObjectsMore.get_id ob, -1) = Some 0.1%float
     /\ last (visual_shapes (engine w'))
        = Some (shape_of c h,
                if decide (length (Objects.color ob) = 4%nat) then Objects.color ob
                else [1; 1; 1; 1]%float)
     /\ last (collision_shapes (engine w')) = Some (shape_of c h)
     /\ motors (engine w') = motors (engine w)
     /\ (forall k : nat * Z, k.1 <> ObjectsMore.get_id ob ->
           mass (engine w') !! k = mass (engine w) !! k
           /\ lateral_friction (engine w') !! k = lateral_friction (engine w) !! k
           /\ spinning_friction (engine w') !! k = spinning_friction (engine w) !! k))
  /\ (shape_accepted (shape_of c h) = false ->
      exists msg, Objects.__init__ c h m col w = (Raise (Exn BulletError msg), w)).
Proof.
  intros Hc. split.
  - intros Hg. eexists _, _. split; [exact (object_init_run c h m col w Hc Hg)|].
    cbn [ObjectsMore.get_id ObjectsMore.get_height Objects.object_id Objects.height
         Objects.color engine bodies mass lateral_friction spinning_friction
         visual_shapes collision_shapes motors].
    split; [reflexivity|]. split; [reflexivity|]. split; [reflexivity|].
    split; [reflexivity|].
    split; [apply lookup_insert_eq|]. split; [apply lookup_insert_eq|].
    split; [apply lookup_insert_eq|].
    split; [apply last_snoc|]. split; [apply last_snoc|]. split; [reflexivity|].
    intros k Hk.
    repeat split; apply lookup_insert_ne; intros E; apply Hk; rewrite <- E; reflexivity.
  - intros Hg. eexists. exact (FactoryProofs.object_init_refused c h m col w Hc Hg).
Qed.

Lemma object_construction_witness :
  connected (engine world2) = true
  /\ shape_accepted (shape_of (Objects.CylinderObject 0.04) 0.8) = true
  /\ exists ob w',
       Objects.__init__ (Objects.CylinderObject 0.04) 0.8 0.1 (Some [1; 0; 0]%float) world2
       = (Ok ob, w')
       /\ ObjectsMore.get_id ob = length (bodies (engine world2))
       /\ ObjectsMore.get_height ob = 0.8%float
       /\ Objects.color ob = colour_of (Some [1; 0; 0]%float)
       /\ bodies (engine w')
          = bodies (engine world2)
            ++ [mkBody (mkKin (Vec3 0 0 (0.8 / 2)) (Quat 0 0 0 1) zero3 zero3 []) []]
       /\ mass (engine w') !! (ObjectsMore.get_id ob, -1) = Some 0.1%float
       /\ lateral_friction (engine w') !! (ObjectsMore.get_id ob, -1) = Some 1.2%float
       /\ spinning_friction (engine w') !! (ObjectsMore.get_id ob, -1) = Some 0.1%float
       /\ last (visual_shapes (engine w'))
          = Some (shape_of (Objects.CylinderObject 0.04) 0.8,
                  if decide (length (Objects.color ob) = 4%nat) then Objects.color ob
                  else [1; 1; 1; 1]%float)
       /\ last (collision_shapes (engine w'))
          = Some (shape_of (Objects.CylinderObject 0.04) 0.8)
       /\ motors (engine w') = motors (engine world2)
       /\ (forall k : nat * Z, k.1 <> ObjectsMore.get_id ob ->
             mass (engine w') !! k = mass (engine world2) !! k
             /\ lateral_friction (engine w') !! k = lateral_friction (engine world2) !! k
             /\ spinning_friction (engine w') !! k = spinning_friction (engine world2) !! k).
Proof.
  split; [reflexivity|]. split; [reflexivity|].
  exact (proj1 (object_construction (Objects.CylinderObject 0.04) 0.8 0.1
                  (Some [1; 0; 0]%float) world2 eq_refl) eq_refl).
Defined.

(** An empty colour is no colour. *)
Example empty_colour_is_white :
  colour_of (Some []) = [1; 1; 1; 1]%float
  /\ colour_of None = [1; 1; 1; 1]%float
  /\ colour_of (Some [1; 0; 0; 1]%float) = [1; 0; 0; 1]%float.
Proof. repeat split. Qed.

(** A colour of three components stays with the instance, and the
    shape is white; a colour of four is the colour of the shape. *)
Example three_component_colour :
  (exists ob w',
     Objects.__init__ (Objects.CylinderObject 0.04) 0.8 0.1 (Some [1; 0; 0]%float) world2
     = (Ok ob, w')
     /\ Objects.color ob = [1; 0; 0]%float
     /\ visual_shapes (engine w') = [(GEOM_CYLINDER 0.04 0.8, [1; 1; 1; 1]%float)])
  /\ (exists ob w',
        Objects.__init__ (Objects.CylinderObject 0.04) 0.8 0.1 (Some [1; 0; 0; 1]%float)
          world2 = (Ok ob, w')
        /\ Objects.color ob = [1; 0; 0; 1]%float
        /\ visual_shapes (engine w') = [(GEOM_CYLINDER 0.04 0.8, [1; 0; 0; 1]%float)]).
Proof.
  split; eexists _, _; (split; [vm_compute; reflexivity|split; reflexivity]).
Qed.

(** X6. On a server that keeps the upright orientation
    [[0, 0, 0, 1]] as it is given, an object made by its constructor (of
    a geometry the server accepts) on a live server is read at its grasp
    centre, upright; and from any later state of a live server that
    still knows the body, wherever the body has got to and however it
    moves, [reset_position()] with no argument puts it back at that
    pose, at rest, and changes nothing else. *)
Theorem reset_position_restores_spawn (normalized : Normalizer) (c : Objects.ObjectClass)
  (h m : float) (col : option (list float)) (w : World) :
  normalized (Quat 0 0 0 1) = Quat 0 0 0 1 ->
  connected (engine w) = true ->
  shape_accepted (shape_of c h) = true ->
  exists ob w1,
    Objects.__init__ c h m col w = (Ok ob, w1)
    /\ getBasePositionAndOrientation (ObjectsMore.get_id ob) w1
       = (Ok (ObjectsMore.get_grasp_center ob, Quat 0 0 0 1), w1)
    /\ forall (w2 : World) (b : Body),
         connected (engine w2) = true ->
         bodies (engine w2) !! ObjectsMore.get_id ob = Some b ->
         exists w3,
           ObjectsMore.reset_position normalized ob None None w2 = (Ok tt, w3)
           /\ getBasePositionAndOrientation (ObjectsMore.get_id ob) w3
              = (Ok (ObjectsMore.get_grasp_center ob, Quat 0 0 0 1), w3)
           /\ rests_at (ObjectsMore.get_id ob) (ObjectsMore.get_grasp_center ob)
                (Quat 0 0 0 1) w3
           /\ moved_only (ObjectsMore.get_id ob) w2 w3.
Proof.
  intros Hn Hc Hg. eexists _, _. split; [exact (object_init_run c h m col w Hc Hg)|].
  assert (Hcentre : forall ob, ObjectsMore.get_grasp_center ob
                               = Objects.get_spawn_position (Objects.height ob)).
  { intros ob. unfold ObjectsMore.get_grasp_center. destruct (Objects.ocls ob); reflexivity. }
  rewrite Hcentre. cbn [ObjectsMore.get_id Objects.object_id Objects.height].
  split.
  - match goal with |- getBasePositionAndOrientation ?i ?w1 = _ =>
      assert (Hb1 : bodies (engine w1) !! i
                    = Some (mkBody (mkKin (Objects.get_spawn_position h) (Quat 0 0 0 1)
                                      zero3 zero3 []) []))
        by (cbn [engine bodies]; apply lookup_new);
      rewrite (getBasePositionAndOrientation_ok i w1 _ Hc Hb1)
    end.
    reflexivity.
  - intros w2 b Hc2 Hb2.
    exists (set_engine (set_kin (length (bodies (engine w)))
                          (set_pose (Objects.get_spawn_position h) (Quat 0 0 0 1))) w2).
    split; [|exact (pose_reset_spec _ _ _ w2 b Hc2 Hb2)].
    unfold ObjectsMore.reset_position. cbn [Objects.object_id Objects.height].
    rewrite (resetBasePositionAndOrientation_ok normalized _ _ _ w2 Hc2), Hn.
    reflexivity.
Qed.

Lemma reset_position_restores_spawn_witness :
  normalized0 (Quat 0 0 0 1) = Quat 0 0 0 1
  /\ connected (engine world2) = true
  /\ shape_accepted (shape_of (Objects.CuboidObject 0.05 0.05 [0.05; 0.05; 0.8]%float) 0.8)
     = true
  /\ exists ob w1,
       Objects.__init__ (Objects.CuboidObject 0.05 0.05 [0.05; 0.05; 0.8]%float) 0.8 0.1 None
         world2 = (Ok ob, w1)
       /\ getBasePositionAndOrientation (ObjectsMore.get_id ob) w1
          = (Ok (ObjectsMore.get_grasp_center ob, Quat 0 0 0 1), w1)
       /\ forall (w2 : World) (b : Body),
            connected (engine w2) = true ->
            bodies (engine w2) !! ObjectsMore.get_id ob = Some b ->
            exists w3,
              ObjectsMore.reset_position normalized0 ob None None w2 = (Ok tt, w3)
              /\ getBasePositionAndOrientation (ObjectsMore.get_id ob) w3
                 = (Ok (ObjectsMore.get_grasp_center ob, Quat 0 0 0 1), w3)
              /\ rests_at (ObjectsMore.get_id ob) (ObjectsMore.get_grasp_center ob)
                   (Quat 0 0 0 1) w3
              /\ moved_only (ObjectsMore.get_id ob) w2 w3.
Proof.
  split; [reflexivity|]. split; [reflexivity|]. split; [reflexivity|].
  exact (reset_position_restores_spawn normalized0
           (Objects.CuboidObject 0.05 0.05 [0.05; 0.05; 0.8]%float) 0.8 0.1 None world2
           eq_refl eq_refl eq_refl).
Defined.

(** A pose given to [reset_position] is the pose the body gets; each
    argument left out has its default. *)
Example reset_position_given :
  let ob := Objects.mkObject (Objects.CylinderObject 0.04) 0.8 0.1 [1; 1; 1; 1]%float 0 in
  fst (getBasePositionAndOrientation 0
         (snd (ObjectsMore.reset_position normalized0 ob (Some (Vec3 1 2 3)) None
                 (world0 true))))
  = Ok (Vec3 1 2 3, Quat 0 0 0 1)
  /\ fst (getBasePositionAndOrientation 0
            (snd (ObjectsMore.reset_position normalized0 ob None (Some (Quat 0 0 1 0))
                    (world0 true))))
     = Ok (Vec3 0 0 0.4, Quat 0 0 1 0).
Proof. split; vm_compute; reflexivity. Qed.

(** ** Keywords *)

Lemma create_object_init tag kw w :
  lower tag ∈ Objects.get_supported_types ->
  dom (Objects.kw_num kw) ⊆ (list_to_set (object_params (lower tag)) : gset string) ->
  exists c,
    Objects.create_object tag kw w
    = Objects.__init__ c (Objects.kw_get "height" 0.8 kw) (Objects.kw_get "mass" 0.1 kw)
        (Objects.kw_color kw) w
    /\ object_tag c = lower tag
    /\ c = (if decide (lower tag = "cuboid")
            then Objects.CuboidObject (Objects.kw_get "width" 0.05 kw)
                   (Objects.kw_get "depth" 0.05 kw)
                   [Objects.kw_get "width" 0.05 kw; Objects.kw_get "depth" 0.05 kw;
                    Objects.kw_get "height" 0.8 kw]
            else Objects.CylinderObject (Objects.kw_get "radius" 0.04 kw)).
Proof.
  intros Htag Hkw. unfold Objects.create_object, object_params in *.
  destruct (decide (lower tag = "cuboid")) as [E|Hne].
  - eexists. split; [|split; [|reflexivity]].
    + unfold Objects.new_CuboidObject.
      rewrite (bind_ok _ _ _ _ _ (FactoryProofs.bind_kwargs_ok _ kw w Hkw)). reflexivity.
    + rewrite E. reflexivity.
  - unfold Objects.get_supported_types in Htag.
    apply elem_of_cons in Htag as [?|Htag]; [contradiction|].
    apply list_elem_of_singleton in Htag. rewrite decide_True by exact Htag.
    eexists. split; [|split; [|reflexivity]].
    + unfold Objects.new_CylinderObject.
      rewrite (bind_ok _ _ _ _ _ (FactoryProofs.bind_kwargs_ok _ kw w Hkw)). reflexivity.
    + rewrite Htag. reflexivity.
Qed.

(** X5. For a supported type string, [ObjectFactory.create_object]
    hands its keyword arguments to the constructor of the class.  A
    keyword that is not a parameter of that constructor (a radius for a
    cuboid, a width for a cylinder) is a [TypeError], raised before
    anything is created.  With keywords of the signature, on a live
    server, and for a geometry the server accepts (any cuboid; a
    cylinder of a radius above zero and a height not below), the object
    made has the height and mass given, or 0.8 and 0.1; its dimensions
    are the ones given, or 0.05 by 0.05 for a cuboid and the radius 0.04
    for a cylinder; and its body has that mass.  For a geometry the
    server does not accept the call raises [pybullet.error], and nothing
    is created. *)
Theorem create_object_keywords (object_type : string) (kw : Objects.Kwargs) (w : World) :
  lower object_type ∈ Objects.get_supported_types ->
  (~ dom (Objects.kw_num kw)
     ⊆ (list_to_set (object_params (lower object_type)) : gset string) ->
   exists msg, Objects.create_object object_type kw w = (Raise (Exn TypeError msg), w))
  /\ (dom (Objects.kw_num kw)
       ⊆ (list_to_set (object_params (lower object_type)) : gset string) ->
      connected (engine w) = true ->
      (shape_accepted (object_shape (lower object_type) kw) = true ->
       exists ob w',
        Objects.create_object object_type kw w = (Ok ob, w')
        /\ ObjectsMore.get_height ob = Objects.kw_get "height" 0.8 kw
        /\ Objects.obj_mass ob = Objects.kw_get "mass" 0.1 kw
        /\ ObjectsMore.get_dimensions ob
           = (if decide (lower object_type = "cuboid")
              then [("width", Objects.kw_get "width" 0.05 kw);
                    ("depth", Objects.kw_get "depth" 0.05 kw);
                    ("height", Objects.kw_get "height" 0.8 kw)]
              else [("radius", Objects.kw_get "radius" 0.04 kw);
                    ("height", Objects.kw_get "height" 0.8 kw)])
        /\ mass (engine w') !! (ObjectsMore.get_id ob, -1)
           = Some (Objects.kw_get "mass" 0.1 kw))
      /\ (shape_accepted (object_shape (lower object_type) kw) = false ->
          exists msg,
            Objects.create_object object_type kw w = (Raise (Exn BulletError msg), w))).
Proof.
  intros Htag. split.
  - intros Hkw. unfold Objects.create_object, object_params in *.
    assert (Hbind : forall params,
      ~ dom (Objects.kw_num kw) ⊆ (list_to_set params : gset string) ->
      Objects.bind_kwargs params kw w
      = (Raise (Exn TypeError "__init__() got an unexpected keyword argument"), w)).
    { intros params H. unfold Objects.bind_kwargs. rewrite decide_False by exact H.
      reflexivity. }
    eexists. destruct (decide (lower object_type = "cuboid")) as [E|Hne].
    + unfold Objects.new_CuboidObject. apply (bind_raise _ _ _ _ _ (Hbind _ Hkw)).
    + unfold Objects.get_supported_types in Htag.
      apply elem_of_cons in Htag as [?|Htag]; [contradiction|].
      apply list_elem_of_singleton in Htag. rewrite decide_True by exact Htag.
      unfold Objects.new_CylinderObject. apply (bind_raise _ _ _ _ _ (Hbind _ Hkw)).
  - intros Hkw Hc.
    destruct (create_object_init object_type kw w Htag Hkw) as (c & E & _ & Hcls).
    assert (Hshape : shape_of c (Objects.kw_get "height" 0.8 kw)
                     = object_shape (lower object_type) kw)
      by (rewrite Hcls; reflexivity).
    split; intros Hg; rewrite <- Hshape in Hg.
    + rewrite (object_init_run c _ _ (Objects.kw_color kw) w Hc Hg) in E.
      eexists _, _. split; [exact E|].
      split; [reflexivity|]. split; [reflexivity|]. split.
      * unfold ObjectsMore.get_dimensions. cbn [Objects.ocls Objects.height]. rewrite Hcls.
        destruct (decide (lower object_type = "cuboid")); reflexivity.
      * cbn [ObjectsMore.get_id Objects.object_id engine mass]. apply lookup_insert_eq.
    + eexists. rewrite E. exact (FactoryProofs.object_init_refused c _ _ _ w Hc Hg).
Qed.

Lemma create_object_keywords_witness :
  lower "Cylinder" ∈ Objects.get_supported_types
  /\ dom (Objects.kw_num no_kwargs)
     ⊆ (list_to_set (object_params (lower "Cylinder")) : gset string)
  /\ connected (engine world2) = true
  /\ shape_accepted (object_shape (lower "Cylinder") no_kwargs) = true
  /\ exists ob w',
       Objects.create_object "Cylinder" no_kwargs world2 = (Ok ob, w')
       /\ ObjectsMore.get_height ob = Objects.kw_get "height" 0.8 no_kwargs
       /\ Objects.obj_mass ob = Objects.kw_get "mass" 0.1 no_kwargs
       /\ ObjectsMore.get_dimensions ob
          = (if decide (lower "Cylinder" = "cuboid")
             then [("width", Objects.kw_get "width" 0.05 no_kwargs);
                   ("depth", Objects.kw_get "depth" 0.05 no_kwargs);
                   ("height", Objects.kw_get "height" 0.8 no_kwargs)]
             else [("radius", Objects.kw_get "radius" 0.04 no_kwargs);
                   ("height", Objects.kw_get "height" 0.8 no_kwargs)])
       /\ mass (engine w') !! (ObjectsMore.get_id ob, -1)
          = Some (Objects.kw_get "mass" 0.1 no_kwargs).
Proof.
  assert (H1 : lower "Cylinder" ∈ Objects.get_supported_types)
    by (vm_compute; repeat constructor).
  assert (H2 : dom (Objects.kw_num no_kwargs)
               ⊆ (list_to_set (object_params (lower "Cylinder")) : gset string))
    by (vm_compute; set_solver).
  assert (H4 : shape_accepted (object_shape (lower "Cylinder") no_kwargs) = true)
    by (vm_compute; reflexivity).
  split; [exact H1|]. split; [exact H2|]. split; [reflexivity|]. split; [exact H4|].
  exact (proj1 (proj2 (create_object_keywords "Cylinder" no_kwargs world2 H1) H2 eq_refl) H4).
Defined.

(** A radius is no keyword of a cuboid. *)
Example cuboid_with_radius :
  exists msg,
    Objects.create_object "cuboid" (Objects.mkKwargs {[ "radius" := 0.1%float ]} None) world2
    = (Raise (Exn TypeError msg), world2).
Proof. eexists. vm_compute. reflexivity. Qed.

(** The defaults of the two signatures. *)
Example create_object_defaults :
  (exists ob w', Objects.create_object "CUBOID" no_kwargs world2 = (Ok ob, w')
     /\ ObjectsMore.get_dimensions ob
        = [("width", 0.05%float); ("depth", 0.05%float); ("height", 0.8%float)])
  /\ (exists ob w', Objects.create_object "Cylinder" no_kwargs world2 = (Ok ob, w')
        /\ ObjectsMore.get_dimensions ob = [("radius", 0.04%float); ("height", 0.8%float)]).
Proof.
  split; eexists _, _; (split; [vm_compute; reflexivity|reflexivity]).
Qed.

End ObjectProofs.
(* ================================================================== *)
(** * Constructing manipulators                                        *)
(* ================================================================== *)

Module ConstructionProofs.
Import Py Bullet BulletPose Vocabulary MoreVocabulary FloatFacts BulletFacts Examples.
Import PoseProofs ObjectProofs.
#[local] Open Scope py_scope.

(** ** Sorting the joints *)

Lemma getJointInfo_type_ok body joint w b jt :
  connected (engine w) = true ->
  bodies (engine w) !! body = Some b ->
  joint_types b !! joint = Some jt ->
  getJointInfo_type body joint w = (Ok jt, w).
Proof.
  intros Hc Hb Hj. unfold getJointInfo_type.
  rewrite (bind_ok _ _ _ _ _ (need_server_ok w Hc)).
  unfold bind, gets. rewrite Hb, Hj. reflexivity.
Qed.

Lemma joint_info_loop_run body b w idxs active fixed :
  connected (engine w) = true ->
  bodies (engine w) !! body = Some b ->
  Forall (fun i => (i < length (joint_types b))%nat) idxs ->
  Gripper.joint_info_loop body idxs active fixed w
  = (Ok (active ++ filter (fun j => joint_types b !! j <> Some JOINT_FIXED) idxs,
         fixed ++ filter (fun j => joint_types b !! j = Some JOINT_FIXED) idxs), w).
Proof.
  intros Hc Hb. revert active fixed.
  induction idxs as [|i idxs IH]; intros active fixed Hlt.
  - simpl. rewrite !app_nil_r. reflexivity.
  - apply Forall_cons in Hlt as [Hi Hlt].
    destruct (lookup_lt_is_Some_2 (joint_types b) i Hi) as [jt Hjt].
    cbn [Gripper.joint_info_loop].
    rewrite (bind_ok _ _ _ _ _ (getJointInfo_type_ok body i w b jt Hc Hb Hjt)).
    rewrite !filter_cons, Hjt.
    destruct (decide (jt <> JOINT_FIXED)) as [Hne|Heq].
    + rewrite decide_True by congruence. rewrite decide_False by congruence.
      rewrite (IH _ _ Hlt), <- app_assoc. reflexivity.
    + rewrite decide_False by (intros H; apply Heq; congruence).
      rewrite decide_True by (f_equal; destruct (decide (jt = JOINT_FIXED)); tauto).
      rewrite (IH _ _ Hlt), <- app_assoc. reflexivity.
Qed.

(** The two hierarchies sort the joints with the same loop. *)
Lemma extract_loop_joint_info_loop body idxs movable static w :
  Manipulator.extract_loop body idxs movable static w
  = Gripper.joint_info_loop body idxs movable static w.
Proof.
  revert movable static w. induction idxs as [|i idxs IH]; intros movable static w.
  - reflexivity.
  - cbn [Manipulator.extract_loop Gripper.joint_info_loop]. unfold bind.
    destruct (getJointInfo_type body i w) as [[jt|e] w1]; [|reflexivity].
    destruct (decide (jt <> JOINT_FIXED)); apply IH.
Qed.

Lemma getNumJoints_ok body w b :
  connected (engine w) = true ->
  bodies (engine w) !! body = Some b ->
  getNumJoints body w = (Ok (length (joint_types b)), w).
Proof.
  intros Hc Hb. unfold getNumJoints.
  rewrite (bind_ok _ _ _ _ _ (need_server_ok w Hc)). unfold gets. rewrite Hb. reflexivity.
Qed.

Lemma get_joint_info_run body b w :
  connected (engine w) = true ->
  bodies (engine w) !! body = Some b ->
  Gripper.get_joint_info body w
  = (Ok (movable_of (joint_types b), fixed_of (joint_types b)), w).
Proof.
  intros Hc Hb. unfold Gripper.get_joint_info.
  rewrite (bind_ok _ _ _ _ _ (getNumJoints_ok body w b Hc Hb)).
  rewrite (joint_info_loop_run body b w _ [] [] Hc Hb); [reflexivity|].
  apply Forall_forall. intros i Hi. apply elem_of_seq in Hi. lia.
Qed.

Lemma extract_joint_indices_run body b w :
  connected (engine w) = true ->
  bodies (engine w) !! body = Some b ->
  Manipulator._extract_joint_indices body w
  = (Ok (movable_of (joint_types b), fixed_of (joint_types b)), w).
Proof.
  intros Hc Hb. rewrite <- (get_joint_info_run body b w Hc Hb).
  unfold Manipulator._extract_joint_indices, Gripper.get_joint_info, bind.
  destruct (getNumJoints body w) as [[n|e] w1]; [|reflexivity].
  apply extract_loop_joint_info_loop.
Qed.

(** Every joint is movable or fixed, and not both. *)
Lemma movable_fixed_partition jts :
  movable_of jts ++ fixed_of jts ≡ₚ seq 0 (length jts).
Proof.
  unfold movable_of, fixed_of.
  rewrite (list_filter_iff (fun j => jts !! j = Some JOINT_FIXED)
             (fun j => ~ jts !! j <> Some JOINT_FIXED)).
  - apply filter_app_complement.
  - intros j. split; [intros H Hn; contradiction|].
    intros H. destruct (decide (jts !! j = Some JOINT_FIXED)); tauto.
Qed.

Lemma movable_of_spec jts j :
  j ∈ movable_of jts <-> exists jt, jts !! j = Some jt /\ jt <> JOINT_FIXED.
Proof.
  unfold movable_of. rewrite list_elem_of_filter, elem_of_seq. split.
  - intros [Hne Hlt]. destruct (lookup_lt_is_Some_2 jts j) as [jt Hjt]; [lia|].
    exists jt. split; [exact Hjt|]. congruence.
  - intros (jt & Hjt & Hne). split; [congruence|].
    apply lookup_lt_Some in Hjt. lia.
Qed.

Lemma movable_of_lt jts : Forall (fun j => (j < length jts)%nat) (movable_of jts).
Proof.
  apply Forall_forall. intros j Hj. unfold movable_of in Hj.
  apply list_elem_of_filter in Hj as [_ Hj]. apply elem_of_seq in Hj. lia.
Qed.

(** ** Loading the model *)

Lemma loadURDF_changeDynamics_run file p o w jts :
  connected (engine w) = true ->
  urdf_models (engine w) !! file = Some jts ->
  (body <- loadURDF file p o ;;
   changeDynamics body (-1) (mkDyn (Some 0%float) None None) ;;
   ret body) w
  = (Ok (length (bodies (engine w))), loaded file p o jts w).
Proof.
  intros Hc Hf.
  unfold loadURDF, changeDynamics, need_server, isConnected, bind, gets, modify, ret,
    raise, log, set_engine, set_bodies, apply_dynamics, loaded.
  cbn -[lookup]. rewrite Hc. cbn -[lookup]. rewrite Hf. cbn -[lookup].
  rewrite Hc. cbn -[lookup]. rewrite lookup_new. cbn.
  rewrite <- !app_assoc. reflexivity.
Qed.

Lemma loaded_lookup file p o jts w :
  bodies (engine (loaded file p o jts w)) !! length (bodies (engine w))
  = Some (loaded_body p o jts).
Proof. unfold loaded. cbn [engine bodies]. apply lookup_new. Qed.

Lemma gripper_init_run c p o file w jts :
  connected (engine w) = true ->
  urdf_models (engine w) !! file = Some jts ->
  Gripper.__init__ c p o file w
  = (Ok (Gripper.mkGripper c p o file (length (bodies (engine w)))
           (movable_of jts) (fixed_of jts)),
     loaded file p o jts w).
Proof.
  intros Hc Hf.
  pose proof (loadURDF_changeDynamics_run file p o w jts Hc Hf) as Hload.
  unfold Gripper.__init__. unfold bind in *.
  destruct (loadURDF file p o w) as [[id|e] w1]; [|discriminate].
  destruct (changeDynamics id (-1) _ w1) as [[[]|e] w2]; [|discriminate].
  unfold ret in Hload. injection Hload as -> ->.
  rewrite (get_joint_info_run _ (loaded_body p o jts) (loaded file p o jts w) Hc
             (loaded_lookup file p o jts w)).
  reflexivity.
Qed.

Lemma manipulator_init_run p o file w jts :
  connected (engine w) = true ->
  urdf_models (engine w) !! file = Some jts ->
  Manipulator.__init__ p o file w
  = (Ok (Manipulator.mkManipulator p o file (length (bodies (engine w)))
           (movable_of jts) (fixed_of jts)),
     loaded file p o jts w).
Proof.
  intros Hc Hf.
  pose proof (loadURDF_changeDynamics_run file p o w jts Hc Hf) as Hload.
  unfold Manipulator.__init__. unfold bind in *.
  destruct (loadURDF file p o w) as [[id|e] w1]; [|discriminate].
  destruct (changeDynamics id (-1) _ w1) as [[[]|e] w2]; [|discriminate].
  unfold ret in Hload. injection Hload as -> ->.
  rewrite (extract_joint_indices_run _ (loaded_body p o jts) (loaded file p o jts w) Hc
             (loaded_lookup file p o jts w)).
  reflexivity.
Qed.

(** ** The loop of [SDHGripper.__init__] *)

Lemma spread_joint_knows body n w j : knows body n w -> knows body n (spread_joint body w j).
Proof.
  intros (Hc & b & Hb & Hn). split; [exact Hc|].
  exists (mkBody (set_angle j (-0.5) (kin b)) (joint_types b)). split; [|exact Hn].
  unfold spread_joint, log, set_engine. cbn [engine bodies set_motor].
  apply set_kin_lookup, Hb.
Qed.

Lemma spread_joint_run body n w j :
  knows body n w -> (j < n)%nat ->
  (resetJointState body j (-0.5) ;;
   setJointMotorControl2 body j POSITION_CONTROL (-0.5) 100) w
  = (Ok tt, spread_joint body w j).
Proof.
  intros Hk Hj. pose proof (FactoryProofs.knows_num_joints _ _ _ Hk) as Hn.
  pose proof (proj1 Hk) as Hc.
  set (w1 := log (EvResetJointState body j (-0.5))
               (set_engine (set_kin body (set_angle j (-0.5))) w)).
  assert (E1 : resetJointState body j (-0.5) w = (Ok tt, w1)).
  { unfold resetJointState. rewrite (bind_ok _ _ _ _ _ (need_server_ok w Hc)).
    unfold bind, gets. rewrite Hn.
    destruct (Nat.leb_spec n j) as [|_]; [lia|]. reflexivity. }
  assert (Hk1 : knows body n w1).
  { destruct Hk as (_ & b & Hb & Hlen). split; [exact Hc|].
    exists (mkBody (set_angle j (-0.5) (kin b)) (joint_types b)). split; [|exact Hlen].
    unfold w1, log, set_engine. cbn [engine]. apply set_kin_lookup, Hb. }
  rewrite (bind_ok _ _ _ _ _ E1).
  unfold setJointMotorControl2.
  rewrite (bind_ok _ _ _ _ _ (need_server_ok w1 (proj1 Hk1))).
  unfold bind, gets. rewrite (FactoryProofs.knows_num_joints body n w1 Hk1).
  destruct (Nat.leb_spec n j) as [|_]; [lia|]. reflexivity.
Qed.

Lemma spread_run body n joints w :
  knows body n w ->
  Forall (fun j => (j < n)%nat) joints ->
  for_each joints (fun joint_index =>
    resetJointState body joint_index (-0.5) ;;
    setJointMotorControl2 body joint_index POSITION_CONTROL (-0.5) 100) w
  = (Ok tt, spread body joints w).
Proof.
  revert w. induction joints as [|j js IH]; intros w Hk Hall; [reflexivity|].
  apply Forall_cons in Hall as [Hj Hall].
  cbn [for_each]. unfold bind at 1. rewrite (spread_joint_run body n w j Hk Hj).
  apply IH; [apply spread_joint_knows, Hk|exact Hall].
Qed.

Lemma spread_knows body n joints w : knows body n w -> knows body n (spread body joints w).
Proof.
  revert w. induction joints as [|j js IH]; intros w Hk; [exact Hk|].
  apply IH, spread_joint_knows, Hk.
Qed.

Lemma spread_motors body joints w :
  motors (engine (spread body joints w))
  = puts (map (pair body) joints) spread_target (motors (engine w)).
Proof.
  revert w. induction joints as [|j js IH]; intros w; [reflexivity|].
  cbn [spread foldl map puts]. apply IH.
Qed.

Lemma spread_friction body joints w :
  lateral_friction (engine (spread body joints w)) = lateral_friction (engine w).
Proof.
  revert w. induction joints as [|j js IH]; intros w; [reflexivity|].
  exact (IH (spread_joint body w j)).
Qed.

Lemma spread_length body joints w :
  length (bodies (engine (spread body joints w))) = length (bodies (engine w)).
Proof.
  revert w. induction joints as [|j js IH]; intros w; [reflexivity|].
  cbn [spread foldl].
  change (foldl (spread_joint body) (spread_joint body w j) js)
    with (spread body js (spread_joint body w j)).
  rewrite IH. unfold spread_joint, log, set_engine. cbn [engine bodies set_motor].
  apply set_kin_length.
Qed.

(** The angles of the joints gone through are -0.5. *)
Lemma spread_angles body joints w b j :
  bodies (engine w) !! body = Some b ->
  j ∈ joints -> (j < length (joint_angles (kin b)))%nat ->
  exists b', bodies (engine (spread body joints w)) !! body = Some b'
             /\ joint_angles (kin b') !! j = Some (-0.5)%float.
Proof.
  assert (Hkeep : forall js w b,
    bodies (engine w) !! body = Some b ->
    exists b', bodies (engine (spread body js w)) !! body = Some b'
               /\ length (joint_angles (kin b')) = length (joint_angles (kin b))
               /\ (j ∉ js -> joint_angles (kin b') !! j = joint_angles (kin b) !! j)).
  { induction js as [|i js IH]; intros w0 b0 Hb0.
    - exists b0. repeat split; assumption.
    - destruct (IH (spread_joint body w0 i)
                  (mkBody (set_angle i (-0.5) (kin b0)) (joint_types b0)))
        as (b' & Hb' & Hlen & Hout).
      { unfold spread_joint, log, set_engine. cbn [engine bodies set_motor].
        apply set_kin_lookup, Hb0. }
      exists b'. split; [exact Hb'|]. split.
      + rewrite Hlen. cbn. apply length_insert.
      + intros Hnin. apply not_elem_of_cons in Hnin as [Hne Hnin].
        rewrite (Hout Hnin). cbn. apply list_lookup_insert_ne. congruence. }
  revert w b. induction joints as [|i js IH]; intros w b Hb Hin Hlt; [inversion Hin|].
  assert (Hb1 : bodies (engine (spread_joint body w i)) !! body
                = Some (mkBody (set_angle i (-0.5) (kin b)) (joint_types b))).
  { unfold spread_joint, log, set_engine. cbn [engine bodies set_motor].
    apply set_kin_lookup, Hb. }
  destruct (decide (j ∈ js)) as [Hjs|Hjs].
  - apply (IH _ _ Hb1 Hjs). cbn. rewrite length_insert. exact Hlt.
  - apply elem_of_cons in Hin as [->|Hin]; [|contradiction].
    destruct (Hkeep js _ _ Hb1) as (b' & Hb' & _ & Hout).
    exists b'. split; [exact Hb'|]. rewrite (Hout Hjs). cbn.
    apply list_lookup_insert_eq. exact Hlt.
Qed.

(** ** The constructors *)



(** The two-finger model of the examples has its fingers at the joints
    0 and 2. *)
Example two_finger_joints :
  exists m w', Manipulator.TwoFingerManipulator zero3 (Quat 0 0 0 1) world2 = (Ok m, w')
    /\ Manipulator.movable_joints m = [0; 2]%nat
    /\ Manipulator.static_joints m = [1; 3]%nat.
Proof. eexists _, _. split; [vm_compute; reflexivity|]. split; reflexivity. Qed.

(** ** Constructions that fail *)

Lemma loadURDF_fails file p o w :
  connected (engine w) = false \/ urdf_models (engine w) !! file = None ->
  exists msg, loadURDF file p o w = (Raise (Exn BulletError msg), w).
Proof.
  intros H. unfold loadURDF.
  destruct (connected (engine w)) eqn:Hc.
  - destruct H as [H|H]; [discriminate|].
    rewrite (bind_ok _ _ _ _ _ (need_server_ok w Hc)).
    unfold bind, gets. rewrite H. eexists. reflexivity.
  - eexists. apply (bind_raise _ _ _ _ _ (need_server_off w Hc)).
Qed.

Lemma gripper_init_fails c file p o w :
  connected (engine w) = false \/ urdf_models (engine w) !! file = None ->
  exists msg, Gripper.__init__ c p o file w = (Raise (Exn BulletError msg), w).
Proof.
  intros H. destruct (loadURDF_fails file p o w H) as [msg E].
  exists msg. unfold Gripper.__init__. apply (bind_raise _ _ _ _ _ E).
Qed.

(** X2. A construction that cannot load its model fails cleanly.
    Without a server, or on a server that does not hold the model file
    of the class, the constructor of each gripper class and of
    [TwoFingerManipulator] raises [pybullet.error] and leaves the world
    as it was: no body is created.  Without a server the constructor of
    an object, given keywords of its signature, does the same. *)
Theorem failed_construction_creates_nothing (current_dir : string)
  (c : Gripper.GripperClass) (p : vec3) (o : quat) (tag : string) (kw : Objects.Kwargs)
  (w : World) :
  (connected (engine w) = false
   \/ urdf_models (engine w) !! gripper_model current_dir c = None ->
   exists msg, new_gripper current_dir c p o w = (Raise (Exn BulletError msg), w))
  /\ (connected (engine w) = false
      \/ urdf_models (engine w) !! "pr2_gripper.urdf" = None ->
      exists msg, Manipulator.TwoFingerManipulator p o w = (Raise (Exn BulletError msg), w))
  /\ (connected (engine w) = false ->
      lower tag ∈ Objects.get_supported_types ->
      dom (Objects.kw_num kw) ⊆ (list_to_set (object_params (lower tag)) : gset string) ->
      exists msg, Objects.create_object tag kw w = (Raise (Exn BulletError msg), w)).
Proof.
  split; [|split].
  - intros H. destruct c; cbn [new_gripper gripper_model] in *.
    + apply gripper_init_fails, H.
    + destruct (gripper_init_fails Gripper.SDHGripper _ p o w H) as [msg E].
      exists msg. unfold Gripper.new_SDHGripper. apply (bind_raise _ _ _ _ _ E).
    + apply gripper_init_fails, H.
  - intros H. destruct (loadURDF_fails "pr2_gripper.urdf" p o w H) as [msg E].
    exists msg. unfold Manipulator.TwoFingerManipulator, Manipulator.__init__.
    apply (bind_raise _ _ _ _ _ E).
  - intros Hc Htag Hkw.
    assert (Hinit : forall cl h m,
      Objects.__init__ cl h m (Objects.kw_color kw) w
      = (Raise (Exn BulletError "Not connected to physics server."), w)).
    { intros cl h m. unfold Objects.__init__, Objects._create_object.
      assert (Hs : forall col, Objects.create_shape cl h col w
                = (Raise (Exn BulletError "Not connected to physics server."), w)).
      { assert (Hv : forall g col, createVisualShape g col w
                  = (Raise (Exn BulletError "Not connected to physics server."), w)).
        { intros g col. unfold createVisualShape.
          apply (bind_raise _ _ _ _ _ (need_server_off w Hc)). }
        intros col. destruct cl; cbn [Objects.create_shape];
          unfold Objects.Cuboid_create_shape, Objects.Cylinder_create_shape;
          apply (bind_raise _ _ _ _ _ (Hv _ _)). }
      unfold bind. rewrite Hs. reflexivity. }
    eexists. unfold Objects.create_object, Objects.get_supported_types in *.
    destruct (decide (lower tag = "cuboid")) as [E|Hne].
    + unfold object_params in Hkw. rewrite decide_True in Hkw by exact E.
      unfold Objects.new_CuboidObject.
      rewrite (bind_ok _ _ _ _ _ (FactoryProofs.bind_kwargs_ok _ kw w Hkw)). apply Hinit.
    + unfold object_params in Hkw. rewrite decide_False in Hkw by exact Hne.
      apply elem_of_cons in Htag as [?|Htag]; [contradiction|].
      apply list_elem_of_singleton in Htag. rewrite decide_True by exact Htag.
      unfold Objects.new_CylinderObject.
      rewrite (bind_ok _ _ _ _ _ (FactoryProofs.bind_kwargs_ok _ kw w Hkw)). apply Hinit.
Qed.

(** The server of the examples holds no model for the placeholder
    class: the factory's [custom] fails there, and creates nothing. *)
Example create_custom_without_model :
  Gripper.create_gripper "/opt/grasp" "custom" zero3 (Quat 0 0 0 1) world2
  = (Raise (Exn BulletError "Cannot load URDF file."), world2).
Proof. vm_compute. reflexivity. Qed.

End ConstructionProofs.
(* ================================================================== *)
(** * The grasp cycle: opening, closing, stepping                      *)
(* ================================================================== *)

Module CycleProofs.
Import Py Bullet BulletPose Vocabulary MoreVocabulary FloatFacts BulletFacts Examples.
Import GraspProofs PoseProofs ObjectProofs ConstructionProofs.
#[local] Open Scope py_scope.

(** Writing a second value under the same keys leaves the second. *)
Lemma puts_overwrite {K V} `{Countable K} (ks : list K) (v v' : V) (m : gmap K V) :
  puts ks v (puts ks v' m) = puts ks v m.
Proof.
  apply map_eq. intros k. destruct (decide (k ∈ ks)) as [Hin|Hnin].
  - rewrite !puts_lookup_in by exact Hin. reflexivity.
  - rewrite !puts_lookup_notin by exact Hnin. reflexivity.
Qed.

(** Every [activate] on a settled world. *)
Lemma activate_settled solver (i : Contract.Instance) mo fr n w :
  settled (Contract.body i) mo fr n w ->
  Forall (fun j => (j < n)%nat) (Contract.opening_joints i) ->
  exists w',
    Contract.activate solver i w = (Ok tt, w')
    /\ settled (Contract.body i)
         (puts (map (pair (Contract.body i)) (Contract.opening_joints i))
            (Contract.opening_target i) mo) fr n w'.
Proof.
  intros Hw Hall. destruct i as [m|g].
  - simpl in *. rewrite activate_unfold. apply drive_settled; assumption.
  - unfold Contract.activate, Gripper.open_gripper, Contract.opening_joints,
      Contract.closing_joints, Contract.opening_target, Contract.body in *.
    destruct (Gripper.cls g).
    + rewrite PR2_open_unfold.
      destruct (drive_settled _ (mkMotor POSITION_CONTROL 0.548 100) _ _ _ _ _ Hw Hall)
        as (w1 & E1 & Hw1).
      destruct (sim_step_settled solver g 200 0.005 _ _ _ _ w1 GraspProofs.short_grasp_pause Hw1)
        as (w2 & E2 & Hw2).
      exists w2. split; [|exact Hw2]. rewrite (bind_ok _ _ _ _ _ E1). exact E2.
    + rewrite SDH_open_unfold.
      destruct (drive_settled _ (mkMotor POSITION_CONTROL (-0.5) 100) _ _ _ _ _ Hw Hall)
        as (w1 & E1 & Hw1).
      destruct (sim_step_settled solver g 200 0.005 _ _ _ _ w1 GraspProofs.short_grasp_pause Hw1)
        as (w2 & E2 & Hw2).
      exists w2. split; [|exact Hw2]. rewrite (bind_ok _ _ _ _ _ E1). exact E2.
    + eexists. split; [reflexivity|]. exact Hw.
Qed.

Lemma settled_intro body w b :
  connected (engine w) = true ->
  bodies (engine w) !! body = Some b ->
  settled body (motors (engine w)) (lateral_friction (engine w)) (length (joint_types b)) w.
Proof.
  intros Hc Hb. repeat split; try assumption; try reflexivity.
  - unfold num_joints. rewrite Hb. reflexivity.
  - eexists; exact Hb.
Qed.

Lemma elem_of_pairs (body j : nat) (js : list nat) : j ∈ js -> (body, j) ∈ map (pair body) js.
Proof. intros Hj. apply list_elem_of_fmap. exists j. split; [reflexivity|exact Hj]. Qed.

Lemma elem_of_links (body j : nat) (js : list nat) :
  j ∈ js -> (body, Z.of_nat j) ∈ links body js.
Proof. intros Hj. apply list_elem_of_fmap. exists j. split; [reflexivity|exact Hj]. Qed.

(** X8. On a live server that knows the instance's body and the
    joints to be driven, [activate] (of a manipulator) and
    [open_gripper] (of a gripper) return normally; the joints the list
    of open positions reaches have the open target of the class; every
    other motor target is as it was, and so is every lateral friction:
    opening never changes a friction. *)
Theorem activate_opens (solver : Solver) (i : Contract.Instance) (w : World) (b : Body) :
  connected (engine w) = true ->
  bodies (engine w) !! Contract.body i = Some b ->
  Forall (fun j => (j < length (joint_types b))%nat) (Contract.opening_joints i) ->
  exists w',
    Contract.activate solver i w = (Ok tt, w')
    /\ (forall j, j ∈ Contract.opening_joints i ->
          motors (engine w') !! (Contract.body i, j) = Some (Contract.opening_target i))
    /\ (forall k, k ∉ map (pair (Contract.body i)) (Contract.opening_joints i) ->
          motors (engine w') !! k = motors (engine w) !! k)
    /\ lateral_friction (engine w') = lateral_friction (engine w).
Proof.
  intros Hc Hb Hall.
  destruct (activate_settled solver i _ _ _ w (settled_intro _ w b Hc Hb) Hall)
    as (w1 & E1 & (_ & Hm1 & Hf1 & _)).
  exists w1. split; [exact E1|]. split; [|split].
  - intros j Hj. rewrite Hm1. apply puts_lookup_in, elem_of_pairs, Hj.
  - intros k Hk. rewrite Hm1. apply puts_lookup_notin, Hk.
  - exact Hf1.
Qed.

Lemma activate_opens_witness :
  connected (engine world1) = true
  /\ bodies (engine world1) !! Contract.body (Contract.OfGripper (gripper0 Gripper.PR2Gripper))
     = Some gripper_body
  /\ Forall (fun j => (j < length (joint_types gripper_body))%nat)
       (Contract.opening_joints (Contract.OfGripper (gripper0 Gripper.PR2Gripper)))
  /\ exists w',
       Contract.activate solver0 (Contract.OfGripper (gripper0 Gripper.PR2Gripper)) world1
       = (Ok tt, w')
       /\ (forall j, j ∈ Contract.opening_joints
                           (Contract.OfGripper (gripper0 Gripper.PR2Gripper)) ->
             motors (engine w') !! (0%nat, j) = Some (mkMotor POSITION_CONTROL 0.548 100))
       /\ (forall k, k ∉ map (pair 0%nat)
                           (Contract.opening_joints
                              (Contract.OfGripper (gripper0 Gripper.PR2Gripper))) ->
             motors (engine w') !! k = motors (engine world1) !! k)
       /\ lateral_friction (engine w') = lateral_friction (engine world1).
Proof.
  split; [reflexivity|]. split; [reflexivity|].
  assert (H : Forall (fun j => (j < length (joint_types gripper_body))%nat)
                (Contract.opening_joints (Contract.OfGripper (gripper0 Gripper.PR2Gripper)))).
  { repeat constructor. }
  split; [exact H|].
  exact (activate_opens solver0 (Contract.OfGripper (gripper0 Gripper.PR2Gripper))
           world1 gripper_body eq_refl eq_refl H).
Defined.

(** X9. On a live server that knows the instance's body and the
    joints to be driven, closing and then opening return normally; the
    motor targets are then what opening alone would have left, and the
    lateral friction 1.0 that closing gave the actuated joints of a
    [PR2Gripper] or [SDHGripper] is still there: a released gripper
    keeps the raised friction. *)
Theorem close_then_open (solver : Solver) (i : Contract.Instance) (w : World) (b : Body) :
  connected (engine w) = true ->
  bodies (engine w) !! Contract.body i = Some b ->
  Forall (fun j => (j < length (joint_types b))%nat) (Contract.closing_joints i) ->
  exists w1 w2 w0,
    Contract.deactivate solver i w = (Ok tt, w1)
    /\ Contract.activate solver i w1 = (Ok tt, w2)
    /\ Contract.activate solver i w = (Ok tt, w0)
    /\ motors (engine w2) = motors (engine w0)
    /\ lateral_friction (engine w2) = lateral_friction (engine w1)
    /\ (forall j, j ∈ Contract.gripping_joints i ->
          lateral_friction (engine w2) !! (Contract.body i, Z.of_nat j) = Some 1.0%float).
Proof.
  intros Hc Hb Hall.
  pose proof (settled_intro _ w b Hc Hb) as Hw.
  destruct (deactivate_settled solver i _ _ _ w Hw Hall) as (w1 & E1 & Hw1).
  destruct (activate_settled solver i _ _ _ w1 Hw1 Hall) as (w2 & E2 & Hw2).
  destruct (activate_settled solver i _ _ _ w Hw Hall) as (w0 & E0 & Hw0).
  destruct Hw1 as (_ & Hm1 & Hf1 & _).
  destruct Hw2 as (_ & Hm2 & Hf2 & _).
  destruct Hw0 as (_ & Hm0 & _).
  exists w1, w2, w0. split; [exact E1|]. split; [exact E2|]. split; [exact E0|].
  split; [|split].
  - rewrite Hm2, Hm0. apply puts_overwrite.
  - rewrite Hf2, Hf1. reflexivity.
  - intros j Hj. rewrite Hf2. apply puts_lookup_in, elem_of_links, Hj.
Qed.

Lemma close_then_open_witness :
  connected (engine world1) = true
  /\ bodies (engine world1) !! Contract.body (Contract.OfGripper (gripper0 Gripper.SDHGripper))
     = Some gripper_body
  /\ Forall (fun j => (j < length (joint_types gripper_body))%nat)
       (Contract.closing_joints (Contract.OfGripper (gripper0 Gripper.SDHGripper)))
  /\ exists w1 w2 w0,
       Contract.deactivate solver0 (Contract.OfGripper (gripper0 Gripper.SDHGripper)) world1
       = (Ok tt, w1)
       /\ Contract.activate solver0 (Contract.OfGripper (gripper0 Gripper.SDHGripper)) w1
          = (Ok tt, w2)
       /\ Contract.activate solver0 (Contract.OfGripper (gripper0 Gripper.SDHGripper)) world1
          = (Ok tt, w0)
       /\ motors (engine w2) = motors (engine w0)
       /\ lateral_friction (engine w2) = lateral_friction (engine w1)
       /\ (forall j, j ∈ Contract.gripping_joints
                           (Contract.OfGripper (gripper0 Gripper.SDHGripper)) ->
             lateral_friction (engine w2) !! (0%nat, Z.of_nat j) = Some 1.0%float).
Proof.
  split; [reflexivity|]. split; [reflexivity|].
  assert (H : Forall (fun j => (j < length (joint_types gripper_body))%nat)
                (Contract.closing_joints (Contract.OfGripper (gripper0 Gripper.SDHGripper)))).
  { repeat constructor. }
  split; [exact H|].
  exact (close_then_open solver0 (Contract.OfGripper (gripper0 Gripper.SDHGripper))
           world1 gripper_body eq_refl eq_refl H).
Defined.

(** ** A gripper from the factory *)

Lemma loaded_knows file p o jts w :
  connected (engine w) = true ->
  knows (length (bodies (engine w))) (length jts) (loaded file p o jts w).
Proof.
  intros Hc. split; [exact Hc|]. exists (loaded_body p o jts).
  split; [apply loaded_lookup|reflexivity].
Qed.

Lemma new_gripper_run cd c p o w jts :
  connected (engine w) = true ->
  urdf_models (engine w) !! gripper_model cd c = Some jts ->
  new_gripper cd c p o w
  = (Ok (Gripper.mkGripper c p o (gripper_model cd c) (length (bodies (engine w)))
           (movable_of jts) (fixed_of jts)),
     constructed c (gripper_model cd c) p o jts w).
Proof.
  intros Hc Hf. destruct c; cbn [new_gripper constructed gripper_model] in *.
  - apply gripper_init_run; assumption.
  - unfold Gripper.new_SDHGripper.
    rewrite (bind_ok _ _ _ _ _ (gripper_init_run Gripper.SDHGripper p o _ w jts Hc Hf)).
    cbn [Gripper.active_joints Gripper.gripper].
    rewrite (bind_ok _ _ _ _ _
      (spread_run (length (bodies (engine w))) (length jts) (movable_of jts)
         (loaded _ p o jts w) (loaded_knows _ p o jts w Hc) (movable_of_lt jts))).
    reflexivity.
  - apply gripper_init_run; assumption.
Qed.

Lemma constructed_knows c file p o jts w :
  connected (engine w) = true ->
  knows (length (bodies (engine w))) (length jts) (constructed c file p o jts w).
Proof.
  intros Hc. destruct c; cbn [constructed];
    [|apply spread_knows|]; apply loaded_knows, Hc.
Qed.

Lemma constructed_friction c file p o jts w :
  lateral_friction (engine (constructed c file p o jts w)) = lateral_friction (engine w).
Proof. destruct c; cbn [constructed]; [|rewrite spread_friction|]; reflexivity. Qed.

Lemma constructed_length c file p o jts w :
  length (bodies (engine (constructed c file p o jts w)))
  = Datatypes.S (length (bodies (engine w))).
Proof.
  assert (H : length (bodies (engine (loaded file p o jts w)))
              = Datatypes.S (length (bodies (engine w)))).
  { unfold loaded. cbn [engine bodies]. rewrite length_app. simpl. lia. }
  destruct c; cbn [constructed]; [|rewrite spread_length|]; exact H.
Qed.

Lemma knows_settled body n w :
  knows body n w ->
  settled body (motors (engine w)) (lateral_friction (engine w)) n w.
Proof.
  intros (Hc & b & Hb & Hn). subst n. apply settled_intro; assumption.
Qed.

Lemma take_lt n k (l : list nat) :
  Forall (fun j => (j < n)%nat) l -> Forall (fun j => (j < n)%nat) (take k l).
Proof. intros H. apply Forall_take, H. Qed.

(** X3. On a live server that holds the SDH model, the constructor
    of [SDHGripper] returns a hand that is open already: each of its
    movable joints is at the angle -0.5 and its motor has the open
    target (-0.5, force 100).  Opening the hand right away returns
    normally and changes no motor target. *)
Theorem SDH_constructed_open (solver : Solver) (current_dir : string) (p : vec3) (o : quat)
  (w : World) (jts : list JointType) :
  connected (engine w) = true ->
  urdf_models (engine w) !! gripper_model current_dir Gripper.SDHGripper = Some jts ->
  exists g w',
    Gripper.new_SDHGripper current_dir p o w = (Ok g, w')
    /\ Gripper.active_joints g = movable_of jts
    /\ (forall j, j ∈ Gripper.active_joints g ->
          motors (engine w') !! (GripperMore.get_id g, j)
          = Some (mkMotor POSITION_CONTROL (-0.5) 100)
          /\ exists b, bodies (engine w') !! GripperMore.get_id g = Some b
                       /\ joint_angles (kin b) !! j = Some (-0.5)%float)
    /\ exists w'',
         Gripper.open_gripper solver g w' = (Ok tt, w'')
         /\ motors (engine w'') = motors (engine w').
Proof.
  intros Hc Hf.
  pose proof (new_gripper_run current_dir Gripper.SDHGripper p o w jts Hc Hf) as Hrun.
  cbn [new_gripper constructed] in Hrun.
  set (id := length (bodies (engine w))) in *.
  set (w1 := spread id (movable_of jts) (loaded _ p o jts w)) in *.
  eexists _, w1. split; [exact Hrun|].
  cbn [Gripper.active_joints GripperMore.get_id Gripper.gripper].
  split; [reflexivity|].
  assert (Hm : forall j, j ∈ movable_of jts ->
            motors (engine w1) !! (id, j) = Some (mkMotor POSITION_CONTROL (-0.5) 100)).
  { intros j Hj. unfold w1. rewrite spread_motors.
    apply puts_lookup_in, elem_of_pairs, Hj. }
  split.
  - intros j Hj. split; [apply Hm, Hj|].
    apply (spread_angles id (movable_of jts)
             (loaded (gripper_model current_dir Gripper.SDHGripper) p o jts w)
             (loaded_body p o jts) j).
    + apply loaded_lookup.
    + exact Hj.
    + cbn. rewrite repeat_length.
      pose proof (movable_of_lt jts) as Hall. rewrite Forall_forall in Hall.
      apply Hall, Hj.
  - pose proof (spread_knows id (length jts) (movable_of jts) _
                  (loaded_knows (gripper_model current_dir Gripper.SDHGripper) p o jts w Hc))
      as Hk.
    fold w1 in Hk.
    destruct (activate_settled solver
                (Contract.OfGripper
                   (Gripper.mkGripper Gripper.SDHGripper p o
                      (gripper_model current_dir Gripper.SDHGripper) id
                      (movable_of jts) (fixed_of jts)))
                _ _ _ w1 (knows_settled _ _ _ Hk) (movable_of_lt jts))
      as (w2 & E2 & (_ & Hm2 & _)).
    exists w2. split; [exact E2|].
    rewrite Hm2. apply puts_absorb.
    intros k Hk'. apply list_elem_of_fmap in Hk' as (j & -> & Hj). apply Hm, Hj.
Qed.

Lemma SDH_constructed_open_witness :
  connected (engine world2) = true
  /\ urdf_models (engine world2) !! gripper_model "/opt/grasp" Gripper.SDHGripper
     = Some [JOINT_REVOLUTE; JOINT_REVOLUTE; JOINT_REVOLUTE]
  /\ exists g w',
       Gripper.new_SDHGripper "/opt/grasp" zero3 (Quat 0 0 0 1) world2 = (Ok g, w')
       /\ Gripper.active_joints g = movable_of [JOINT_REVOLUTE; JOINT_REVOLUTE; JOINT_REVOLUTE]
       /\ (forall j, j ∈ Gripper.active_joints g ->
             motors (engine w') !! (GripperMore.get_id g, j)
             = Some (mkMotor POSITION_CONTROL (-0.5) 100)
             /\ exists b, bodies (engine w') !! GripperMore.get_id g = Some b
                          /\ joint_angles (kin b) !! j = Some (-0.5)%float)
       /\ exists w'',
            Gripper.open_gripper solver0 g w' = (Ok tt, w'')
            /\ motors (engine w'') = motors (engine w').
Proof.
  split; [reflexivity|]. split; [reflexivity|].
  exact (SDH_constructed_open solver0 "/opt/grasp" zero3 (Quat 0 0 0 1) world2
           [JOINT_REVOLUTE; JOINT_REVOLUTE; JOINT_REVOLUTE] eq_refl eq_refl).
Defined.

(** ** A scene from the factories *)

Lemma closing_joints_lt c p o file id jts :
  Forall (fun j => (j < length jts)%nat)
    (Contract.closing_joints
       (Contract.OfGripper (Gripper.mkGripper c p o file id (movable_of jts) (fixed_of jts)))).
Proof.
  unfold Contract.closing_joints. cbn [Gripper.cls Gripper.active_joints].
  destruct c; [apply take_lt, movable_of_lt|apply movable_of_lt|constructor].
Qed.

(** X11. A scene set up through the two factories runs a grasp
    cycle.  On a live server that holds the model of the gripper class,
    creating an object (of a supported type, with keywords of its
    signature, of a geometry the server accepts: any cuboid, a cylinder
    of a radius above zero and a height not below), then a gripper (of a
    supported type), then opening and closing the gripper all return
    normally.  The two bodies have
    consecutive ids; after closing, the joints the closing reaches have
    the closed target of the class and the gripping joints the lateral
    friction 1.0, while the object keeps the lateral friction 1.2 its
    constructor gave it: no command of the cycle lands on the object. *)
Theorem scene_grasp_cycle (solver : Solver) (current_dir gripper_type : string)
  (c : Gripper.GripperClass) (p : vec3) (o : quat) (object_type : string)
  (kw : Objects.Kwargs) (w : World) :
  lower gripper_type = gripper_tag c ->
  lower object_type ∈ Objects.get_supported_types ->
  dom (Objects.kw_num kw) ⊆ (list_to_set (object_params (lower object_type)) : gset string) ->
  shape_accepted (object_shape (lower object_type) kw) = true ->
  connected (engine w) = true ->
  is_Some (urdf_models (engine w) !! gripper_model current_dir c) ->
  exists ob g w1 w2 w3 w4,
    Objects.create_object object_type kw w = (Ok ob, w1)
    /\ Gripper.create_gripper current_dir gripper_type p o w1 = (Ok g, w2)
    /\ Gripper.open_gripper solver g w2 = (Ok tt, w3)
    /\ Gripper.close_gripper solver g w3 = (Ok tt, w4)
    /\ Gripper.cls g = c
    /\ ObjectsMore.get_id ob = length (bodies (engine w))
    /\ GripperMore.get_id g = Datatypes.S (ObjectsMore.get_id ob)
    /\ (forall j, j ∈ Contract.closing_joints (Contract.OfGripper g) ->
          motors (engine w4) !! (GripperMore.get_id g, j)
          = Some (Contract.closing_target (Contract.OfGripper g)))
    /\ (forall j, j ∈ Contract.gripping_joints (Contract.OfGripper g) ->
          lateral_friction (engine w4) !! (GripperMore.get_id g, Z.of_nat j)
          = Some 1.0%float)
    /\ lateral_friction (engine w4) !! (ObjectsMore.get_id ob, -1) = Some 1.2%float.
Proof.
  intros Hg Ho Hkw Hshape Hc [jts Hf].
  destruct (create_object_init object_type kw w Ho Hkw) as (oc & Eo & _ & Hcls).
  assert (Hshape' : shape_accepted (shape_of oc (Objects.kw_get "height" 0.8 kw)) = true)
    by (rewrite Hcls; exact Hshape).
  rewrite (object_init_run oc _ _ (Objects.kw_color kw) w Hc Hshape') in Eo.
  match type of Eo with _ = (Ok ?x, ?y) => set (ob := x) in *; set (w1 := y) in * end.
  assert (Hc1 : connected (engine w1) = true) by exact Hc.
  assert (Hf1 : urdf_models (engine w1) !! gripper_model current_dir c = Some jts)
    by exact Hf.
  assert (Hlen1 : length (bodies (engine w1)) = Datatypes.S (length (bodies (engine w)))).
  { unfold w1. cbn [engine bodies]. rewrite length_app. simpl. lia. }
  pose proof (new_gripper_run current_dir c p o w1 jts Hc1 Hf1) as Eg.
  rewrite <- (FactoryProofs.create_gripper_dispatch current_dir gripper_type p o c Hg) in Eg.
  match type of Eg with _ = (Ok ?x, ?y) => set (g := x) in *; set (w2 := y) in * end.
  pose proof (constructed_knows c (gripper_model current_dir c) p o jts w1 Hc1) as Hk2.
  fold w2 in Hk2.
  pose proof (closing_joints_lt c p o (gripper_model current_dir c)
                (length (bodies (engine w1))) jts) as Hall.
  fold g in Hall.
  destruct (activate_settled solver (Contract.OfGripper g) _ _ _ w2
              (knows_settled _ _ _ Hk2) Hall) as (w3 & E3 & Hw3).
  destruct (deactivate_settled solver (Contract.OfGripper g) _ _ _ w3 Hw3 Hall)
    as (w4 & E4 & (_ & Hm4 & Hf4 & _)).
  exists ob, g, w1, w2, w3, w4.
  split; [exact Eo|]. split; [exact Eg|]. split; [exact E3|]. split; [exact E4|].
  split; [reflexivity|]. split; [reflexivity|]. split; [exact Hlen1|].
  split; [|split].
  - intros j Hj. rewrite Hm4. apply puts_lookup_in, elem_of_pairs, Hj.
  - intros j Hj. rewrite Hf4. apply puts_lookup_in, elem_of_links, Hj.
  - rewrite Hf4. rewrite puts_lookup_notin.
    + unfold w2. rewrite constructed_friction. unfold w1. cbn [engine lateral_friction].
      apply lookup_insert_eq.
    + intros Hin. apply list_elem_of_fmap in Hin as (j & Hj & _).
      assert (Hid : ObjectsMore.get_id ob = Contract.body (Contract.OfGripper g))
        by congruence.
      change (length (bodies (engine w)) = length (bodies (engine w1))) in Hid.
      rewrite Hlen1 in Hid. lia.
Qed.

Lemma scene_grasp_cycle_witness :
  lower "SDH" = gripper_tag Gripper.SDHGripper
  /\ lower "Cylinder" ∈ Objects.get_supported_types
  /\ dom (Objects.kw_num no_kwargs)
     ⊆ (list_to_set (object_params (lower "Cylinder")) : gset string)
  /\ shape_accepted (object_shape (lower "Cylinder") no_kwargs) = true
  /\ connected (engine world2) = true
  /\ is_Some (urdf_models (engine world2) !! gripper_model "/opt/grasp" Gripper.SDHGripper)
  /\ exists ob g w1 w2 w3 w4,
       Objects.create_object "Cylinder" no_kwargs world2 = (Ok ob, w1)
       /\ Gripper.create_gripper "/opt/grasp" "SDH" zero3 (Quat 0 0 0 1) w1 = (Ok g, w2)
       /\ Gripper.open_gripper solver0 g w2 = (Ok tt, w3)
       /\ Gripper.close_gripper solver0 g w3 = (Ok tt, w4)
       /\ Gripper.cls g = Gripper.SDHGripper
       /\ ObjectsMore.get_id ob = length (bodies (engine world2))
       /\ GripperMore.get_id g = Datatypes.S (ObjectsMore.get_id ob)
       /\ (forall j, j ∈ Contract.closing_joints (Contract.OfGripper g) ->
             motors (engine w4) !! (GripperMore.get_id g, j)
             = Some (Contract.closing_target (Contract.OfGripper g)))
       /\ (forall j, j ∈ Contract.gripping_joints (Contract.OfGripper g) ->
             lateral_friction (engine w4) !! (GripperMore.get_id g, Z.of_nat j)
             = Some 1.0%float)
       /\ lateral_friction (engine w4) !! (ObjectsMore.get_id ob, -1) = Some 1.2%float.
Proof.
  assert (H1 : lower "SDH" = gripper_tag Gripper.SDHGripper) by reflexivity.
  assert (H2 : lower "Cylinder" ∈ Objects.get_supported_types)
    by (vm_compute; repeat constructor).
  assert (H3 : dom (Objects.kw_num no_kwargs)
               ⊆ (list_to_set (object_params (lower "Cylinder")) : gset string))
    by (vm_compute; set_solver).
  assert (H5 : is_Some (urdf_models (engine world2)
                          !! gripper_model "/opt/grasp" Gripper.SDHGripper))
    by (eexists; reflexivity).
  assert (H4 : shape_accepted (object_shape (lower "Cylinder") no_kwargs) = true)
    by (vm_compute; reflexivity).
  split; [exact H1|]. split; [exact H2|]. split; [exact H3|]. split; [exact H4|].
  split; [reflexivity|]. split; [exact H5|].
  exact (scene_grasp_cycle solver0 "/opt/grasp" "SDH" Gripper.SDHGripper zero3 (Quat 0 0 0 1)
           "Cylinder" no_kwargs world2 H1 H2 H3 H4 eq_refl H5).
Defined.

(** ** Stepping the simulation *)

Lemma run_simulation_unfold solver i steps delay :
  ContractMore.run_simulation solver i steps delay
  = repeat_n (Z.to_nat steps) (stepSimulation solver ;; sleep delay).
Proof. destruct i; reflexivity. Qed.

Lemma step_loop_ok solver dt n w :
  connected (engine w) = true ->
  pauses_start w n dt ->
  repeat_n n (stepSimulation solver ;; sleep dt) w = (Ok tt, stepped solver dt n w).
Proof.
  revert w. induction n as [|n IH]; intros w Hc Hs; [reflexivity|].
  cbn [repeat_n stepped]. unfold bind at 1.
  rewrite (bind_ok _ _ _ _ _ (stepSimulation_ok solver w Hc)).
  pose proof (pauses_start_tick solver w (Datatypes.S n) dt Hs) as Hs'.
  rewrite (sleep_ok dt (after_step solver w))
    by exact (pauses_start_now (after_step solver w) n dt Hs').
  apply IH; [exact Hc|].
  apply (pauses_start_next _ (after_step solver w) n dt); [reflexivity| |exact Hs'].
  unfold log. cbn [trace]. rewrite pauses_snoc. lia.
Qed.

Lemma stepped_spec solver dt n w :
  ticks (engine (stepped solver dt n w)) = (ticks (engine w) + n)%nat
  /\ trace (stepped solver dt n w)
     = trace w ++ concat (repeat [EvStepSimulation; EvSleep dt] n)
  /\ motors (engine (stepped solver dt n w)) = motors (engine w)
  /\ lateral_friction (engine (stepped solver dt n w)) = lateral_friction (engine w)
  /\ mass (engine (stepped solver dt n w)) = mass (engine w)
  /\ length (bodies (engine (stepped solver dt n w))) = length (bodies (engine w))
  /\ files (stepped solver dt n w) = files w.
Proof.
  revert w. induction n as [|n IH]; intros w.
  - cbn. rewrite app_nil_r. repeat split; lia.
  - cbn [stepped].
    destruct (IH (log (EvSleep dt) (after_step solver w)))
      as (Ht & Htr & Hm & Hf & Hma & Hl & Hfi).
    rewrite Ht, Htr, Hm, Hf, Hma, Hl, Hfi.
    unfold after_step, log, set_engine, tick.
    cbn [engine ticks trace motors lateral_friction mass bodies files repeat concat].
    rewrite length_imap, <- !app_assoc. repeat split. lia.
Qed.

(** X10. [run_simulation] (of a manipulator) and [sim_step] (of a
    gripper), with a step count [steps] and a pause [delay]:
    - a step count that is not positive does nothing, with or without
      a server;
    - on a live server, with a pause that the interpreter lets start
      each of the [steps] times (it is a number, not negative, and its
      end lies within the range of the clock), the call returns after
      exactly [steps] ticks, each followed by the pause; motor targets,
      frictions, masses, the number of bodies and the files are as
      before;
    - without a server a positive step count raises [pybullet.error]
      at once, and nothing has changed;
    - on a live server, a pause the interpreter does not let start
      (negative, NaN, too long) raises [ValueError], [OverflowError] or
      [OSError] at the first pause, after one tick. *)
Theorem run_simulation_steps (solver : Solver) (i : Contract.Instance) (steps : Z)
  (delay : float) (w : World) :
  (steps <= 0 -> ContractMore.run_simulation solver i steps delay w = (Ok tt, w))
  /\ (connected (engine w) = true -> pauses_start w (Z.to_nat steps) delay ->
      exists w',
        ContractMore.run_simulation solver i steps delay w = (Ok tt, w')
        /\ ticks (engine w') = (ticks (engine w) + Z.to_nat steps)%nat
        /\ trace w'
           = trace w ++ concat (repeat [EvStepSimulation; EvSleep delay] (Z.to_nat steps))
        /\ motors (engine w') = motors (engine w)
        /\ lateral_friction (engine w') = lateral_friction (engine w)
        /\ mass (engine w') = mass (engine w)
        /\ length (bodies (engine w')) = length (bodies (engine w))
        /\ files w' = files w)
  /\ (0 < steps -> connected (engine w) = false ->
      exists msg,
        ContractMore.run_simulation solver i steps delay w = (Raise (Exn BulletError msg), w))
  /\ (0 < steps -> connected (engine w) = true -> sleep_accepts w delay = false ->
      exists k msg,
        ContractMore.run_simulation solver i steps delay w
        = (Raise (Exn k msg), after_step solver w)
        /\ (k = ValueError \/ k = OverflowError \/ k = OSError)
        /\ ticks (engine (after_step solver w)) = Datatypes.S (ticks (engine w))).
Proof.
  rewrite run_simulation_unfold. split; [|split; [|split]].
  - intros H. rewrite (Z2Nat.nonpos steps H). reflexivity.
  - intros Hc Hs. exists (stepped solver delay (Z.to_nat steps) w).
    split; [apply step_loop_ok; assumption|apply stepped_spec].
  - intros Hpos Hc.
    destruct (Z.to_nat steps) as [|n] eqn:E; [lia|].
    eexists. cbn [repeat_n]. apply bind_raise. apply bind_raise.
    unfold stepSimulation. apply (bind_raise _ _ _ _ _ (need_server_off w Hc)).
  - intros Hpos Hc Hs.
    destruct (Z.to_nat steps) as [|n] eqn:E; [lia|].
    destruct (sleep_refused delay (after_step solver w)) as (k & msg & Es & Hk);
      [rewrite sleep_accepts_tick; exact Hs|].
    exists k, msg. split; [|split; [exact Hk|reflexivity]].
    cbn [repeat_n]. apply bind_raise.
    rewrite (bind_ok _ _ _ _ _ (stepSimulation_ok solver w Hc)). exact Es.
Qed.

(** With the defaults of the two methods: 500 ticks. *)
Example run_simulation_defaults :
  ticks (engine (snd (Manipulator.run_simulation solver0 manip0 500 0.001 world1))) = 500%nat
  /\ ticks (engine (snd (Gripper.sim_step solver0 (gripper0 Gripper.PR2Gripper) 500 0.001
                           world1))) = 500%nat.
Proof. split; vm_compute; reflexivity. Qed.

(** ** Lifting *)

Lemma hold_bind {A B} (m : M World A) (k : A -> M World B) :
  keeps_hold m -> (forall a, keeps_hold (k a)) -> keeps_hold (bind m k).
Proof.
  intros Hm Hk w. unfold bind. specialize (Hm w).
  destruct (m w) as [[a|e] w']; cbn [snd] in *; [rewrite Hk|]; exact Hm.
Qed.

Lemma hold_need_server : keeps_hold need_server.
Proof.
  intros w. unfold need_server, isConnected, bind, gets.
  destruct (connected (engine w)); reflexivity.
Qed.

Lemma hold_lift {A} (r : result A) : keeps_hold (lift r).
Proof. intros w. reflexivity. Qed.

Lemma hold_getBasePositionAndOrientation body :
  keeps_hold (getBasePositionAndOrientation body).
Proof.
  apply hold_bind; [apply hold_need_server|intros _].
  intros w. unfold bind, gets. destruct (bodies (engine w) !! body); reflexivity.
Qed.

Lemma hold_resetBaseVelocity body v : keeps_hold (resetBaseVelocity body v).
Proof.
  apply hold_bind; [apply hold_need_server|intros _].
  intros w. unfold hold, modify, log, set_engine. cbn [snd engine files stdout].
  rewrite set_kin_length. reflexivity.
Qed.

Lemma hold_stepSimulation solver : keeps_hold (stepSimulation solver).
Proof.
  apply hold_bind; [apply hold_need_server|intros _].
  intros w. unfold hold, modify, log, set_engine, tick.
  cbn [snd engine files stdout bodies motors lateral_friction spinning_friction mass].
  rewrite length_imap. reflexivity.
Qed.

Lemma hold_sleep secs : keeps_hold (sleep secs).
Proof.
  intros w. unfold sleep.
  destruct (PrimFloat.is_nan secs); [reflexivity|].
  destruct (negb _); [reflexivity|].
  cbv zeta. destruct (as_PyTime_t (secs * 1e9) <? 0); [reflexivity|].
  unfold bind, gets. destruct (monotonic w + _ <=? PyTime_MAX); reflexivity.
Qed.

Lemma hold_repeat_n n (body : M World unit) :
  keeps_hold body -> keeps_hold (repeat_n n body).
Proof.
  intros Hb. induction n as [|n IH]; [intros w; reflexivity|].
  cbn [repeat_n]. apply hold_bind; [exact Hb|intros _; exact IH].
Qed.

(** X15. A vertical motion never lets go.  Whatever the instance,
    the target, the step count, the step time and the world, and
    however the call ends (normally, or with an error at any point),
    [execute_vertical_motion] and [move_up_smoothly] leave every motor
    target, every friction and mass, the number of bodies, the files and
    the output as they were: a closed gripper stays closed while it is
    lifted. *)
Theorem vertical_motion_keeps_hold (solver : Solver) (i : Contract.Instance)
  (target : float) (steps : Z) (step_time : float) (w : World) :
  hold (snd (Contract.vertical_motion solver i target steps step_time w)) = hold w.
Proof.
  revert w. change (keeps_hold (Contract.vertical_motion solver i target steps step_time)).
  rewrite MotionProofs.vertical_motion_unfold.
  apply hold_bind; [apply hold_getBasePositionAndOrientation|intros pq].
  apply hold_bind; [apply hold_lift|intros inc].
  apply hold_bind; [apply hold_lift|intros vel].
  apply hold_bind; [|intros _; apply hold_resetBaseVelocity].
  apply hold_repeat_n.
  apply hold_bind; [apply hold_resetBaseVelocity|intros _].
  apply hold_bind; [apply hold_stepSimulation|intros _; apply hold_sleep].
Qed.

(** A gripper closed and then lifted, on the world of the examples:
    the two fingers keep the closed target. *)
Example lift_keeps_fingers_closed :
  let run := (Gripper.close_gripper solver0 (gripper0 Gripper.PR2Gripper) ;;
              Gripper.move_up_smoothly solver0 (gripper0 Gripper.PR2Gripper) 0.3 5 0.01)%py in
  fst (run world1) = Ok tt
  /\ motors (engine (snd (run world1))) !! (0%nat, 0%nat)
     = Some (mkMotor POSITION_CONTROL 0 500)
  /\ motors (engine (snd (run world1))) !! (0%nat, 1%nat)
     = Some (mkMotor POSITION_CONTROL 0 500).
Proof. repeat split; vm_compute; reflexivity. Qed.

End CycleProofs.
(* ================================================================== *)
(** * More on the outcome classifier and the result store              *)
(* ================================================================== *)

Module RecordProofs.
Import Py Bullet Os Vocabulary MoreVocabulary BulletFacts Examples.
Import StoreProofs.
#[local] Open Scope py_scope.

Lemma getBasePositionAndOrientation_unknown body w :
  connected (engine w) = true ->
  bodies (engine w) !! body = None ->
  getBasePositionAndOrientation body w
  = (Raise (Exn BulletError "GetBasePositionAndOrientation failed."), w).
Proof.
  intros Hc Hb. unfold getBasePositionAndOrientation.
  rewrite (bind_ok _ _ _ _ _ (need_server_ok w Hc)).
  unfold bind, gets. rewrite Hb. reflexivity.
Qed.

(** X12. [assess_grasp_quality] only reads.  Whatever the world, the
    target id and the start position, and however the call ends, the
    world afterwards is the world before with the half-second pause
    added to the trace: the server state, the files and the output are
    the same.  The call raises in one case only, a live server that does
    not know the target body, and then the error is [pybullet.error]. *)
Theorem assess_grasp_quality_reads_only (self : Metrics.PerformanceMetrics)
  (target_id : nat) (start_position : vec3) (w : World) :
  snd (Metrics.assess_grasp_quality self target_id start_position w) = log (EvSleep 0.5) w
  /\ (forall e,
        fst (Metrics.assess_grasp_quality self target_id start_position w) = Raise e <->
        connected (engine w) = true /\ bodies (engine w) !! target_id = None
        /\ e = Exn BulletError "GetBasePositionAndOrientation failed.").
Proof.
  assert (Hrun : exists r,
    Metrics.assess_grasp_quality self target_id start_position w
    = (r, log (EvSleep 0.5) w)
    /\ (forall e, r = Raise e <->
          connected (engine w) = true /\ bodies (engine w) !! target_id = None
          /\ e = Exn BulletError "GetBasePositionAndOrientation failed.")).
  { unfold Metrics.assess_grasp_quality.
    rewrite (bind_ok _ _ w tt (log (EvSleep 0.5) w))
      by (apply sleep_ok, short_accepts; vm_compute; reflexivity).
    unfold bind at 1. unfold isConnected at 1, gets at 1.
    change (connected (engine (log (EvSleep 0.5) w))) with (connected (engine w)).
    destruct (connected (engine w)) eqn:Hc; cbn [negb].
    - destruct (bodies (engine w) !! target_id) as [b|] eqn:Hb.
      + rewrite (bind_ok _ _ _ _ _
          (getBasePositionAndOrientation_ok target_id (log (EvSleep 0.5) w) b Hc Hb)).
        eexists. split; [reflexivity|]. intros e. split; [discriminate|].
        intros (_ & H & _). discriminate.
      + rewrite (bind_raise _ _ _ _ _
          (getBasePositionAndOrientation_unknown target_id (log (EvSleep 0.5) w) Hc Hb)).
        eexists. split; [reflexivity|]. intros e. split.
        * intros E. injection E as <-. repeat split.
        * intros (_ & _ & ->). reflexivity.
    - eexists. split; [reflexivity|]. intros e. split; [discriminate|].
      intros (H & _). discriminate. }
  destruct Hrun as (r & E & Hr). rewrite E. split; [reflexivity|exact Hr].
Qed.

(** On a live server that has no body 7, the classifier raises. *)
Example assess_unknown_body :
  Metrics.assess_grasp_quality metrics0 7 zero3 (world0 true)
  = (Raise (Exn BulletError "GetBasePositionAndOrientation failed."),
     log (EvSleep 0.5) (world0 true)).
Proof. reflexivity. Qed.

Section Recording.
Context (float_repr : float -> string).
#[local] Abbreviation str := (Metrics.str float_repr).
#[local] Abbreviation record_attempt := (Metrics.record_attempt float_repr).

(** With no file at the path, the record is written to a new file. *)
Lemma record_attempt_no_file self r t w :
  files w !! Metrics.output_path self = None ->
  map_result str r = Ok t ->
  record_attempt self r w = append_to (Metrics.output_path self) (Csv.writerow t) w.
Proof.
  intros H Ht. unfold Metrics.record_attempt.
  unfold bind at 1. unfold bind at 1. rewrite isfile_spec, H.
  rewrite bool_decide_eq_false_2 by (intros [? ?]; discriminate).
  unfold ret at 1. unfold bind at 1. unfold lift at 1. rewrite Ht.
  rewrite decide_True by set_solver. reflexivity.
Qed.

(** X13. A store whose file is missing loses the duplicate check for
    its first record.  With no file at the store's path (never written,
    or removed since), a path at which the file system lets a file be
    opened for reading and for appending, [record_attempt] writes a
    record that has a string form (each int in it of at most 4300
    digits), of plain fields, to a new file that has no header row.  The
    same record given again is written again, without a warning: the
    reader takes the first row for the header.  Given a third time it is
    skipped, with the warning. *)
Theorem record_attempt_without_header (self : Metrics.PerformanceMetrics)
  (r : list Metrics.pyval) (t : list string) (w : World) :
  files w !! Metrics.output_path self = None ->
  opens (Metrics.output_path self) w ->
  map_result (Metrics.str float_repr) r = Ok t ->
  Forall plain t ->
  exists w1 w2 w3,
    Metrics.record_attempt float_repr self r w = (Ok tt, w1)
    /\ files w1 !! Metrics.output_path self = Some (Csv.writerow t)
    /\ Metrics.record_attempt float_repr self r w1 = (Ok tt, w2)
    /\ files w2 !! Metrics.output_path self = Some (Csv.writerow t +:+ Csv.writerow t)
    /\ stdout w2 = stdout w
    /\ Metrics.record_attempt float_repr self r w2 = (Ok tt, w3)
    /\ files w3 = files w2
    /\ stdout w3 = stdout w ++ [duplicate_warning].
Proof.
  intros Hnone Ho Ht Hr.
  set (path := Metrics.output_path self) in *.
  set (w1 := appended path (Csv.writerow t) w).
  assert (Hw1 : holds path t [] w1).
  { split; [|constructor; [exact Hr|constructor]].
    unfold w1, appended, set_files. cbn [files].
    rewrite lookup_insert_eq. rewrite Hnone. cbn [default csv_text].
    rewrite string_app_nil_r. reflexivity. }
  set (w2 := appended path (Csv.writerow t) w1).
  assert (Hw2 : holds path t ([] ++ [t]) w2)
    by (apply (append_holds path t [] t w1 Hw1 Hr)).
  destruct (record_attempt_spec float_repr self r t t [] w1 Hw1 Ho Ht) as [_ Hnew1].
  destruct (record_attempt_spec float_repr self r t t ([] ++ [t]) w2 Hw2 Ho Ht)
    as [Hdup2 _].
  exists w1, w2, (snd (print duplicate_warning w2)).
  split.
  { rewrite (record_attempt_no_file self r t w Hnone Ht).
    apply append_to_ok, Ho. }
  split.
  { destruct Hw1 as [Hf _]. rewrite Hf. cbn [csv_text].
    rewrite string_app_nil_r. reflexivity. }
  split; [rewrite Hnew1 by (apply not_elem_of_nil); reflexivity|].
  split.
  { destruct Hw2 as [Hf _]. rewrite Hf. cbn [csv_text app].
    rewrite string_app_nil_r. reflexivity. }
  split; [reflexivity|].
  split; [rewrite Hdup2 by (apply elem_of_app; right; constructor); reflexivity|].
  split; reflexivity.
Qed.

(** One more record on a store of distinct rows. *)
Lemma record_attempt_step self r t header rows w :
  holds (Metrics.output_path self) header rows w ->
  opens (Metrics.output_path self) w ->
  map_result str r = Ok t ->
  Forall plain t ->
  let rows' := if decide (t ∈ rows) then rows else rows ++ [t] in
  exists w',
    record_attempt self r w = (Ok tt, w')
    /\ holds (Metrics.output_path self) header rows' w'
    /\ opens (Metrics.output_path self) w'
    /\ engine w' = engine w.
Proof.
  intros Hw Ho Ht Hr rows'.
  destruct (record_attempt_spec float_repr self r t header rows w Hw Ho Ht) as [Hdup Hnew].
  unfold rows'. destruct (decide (t ∈ rows)) as [Hin|Hnin].
  - rewrite (Hdup Hin). eexists. split; [reflexivity|].
    split; [exact Hw|]. split; [exact Ho|reflexivity].
  - rewrite (Hnew Hnin). eexists. split; [reflexivity|].
    split; [apply (append_holds _ _ _ _ w Hw Hr)|]. split; [exact Ho|reflexivity].
Qed.

(** X14. Records given one after another accumulate.  On a store
    file of a header and distinct rows of plain fields, which the file
    system lets be opened for reading and for appending, any sequence
    of [record_attempt] calls with records that have string forms (each
    int of at most 4300 digits), of plain fields, returns normally and
    leaves a store with the same header whose rows are distinct, begin
    with the rows it had, in their order, and hold exactly the rows it
    had and the string forms of the records given.  The physics server
    is not touched. *)
Theorem record_attempts_accumulate (self : Metrics.PerformanceMetrics)
  (rs : list (list Metrics.pyval)) (ts : list (list string)) (header : list string)
  (rows : list (list string)) (w : World) :
  holds (Metrics.output_path self) header rows w ->
  opens (Metrics.output_path self) w ->
  Forall2 (fun r t => map_result (Metrics.str float_repr) r = Ok t /\ Forall plain t) rs ts ->
  NoDup rows ->
  exists rows' w',
    for_each rs (Metrics.record_attempt float_repr self) w = (Ok tt, w')
    /\ holds (Metrics.output_path self) header rows' w'
    /\ NoDup rows'
    /\ rows `prefix_of` rows'
    /\ (forall t, t ∈ rows' <-> t ∈ rows \/ t ∈ ts)
    /\ engine w' = engine w.
Proof.
  intros Hw Ho Hrs. revert rows w Hw Ho.
  induction Hrs as [|r t rs ts [Ht Hr] _ IH]; intros rows w Hw Ho Hnd.
  - exists rows, w. split; [reflexivity|]. split; [exact Hw|]. split; [exact Hnd|].
    split; [reflexivity|]. split; [|reflexivity].
    intros x. rewrite elem_of_nil. tauto.
  - destruct (record_attempt_step self r t header rows w Hw Ho Ht Hr)
      as (w1 & E1 & Hw1 & Ho1 & He1).
    set (rows1 := if decide (t ∈ rows) then rows else rows ++ [t]) in *.
    assert (Hnd1 : NoDup rows1).
    { unfold rows1. destruct (decide (t ∈ rows)) as [_|Hnin]; [exact Hnd|].
      apply NoDup_app. split; [exact Hnd|]. split; [|apply NoDup_singleton].
      intros x Hx Hx'. apply list_elem_of_singleton in Hx'. subst x. contradiction. }
    assert (Hpre1 : rows `prefix_of` rows1).
    { unfold rows1. destruct (decide (t ∈ rows)); [reflexivity|].
      apply prefix_app_r. reflexivity. }
    assert (Hin1 : forall x, x ∈ rows1 <-> x ∈ rows \/ x = t).
    { intros x. unfold rows1. destruct (decide (t ∈ rows)) as [Hin|_].
      - split; [tauto|]. intros [H| ->]; assumption.
      - rewrite elem_of_app, list_elem_of_singleton. tauto. }
    destruct (IH rows1 w1 Hw1 Ho1 Hnd1)
      as (rows2 & w2 & E2 & Hw2 & Hnd2 & Hpre2 & Hin2 & He2).
    exists rows2, w2.
    split; [cbn [for_each]; rewrite (bind_ok _ _ _ _ _ E1); exact E2|].
    split; [exact Hw2|]. split; [exact Hnd2|].
    split; [etransitivity; eassumption|]. split; [|congruence].
    intros x. rewrite Hin2, Hin1, elem_of_cons. tauto.
Qed.

End Recording.

Lemma world0_opens : opens (Metrics.output_path store0) (world0 true).
Proof. split; reflexivity. Qed.

Lemma record_attempt_without_header_witness :
  files (world0 true) !! Metrics.output_path store0 = None
  /\ opens (Metrics.output_path store0) (world0 true)
  /\ map_result (Metrics.str repr0) record0 = Ok row0
  /\ Forall plain row0
  /\ exists w1 w2 w3,
       Metrics.record_attempt repr0 store0 record0 (world0 true) = (Ok tt, w1)
       /\ files w1 !! Metrics.output_path store0 = Some (Csv.writerow row0)
       /\ Metrics.record_attempt repr0 store0 record0 w1 = (Ok tt, w2)
       /\ files w2 !! Metrics.output_path store0
          = Some (Csv.writerow row0 +:+ Csv.writerow row0)
       /\ stdout w2 = stdout (world0 true)
       /\ Metrics.record_attempt repr0 store0 record0 w2 = (Ok tt, w3)
       /\ files w3 = files w2
       /\ stdout w3 = stdout (world0 true) ++ [duplicate_warning].
Proof.
  split; [reflexivity|]. split; [exact world0_opens|].
  split; [exact record0_text|]. split; [exact row0_plain|].
  exact (record_attempt_without_header repr0 store0 record0 row0 (world0 true)
           eq_refl world0_opens record0_text row0_plain).
Defined.

(** Where the file system does not let the file be opened, nothing is
    recorded: the call raises the [OSError]. *)
Example record_attempt_at_empty_path :
  Metrics.record_attempt repr0 (Metrics.mkMetrics EmptyString store_columns) record0
    (world0 true)
  = (Raise (Exn OSError "[Errno 2] No such file or directory: ''"), world0 true).
Proof. vm_compute. reflexivity. Qed.

Lemma record1_text : map_result (Metrics.str repr0) record1 = Ok row1.
Proof. vm_compute. reflexivity. Qed.

Lemma row1_plain : Forall plain row1.
Proof.
  repeat (constructor; [split; [vm_compute; reflexivity|vm_compute; discriminate]|]).
  constructor.
Qed.

Lemma record_attempts_accumulate_witness :
  holds (Metrics.output_path store0) store_columns [] world_store
  /\ opens (Metrics.output_path store0) world_store
  /\ Forall2 (fun r t => map_result (Metrics.str repr0) r = Ok t /\ Forall plain t)
       [record0; record1; record0] [row0; row1; row0]
  /\ NoDup ([] : list (list string))
  /\ exists rows' w',
       for_each [record0; record1; record0] (Metrics.record_attempt repr0 store0) world_store
       = (Ok tt, w')
       /\ holds (Metrics.output_path store0) store_columns rows' w'
       /\ NoDup rows'
       /\ [] `prefix_of` rows'
       /\ (forall t, t ∈ rows' <-> t ∈ [] \/ t ∈ [row0; row1; row0])
       /\ engine w' = engine world_store.
Proof.
  assert (H : Forall2 (fun r t => map_result (Metrics.str repr0) r = Ok t /\ Forall plain t)
                [record0; record1; record0] [row0; row1; row0]).
  { constructor; [split; [exact record0_text|exact row0_plain]|].
    constructor; [split; [exact record1_text|exact row1_plain]|].
    constructor; [split; [exact record0_text|exact row0_plain]|constructor]. }
  split; [exact world_store_holds|]. split; [exact world_store_opens|].
  split; [exact H|]. split; [constructor|].
  exact (record_attempts_accumulate repr0 store0 [record0; record1; record0]
           [row0; row1; row0] store_columns [] world_store world_store_holds
           world_store_opens H (NoDup_nil_2)).
Defined.

End RecordProofs.
(* ================================================================== *)
(** * The batch driver                                                 *)
(* ================================================================== *)

Module BatchProofs.
Import Py Batch BatchVocabulary FloatFacts.
#[local] Open Scope string_scope.

Lemma printable_zero : printable 0 = true.
Proof. vm_compute. reflexivity. Qed.

Lemma int_str_printable n : printable n = true -> Batch.int_str n = Ok (digits n).
Proof. intros H. unfold Batch.int_str, Py.int_str. rewrite H. reflexivity. Qed.

(** Whether a duration can be divided by [n] does not depend on the
    duration. *)
Lemma per_grasp_ok a n :
  per_grasp_error n = None -> exists q, float_truediv_int a n = Ok q.
Proof.
  unfold per_grasp_error, float_truediv_int.
  destruct (float_of_int n); [|discriminate].
  destruct (n =? 0)%Z; [discriminate|]. intros _. eexists. reflexivity.
Qed.

Lemma per_grasp_fails a n m :
  per_grasp_error n = Some m ->
  exists e, float_truediv_int a n = Raise e /\ exn_msg e = m.
Proof.
  unfold per_grasp_error, float_truediv_int.
  destruct (float_of_int n).
  - destruct (n =? 0)%Z; [|discriminate].
    intros H. injection H as <-. eexists. split; reflexivity.
  - intros H. injection H as <-. eexists. split; reflexivity.
Qed.

(** ** The selection *)

Lemma combo_dict_lookup k :
  combo_dict !! k
  = if decide (k = "sdh-cylinder") then Some ("sdh", "cylinder")
    else if decide (k = "sdh-cuboid") then Some ("sdh", "cuboid")
    else if decide (k = "pr2-cylinder") then Some ("pr2", "cylinder")
    else if decide (k = "pr2-cuboid") then Some ("pr2", "cuboid")
    else None.
Proof.
  unfold combo_dict, all_combinations. cbn [foldl fst snd].
  change ("pr2" ++ "-" ++ "cuboid") with "pr2-cuboid".
  change ("pr2" ++ "-" ++ "cylinder") with "pr2-cylinder".
  change ("sdh" ++ "-" ++ "cuboid") with "sdh-cuboid".
  change ("sdh" ++ "-" ++ "cylinder") with "sdh-cylinder".
  repeat (rewrite lookup_insert;
          match goal with
          | |- context [decide (?a = k)] =>
              destruct (decide (a = k)) as [<-|?];
              [reflexivity|rewrite decide_False by congruence]
          end).
  reflexivity.
Qed.

Lemma combo_dict_known k c :
  combo_dict !! k = Some c <-> c ∈ all_combinations /\ k = combo_key c.
Proof.
  rewrite combo_dict_lookup. unfold all_combinations. split.
  - intros H.
    repeat (match type of H with
            | (if decide (?a = ?b) then _ else _) = _ =>
                destruct (decide (a = b)) as [->|?];
                [injection H as <-; split; [set_solver|reflexivity]|]
            end).
    discriminate.
  - intros [Hin ->].
    repeat (apply elem_of_cons in Hin as [->|Hin]; [reflexivity|]).
    inversion Hin.
Qed.

Lemma combo_dict_unknown k : combo_dict !! k = None <-> k ∉ combination_names.
Proof.
  rewrite combo_dict_lookup. unfold combination_names, all_combinations. cbn [map].
  change (combo_key ("pr2", "cuboid")) with "pr2-cuboid".
  change (combo_key ("pr2", "cylinder")) with "pr2-cylinder".
  change (combo_key ("sdh", "cuboid")) with "sdh-cuboid".
  change (combo_key ("sdh", "cylinder")) with "sdh-cylinder".
  repeat (match goal with
          | |- context [decide (?a = ?b)] =>
              destruct (decide (a = b)) as [->|?];
              [split; [discriminate|intros H; exfalso; apply H; set_solver]|]
          end).
  split; [|reflexivity]. intros _ Hin.
  repeat (apply elem_of_cons in Hin as [?|Hin]; [contradiction|]).
  inversion Hin.
Qed.

(** No name known, no combination selected; and the other way round. *)
Lemma select_nil cs : select cs = [] <-> Forall (fun c => c ∉ combination_names) cs.
Proof.
  unfold select. induction cs as [|c cs IH]; [split; [constructor|reflexivity]|].
  cbn [omap list_omap]. rewrite Forall_cons, <- combo_dict_unknown, <- IH.
  destruct (combo_dict !! c); split; try discriminate; try tauto.
  intros [H _]. discriminate.
Qed.

(** The names known among the names given, in their order, are the
    names of the combinations selected. *)
Lemma select_keys cs :
  map combo_key (select cs) = filter (fun c => c ∈ combination_names) cs.
Proof.
  unfold select. induction cs as [|c cs IH]; [reflexivity|].
  cbn [omap list_omap]. rewrite filter_cons.
  destruct (combo_dict !! c) as [x|] eqn:Hx.
  - apply combo_dict_known in Hx as [Hin ->].
    rewrite decide_True by (apply list_elem_of_fmap; exists x; split; [reflexivity|exact Hin]).
    cbn [map]. rewrite IH. reflexivity.
  - apply combo_dict_unknown in Hx. rewrite decide_False by exact Hx. exact IH.
Qed.

Lemma select_known cs : Forall (fun c => c ∈ all_combinations) (select cs).
Proof.
  unfold select. induction cs as [|c cs IH]; [constructor|].
  cbn [omap list_omap]. destruct (combo_dict !! c) as [x|] eqn:Hx; [|exact IH].
  constructor; [|exact IH]. apply combo_dict_known in Hx as [Hin _]. exact Hin.
Qed.

(** ** Printing *)

Section Printing.
Context {E : Type}.
Implicit Types (s : @Run E).

Lemma add_printed_nil s : add_printed [] s = s.
Proof. destruct s. unfold add_printed. cbn. rewrite app_nil_r. reflexivity. Qed.

Lemma add_printed_app p q s : add_printed q (add_printed p s) = add_printed (p ++ q) s.
Proof. unfold add_printed. cbn. rewrite app_assoc. reflexivity. Qed.

Lemma print_only_prints line : only_prints (@print E line).
Proof. intros s. exists [line]. reflexivity. Qed.

Lemma ret_only_prints : only_prints (@ret E unit tt).
Proof. intros s. exists []. rewrite add_printed_nil. reflexivity. Qed.

Lemma bind_only_prints (m k : @B E unit) :
  only_prints m -> only_prints k -> only_prints (bind m (fun _ => k)).
Proof.
  intros Hm Hk s. destruct (Hm s) as [p Hp]. destruct (Hk (add_printed p s)) as [q Hq].
  exists (p ++ q)%list. unfold bind. rewrite Hp, Hq, add_printed_app. reflexivity.
Qed.

Lemma print_banner_only_prints text : only_prints (@print_banner E text).
Proof.
  unfold print_banner. repeat apply bind_only_prints; apply print_only_prints.
Qed.

Lemma for_each_only_prints {A} (l : list A) (f : A -> string) :
  only_prints (@for_each E A l (fun x => print (f x))).
Proof.
  induction l as [|x l IH]; [apply ret_only_prints|].
  cbn [for_each]. apply bind_only_prints; [apply print_only_prints|exact IH].
Qed.

(** Running on past a command that only prints. *)
Lemma bind_done {A C} (m : @B E A) (k : A -> @B E C) s a s' :
  m s = (Done a, s') -> bind m k s = k a s'.
Proof. intros H. unfold bind. rewrite H. reflexivity. Qed.

Lemma bind_prints {A} (m : @B E unit) (k : unit -> @B E A) s :
  only_prints m -> exists p, bind m k s = k tt (add_printed p s).
Proof. intros Hm. destruct (Hm s) as [p Hp]. exists p. unfold bind. rewrite Hp. reflexivity. Qed.

(** Running on past a value that was computed. *)
Lemma bind_lift_ok {A C} (r : result A) (k : A -> @B E C) s a :
  r = Ok a -> bind (lift r) k s = k a s.
Proof. intros ->. reflexivity. Qed.

(** The lines of the detailed results, for numbers of grasps that have
    a decimal text. *)
Lemma result_lines_only_prints (fixed : nat -> float -> string) (rs : list Result) :
  Forall (fun r => printable (grasps r) = true) rs ->
  only_prints (@for_each E Result rs
                 (fun result => bind (lift (result_line fixed result)) (fun line => print line))).
Proof.
  induction 1 as [|r rs Hr _ IH]; [apply ret_only_prints|].
  cbn [for_each]. apply bind_only_prints; [|exact IH].
  intros s. unfold result_line. rewrite (int_str_printable _ Hr).
  eexists [_]. reflexivity.
Qed.

End Printing.

(** ** Commands that do not look at what was printed *)

Section Alike.
Context {E : Type}.
Implicit Types (s : @Run E).

Lemma alike_ret {A} (a : A) : alike (@ret E A a) (ret a).
Proof. intros s1 s2 H. split; [reflexivity|exact H]. Qed.

Lemma alike_raise {A} (x : signal) : alike (@raise E A x) (raise x).
Proof. intros s1 s2 H. split; [reflexivity|exact H]. Qed.

Lemma alike_print (x y : string) : alike (@print E x) (print y).
Proof. intros s1 s2 H. split; [reflexivity|exact H]. Qed.

Lemma alike_time_time time_at : alike (@time_time E time_at) (time_time time_at).
Proof.
  intros s1 s2 (He & Hr & Hres). unfold time_time. cbn. rewrite Hr.
  repeat split; assumption.
Qed.

Lemma alike_append r : alike (@append E r) (append r).
Proof.
  intros s1 s2 (He & Hr & Hres). unfold append. cbn. rewrite Hres.
  repeat split; assumption.
Qed.

Lemma alike_new_results : alike (@new_results E) new_results.
Proof. intros s1 s2 (He & Hr & Hres). repeat split; assumption. Qed.

Lemma alike_get_results : alike (@get_results E) get_results.
Proof.
  intros s1 s2 (He & Hr & Hres). unfold get_results. cbn. rewrite Hres.
  repeat split; assumption.
Qed.

Lemma alike_call (f : E -> outcome unit * E) : alike (call f) (call f).
Proof.
  intros s1 s2 (He & Hr & Hres). unfold call. rewrite He.
  destruct (f (env s2)) as [o e]. repeat split; assumption.
Qed.

Lemma alike_lift {A} (r : result A) : alike (@lift E A r) (lift r).
Proof. destruct r; [apply alike_ret|apply alike_raise]. Qed.

Lemma alike_bind {A C} (m1 m2 : @B E A) (k1 k2 : A -> @B E C) :
  alike m1 m2 -> (forall a, alike (k1 a) (k2 a)) -> alike (bind m1 k1) (bind m2 k2).
Proof.
  intros Hm Hk s1 s2 H. unfold bind. destruct (Hm s1 s2 H) as [Hf Hs].
  destruct (m1 s1) as [[a|x] s1'], (m2 s2) as [[b|y] s2']; cbn [fst snd] in *;
    try discriminate.
  - injection Hf as <-. apply Hk, Hs.
  - injection Hf as <-. split; [reflexivity|exact Hs].
Qed.

Lemma alike_try_except {A} (b1 b2 i1 i2 : @B E A) (h1 h2 : string -> @B E A) :
  alike b1 b2 -> alike i1 i2 -> (forall e, alike (h1 e) (h2 e)) ->
  alike (try_except b1 i1 h1) (try_except b2 i2 h2).
Proof.
  intros Hb Hi Hh s1 s2 H. unfold try_except. destruct (Hb s1 s2 H) as [Hf Hs].
  destruct (b1 s1) as [[a|x] s1'], (b2 s2) as [[b|y] s2']; cbn [fst snd] in *;
    try discriminate.
  - split; assumption.
  - injection Hf as <-. destruct x as [|e|c]; [apply Hi, Hs|apply Hh, Hs|].
    split; [reflexivity|exact Hs].
Qed.

Lemma alike_for_each {A} (l : list A) (f1 f2 : A -> @B E unit) :
  (forall x, alike (f1 x) (f2 x)) -> alike (for_each l f1) (for_each l f2).
Proof.
  intros Hf. induction l as [|x l IH]; [apply alike_ret|].
  cbn [for_each]. apply alike_bind; [apply Hf|intros _; exact IH].
Qed.

Lemma alike_print_banner (x y : string) : alike (@print_banner E x) (print_banner y).
Proof.
  unfold print_banner. repeat (apply alike_bind; [apply alike_print|intros _]).
  apply alike_print.
Qed.

End Alike.

Section Generation.
Context {E : Type}.
Context (gen : string -> Z -> string -> E -> outcome unit * E).
Context (time_at : nat -> float) (timestamp : string) (fixed : nat -> float -> string).

#[local] Abbreviation attempt := (Batch.attempt gen time_at fixed).
#[local] Abbreviation attempts := (Batch.attempts gen time_at fixed).
#[local] Abbreviation run_batch_generation :=
  (Batch.run_batch_generation gen time_at timestamp fixed).
#[local] Abbreviation main := (Batch.main gen time_at timestamp fixed).

(** One turn of the loop: the generation is called once, and what is
    recorded is what [verdicts] says. *)
Lemma attempt_spec n total idx c s o e1 :
  printable n = true ->
  gen c.2 n c.1 (env s) = (o, e1) ->
  ~ exits o ->
  exists s',
    attempt n total idx c s = (Done (goes_on o), s')
    /\ env s' = e1
    /\ map entry (results s') = (map entry (results s) ++ verdicts n c o)%list.
Proof.
  intros Hp Hgen Hexit.
  unfold Batch.attempt. rewrite (int_str_printable n Hp). cbn [lift].
  unfold print_banner, try_except, bind, print, time_time, call, append, ret.
  cbn [env printed readings results]. rewrite Hgen.
  destruct o as [[]|[|e|code]]; cbn [env printed readings results goes_on].
  - unfold verdicts. destruct (per_grasp_error n) as [m|] eqn:Hper.
    + destruct (per_grasp_fails (time_at (S (readings s)) - time_at (readings s))%float n m
                  Hper) as (e & He & Hm).
      rewrite He. unfold lift, raise. cbn [env printed readings results].
      eexists. split; [reflexivity|]. split; [reflexivity|].
      cbn [results]. rewrite !map_app. cbn [map entry combination grasps status].
      rewrite Hm, <- app_assoc. reflexivity.
    + destruct (per_grasp_ok (time_at (S (readings s)) - time_at (readings s))%float n Hper)
        as (q & Hq).
      rewrite Hq. unfold lift, ret. cbn [env printed readings results].
      eexists. split; [reflexivity|]. split; [reflexivity|].
      cbn [results]. rewrite map_app. reflexivity.
  - eexists. split; [reflexivity|]. split; [reflexivity|].
    cbn [results]. rewrite map_app. reflexivity.
  - eexists. split; [reflexivity|]. split; [reflexivity|].
    cbn [results]. rewrite map_app. reflexivity.
  - exfalso. apply Hexit. eexists. reflexivity.
Qed.

(** The loop: one turn per generation called. *)
Lemma attempts_spec n total todo : printable n = true -> forall idx s os e',
  calls gen n todo (env s) = (os, e') ->
  Forall (fun o => ~ exits o) os ->
  exists s',
    attempts n total idx todo s = (Done tt, s')
    /\ env s' = e'
    /\ map entry (results s')
       = (map entry (results s) ++ concat (zip_with (verdicts n) todo os))%list.
Proof.
  intros Hp. induction todo as [|c rest IH]; intros idx s os e' Hcalls Hos.
  - cbn in Hcalls. injection Hcalls as <- <-. exists s.
    split; [reflexivity|]. split; [reflexivity|]. cbn. rewrite app_nil_r. reflexivity.
  - cbn [calls] in Hcalls.
    destruct (gen c.2 n c.1 (env s)) as [o e1] eqn:Hgen.
    assert (Ho : ~ exits o).
    { destruct (goes_on o).
      - destruct (calls gen n rest e1) as [os1 e2]. injection Hcalls as <- <-.
        apply Forall_cons in Hos as [H _]. exact H.
      - injection Hcalls as <- <-. apply Forall_cons in Hos as [H _]. exact H. }
    destruct (attempt_spec n total idx c s o e1 Hp Hgen Ho) as (s1 & E1 & He1 & Hr1).
    cbn [Batch.attempts]. unfold bind at 1. rewrite E1.
    destruct (goes_on o) eqn:Hgo.
    + destruct (calls gen n rest e1) as [os1 e2] eqn:Hrest. injection Hcalls as <- <-.
      apply Forall_cons in Hos as [_ Hos].
      rewrite <- He1 in Hrest.
      destruct (IH (S idx) s1 os1 e2 Hrest Hos) as (s2 & E2 & He2 & Hr2).
      exists s2. split; [exact E2|]. split; [exact He2|].
      rewrite Hr2, Hr1, <- app_assoc. reflexivity.
    + injection Hcalls as <- <-. exists s1.
      split; [reflexivity|]. split; [exact He1|].
      rewrite Hr1. f_equal.
      destruct rest; cbn [zip_with concat]; rewrite app_nil_r; reflexivity.
Qed.

Lemma total_of_entries rs : total_of rs = entries_total (map entry rs).
Proof.
  induction rs as [|r rs IH]; [reflexivity|].
  unfold total_of, entries_total in *. cbn [map foldr]. rewrite IH. reflexivity.
Qed.

(** What is recorded holds the number of grasps asked for, or 0. *)
Lemma verdicts_grasps n todo : forall os,
  Forall (fun v : string * Z * string => v.1.2 = n \/ v.1.2 = 0%Z)
    (concat (zip_with (verdicts n) todo os)).
Proof.
  induction todo as [|c rest IH]; intros os; [constructor|].
  destruct os as [|o os]; [constructor|].
  cbn [zip_with concat]. apply Forall_app. split; [|apply IH].
  destruct o as [[]|[|e|code]]; cbn [verdicts];
    [destruct (per_grasp_error n)|..];
    repeat (constructor; [cbn; tauto|]); constructor.
Qed.

Lemma entries_printable n (rs : list Result) vs :
  printable n = true ->
  map entry rs = vs ->
  Forall (fun v : string * Z * string => v.1.2 = n \/ v.1.2 = 0%Z) vs ->
  Forall (fun r => printable (grasps r) = true) rs.
Proof.
  intros Hp <- H. induction rs as [|r rs IH]; [constructor|].
  cbn [map] in H. apply Forall_cons in H as [Hr H].
  constructor; [|apply IH, H].
  cbn [entry fst snd] in Hr. destruct Hr as [-> | ->]; [exact Hp|exact printable_zero].
Qed.

Lemma entries_total_nonneg n vs :
  (0 <= n)%Z ->
  Forall (fun v : string * Z * string => v.1.2 = n \/ v.1.2 = 0%Z) vs ->
  (0 <= entries_total vs)%Z.
Proof.
  intros Hn. induction 1 as [|v vs Hv _ IH]; [reflexivity|].
  unfold entries_total in *. cbn [foldr]. lia.
Qed.

Ltac skip_print :=
  lazymatch goal with
  | |- exists rs s', bind ?m ?k ?s = _ /\ _ =>
      let p := fresh "p" in
      let H := fresh "H" in
      destruct (bind_prints m k s
                  ltac:(first [apply print_only_prints
                              |apply print_banner_only_prints
                              |apply for_each_only_prints])) as [p H];
      rewrite H; clear H; cbv beta
  end.

(** The driver, from the selection on. *)
Lemma run_selected n combinations use_gui s selected os e' :
  selection combinations = Some selected ->
  calls gen n selected (env s) = (os, e') ->
  Forall (fun o => ~ exits o) os ->
  averages (entries_total (concat (zip_with (verdicts n) selected os))) ->
  printable n = true ->
  printable (n * len selected) = true ->
  printable (entries_total (concat (zip_with (verdicts n) selected os))) = true ->
  exists rs s',
    run_batch_generation n combinations use_gui s = (Done (Some rs), s')
    /\ results s' = rs
    /\ env s' = e'
    /\ map entry rs = concat (zip_with (verdicts n) selected os).
Proof.
  intros Hsel Hcalls Hos Hav Hp1 Hp2 Hp3.
  unfold Batch.run_batch_generation. rewrite Hsel.
  do 2 skip_print.
  rewrite (bind_lift_ok _ _ _ _ (int_str_printable _ Hp1)). cbv beta.
  do 2 skip_print.
  rewrite (bind_lift_ok _ _ _ _ (int_str_printable _ Hp2)). cbv beta.
  do 5 skip_print.
  match goal with |- exists rs s', bind _ _ ?st = _ /\ _ => set (s0 := st) end.
  rewrite (bind_done (time_time time_at) _ s0 _ _ eq_refl). cbv beta.
  rewrite (bind_done new_results _ _ _ _ eq_refl). cbv beta.
  match goal with |- exists rs s', bind _ _ ?st = _ /\ _ => set (s1 := st) end.
  destruct (attempts_spec n (length selected) selected Hp1 1 s1 os e' Hcalls Hos)
    as (s2 & E2 & He2 & Hr2).
  rewrite (bind_done _ _ s1 _ _ E2). cbv beta.
  rewrite (bind_done (time_time time_at) _ s2 _ _ eq_refl). cbv beta.
  rewrite (bind_done get_results _ _ _ _ eq_refl). cbv beta.
  cbn [results].
  assert (Htotal : total_of (results s2)
                   = entries_total (concat (zip_with (verdicts n) selected os))).
  { rewrite total_of_entries, Hr2. reflexivity. }
  assert (Hlines : Forall (fun r => printable (grasps r) = true) (results s2)).
  { apply (entries_printable n _ _ Hp1 Hr2). apply verdicts_grasps. }
  do 3 skip_print.
  rewrite Htotal.
  rewrite (bind_lift_ok _ _ _ _ (int_str_printable _ Hp3)). cbv beta.
  skip_print.
  match goal with
  | |- exists rs s', bind ?m ?k ?st = _ /\ _ =>
      assert (Havg : only_prints m)
  end.
  { destruct (0 <? entries_total (concat (zip_with (verdicts n) selected os)))%Z eqn:Hpos;
      [|apply ret_only_prints].
    intros st. apply Z.ltb_lt in Hpos.
    unfold float_truediv_int, float_of_int. rewrite (Hav Hpos).
    destruct (Z.eqb_spec (entries_total (concat (zip_with (verdicts n) selected os))) 0)
      as [Hz|_]; [lia|].
    eexists [_]. reflexivity. }
  match goal with
  | |- exists rs s', bind ?m ?k ?st = _ /\ _ =>
      destruct (bind_prints m k st Havg) as [pa Ha]; rewrite Ha; clear Ha; cbv beta
  end.
  skip_print.
  match goal with
  | |- exists rs s', bind ?m ?k ?st = _ /\ _ =>
      destruct (bind_prints m k st (result_lines_only_prints fixed _ Hlines)) as [pl Hl];
        rewrite Hl; clear Hl; cbv beta
  end.
  do 2 skip_print.
  match goal with
  | |- exists rs s', bind ?m ?k ?st = _ /\ _ =>
      destruct (bind_prints m k st (print_only_prints _)) as [pz Hz]; rewrite Hz; clear Hz;
        cbv beta
  end.
  eexists _, _. split; [reflexivity|].
  split; [reflexivity|]. split; [exact He2|]. exact Hr2.
Qed.

Ltac alike_step :=
  first [ apply alike_print_banner | apply alike_print | apply alike_time_time
        | apply alike_new_results | apply alike_get_results | apply alike_append
        | apply alike_call | apply alike_lift | apply alike_ret | apply alike_raise
        | apply alike_for_each; intros ?
        | apply alike_bind; [|intros ?] ].

Lemma alike_attempt n total idx c : alike (attempt n total idx c) (attempt n total idx c).
Proof.
  unfold Batch.attempt. repeat alike_step.
  apply alike_try_except; [| |intros e]; repeat alike_step.
Qed.

Lemma alike_attempts n total todo : forall idx,
  alike (attempts n total idx todo) (attempts n total idx todo).
Proof.
  induction todo as [|c rest IH]; intros idx; [apply alike_ret|].
  cbn [Batch.attempts]. apply alike_bind; [apply alike_attempt|intros go_on].
  destruct go_on; [apply IH|apply alike_ret].
Qed.

Lemma same_run_refl (s : @Run E) : same_run s s.
Proof. repeat split. Qed.

(** X16. What a batch records.  Let the generation of each
    selected combination be called in turn, each from the state the one
    before left, up to the first that is interrupted; let none of them
    leave the program, let the total of the grasps convert to a float
    for the average, and let the three numbers the driver prints (the
    grasps per combination, their product with the number of
    combinations, and the total of the grasps) have a decimal text of at
    most 4300 digits.  Then [run_batch_generation] returns its list
    of results, and the list holds, for each generation called and in
    that order: [SUCCESS] with the number of grasps asked for, if it
    returned; [FAILED] with the text of the error and 0 grasps, if it
    raised an exception (the batch goes on with the next combination);
    [INTERRUPTED] with 0 grasps, if it was interrupted (the batch ends
    there); and after a [SUCCESS] one more entry, [FAILED], if the
    duration cannot be divided by the number of grasps.  The state of
    the generation at the end is the one the last call left. *)
Theorem batch_results (n : Z) (combinations : option (list string)) (use_gui : bool)
  (s : Run) (selected : list (string * string)) (os : list (outcome unit)) (e' : E) :
  selection combinations = Some selected ->
  calls gen n selected (env s) = (os, e') ->
  Forall (fun o => ~ exits o) os ->
  averages (entries_total (concat (zip_with (verdicts n) selected os))) ->
  printable n = true ->
  printable (n * len selected) = true ->
  printable (entries_total (concat (zip_with (verdicts n) selected os))) = true ->
  exists rs s',
    run_batch_generation n combinations use_gui s = (Done (Some rs), s')
    /\ results s' = rs
    /\ env s' = e'
    /\ map entry rs = concat (zip_with (verdicts n) selected os).
Proof. apply run_selected. Qed.

(** When every generation returns, every combination is called. *)
Lemma calls_all_done n todo : forall e os e',
  calls gen n todo e = (os, e') ->
  Forall (fun o => o = Done tt) os ->
  length os = length todo.
Proof.
  induction todo as [|c rest IH]; intros e os e' Hcalls Hos.
  - cbn in Hcalls. injection Hcalls as <- <-. reflexivity.
  - cbn [calls] in Hcalls. destruct (gen c.2 n c.1 e) as [o e1].
    destruct (goes_on o) eqn:Hgo.
    + destruct (calls gen n rest e1) as [os1 e2] eqn:Hrest. injection Hcalls as <- <-.
      apply Forall_cons in Hos as [_ Hos]. cbn [length]. f_equal.
      apply (IH e1 os1 e2 Hrest Hos).
    + injection Hcalls as <- <-. apply Forall_cons in Hos as [-> _]. discriminate.
Qed.

Lemma zero_grasps_entries todo : forall os,
  length os = length todo ->
  Forall (fun o => o = Done tt) os ->
  concat (zip_with (verdicts 0) todo os) = flat_map counted_twice todo.
Proof.
  induction todo as [|c rest IH]; intros os Hlen Hos; [destruct os; reflexivity|].
  destruct os as [|o os]; [discriminate|].
  apply Forall_cons in Hos as [-> Hos]. injection Hlen as Hlen.
  cbn [zip_with concat flat_map]. rewrite (IH os Hlen Hos). reflexivity.
Qed.

Lemma counted_twice_total todo : entries_total (flat_map counted_twice todo) = 0%Z.
Proof.
  induction todo as [|c rest IH]; [reflexivity|].
  cbn [flat_map]. unfold entries_total in *. unfold counted_twice at 1.
  cbn [app foldr fst snd]. rewrite IH. reflexivity.
Qed.

(** X17. A batch of zero grasps counts every combination twice.
    With 0 as the number of grasps per combination, and generations that
    all return, [run_batch_generation] returns a list with two entries
    for each selected combination: [SUCCESS], and [FAILED] with the
    text of a division by zero (the time per grasp, computed after the
    success was recorded). *)
Theorem zero_grasps_counted_twice (combinations : option (list string)) (use_gui : bool)
  (s : Run) (selected : list (string * string)) (os : list (outcome unit)) (e' : E) :
  selection combinations = Some selected ->
  calls gen 0 selected (env s) = (os, e') ->
  Forall (fun o => o = Done tt) os ->
  exists rs s',
    run_batch_generation 0 combinations use_gui s = (Done (Some rs), s')
    /\ map entry rs = flat_map counted_twice selected
    /\ length rs = (2 * length selected)%nat.
Proof.
  intros Hsel Hcalls Hos.
  pose proof (calls_all_done 0 selected _ _ _ Hcalls Hos) as Hlen.
  pose proof (zero_grasps_entries selected os Hlen Hos) as Hent.
  destruct (run_selected 0 combinations use_gui s selected os e' Hsel Hcalls)
    as (rs & s' & Erun & _ & _ & Hrs).
  - eapply Forall_impl; [exact Hos|]. intros o -> [code H]. discriminate.
  - rewrite Hent, counted_twice_total. intros H. lia.
  - exact printable_zero.
  - rewrite Z.mul_0_l. exact printable_zero.
  - rewrite Hent, counted_twice_total. exact printable_zero.
  - exists rs, s'. split; [exact Erun|]. rewrite Hrs, Hent. split; [reflexivity|].
    rewrite <- (length_map entry), Hrs, Hent.
    clear. induction selected as [|c rest IH]; [reflexivity|].
    cbn [flat_map]. unfold counted_twice at 1. cbn [app length]. rewrite IH. lia.
Qed.

(** X18. Which combinations run.  With no names given (or an empty
    list) all four combinations are selected.  With names given, the
    combinations selected are those of the names that are known, in the
    order given and as often as given; a name that is not known is
    dropped without a word.  Only when no name given is known does
    [run_batch_generation] stop: it prints one line, returns [None],
    and calls no generation. *)
Theorem batch_selection (n : Z) (cs : list string) (use_gui : bool) (s : Run) :
  selection None = Some all_combinations
  /\ selection (Some []) = Some all_combinations
  /\ (cs <> [] ->
      (Forall (fun c => c ∉ combination_names) cs ->
       run_batch_generation n (Some cs) use_gui s
       = (Done None, add_printed [no_valid_combination] s))
      /\ (~ Forall (fun c => c ∉ combination_names) cs ->
          selection (Some cs) = Some (select cs)
          /\ map combo_key (select cs) = filter (fun c => c ∈ combination_names) cs
          /\ Forall (fun c => c ∈ all_combinations) (select cs))).
Proof.
  split; [reflexivity|]. split; [reflexivity|].
  intros Hne. destruct cs as [|c cs]; [contradiction|]. split.
  - intros Hall. apply select_nil in Hall.
    unfold Batch.run_batch_generation, selection. rewrite Hall. reflexivity.
  - intros Hsome. split; [|split; [apply select_keys|apply select_known]].
    unfold selection. rewrite decide_False; [reflexivity|].
    intros Hnil. apply Hsome, select_nil, Hnil.
Qed.

(** X19. The [use_gui] flag changes what is printed, and nothing
    else.  From the same state, [run_batch_generation] with the flag
    set and with the flag not set end alike, with the same results, and
    leave the same state of the generation, the same list of results and
    the same number of clock readings: the generations are called with
    the same arguments either way. *)
Theorem gui_flag_only_prints (n : Z) (combinations : option (list string)) (s : Run) :
  fst (run_batch_generation n combinations true s)
  = fst (run_batch_generation n combinations false s)
  /\ same_run (snd (run_batch_generation n combinations true s))
       (snd (run_batch_generation n combinations false s)).
Proof.
  assert (H : alike (run_batch_generation n combinations true)
                (run_batch_generation n combinations false)).
  { unfold Batch.run_batch_generation.
    destruct (selection combinations) as [selected|]; [|repeat alike_step].
    repeat (apply alike_bind;
            [first [ apply alike_attempts
                   | solve [repeat alike_step]
                   | destruct (0 <? total_of _)%Z; solve [repeat alike_step] ]
            |intros ?]).
    apply alike_ret. }
  apply H, same_run_refl.
Qed.

Lemma select_parsed cs :
  Forall (fun c => c ∈ combination_names) cs ->
  map combo_key (select cs) = cs /\ length (select cs) = length cs.
Proof.
  intros Hall.
  assert (H : map combo_key (select cs) = cs).
  { rewrite select_keys. clear -Hall. induction Hall as [|c cs Hc _ IH]; [reflexivity|].
    rewrite filter_cons, decide_True by exact Hc. rewrite IH. reflexivity. }
  split; [exact H|]. rewrite <- (length_map combo_key), H. reflexivity.
Qed.

Lemma selection_parsed combinations :
  parsed combinations -> selection combinations = Some (named combinations).
Proof.
  destruct combinations as [[|c cs]|]; cbn [parsed named]; try reflexivity.
  - intros [H _]. contradiction.
  - intros [_ Hall]. unfold selection. rewrite decide_False; [reflexivity|].
    intros Hnil. apply select_parsed in Hall as [_ Hlen]. rewrite Hnil in Hlen. discriminate.
Qed.

Lemma single_verdicts n todo os :
  per_grasp_error n = None ->
  Forall (fun o => ~ exits o) os ->
  concat (zip_with (verdicts n) todo os) = zip_with (verdict n) todo os.
Proof.
  intros Hper. revert os. induction todo as [|c rest IH]; intros os Hos; [reflexivity|].
  destruct os as [|o os]; [reflexivity|].
  apply Forall_cons in Hos as [Ho Hos].
  cbn [zip_with concat]. rewrite (IH os Hos).
  destruct o as [[]|[|e|code]]; cbn [verdicts verdict]; rewrite ?Hper; try reflexivity.
  exfalso. apply Ho. eexists. reflexivity.
Qed.


End Generation.

(** ** On the generation of the examples *)

Lemma calls_generate0 :
  calls generate0 10 all_combinations (env run0)
  = ([Done tt; Done tt; Done tt; Raised (Exception "no grasp found")],
     [("cuboid", 10%Z, "pr2"); ("cylinder", 10%Z, "pr2");
      ("cuboid", 10%Z, "sdh"); ("cylinder", 10%Z, "sdh")]).
Proof. reflexivity. Qed.

Lemma outcomes_generate0 :
  Forall (fun o : outcome unit => ~ exits o)
    [Done tt; Done tt; Done tt; Raised (Exception "no grasp found")].
Proof. repeat constructor; intros [code H]; discriminate. Qed.

Lemma batch_results_witness :
  selection None = Some all_combinations
  /\ calls generate0 10 all_combinations (env run0)
     = ([Done tt; Done tt; Done tt; Raised (Exception "no grasp found")],
        [("cuboid", 10%Z, "pr2"); ("cylinder", 10%Z, "pr2");
         ("cuboid", 10%Z, "sdh"); ("cylinder", 10%Z, "sdh")])
  /\ Forall (fun o : outcome unit => ~ exits o)
       [Done tt; Done tt; Done tt; Raised (Exception "no grasp found")]
  /\ averages (entries_total
                 (concat (zip_with (verdicts 10) all_combinations
                            [Done tt; Done tt; Done tt;
                             Raised (Exception "no grasp found")])))
  /\ printable 10 = true
  /\ printable (10 * len all_combinations) = true
  /\ printable (entries_total
                  (concat (zip_with (verdicts 10) all_combinations
                             [Done tt; Done tt; Done tt;
                              Raised (Exception "no grasp found")]))) = true
  /\ exists rs s',
       Batch.run_batch_generation generate0 clock0 "2024-01-01 00:00:00" fixed0
         10 None false run0 = (Done (Some rs), s')
       /\ results s' = rs
       /\ env s' = [("cuboid", 10%Z, "pr2"); ("cylinder", 10%Z, "pr2");
                    ("cuboid", 10%Z, "sdh"); ("cylinder", 10%Z, "sdh")]
       /\ map entry rs
          = concat (zip_with (verdicts 10) all_combinations
                      [Done tt; Done tt; Done tt; Raised (Exception "no grasp found")]).
Proof.
  assert (Hav : averages (entries_total
                  (concat (zip_with (verdicts 10) all_combinations
                             [Done tt; Done tt; Done tt;
                              Raised (Exception "no grasp found")]))))
    by (intros _; vm_compute; reflexivity).
  assert (Hp1 : printable 10 = true) by (vm_compute; reflexivity).
  assert (Hp2 : printable (10 * len all_combinations) = true) by (vm_compute; reflexivity).
  assert (Hp3 : printable (entries_total
                  (concat (zip_with (verdicts 10) all_combinations
                             [Done tt; Done tt; Done tt;
                              Raised (Exception "no grasp found")]))) = true)
    by (vm_compute; reflexivity).
  split; [reflexivity|]. split; [exact calls_generate0|].
  split; [exact outcomes_generate0|]. split; [exact Hav|].
  split; [exact Hp1|]. split; [exact Hp2|]. split; [exact Hp3|].
  exact (batch_results generate0 clock0 "2024-01-01 00:00:00" fixed0 10 None false run0
           all_combinations _ _ eq_refl calls_generate0 outcomes_generate0 Hav Hp1 Hp2 Hp3).
Defined.

(** The entries of that batch. *)
Example batch_results_entries :
  concat (zip_with (verdicts 10) all_combinations
            [Done tt; Done tt; Done tt; Raised (Exception "no grasp found")])
  = [("PR2 × cuboid", 10%Z, "SUCCESS"); ("PR2 × cylinder", 10%Z, "SUCCESS");
     ("SDH × cuboid", 10%Z, "SUCCESS");
     ("SDH × cylinder", 0%Z, "FAILED: no grasp found")].
Proof. vm_compute. reflexivity. Qed.

Lemma zero_grasps_counted_twice_witness :
  selection (Some ["pr2-cuboid"]) = Some [("pr2", "cuboid")]
  /\ calls generate0 0 [("pr2", "cuboid")] (env run0)
     = ([Done tt], [("cuboid", 0%Z, "pr2")])
  /\ Forall (fun o : outcome unit => o = Done tt) [Done tt]
  /\ exists rs s',
       Batch.run_batch_generation generate0 clock0 "2024-01-01 00:00:00" fixed0
         0 (Some ["pr2-cuboid"]) false run0 = (Done (Some rs), s')
       /\ map entry rs = flat_map counted_twice [("pr2", "cuboid")]
       /\ length rs = (2 * length [("pr2", "cuboid")])%nat.
Proof.
  assert (H1 : selection (Some ["pr2-cuboid"]) = Some [("pr2", "cuboid")]) by reflexivity.
  assert (H2 : calls generate0 0 [("pr2", "cuboid")] (env run0)
               = ([Done tt], [("cuboid", 0%Z, "pr2")])) by reflexivity.
  assert (H3 : Forall (fun o : outcome unit => o = Done tt) [Done tt])
    by (repeat constructor).
  split; [exact H1|]. split; [exact H2|]. split; [exact H3|].
  exact (zero_grasps_counted_twice generate0 clock0 "2024-01-01 00:00:00" fixed0
           (Some ["pr2-cuboid"]) false run0 [("pr2", "cuboid")] _ _ H1 H2 H3).
Defined.


(** Names are compared as they are: a name in upper case is not known;
    a known name given twice runs twice. *)
Example selection_examples :
  selection (Some ["PR2-cuboid"]) = None
  /\ selection (Some ["sdh-cuboid"; "nope"; "sdh-cuboid"])
     = Some [("sdh", "cuboid"); ("sdh", "cuboid")].
Proof. split; reflexivity. Qed.

End BatchProofs.
(* ================================================================== *)
(** * [speak]: what is handed to the engine                            *)
(* ================================================================== *)

Module VoiceProofs.
Import Batch Voice VoiceVocabulary.

(** ** [split] and [replace] *)

Lemma startswith_app (p t : str) :
  startswith p t = true -> t = (p ++ drop (length p) t)%list.
Proof.
  revert t. induction p as [|a p IH]; intros t H; [reflexivity|].
  destruct t as [|x t]; [discriminate|]. cbn in H.
  apply andb_prop in H as [Hx Hp]. apply bool_decide_eq_true in Hx. subst x.
  cbn. f_equal. apply IH, Hp.
Qed.

Lemma split_from_drop (sep : str) (t : str) : forall skip current,
  split_from sep skip current t = split_from sep 0 current (drop skip t).
Proof.
  induction t as [|x t IH]; intros [|k] current; try reflexivity.
  cbn [split_from drop]. rewrite IH. reflexivity.
Qed.

Lemma split_from_cons (sep : str) (current : str) (x : char) (t : str) :
  sep <> [] ->
  split_from sep 0 current (x :: t)
  = if startswith sep (x :: t)
    then rev current :: split_from sep 0 [] (drop (length sep) (x :: t))
    else split_from sep 0 (x :: current) t.
Proof.
  intros Hsep. cbn [split_from]. destruct (startswith sep (x :: t)); [|reflexivity].
  rewrite split_from_drop. destruct sep as [|a sep]; [contradiction|].
  change (length (a :: sep) - 1)%nat with (length sep - 0)%nat.
  rewrite Nat.sub_0_r. reflexivity.
Qed.

Lemma split_from_nonempty (sep : str) (t : str) : forall skip current,
  split_from sep skip current t <> [].
Proof.
  induction t as [|x t IH]; intros skip current; [discriminate|].
  cbn [split_from]. destruct skip; [|apply IH].
  destruct (startswith sep (x :: t)); [discriminate|apply IH].
Qed.

Lemma join_cons (sep p : str) (rest : list str) :
  rest <> [] -> join sep (p :: rest) = (p ++ sep ++ join sep rest)%list.
Proof. destruct rest; [contradiction|reflexivity]. Qed.

(** Joining the pieces of a text gives the text back. *)
Lemma join_split_from (sep : str) : sep <> [] -> forall n t current,
  (length t <= n)%nat ->
  join sep (split_from sep 0 current t) = (rev current ++ t)%list.
Proof.
  intros Hsep. induction n as [|n IH]; intros t current Hlen.
  - destruct t; [|cbn in Hlen; lia]. cbn. rewrite app_nil_r. reflexivity.
  - destruct t as [|x t]; [cbn; rewrite app_nil_r; reflexivity|].
    rewrite split_from_cons by exact Hsep.
    destruct (startswith sep (x :: t)) eqn:Hs.
    + rewrite join_cons by apply split_from_nonempty.
      rewrite IH.
      * cbn [rev app]. rewrite <- (startswith_app _ _ Hs). reflexivity.
      * destruct sep as [|a sep]; [contradiction|].
        cbn [length drop]. rewrite length_drop. cbn in Hlen. lia.
    + rewrite IH by (cbn in Hlen; lia). cbn [rev]. rewrite <- app_assoc. reflexivity.
Qed.

Lemma join_split (sep t : str) : sep <> [] -> join sep (split sep t) = t.
Proof. intros Hsep. exact (join_split_from sep Hsep (length t) t [] (le_n _)). Qed.

(** A text without an occurrence of the separator is one piece. *)
Lemma split_from_unbroken (sep : str) (t : str) : forall current,
  (forall i, startswith sep (drop i t) = false) ->
  split_from sep 0 current t = [(rev current ++ t)%list].
Proof.
  induction t as [|x t IH]; intros current Hno; [cbn; rewrite app_nil_r; reflexivity|].
  cbn [split_from]. pose proof (Hno 0%nat) as H0. cbn [drop] in H0. rewrite H0.
  rewrite IH by (intros i; exact (Hno (S i))).
  cbn [rev]. rewrite <- app_assoc. reflexivity.
Qed.

(** Replacing line breaks leaves none. *)
Lemma replace_newline (new t : str) :
  newline ∉ new -> newline ∉ replace [newline] new t.
Proof.
  intros Hnew. unfold replace. induction t as [|x t IH]; [apply not_elem_of_nil|].
  cbn [replace_from startswith length Nat.sub]. rewrite andb_true_r.
  destruct (bool_decide_reflect (newline = x)) as [_|Hx].
  - rewrite elem_of_app. intros [H|H]; [exact (Hnew H)|exact (IH H)].
  - rewrite elem_of_cons. intros [H|H]; [exact (Hx H)|exact (IH H)].
Qed.

(** Replacing in a text without an occurrence changes nothing. *)
Lemma replace_absent (a : char) (old new t : str) :
  a ∉ t -> replace (a :: old) new t = t.
Proof.
  unfold replace. induction t as [|x t IH]; intros Ha; [reflexivity|].
  apply not_elem_of_cons in Ha as [Hx Ht].
  cbn [replace_from startswith]. rewrite bool_decide_eq_false_2 by exact Hx.
  cbn [andb]. rewrite IH by exact Ht. reflexivity.
Qed.

(** ** The chunks *)

Lemma concat_if_any (c : str) : concat (if_any c) = c.
Proof. destruct c; [reflexivity|]. cbn [if_any concat]. apply app_nil_r. Qed.

Lemma chunks_cons (s : str) (rest : list str) (current : str) :
  chunks (s :: rest) current
  = if (length current + length s <? max_chunk_size)%nat
    then chunks rest (current ++ s ++ [period; space])%list
    else (if_any current ++ chunks rest (s ++ [period; space]))%list.
Proof.
  unfold chunks. cbn [flushed last_chunk].
  destruct (_ <? _)%nat; [reflexivity|]. rewrite app_assoc. reflexivity.
Qed.

(** The chunks, one after another, are the sentences, each with its
    break. *)
Lemma chunks_concat (ss : list str) : forall current,
  concat (chunks ss current)
  = (current ++ concat (map (fun s => s ++ [period; space]) ss))%list.
Proof.
  induction ss as [|s rest IH]; intros current.
  - unfold chunks. cbn [flushed last_chunk app map concat].
    rewrite concat_if_any, app_nil_r. reflexivity.
  - rewrite chunks_cons. cbn [map concat]. destruct (_ <? _)%nat.
    + rewrite IH, <- !app_assoc. reflexivity.
    + rewrite concat_app, concat_if_any, IH. reflexivity.
Qed.

Lemma sentences_concat (sep : str) (ss : list str) :
  ss <> [] -> concat (map (fun s => s ++ sep) ss) = (join sep ss ++ sep)%list.
Proof.
  induction ss as [|s rest IH]; intros Hne; [contradiction|].
  destruct rest as [|s' rest]; [cbn; rewrite app_nil_r; reflexivity|].
  rewrite join_cons by discriminate. cbn [map concat] in *.
  rewrite IH by discriminate. rewrite <- !app_assoc. reflexivity.
Qed.

Lemma if_any_spec (c x : str) : x ∈ if_any c -> x = c /\ c <> [].
Proof.
  destruct c; cbn [if_any]; intros H.
  - apply elem_of_nil in H. contradiction.
  - apply list_elem_of_singleton in H. split; [exact H|discriminate].
Qed.

(** No chunk is empty; each is within the limit, give or take a
    character, or is one long sentence. *)
Lemma chunks_whole (all : list str) (ss : list str) : forall current,
  ss ⊆ all -> whole all current ->
  Forall (fun c => c <> [] /\ whole all c) (chunks ss current).
Proof.
  induction ss as [|s rest IH]; intros current Hall Hcur.
  - unfold chunks. cbn [flushed last_chunk app]. apply Forall_forall. intros x Hx.
    apply if_any_spec in Hx as [-> Hne]. split; assumption.
  - assert (Hrest : rest ⊆ all) by (intros x Hx; apply Hall; right; exact Hx).
    assert (Hs : s ∈ all) by (apply Hall; left).
    rewrite chunks_cons. destruct (Nat.ltb_spec (length current + length s) max_chunk_size).
    + apply IH; [exact Hrest|]. left. rewrite !length_app. cbn [length]. lia.
    + apply Forall_app. split.
      * apply Forall_forall. intros x Hx.
        apply if_any_spec in Hx as [-> Hne]. split; assumption.
      * apply IH; [exact Hrest|].
        destruct (Nat.le_gt_cases max_chunk_size (length s)) as [Hlong|Hshort].
        -- right. exists s. repeat split; assumption.
        -- left. rewrite length_app. cbn [length]. lia.
Qed.

Lemma elem_of_concat_chunk (x : char) (c : str) (cs : list str) :
  c ∈ cs -> x ∈ c -> x ∈ concat cs.
Proof.
  induction cs as [|c' cs IH]; intros Hc Hx.
  - apply elem_of_nil in Hc. contradiction.
  - cbn [concat]. apply elem_of_app. apply elem_of_cons in Hc as [<-|Hc].
    + left. exact Hx.
    + right. apply IH; assumption.
Qed.

Lemma separator_nonempty : [period; space] <> ([] : str).
Proof. discriminate. Qed.

(** What the utterances of a long text amount to. *)
Lemma utterances_long (text : str) :
  (max_chunk_size < length text)%nat ->
  concat (utterances text) = (spoken_form text ++ [period; space])%list
  /\ Forall (fun c => c <> [] /\ whole (sentences text) c /\ newline ∉ c)
       (utterances text).
Proof.
  intros Hlong. unfold utterances.
  destruct (Nat.ltb_spec max_chunk_size (length text)); [|lia].
  assert (Hcat : concat (chunks (sentences text) [])
                 = (spoken_form text ++ [period; space])%list).
  { rewrite chunks_concat. cbn [app]. rewrite sentences_concat.
    - unfold sentences. rewrite join_split by exact separator_nonempty. reflexivity.
    - apply split_from_nonempty. }
  split; [exact Hcat|].
  pose proof (chunks_whole (sentences text) (sentences text) []
                (fun x Hx => Hx) (or_introl (Nat.le_0_l _))) as Hwhole.
  rewrite Forall_forall in *. intros c Hc. destruct (Hwhole c Hc) as [Hne Hw].
  split; [exact Hne|]. split; [exact Hw|].
  intros Hnl. pose proof (elem_of_concat_chunk _ _ _ Hc Hnl) as Hin.
  rewrite Hcat in Hin. apply elem_of_app in Hin as [Hin|Hin].
  - revert Hin. unfold spoken_form. apply replace_newline.
    intros Hsp. apply list_elem_of_singleton in Hsp. discriminate.
  - repeat (apply elem_of_cons in Hin as [Hin|Hin]; [discriminate|]).
    apply elem_of_nil in Hin. contradiction.
Qed.

(** ** The calls of the engine *)

Section Engine.
Context {T : Type}.
Context (say : str -> T -> outcome unit * T) (runAndWait : T -> outcome unit * T).

#[local] Abbreviation V := (@V T).
#[local] Abbreviation for_sentences := (for_sentences say runAndWait).
#[local] Abbreviation say_if_any := (say_if_any say runAndWait).
#[local] Abbreviation speak := (speak say runAndWait).
#[local] Abbreviation works := (works say runAndWait).
#[local] Abbreviation tame := (tame say runAndWait).
#[local] Abbreviation speaking := (speaking say runAndWait).

Lemma voice_bind_done {A C} (m : V A) (k : A -> V C) s a s1 :
  m s = (Done a, s1) -> bind m k s = k a s1.
Proof. intros H. unfold bind. rewrite H. reflexivity. Qed.

Lemma voice_bind_raised {A C} (m : V A) (k : A -> V C) s x s1 :
  m s = (Raised x, s1) -> bind m k s = (Raised x, s1).
Proof. intros H. unfold bind. rewrite H. reflexivity. Qed.

(** One utterance: the chunk is handed over, nothing is printed, and
    the call returns or raises as the engine does. *)
Lemma utter_tame (c : str) (s : Session) :
  tame ->
  let r := bind (tts_say say c) (fun _ => tts_runAndWait runAndWait) s in
  said r.2 = (said s ++ [c])%list /\ out r.2 = out s /\ mild r.1.
Proof.
  intros [Hsay Hrun]. unfold bind, tts_say, tts_runAndWait. cbn zeta.
  pose proof (Hsay c (tts_engine s)) as H1.
  destruct (say c (tts_engine s)) as [o1 t1]. cbn [fst] in H1.
  destruct H1 as [->|[e ->]].
  - cbn [tts_engine said out].
    pose proof (Hrun t1) as H2. destruct (runAndWait t1) as [o2 t2]. cbn [fst] in H2.
    cbn [fst snd said out]. repeat split; exact H2 || reflexivity.
  - cbn [fst snd said out]. repeat split. right. exists e. reflexivity.
Qed.

Lemma utter_works (c : str) (s : Session) :
  works ->
  (bind (tts_say say c) (fun _ => tts_runAndWait runAndWait) s).1 = Done tt.
Proof.
  intros [Hsay Hrun]. unfold bind, tts_say, tts_runAndWait.
  pose proof (Hsay c (tts_engine s)) as H1.
  destruct (say c (tts_engine s)) as [o1 t1]. cbn [fst] in H1. subst o1.
  cbn [tts_engine]. pose proof (Hrun t1) as H2.
  destruct (runAndWait t1) as [o2 t2]. exact H2.
Qed.

Lemma works_tame : works -> tame.
Proof. intros [Hsay Hrun]. split; intros; left; auto. Qed.

Lemma say_if_any_tame (c : str) (s : Session) :
  tame ->
  said (say_if_any c s).2 = (said s ++ if_any c)%list
  /\ out (say_if_any c s).2 = out s
  /\ mild (say_if_any c s).1.
Proof.
  intros Htame. destruct c as [|x c].
  - cbn. rewrite app_nil_r. repeat split. left. reflexivity.
  - exact (utter_tame (x :: c) s Htame).
Qed.

Lemma say_if_any_works (c : str) (s : Session) :
  works -> (say_if_any c s).1 = Done tt.
Proof.
  intros Hworks. destruct c as [|x c]; [reflexivity|].
  exact (utter_works (x :: c) s Hworks).
Qed.

(** The loop hands over the chunks in their order, as far as the
    engine lets it. *)
Lemma for_sentences_tame (ss : list str) : forall current s,
  tame ->
  out (for_sentences ss current s).2 = out s
  /\ ((for_sentences ss current s).1 = Done (last_chunk ss current)
      /\ said (for_sentences ss current s).2 = (said s ++ flushed ss current)%list
      \/ exists e pre,
           (for_sentences ss current s).1 = Raised (Exception e)
           /\ said (for_sentences ss current s).2 = (said s ++ pre)%list
           /\ pre `prefix_of` flushed ss current).
Proof.
  induction ss as [|sentence rest IH]; intros current s Htame.
  - cbn. split; [reflexivity|]. left. rewrite app_nil_r. split; reflexivity.
  - cbn [Voice.for_sentences flushed last_chunk].
    destruct (_ <? _)%nat; [apply IH, Htame|].
    destruct (say_if_any_tame current s Htame) as (Hsaid & Hout & Hmild).
    destruct (say_if_any current s) as [o s1] eqn:Eany. cbn [fst snd] in *.
    destruct Hmild as [->|[e ->]];
      [rewrite (voice_bind_done _ _ _ _ _ Eany)|rewrite (voice_bind_raised _ _ _ _ _ Eany)].
    + destruct (IH (sentence ++ [period; space])%list s1 Htame) as [Hout1 Hcase].
      split; [congruence|]. destruct Hcase as [[Hr Hs]|(e & pre & Hr & Hs & Hpre)].
      * left. split; [exact Hr|]. rewrite Hs, Hsaid, <- app_assoc. reflexivity.
      * right. exists e, (if_any current ++ pre)%list. split; [exact Hr|].
        split; [rewrite Hs, Hsaid, <- app_assoc; reflexivity|].
        apply prefix_app, Hpre.
    + cbn [fst snd]. split; [exact Hout|]. right. exists e, (if_any current).
      split; [reflexivity|]. split; [exact Hsaid|]. apply prefix_app_r. reflexivity.
Qed.

Lemma for_sentences_works (ss : list str) : forall current s,
  works -> (for_sentences ss current s).1 = Done (last_chunk ss current).
Proof.
  induction ss as [|sentence rest IH]; intros current s Hworks; [reflexivity|].
  cbn [Voice.for_sentences last_chunk].
  destruct (_ <? _)%nat; [apply IH, Hworks|].
  pose proof (say_if_any_works current s Hworks) as H.
  destruct (say_if_any current s) as [o s1] eqn:Eany. cbn [fst] in H. subst o.
  rewrite (voice_bind_done _ _ _ _ _ Eany). apply IH, Hworks.
Qed.

Lemma speak_unfold (text : str) :
  speak text
  = bind (print (AI text))
      (fun _ => try_except (speaking text) (fun e => print (TTS_warning e))).
Proof. reflexivity. Qed.

Lemma speaking_tame (text : str) (s : Session) :
  tame ->
  exists pre,
    said (speaking text s).2 = (said s ++ pre)%list
    /\ pre `prefix_of` utterances text
    /\ ((speaking text s).1 = Done tt /\ pre = utterances text
        /\ out (speaking text s).2 = (out s ++ [Speech_completed])%list
        \/ exists e, (speaking text s).1 = Raised (Exception e)
                     /\ out (speaking text s).2 = out s).
Proof.
  intros Htame. unfold speaking, utterances.
  destruct (max_chunk_size <? length text)%nat.
  - destruct (for_sentences_tame (sentences text) [] s Htame) as [Hout Hcase].
    destruct (for_sentences (sentences text) [] s) as [o s1] eqn:Efor.
    cbn [fst snd] in *.
    destruct Hcase as [[-> Hs]|(e & pre & -> & Hs & Hpre)].
    + destruct (say_if_any_tame (last_chunk (sentences text) []) s1 Htame)
        as (Hsaid & Hout2 & Hmild).
      destruct (say_if_any (last_chunk (sentences text) []) s1) as [o2 s2] eqn:Eany.
      cbn [fst snd] in *. exists (chunks (sentences text) []). unfold chunks.
      destruct Hmild as [->|[e ->]].
      * rewrite (voice_bind_done _ _ _ _ s2
                   (eq_trans (voice_bind_done _ _ _ _ _ Efor) Eany)).
        cbn [print fst snd said out tts_engine].
        split; [rewrite Hsaid, Hs, <- app_assoc; reflexivity|].
        split; [reflexivity|]. left. repeat split. congruence.
      * rewrite (voice_bind_raised _ _ _ _ s2
                   (eq_trans (voice_bind_done _ _ _ _ _ Efor) Eany)).
        cbn [fst snd].
        split; [rewrite Hsaid, Hs, <- app_assoc; reflexivity|].
        split; [reflexivity|]. right. exists e. split; [reflexivity|congruence].
    + rewrite (voice_bind_raised _ _ _ _ s1 (voice_bind_raised _ _ _ _ _ Efor)).
      exists pre. cbn [fst snd]. split; [exact Hs|].
      split; [unfold chunks; apply prefix_app_r, Hpre|].
      right. exists e. split; [reflexivity|exact Hout].
  - destruct (utter_tame text s Htame) as (Hsaid & Hout & Hmild).
    destruct (bind (tts_say say text) (fun _ => tts_runAndWait runAndWait) s)
      as [o s1] eqn:Eutter.
    cbn [fst snd] in *. exists [text]. split; [|split; [reflexivity|]].
    + destruct Hmild as [->|[e ->]];
        [rewrite (voice_bind_done _ _ _ _ _ Eutter)|rewrite (voice_bind_raised _ _ _ _ _ Eutter)];
        exact Hsaid.
    + destruct Hmild as [->|[e ->]].
      * left. rewrite (voice_bind_done _ _ _ _ _ Eutter).
        cbn [print fst snd out]. repeat split. rewrite Hout. reflexivity.
      * right. exists e. rewrite (voice_bind_raised _ _ _ _ _ Eutter).
        split; [reflexivity|exact Hout].
Qed.

Lemma speaking_works (text : str) (s : Session) :
  works -> (speaking text s).1 = Done tt.
Proof.
  intros Hworks. unfold speaking.
  destruct ((if (max_chunk_size <? length text)%nat then
               bind (for_sentences (sentences text) [])
                 (fun current_chunk => say_if_any current_chunk)
             else bind (tts_say say text) (fun _ => tts_runAndWait runAndWait)) s)
    as [o s1] eqn:Ebody.
  assert (H : o = Done tt).
  { destruct (max_chunk_size <? length text)%nat.
    - pose proof (for_sentences_works (sentences text) [] s Hworks) as H.
      destruct (for_sentences (sentences text) [] s) as [o0 s0] eqn:Efor.
      cbn [fst] in H. subst o0. rewrite (voice_bind_done _ _ _ _ _ Efor) in Ebody.
      pose proof (say_if_any_works (last_chunk (sentences text) []) s0 Hworks) as H.
      rewrite Ebody in H. exact H.
    - pose proof (utter_works text s Hworks) as H. rewrite Ebody in H. exact H. }
  subst o. rewrite (voice_bind_done _ _ _ _ _ Ebody). reflexivity.
Qed.

(** X21. [speak] says the whole text, in order.  With an engine
    that works, [speak] returns, prints the text and then
    [Speech completed], and hands to the engine: a text of at most 500
    characters as it is, in one piece; a longer text in chunks that,
    one after another, are the text with every paragraph break turned
    into a sentence break and every other line break into a space,
    followed by one more period and space.  No chunk is empty or holds
    a line break, and each has at most 501 characters (one more than
    the limit in the code), unless it is a single sentence of 500
    characters or more, which is not cut. *)
Theorem speak_says_the_whole_text (text : str) (s : Session) :
  works ->
  exists s',
    speak text s = (Done tt, s')
    /\ said s' = (said s ++ utterances text)%list
    /\ out s' = (out s ++ [AI text; Speech_completed])%list
    /\ ((length text <= max_chunk_size)%nat -> utterances text = [text])
    /\ ((max_chunk_size < length text)%nat ->
        concat (utterances text) = (spoken_form text ++ [period; space])%list
        /\ Forall (fun c => c <> [] /\ whole (sentences text) c /\ newline ∉ c)
             (utterances text)).
Proof.
  intros Hworks. rewrite speak_unfold.
  set (s0 := mkSession (tts_engine s) (said s) (out s ++ [AI text])%list).
  pose proof (speaking_works text s0 Hworks) as Hdone.
  destruct (speaking_tame text s0 (works_tame Hworks)) as (pre & Hsaid & _ & Hcase).
  destruct Hcase as [(_ & -> & Hout)|(e & He & _)]; [|congruence].
  exists (speaking text s0).2. split; [|split; [exact Hsaid|split; [|split]]].
  - unfold bind, print, try_except. fold s0.
    destruct (speaking text s0) as [o s1]. cbn [fst snd] in *. subst o. reflexivity.
  - rewrite Hout. subst s0. cbn [out]. rewrite <- app_assoc. reflexivity.
  - intros Hshort. unfold utterances.
    destruct (Nat.ltb_spec max_chunk_size (length text)); [lia|reflexivity].
  - apply utterances_long.
Qed.

(** X22. [speak] never passes on an error of the engine.  With an
    engine whose errors are instances of [Exception], [speak] always
    returns; it prints the text and then one more line, either
    [Speech completed] or the warning with the text of the error.  What
    it handed to the engine up to then is the beginning of what it had
    to say, and all of it if the line is [Speech completed]: after an
    error the rest of the text is not said, and the caller is not
    told. *)
Theorem speak_survives_tts_errors (text : str) (s : Session) :
  tame ->
  exists s' pre l,
    speak text s = (Done tt, s')
    /\ said s' = (said s ++ pre)%list
    /\ pre `prefix_of` utterances text
    /\ out s' = (out s ++ [AI text; l])%list
    /\ (l = Speech_completed /\ pre = utterances text
        \/ exists e, l = TTS_warning e).
Proof.
  intros Htame. rewrite speak_unfold.
  set (s0 := mkSession (tts_engine s) (said s) (out s ++ [AI text])%list).
  destruct (speaking_tame text s0 Htame) as (pre & Hsaid & Hpre & Hcase).
  unfold bind, print, try_except. fold s0.
  destruct (speaking text s0) as [o s1]. cbn [fst snd] in *.
  destruct Hcase as [(-> & -> & Hout)|(e & -> & Hout)].
  - exists s1, (utterances text), Speech_completed.
    split; [reflexivity|]. split; [exact Hsaid|]. split; [reflexivity|].
    split; [|left; split; reflexivity].
    rewrite Hout. subst s0. cbn [out]. rewrite <- app_assoc. reflexivity.
  - exists (mkSession (tts_engine s1) (said s1) (out s1 ++ [TTS_warning e])%list),
      pre, (TTS_warning e).
    split; [reflexivity|]. cbn [said out]. split; [exact Hsaid|]. split; [exact Hpre|].
    split; [|right; exists e; reflexivity].
    rewrite Hout. subst s0. cbn [out]. rewrite <- app_assoc. reflexivity.
Qed.

(** X23. A long text without a sentence break is not cut.  For a
    text of more than 500 characters that holds no line break and no
    period followed by a space, [speak], with an engine that works,
    hands the engine one piece: the whole text with a period and a
    space added, two characters more than the text and so above the
    limit of 500. *)
Theorem speak_long_sentence_uncut (text : str) (s : Session) :
  works ->
  (max_chunk_size < length text)%nat ->
  unbroken text ->
  exists s',
    speak text s = (Done tt, s')
    /\ said s' = (said s ++ [(text ++ [period; space])%list])%list
    /\ (max_chunk_size + 2 < length (text ++ [period; space]))%nat.
Proof.
  intros Hworks Hlong [Hnl Hbreak]. rewrite speak_unfold.
  set (s0 := mkSession (tts_engine s) (said s) (out s ++ [AI text])%list).
  pose proof (speaking_works text s0 Hworks) as Hdone.
  destruct (speaking_tame text s0 (works_tame Hworks)) as (pre & Hsaid & _ & Hcase).
  destruct Hcase as [(_ & -> & Hout)|(e & He & _)]; [|congruence].
  assert (Hutt : utterances text = [(text ++ [period; space])%list]).
  { unfold utterances. destruct (Nat.ltb_spec max_chunk_size (length text)); [|lia].
    unfold sentences, spoken_form.
    rewrite (replace_absent newline [newline]) by exact Hnl.
    rewrite (replace_absent newline []) by exact Hnl.
    unfold split. rewrite split_from_unbroken by exact Hbreak.
    unfold chunks. cbn [rev app flushed last_chunk length Nat.add].
    destruct (Nat.ltb_spec (length text) max_chunk_size); [lia|].
    cbn [if_any app flushed last_chunk]. destruct text; [cbn in Hlong; lia|reflexivity]. }
  exists (speaking text s0).2. split; [|split].
  - unfold bind, print, try_except. fold s0.
    destruct (speaking text s0) as [o s1]. cbn [fst snd] in *. subst o. reflexivity.
  - rewrite Hsaid, Hutt. reflexivity.
  - rewrite length_app. cbn [length]. lia.
Qed.

End Engine.

(** ** On the engines of the examples *)

Lemma say_ok_works : works say_ok run_ok.
Proof. split; reflexivity. Qed.

Lemma say_until_tame (k : nat) : tame (say_until k) run_ok.
Proof.
  split.
  - intros c t. unfold say_until. destruct (t <? k)%nat.
    + left. reflexivity.
    + right. eexists. reflexivity.
  - intros t. left. reflexivity.
Qed.

Lemma speak_says_the_whole_text_witness :
  works say_ok run_ok
  /\ exists s',
       speak say_ok run_ok long_text session0 = (Done tt, s')
       /\ said s' = (said session0 ++ utterances long_text)%list
       /\ out s' = (out session0 ++ [AI long_text; Speech_completed])%list
       /\ ((length long_text <= max_chunk_size)%nat -> utterances long_text = [long_text])
       /\ ((max_chunk_size < length long_text)%nat ->
           concat (utterances long_text)
           = (spoken_form long_text ++ [period; space])%list
           /\ Forall (fun c => c <> [] /\ whole (sentences long_text) c /\ newline ∉ c)
                (utterances long_text)).
Proof.
  split; [exact say_ok_works|].
  exact (speak_says_the_whole_text say_ok run_ok long_text session0 say_ok_works).
Defined.

(** The text of the example goes out in two chunks, of 492 and of
    230 characters. *)
Example utterances_long_text :
  map length (utterances long_text) = [492%nat; 230%nat].
Proof. vm_compute. reflexivity. Qed.

Lemma speak_survives_tts_errors_witness :
  tame (say_until 1) run_ok
  /\ exists s' pre l,
       speak (say_until 1) run_ok long_text session0 = (Done tt, s')
       /\ said s' = (said session0 ++ pre)%list
       /\ pre `prefix_of` utterances long_text
       /\ out s' = (out session0 ++ [AI long_text; l])%list
       /\ (l = Speech_completed /\ pre = utterances long_text
           \/ exists e, l = TTS_warning e).
Proof.
  split; [exact (say_until_tame 1)|].
  exact (speak_survives_tts_errors (say_until 1) run_ok long_text session0
           (say_until_tame 1)).
Defined.

Lemma long_word_unbroken : unbroken long_word.
Proof.
  split.
  - intros H. apply elem_of_replicate in H as [H _]. discriminate.
  - intros i. unfold long_word. rewrite drop_replicate.
    destruct (600 - i)%nat; reflexivity.
Qed.

Lemma speak_long_sentence_uncut_witness :
  works say_ok run_ok
  /\ (max_chunk_size < length long_word)%nat
  /\ unbroken long_word
  /\ exists s',
       speak say_ok run_ok long_word session0 = (Done tt, s')
       /\ said s' = (said session0 ++ [(long_word ++ [period; space])%list])%list
       /\ (max_chunk_size + 2 < length (long_word ++ [period; space]))%nat.
Proof.
  assert (Hlong : (max_chunk_size < length long_word)%nat).
  { unfold long_word. rewrite length_replicate. unfold max_chunk_size. lia. }
  split; [exact say_ok_works|]. split; [exact Hlong|]. split; [exact long_word_unbroken|].
  exact (speak_long_sentence_uncut say_ok run_ok long_word session0
           say_ok_works Hlong long_word_unbroken).
Defined.

End VoiceProofs.
